(** * AIyos backend: a shallow embedding of the Django models, services and
      REST views, and the properties of the specification checked on it.

    The development follows the layout of [backend/]:
    - Python values, exceptions and [datetime] (what the code computes with);
    - the model classes of [authentication], [ai_services], [automations]
      and [integrations] as records, with their derived properties;
    - the database as one finite map per table, and a state-and-exception
      monad in which the ORM calls, [OpenRouterService] and the views run;
    - the theorems.

    Conventions of the embedding.
    - A table is a [gmap] from primary key to row; a model instance is a
      pair of a key and a row.  [uuid4()] and auto-increment keys are both
      modelled by a key that is fresh for the table.
    - [int] is [Z].  [float] and [Decimal] values carry an exact rational:
      the rounding of binary floats is not modelled; a [DecimalField]
      keeps a value quantised to its [decimal_places].  The Python type of
      a number is kept ([PyInt], [PyFloat], [PyDecimal]) because the
      arithmetic of the interpreter depends on it.
    - A [str] is the [string] of the bytes of its UTF-8 encoding.
    - The clock, the client of the remote AI provider, [json.loads],
      [str.format] and the text of the prompts are the environment. *)

From Stdlib Require Import ZArith QArith Qround Qabs String List Lia Lqa.
From stdpp Require Import base gmap strings list sorting.

Set Warnings "-register-all".
Open Scope Z_scope.

(** ** Python values *)

Module Py.

(** The exception classes that the modelled code raises or catches. *)
Inductive exn :=
| ValueError (msg : string)
| TypeError (msg : string)
| ZeroDivisionError (msg : string)
| KeyError (msg : string)
| Exception_ (msg : string)
| DoesNotExist (msg : string)
| MultipleObjectsReturned (msg : string)
| IntegrityError (msg : string)
| DatabaseError (msg : string)
| ValidationError (msg : string)
| Http404
| NotAuthenticated
| APIError (msg : string)
| JSONDecodeError (msg : string).

(** [str(e)] *)
Definition str (e : exn) : string :=
  match e with
  | ValueError m | TypeError m | ZeroDivisionError m | KeyError m
  | Exception_ m | DoesNotExist m | MultipleObjectsReturned m
  | IntegrityError m | DatabaseError m | ValidationError m
  | APIError m | JSONDecodeError m => m
  | Http404 => "Not found."
  | NotAuthenticated => "Authentication credentials were not provided."
  end.

Inductive res (A : Type) :=
| Ok (a : A)
| Raise (e : exn).
Arguments Ok {A} a.
Arguments Raise {A} e.

(** Numbers, tagged with their Python type. *)
Inductive num :=
| PyInt (z : Z)
| PyFloat (x : Q)
| PyDecimal (d : Q).

Definition value (n : num) : Q :=
  match n with
  | PyInt z => inject_Z z
  | PyFloat x => x
  | PyDecimal d => d
  end.

Definition type_name (n : num) : string :=
  match n with
  | PyInt _ => "int"
  | PyFloat _ => "float"
  | PyDecimal _ => "decimal.Decimal"
  end.

Definition unsupported (op : string) (a b : num) : exn :=
  TypeError ("unsupported operand type(s) for " +:+ op +:+ ": '" +:+
             type_name a +:+ "' and '" +:+ type_name b +:+ "'").

(** [a + b] and [a += b].  [Decimal] refuses a [float] operand. *)
Definition add_op (op : string) (a b : num) : res num :=
  match a, b with
  | PyInt x, PyInt y => Ok (PyInt (x + y))
  | PyInt _, PyFloat _ | PyFloat _, PyInt _ | PyFloat _, PyFloat _ =>
      Ok (PyFloat (value a + value b))
  | PyInt _, PyDecimal _ | PyDecimal _, PyInt _ | PyDecimal _, PyDecimal _ =>
      Ok (PyDecimal (value a + value b))
  | PyDecimal _, PyFloat _ | PyFloat _, PyDecimal _ =>
      Raise (unsupported op a b)
  end.

Definition add := add_op "+".
Definition iadd := add_op "+=".

(** [a * b] *)
Definition mul (a b : num) : res num :=
  match a, b with
  | PyInt x, PyInt y => Ok (PyInt (x * y))
  | PyInt _, PyFloat _ | PyFloat _, PyInt _ | PyFloat _, PyFloat _ =>
      Ok (PyFloat (value a * value b))
  | PyInt _, PyDecimal _ | PyDecimal _, PyInt _ | PyDecimal _, PyDecimal _ =>
      Ok (PyDecimal (value a * value b))
  | PyDecimal _, PyFloat _ | PyFloat _, PyDecimal _ =>
      Raise (unsupported "*" a b)
  end.

(** [a / b]: true division; on two ints the result is a float. *)
Definition truediv (a b : num) : res num :=
  match a, b with
  | PyDecimal _, PyFloat _ | PyFloat _, PyDecimal _ =>
      Raise (unsupported "/" a b)
  | PyInt _, PyDecimal _ | PyDecimal _, PyInt _ | PyDecimal _, PyDecimal _ =>
      if Qeq_bool (value b) 0 then Raise (ZeroDivisionError "division by zero")
      else Ok (PyDecimal (value a / value b))
  | _, _ =>
      if Qeq_bool (value b) 0 then Raise (ZeroDivisionError "division by zero")
      else Ok (PyFloat (value a / value b))
  end.

(** Comparisons are defined between all three types. *)
Definition eqb (a b : num) : bool := Qeq_bool (value a) (value b).
Definition ltb (a b : num) : bool :=
  Qle_bool (value a) (value b) && negb (Qeq_bool (value a) (value b)).
Definition geb (a b : num) : bool := Qle_bool (value b) (value a).

(** [min(a, b)]: the first argument unless the second is smaller. *)
Definition min (a b : num) : num := if ltb b a then b else a.

(** [float(x)] and [Decimal(str(x))] *)
Definition float (a : num) : num := PyFloat (value a).
Definition Decimal_of_str (a : num) : num := PyDecimal (value a).

(** Rounding to the nearest integer, ties to even. *)
Definition round_half_even (q : Q) : Z :=
  let f := Qfloor q in
  let r := (q - inject_Z f)%Q in
  if Qle_bool r (1 # 2) && negb (Qeq_bool r (1 # 2)) then f
  else if Qeq_bool r (1 # 2) then (if Z.even f then f else f + 1)
  else f + 1.

(** What a column [DecimalField(decimal_places=places)] keeps of a
    number: on [save()] Django quantises the value to [places] decimals,
    a tie going to the even neighbour ([format_number] of
    [django/db/backends/utils.py]; a float first becomes the [Decimal] of
    its [max_digits] significant digits, which is the value itself for the
    amounts that occur here; PostgreSQL, which receives the value as it
    is, rounds a tie away from zero instead).  The result is written as
    the unscaled integer over [10 ^ places].  A value that needs more than
    [max_digits] digits makes [save()] raise; the amounts of one request
    stay far below that, and the case is left out. *)
Definition quantize (places : positive) (a : num) : num :=
  PyDecimal (round_half_even (value a * inject_Z (Zpos (10 ^ places)))
             # 10 ^ places).

(** [round(x, 2)] *)
Definition round2 (a : num) : num :=
  match a with
  | PyInt z => PyInt z
  | PyFloat x => PyFloat (inject_Z (round_half_even (x * 100)) / 100)
  | PyDecimal d => PyDecimal (inject_Z (round_half_even (d * 100)) / 100)
  end.

(** JSON values, the content of a [JSONField] and of a request body.
    An object keeps its keys in insertion order. *)
Inductive json :=
| JNull
| JBool (b : bool)
| JInt (z : Z)
| JNum (x : Q)
| JStr (s : string)
| JList (l : list json)
| JObj (d : list (string * json)).

Definition dict := list (string * json).

(** [d.get(k)] *)
Fixpoint dict_get (k : string) (d : dict) : option json :=
  match d with
  | [] => None
  | (k', v) :: d' => if String.eqb k k' then Some v else dict_get k d'
  end.

(** [d[k] = v] *)
Fixpoint dict_set (k : string) (v : json) (d : dict) : dict :=
  match d with
  | [] => [(k, v)]
  | (k', v') :: d' =>
      if String.eqb k k' then (k, v) :: d' else (k', v') :: dict_set k v d'
  end.

(** [d.update(e)], also [{**d, **e}] *)
Definition dict_update (d e : dict) : dict :=
  fold_left (fun acc kv => dict_set (fst kv) (snd kv) acc) e d.

(** A [str] is held as the bytes of its UTF-8 encoding.  [str.strip()]
    removes the characters for which [str.isspace()] holds: U+0009 to
    U+000D, U+001C to U+0020, U+0085, U+00A0, U+1680, U+2000 to U+200A,
    U+2028, U+2029, U+202F, U+205F and U+3000. *)
Definition is_space (c : Ascii.ascii) : bool :=
  let n := Ascii.nat_of_ascii c in
  ((Nat.leb 9 n && Nat.leb n 13) || (Nat.leb 28 n && Nat.leb n 32))%bool.

(** The white space characters of two and of three bytes. *)
Definition is_space2 (c1 c2 : Ascii.ascii) : bool :=
  let n1 := Ascii.nat_of_ascii c1 in
  let n2 := Ascii.nat_of_ascii c2 in
  (Nat.eqb n1 194 && (Nat.eqb n2 133 || Nat.eqb n2 160))%bool.

Definition is_space3 (c1 c2 c3 : Ascii.ascii) : bool :=
  let n1 := Ascii.nat_of_ascii c1 in
  let n2 := Ascii.nat_of_ascii c2 in
  let n3 := Ascii.nat_of_ascii c3 in
  ((Nat.eqb n1 225 && Nat.eqb n2 154 && Nat.eqb n3 128)
   || (Nat.eqb n1 226 && Nat.eqb n2 128
       && ((Nat.leb 128 n3 && Nat.leb n3 138)
           || Nat.eqb n3 168 || Nat.eqb n3 169 || Nat.eqb n3 175))
   || (Nat.eqb n1 226 && Nat.eqb n2 129 && Nat.eqb n3 159)
   || (Nat.eqb n1 227 && Nat.eqb n2 128 && Nat.eqb n3 128))%bool.

(** The string is one white space character. *)
Definition is_space_char (s : string) : bool :=
  match s with
  | String c1 EmptyString => is_space c1
  | String c1 (String c2 EmptyString) => is_space2 c1 c2
  | String c1 (String c2 (String c3 EmptyString)) => is_space3 c1 c2 c3
  | _ => false
  end.

Fixpoint lstrip (s : string) : string :=
  match s with
  | EmptyString => EmptyString
  | String c1 s1 =>
      if is_space c1 then lstrip s1
      else
        match s1 with
        | EmptyString => s
        | String c2 s2 =>
            if is_space2 c1 c2 then lstrip s2
            else
              match s2 with
              | EmptyString => s
              | String c3 s3 => if is_space3 c1 c2 c3 then lstrip s3 else s
              end
        end
  end.

Fixpoint rstrip (s : string) : string :=
  match s with
  | EmptyString => EmptyString
  | String c s' =>
      let r := String c (rstrip s') in
      if is_space_char r then EmptyString else r
  end.

Definition strip (s : string) : string := rstrip (lstrip s).

(** [len(s)]: the number of characters, which are the bytes that do not
    continue a character (the bytes [10xxxxxx]). *)
Definition is_continuation (c : Ascii.ascii) : bool :=
  let n := Ascii.nat_of_ascii c in
  (Nat.leb 128 n && Nat.ltb n 192)%bool.

Fixpoint characters (s : string) : nat :=
  match s with
  | EmptyString => 0
  | String c s' => (if is_continuation c then 0 else 1) + characters s'
  end.

Definition len (s : string) : Z := Z.of_nat (characters s).

End Py.

Export Py.

(** ** [datetime] *)

Record datetime := Datetime {
  year : Z; month : Z; day : Z;
  hour : Z; minute : Z; second : Z; microsecond : Z
}.

#[global] Instance datetime_eq_dec : EqDecision datetime.
Proof. solve_decision. Defined.

(** [now.replace(day=1, hour=0, minute=0, second=0, microsecond=0)] *)
Definition month_start_of (now : datetime) : datetime :=
  {| year := year now; month := month now; day := 1;
     hour := 0; minute := 0; second := 0; microsecond := 0 |}.

Definition is_leap (y : Z) : bool :=
  ((y mod 4 =? 0) && negb (y mod 100 =? 0) || (y mod 400 =? 0))%bool.

Definition days_in_month (y m : Z) : Z :=
  if (m =? 2) then (if is_leap y then 29 else 28)
  else if ((m =? 4) || (m =? 6) || (m =? 9) || (m =? 11))%bool then 30
  else 31.

(** [(month_start + timedelta(days=32)).replace(day=1) - timedelta(seconds=1)]:
    thirty-two days after the first of a month fall in the next month, so
    the value is the last second of the month of [month_start]. *)
Definition month_end_of (month_start : datetime) : datetime :=
  {| year := year month_start; month := month month_start;
     day := days_in_month (year month_start) (month month_start);
     hour := 23; minute := 59; second := 59; microsecond := 0 |}.

(** Sequencing of computations that may raise. *)
Definition res_bind {A B} (c : res A) (k : A -> res B) : res B :=
  match c with
  | Ok a => k a
  | Raise e => Raise e
  end.

Notation "'let?' x := c 'in' k" := (res_bind c (fun x => k))
  (at level 10, x name, c at level 100, k at level 200).

(** ** [authentication/models.py] *)

Module User.

Record t := Build {
  email : string;
  phone_number : string;
  company_name : string;
  subscription_tier : string;
  monthly_ai_calls : Z;
  business_type : string;
  preferred_language : string
}.

(** [limits.get(self.subscription_tier, 1000)] with
    [limits = {'starter': 1000, 'business': 5000, 'pro': 99999}] *)
Definition ai_usage_limit (self : t) : Z :=
  if String.eqb (subscription_tier self) "starter" then 1000
  else if String.eqb (subscription_tier self) "business" then 5000
  else if String.eqb (subscription_tier self) "pro" then 99999
  else 1000.

Definition can_use_ai (self : t) : bool :=
  monthly_ai_calls self <? ai_usage_limit self.

Definition set_monthly_ai_calls (n : Z) (self : t) : t :=
  {| email := email self; phone_number := phone_number self;
     company_name := company_name self;
     subscription_tier := subscription_tier self;
     monthly_ai_calls := n;
     business_type := business_type self;
     preferred_language := preferred_language self |}.

End User.

(** ** [ai_services/models.py] *)

Module AIProvider.

Record t := Build {
  name : string;
  provider_type : string;
  is_active : bool;
  cost_per_input_token : num;
  cost_per_output_token : num
}.

End AIProvider.

Module AIModel.

(** The foreign key [provider] is dereferenced only as
    [model.provider.cost_per_*_token]; the provider row is nested. *)
Record t := Build {
  provider : AIProvider.t;
  name : string;
  model_id : string;
  model_type : string;
  capability_level : string;
  min_subscription_tier : string;
  is_active : bool
}.

End AIModel.

Module AIRequest.

Record t := Build {
  user : Z;
  model : Z;
  request_type : string;
  status : string;
  input_data : json;
  processed_input : string;
  output_data : json;
  input_tokens : Z;
  output_tokens : Z;
  total_tokens : Z;
  cost_usd : num;
  cost_php : num;
  response_time_ms : option Z;
  error_message : string;
  error_code : string;
  retry_count : Z;
  workflow_execution : option Z;
  user_context : json;
  created_at : datetime;
  completed_at : option datetime
}.

(** [AIRequest(user=..., model=..., request_type=..., status=...,
    input_data=...)]: the other fields take their declared defaults. *)
Definition new (user model : Z) (request_type status : string)
    (input_data : json) (now : datetime) : t :=
  {| user := user; model := model; request_type := request_type;
     status := status; input_data := input_data;
     processed_input := ""; output_data := JObj [];
     input_tokens := 0; output_tokens := 0; total_tokens := 0;
     cost_usd := PyFloat 0; cost_php := PyFloat 0;
     response_time_ms := None;
     error_message := ""; error_code := ""; retry_count := 0;
     workflow_execution := None; user_context := JObj [];
     created_at := now; completed_at := None |}.

Definition set_processed_input (s : string) (r : t) : t :=
  {| user := user r; model := model r; request_type := request_type r;
     status := status r; input_data := input_data r;
     processed_input := s; output_data := output_data r;
     input_tokens := input_tokens r; output_tokens := output_tokens r;
     total_tokens := total_tokens r;
     cost_usd := cost_usd r; cost_php := cost_php r;
     response_time_ms := response_time_ms r;
     error_message := error_message r; error_code := error_code r;
     retry_count := retry_count r;
     workflow_execution := workflow_execution r;
     user_context := user_context r;
     created_at := created_at r; completed_at := completed_at r |}.

(** The assignments of the success path, up to [completed_at]. *)
Definition set_completed (result : json) (prompt completion total ms : Z)
    (now : datetime) (r : t) : t :=
  {| user := user r; model := model r; request_type := request_type r;
     status := "completed"; input_data := input_data r;
     processed_input := processed_input r; output_data := result;
     input_tokens := prompt; output_tokens := completion;
     total_tokens := total;
     cost_usd := cost_usd r; cost_php := cost_php r;
     response_time_ms := Some ms;
     error_message := error_message r; error_code := error_code r;
     retry_count := retry_count r;
     workflow_execution := workflow_execution r;
     user_context := user_context r;
     created_at := created_at r; completed_at := Some now |}.

Definition set_cost (usd php : num) (r : t) : t :=
  {| user := user r; model := model r; request_type := request_type r;
     status := status r; input_data := input_data r;
     processed_input := processed_input r; output_data := output_data r;
     input_tokens := input_tokens r; output_tokens := output_tokens r;
     total_tokens := total_tokens r;
     cost_usd := usd; cost_php := php;
     response_time_ms := response_time_ms r;
     error_message := error_message r; error_code := error_code r;
     retry_count := retry_count r;
     workflow_execution := workflow_execution r;
     user_context := user_context r;
     created_at := created_at r; completed_at := completed_at r |}.

(** The assignments of the [except] branch. *)
Definition set_failed (msg : string) (now : datetime) (r : t) : t :=
  {| user := user r; model := model r; request_type := request_type r;
     status := "failed"; input_data := input_data r;
     processed_input := processed_input r; output_data := output_data r;
     input_tokens := input_tokens r; output_tokens := output_tokens r;
     total_tokens := total_tokens r;
     cost_usd := cost_usd r; cost_php := cost_php r;
     response_time_ms := response_time_ms r;
     error_message := msg; error_code := error_code r;
     retry_count := retry_count r;
     workflow_execution := workflow_execution r;
     user_context := user_context r;
     created_at := created_at r; completed_at := Some now |}.

(** What [save()] writes: [cost_usd] is a
    [DecimalField(max_digits=10, decimal_places=6)] and [cost_php] a
    [DecimalField(max_digits=10, decimal_places=4)]. *)
Definition to_db (r : t) : t :=
  set_cost (quantize 6 (cost_usd r)) (quantize 4 (cost_php r)) r.

End AIRequest.

Module AITemplate.

Record t := Build {
  name : string;
  description : string;
  category : string;
  business_context : string;
  system_prompt : string;
  user_prompt_template : string;
  usage_count : Z;
  success_rate : Q;
  is_active : bool;
  is_premium : bool
}.

(** The field updates of [increment_usage], before [save]. *)
Definition incremented (success : bool) (self : t) : t :=
  let usage_count' := usage_count self + 1 in
  let success_rate' :=
    if (success && (0 <? usage_count'))%bool then
      let current_successes :=
        (success_rate self * inject_Z (usage_count' - 1) / 100)%Q in
      let new_successes := (current_successes + 1)%Q in
      ((new_successes / inject_Z usage_count') * 100)%Q
    else success_rate self in
  {| name := name self; description := description self;
     category := category self; business_context := business_context self;
     system_prompt := system_prompt self;
     user_prompt_template := user_prompt_template self;
     usage_count := usage_count';
     success_rate := success_rate';
     is_active := is_active self; is_premium := is_premium self |}.

End AITemplate.

Module AIUsageQuota.

Record t := Build {
  user : Z;
  period_type : string;
  period_start : datetime;
  period_end : datetime;
  max_requests : Z;
  max_tokens : Z;
  max_cost_usd : num;
  current_requests : Z;
  current_tokens : Z;
  current_cost_usd : num;
  is_exceeded : bool
}.

Definition requests_percentage (self : t) : res num :=
  if max_requests self =? 0 then Ok (PyInt 0)
  else
    let? ratio := truediv (PyInt (current_requests self))
                          (PyInt (max_requests self)) in
    let? pct := mul ratio (PyInt 100) in
    Ok (Py.min (PyInt 100) pct).

Definition tokens_percentage (self : t) : res num :=
  if max_tokens self =? 0 then Ok (PyInt 0)
  else
    let? ratio := truediv (PyInt (current_tokens self))
                          (PyInt (max_tokens self)) in
    let? pct := mul ratio (PyInt 100) in
    Ok (Py.min (PyInt 100) pct).

Definition cost_percentage (self : t) : res num :=
  if Py.eqb (max_cost_usd self) (PyInt 0) then Ok (PyInt 0)
  else
    let? ratio := truediv (float (current_cost_usd self))
                          (float (max_cost_usd self)) in
    let? pct := mul ratio (PyInt 100) in
    Ok (Py.min (PyInt 100) pct).

(** The in-memory part of [update_usage]: the three [+=] and the
    assignment of [is_exceeded]; [save] follows in the caller. *)
Definition updated (requests tokens : Z) (cost_usd : num) (self : t) : res t :=
  let current_requests' := current_requests self + requests in
  let current_tokens' := current_tokens self + tokens in
  let? current_cost_usd' := iadd (current_cost_usd self) cost_usd in
  Ok {| user := user self; period_type := period_type self;
        period_start := period_start self; period_end := period_end self;
        max_requests := max_requests self; max_tokens := max_tokens self;
        max_cost_usd := max_cost_usd self;
        current_requests := current_requests';
        current_tokens := current_tokens';
        current_cost_usd := current_cost_usd';
        is_exceeded :=
          ((max_requests self <=? current_requests')
           || (max_tokens self <=? current_tokens')
           || geb current_cost_usd' (max_cost_usd self))%bool |}.

(** What [save()] writes: [max_cost_usd] and [current_cost_usd] are
    [DecimalField(max_digits=10, decimal_places=4)]. *)
Definition to_db (q : t) : t :=
  {| user := user q; period_type := period_type q;
     period_start := period_start q; period_end := period_end q;
     max_requests := max_requests q; max_tokens := max_tokens q;
     max_cost_usd := quantize 4 (max_cost_usd q);
     current_requests := current_requests q;
     current_tokens := current_tokens q;
     current_cost_usd := quantize 4 (current_cost_usd q);
     is_exceeded := is_exceeded q |}.

End AIUsageQuota.

(** ** [automations/models.py] *)

Module AutomationWorkflow.

Record t := Build {
  user : Z;
  name : string;
  description : string;
  status : string;
  trigger_type : string;
  trigger_config : json;
  ai_instructions : string;
  use_ai_processing : bool;
  ai_model_preference : string;
  total_executions : Z;
  successful_executions : Z;
  failed_executions : Z;
  last_executed : option datetime;
  business_hours_only : bool;
  language_context : string;
  created_at : datetime;
  updated_at : datetime
}.

Definition STATUS_CHOICES : list string := ["active"; "paused"; "disabled"].

Definition success_rate (self : t) : res num :=
  if total_executions self =? 0 then Ok (PyInt 0)
  else
    let? ratio := truediv (PyInt (successful_executions self))
                          (PyInt (total_executions self)) in
    let? pct := mul ratio (PyInt 100) in
    Ok (round2 pct).

Definition is_running (self : t) : bool := String.eqb (status self) "active".

Definition set_status (s : string) (w : t) : t :=
  {| user := user w; name := name w; description := description w;
     status := s;
     trigger_type := trigger_type w; trigger_config := trigger_config w;
     ai_instructions := ai_instructions w;
     use_ai_processing := use_ai_processing w;
     ai_model_preference := ai_model_preference w;
     total_executions := total_executions w;
     successful_executions := successful_executions w;
     failed_executions := failed_executions w;
     last_executed := last_executed w;
     business_hours_only := business_hours_only w;
     language_context := language_context w;
     created_at := created_at w; updated_at := updated_at w |}.

(** [auto_now=True]: every [save()] stamps [updated_at]. *)
Definition set_updated_at (now : datetime) (w : t) : t :=
  {| user := user w; name := name w; description := description w;
     status := status w;
     trigger_type := trigger_type w; trigger_config := trigger_config w;
     ai_instructions := ai_instructions w;
     use_ai_processing := use_ai_processing w;
     ai_model_preference := ai_model_preference w;
     total_executions := total_executions w;
     successful_executions := successful_executions w;
     failed_executions := failed_executions w;
     last_executed := last_executed w;
     business_hours_only := business_hours_only w;
     language_context := language_context w;
     created_at := created_at w; updated_at := now |}.

End AutomationWorkflow.

Module AutomationAction.

Record t := Build {
  workflow : Z;
  name : string;
  action_type : string;
  action_config : json;
  order : Z;
  conditions : json;
  is_conditional : bool;
  ai_enhanced : bool;
  ai_prompt_template : string;
  retry_on_failure : bool;
  max_retries : Z;
  delay_seconds : Z;
  created_at : datetime;
  updated_at : datetime
}.

(** [AutomationAction(workflow=..., name=..., action_type=...,
    action_config=..., order=..., ai_enhanced=...,
    ai_prompt_template=...)] with the declared defaults elsewhere. *)
Definition new (workflow : Z) (name action_type : string)
    (action_config : json) (order : Z) (ai_enhanced : bool)
    (ai_prompt_template : string) (now : datetime) : t :=
  {| workflow := workflow; name := name; action_type := action_type;
     action_config := action_config; order := order;
     conditions := JObj []; is_conditional := false;
     ai_enhanced := ai_enhanced; ai_prompt_template := ai_prompt_template;
     retry_on_failure := true; max_retries := 3; delay_seconds := 0;
     created_at := now; updated_at := now |}.

End AutomationAction.

Module WorkflowExecution.

Record t := Build {
  workflow : Z;
  status : string;
  trigger_data : json;
  execution_log : json;
  output_data : json;
  error_message : string;
  error_details : json;
  started_at : datetime;
  completed_at : option datetime;
  duration_seconds : option Q;
  ai_calls_made : Z;
  ai_tokens_used : Z;
  ai_cost_estimate : num;
  actions_completed : Z;
  actions_failed : Z
}.

(** [WorkflowExecution(workflow=..., trigger_data=..., status=...)] as
    stored: the other fields take their declared defaults. *)
Definition new (workflow : Z) (trigger_data : json) (status : string)
    (now : datetime) : t :=
  {| workflow := workflow; status := status; trigger_data := trigger_data;
     execution_log := JList []; output_data := JObj [];
     error_message := ""; error_details := JObj [];
     started_at := now; completed_at := None; duration_seconds := None;
     ai_calls_made := 0; ai_tokens_used := 0;
     ai_cost_estimate := PyDecimal 0;
     actions_completed := 0; actions_failed := 0 |}.

Definition is_completed (self : t) : bool :=
  (String.eqb (status self) "completed" || String.eqb (status self) "failed"
   || String.eqb (status self) "cancelled"
   || String.eqb (status self) "timeout")%bool.

Definition success_percentage (self : t) : res num :=
  let total := actions_completed self + actions_failed self in
  if total =? 0 then Ok (PyInt 0)
  else
    let? ratio := truediv (PyInt (actions_completed self)) (PyInt total) in
    let? pct := mul ratio (PyInt 100) in
    Ok (round2 pct).

End WorkflowExecution.

(** One entry of [workflow_config['actions']]; [None] is an absent key. *)
Record ActionConfig := {
  ac_name : option string;
  ac_action_type : option string;
  ac_action_config : option json;
  ac_order : option Z;
  ac_ai_enhanced : option bool;
  ac_ai_prompt_template : option string
}.

(** The JSON object [workflow_config]; [None] is an absent key. *)
Record WorkflowConfig := {
  wc_trigger_type : option string;
  wc_trigger_config : option json;
  wc_ai_instructions : option string;
  wc_use_ai_processing : option bool;
  wc_language_context : option string;
  wc_actions : option (list ActionConfig)
}.

Module AutomationTemplate.

Record t := Build {
  name : string;
  description : string;
  business_type : string;
  category : string;
  workflow_config : WorkflowConfig;
  usage_count : Z;
  is_featured : bool;
  is_premium : bool
}.

Definition set_usage_count (n : Z) (self : t) : t :=
  {| name := name self; description := description self;
     business_type := business_type self; category := category self;
     workflow_config := workflow_config self;
     usage_count := n;
     is_featured := is_featured self; is_premium := is_premium self |}.

End AutomationTemplate.

(** ** [integrations/models.py] *)

Module Integration.

Record t := Build {
  user : Z;
  name : string;
  integration_type : string;
  service_name : string;
  service_url : string;
  config_data : json;
  is_active : bool;
  refresh_token : string;
  api_key : string;
  api_secret : string;
  webhook_secret : string;
  health_status : string;
  total_requests : Z;
  successful_requests : Z;
  failed_requests : Z;
  created_at : datetime;
  updated_at : datetime
}.

Definition success_rate (self : t) : res num :=
  if total_requests self =? 0 then Ok (PyInt 0)
  else
    let? ratio := truediv (PyInt (successful_requests self))
                          (PyInt (total_requests self)) in
    let? pct := mul ratio (PyInt 100) in
    Ok (round2 pct).

End Integration.

Module IntegrationLog.

Record t := Build {
  integration : Z;
  log_type : string;
  method : string;
  endpoint : string;
  request_data : json;
  response_data : json;
  status_code : option Z;
  response_time_ms : option Z;
  created_at : datetime
}.

End IntegrationLog.

Module WebhookEndpoint.

Record t := Build {
  integration : Z;
  name : string;
  url_path : string;
  secret_key : string;
  allowed_ips : json;
  require_signature : bool;
  signature_header : string;
  status : string;
  auto_trigger_workflows : bool;
  total_requests : Z;
  successful_requests : Z;
  failed_requests : Z;
  created_at : datetime;
  updated_at : datetime
}.

End WebhookEndpoint.

(** ** The database and the remote provider *)

(** The arguments of [client.chat.completions.create] and the part of its
    answer that the services read. *)
Record ChatRequest := {
  cr_model : string;
  cr_system : string;
  cr_user : string;
  cr_max_tokens : Z;
  cr_temperature : Q
}.

Record ChatCompletion := {
  message_content : string;
  prompt_tokens : Z;
  completion_tokens : Z;
  usage_total_tokens : Z
}.

(** One table per model class, keyed by primary key, and the log of the
    calls of [client.chat.completions.create], in the order in which the
    services make them. *)
Record World := Build_World {
  users : gmap Z User.t;
  ai_models : gmap Z AIModel.t;
  ai_requests : gmap Z AIRequest.t;
  ai_templates : gmap Z AITemplate.t;
  ai_usage_quotas : gmap Z AIUsageQuota.t;
  automation_workflows : gmap Z AutomationWorkflow.t;
  automation_actions : gmap Z AutomationAction.t;
  workflow_executions : gmap Z WorkflowExecution.t;
  automation_templates : gmap Z AutomationTemplate.t;
  integrations : gmap Z Integration.t;
  integration_logs : gmap Z IntegrationLog.t;
  webhook_endpoints : gmap Z WebhookEndpoint.t;
  provider_calls : list ChatRequest
}.

Definition with_users (f : gmap Z User.t -> gmap Z User.t) (w : World) :=
  let 'Build_World a b c d e g h i j k l m n := w in
  Build_World (f a) b c d e g h i j k l m n.
Definition with_ai_requests
    (f : gmap Z AIRequest.t -> gmap Z AIRequest.t) (w : World) :=
  let 'Build_World a b c d e g h i j k l m n := w in
  Build_World a b (f c) d e g h i j k l m n.
Definition with_ai_templates
    (f : gmap Z AITemplate.t -> gmap Z AITemplate.t) (w : World) :=
  let 'Build_World a b c d e g h i j k l m n := w in
  Build_World a b c (f d) e g h i j k l m n.
Definition with_ai_usage_quotas
    (f : gmap Z AIUsageQuota.t -> gmap Z AIUsageQuota.t) (w : World) :=
  let 'Build_World a b c d e g h i j k l m n := w in
  Build_World a b c d (f e) g h i j k l m n.
Definition with_automation_workflows
    (f : gmap Z AutomationWorkflow.t -> gmap Z AutomationWorkflow.t)
    (w : World) :=
  let 'Build_World a b c d e g h i j k l m n := w in
  Build_World a b c d e (f g) h i j k l m n.
Definition with_automation_actions
    (f : gmap Z AutomationAction.t -> gmap Z AutomationAction.t)
    (w : World) :=
  let 'Build_World a b c d e g h i j k l m n := w in
  Build_World a b c d e g (f h) i j k l m n.
Definition with_workflow_executions
    (f : gmap Z WorkflowExecution.t -> gmap Z WorkflowExecution.t)
    (w : World) :=
  let 'Build_World a b c d e g h i j k l m n := w in
  Build_World a b c d e g h (f i) j k l m n.
Definition with_automation_templates
    (f : gmap Z AutomationTemplate.t -> gmap Z AutomationTemplate.t)
    (w : World) :=
  let 'Build_World a b c d e g h i j k l m n := w in
  Build_World a b c d e g h i (f j) k l m n.
Definition with_integrations
    (f : gmap Z Integration.t -> gmap Z Integration.t) (w : World) :=
  let 'Build_World a b c d e g h i j k l m n := w in
  Build_World a b c d e g h i j (f k) l m n.
Definition with_integration_logs
    (f : gmap Z IntegrationLog.t -> gmap Z IntegrationLog.t) (w : World) :=
  let 'Build_World a b c d e g h i j k l m n := w in
  Build_World a b c d e g h i j k (f l) m n.
Definition with_webhook_endpoints
    (f : gmap Z WebhookEndpoint.t -> gmap Z WebhookEndpoint.t) (w : World) :=
  let 'Build_World a b c d e g h i j k l m n := w in
  Build_World a b c d e g h i j k l (f m) n.
Definition with_provider_calls
    (f : list ChatRequest -> list ChatRequest) (w : World) :=
  let 'Build_World a b c d e g h i j k l m n := w in
  Build_World a b c d e g h i j k l m (f n).

(** ** Computations with state and exceptions *)

Definition M (S A : Type) : Type := S -> res A * S.

Definition ret {S A} (a : A) : M S A := fun s => (Ok a, s).

Definition raise {S A} (e : exn) : M S A := fun s => (Raise e, s).

Definition bind {S A B} (c : M S A) (k : A -> M S B) : M S B :=
  fun s =>
    match c s with
    | (Ok a, s') => k a s'
    | (Raise e, s') => (Raise e, s')
    end.

Notation "'let*' x := c 'in' k" := (bind c (fun x => k))
  (at level 10, x name, c at level 100, k at level 200).

(** [try: c except Exception as e: h e]; the handler starts from the state
    in which the exception was raised. *)
Definition try_except {S A} (c : M S A) (h : exn -> M S A) : M S A :=
  fun s =>
    match c s with
    | (Ok a, s') => (Ok a, s')
    | (Raise e, s') => h e s'
    end.

Definition lift_res {S A} (r : res A) : M S A := fun s => (r, s).

Definition modify {S} (f : S -> S) : M S unit := fun s => (Ok tt, f s).

Definition gets {S A} (f : S -> A) : M S A := fun s => (Ok (f s), s).

(** A block that works on a local object [L] besides the database. *)
Definition lift_db {L A} (c : M World A) : M (L * World) A :=
  fun s => let (r, w') := c (snd s) in (r, (fst s, w')).

Definition local {L} : M (L * World) L := fun s => (Ok (fst s), s).

Definition assign {L} (f : L -> L) : M (L * World) unit :=
  fun s => (Ok tt, (f (fst s), snd s)).

(** ** The ORM calls that the code uses *)

Section ORM.

Context {Row : Type}.

Definition pk_le (a b : Z * Row) : Prop := fst a <= fst b.

#[global] Instance pk_le_dec : RelDecision pk_le.
Proof. intros a b. unfold pk_le. apply _. Defined.

(** The rows of a queryset, in primary-key order. *)
Definition rows_by_pk (qs : gmap Z Row) : list (Z * Row) :=
  merge_sort pk_le (map_to_list qs).

(** [queryset.get()] *)
Definition queryset_get (qs : gmap Z Row) : res (Z * Row) :=
  match rows_by_pk qs with
  | [] => Raise (DoesNotExist "matching query does not exist.")
  | [x] => Ok x
  | _ :: _ :: _ =>
      Raise (MultipleObjectsReturned "get() returned more than one row")
  end.

(** [queryset.first()] *)
Definition queryset_first (qs : gmap Z Row) : option (Z * Row) :=
  head (rows_by_pk qs).

(** [get_object_or_404(queryset, pk=pk)], also [get_object()] of the
    generic views. *)
Definition get_object_or_404 (qs : gmap Z Row) (pk : Z) : res (Z * Row) :=
  match qs !! pk with
  | Some r => Ok (pk, r)
  | None => Raise Http404
  end.

Variable rows : World -> gmap Z Row.
Variable with_rows : (gmap Z Row -> gmap Z Row) -> World -> World.

(** [Model.objects.create(...)]: insert under a fresh key. *)
Definition objects_create (r : Row) : M World (Z * Row) :=
  fun w =>
    let pk := fresh (dom (rows w)) in
    (Ok (pk, r), with_rows (insert pk r) w).

(** [instance.save()] *)
Definition save (x : Z * Row) : M World unit :=
  modify (with_rows (insert (fst x) (snd x))).

(** [instance.save(update_fields=[...])]: [upd] copies the named columns
    of the instance into the stored row; the call fails if there is no
    such row. *)
Definition save_update_fields (pk : Z) (upd : Row -> Row) : M World unit :=
  fun w =>
    match rows w !! pk with
    | Some r => (Ok tt, with_rows (insert pk (upd r)) w)
    | None =>
        (Raise (DatabaseError "Save with update_fields did not affect any rows."), w)
    end.

(** [instance.delete()], without the cascade. *)
Definition delete_row (pk : Z) : M World unit :=
  modify (with_rows (delete pk)).

End ORM.

(** ** [ai_services/services.py] *)

(** What the services take from outside the repository: what a call of
    [client.chat.completions.create] returns or raises, [json.loads],
    [str.format], and the text of the prompts (string templates whose
    wording plays no role below). *)
Record Environment := {
  chat_completions_create : ChatRequest -> res ChatCompletion;
  json_loads : string -> res json;
  str_format : string -> json -> res string;
  _get_business_context : Z * User.t -> dict -> dict;
  _get_filipino_system_prompt : string -> string;
  _build_email_to_task_prompt : string -> dict -> string;
  social_system_prompt : string -> string;
  social_user_prompt : dict -> string -> string -> string
}.

(** [self.client.chat.completions.create(...)]: the call is appended to
    the log and returns, or raises, what the client does.  The client is
    the one that [OpenRouterService.__init__] builds, [openai.OpenAI] with
    [base_url] and [api_key] and the defaults of the library for the rest:
    how many HTTP requests the library sends during one call (it repeats a
    request that failed, [max_retries] being left at its default) is the
    library's business and does not appear in the log. *)
Definition client_chat_completions_create (env : Environment)
    (rq : ChatRequest) : M World ChatCompletion :=
  fun w =>
    (chat_completions_create env rq,
     with_provider_calls (fun l => l ++ [rq]) w).

Inductive ServiceResult :=
| Success (payload : json) (request_id : Z) (cost_php : num) (tokens_used : Z)
| Failure (error : string) (request_id : Z).

Definition success (r : ServiceResult) : bool :=
  match r with
  | Success _ _ _ _ => true
  | Failure _ _ => false
  end.

Definition model_priorities (tier : string) : list string :=
  let starter :=
    ["deepseek/deepseek-r1"; "meta-llama/llama-3.2-3b-instruct:free"]%string in
  if String.eqb tier "starter" then starter
  else if String.eqb tier "business" then
    ["openai/gpt-4o-mini"; "anthropic/claude-3.5-haiku"]%string
  else if String.eqb tier "pro" then
    ["anthropic/claude-3.5-sonnet"; "openai/gpt-4o"; "deepseek/deepseek-r1"]%string
  else starter.

(** The loop over [preferred_models]: [DoesNotExist] moves on to the next
    identifier, any other exception of [get] leaves the function. *)
Fixpoint first_preferred (models : gmap Z AIModel.t) (model_type : string)
    (preferred : list string) : res (option (Z * AIModel.t)) :=
  match preferred with
  | [] => Ok None
  | model_id :: rest =>
      match queryset_get
              (filter (fun kv : Z * AIModel.t =>
                         AIModel.model_id (snd kv) = model_id
                         /\ AIModel.model_type (snd kv) = model_type
                         /\ AIModel.is_active (snd kv) = true) models) with
      | Ok m => Ok (Some m)
      | Raise (DoesNotExist _) => first_preferred models model_type rest
      | Raise e => Raise e
      end
  end.

Definition get_available_model (user_subscription_tier model_type : string)
    : M World (option (Z * AIModel.t)) :=
  fun w =>
    match first_preferred (ai_models w) model_type
            (model_priorities user_subscription_tier) with
    | Raise e => (Raise e, w)
    | Ok (Some m) => (Ok (Some m), w)
    | Ok None =>
        (Ok (queryset_first
               (filter (fun kv : Z * AIModel.t =>
                          AIModel.model_type (snd kv) = model_type
                          /\ AIModel.is_active (snd kv) = true
                          /\ (AIModel.min_subscription_tier (snd kv) = "starter"%string
                              \/ AIModel.min_subscription_tier (snd kv)
                                 = user_subscription_tier))
                       (ai_models w))), w)
    end.

Definition AIUsageQuota_save (x : Z * AIUsageQuota.t) : M World unit :=
  save with_ai_usage_quotas (fst x, AIUsageQuota.to_db (snd x)).

(** [AIUsageQuota.objects.get_or_create(user=..., period_type='monthly',
    period_start=..., defaults={...})].  A created instance keeps the
    Python values it was built from ([current_cost_usd] is the float
    default [0.0]); a fetched one holds what the row holds. *)
Definition AIUsageQuota_get_or_create (user : Z) (period_start period_end : datetime)
    (max_requests max_tokens : Z) (max_cost_usd : num)
    : M World ((Z * AIUsageQuota.t) * bool) :=
  fun w =>
    match queryset_get
            (filter (fun kv : Z * AIUsageQuota.t =>
                       AIUsageQuota.user (snd kv) = user
                       /\ AIUsageQuota.period_type (snd kv) = "monthly"%string
                       /\ AIUsageQuota.period_start (snd kv) = period_start)
                    (ai_usage_quotas w)) with
    | Ok q => (Ok (q, false), w)
    | Raise (DoesNotExist _) =>
        let q := {| AIUsageQuota.user := user;
                    AIUsageQuota.period_type := "monthly";
                    AIUsageQuota.period_start := period_start;
                    AIUsageQuota.period_end := period_end;
                    AIUsageQuota.max_requests := max_requests;
                    AIUsageQuota.max_tokens := max_tokens;
                    AIUsageQuota.max_cost_usd := max_cost_usd;
                    AIUsageQuota.current_requests := 0;
                    AIUsageQuota.current_tokens := 0;
                    AIUsageQuota.current_cost_usd := PyFloat 0;
                    AIUsageQuota.is_exceeded := false |} in
        match objects_create ai_usage_quotas with_ai_usage_quotas
                (AIUsageQuota.to_db q) w with
        | (Ok x, w') => (Ok ((fst x, q), true), w')
        | (Raise e, w') => (Raise e, w')
        end
    | Raise e => (Raise e, w)
    end.

(** [AIUsageQuota.update_usage]: the in-memory update, then [self.save()].
    When the [+=] on the cost raises, nothing is saved. *)
Definition update_usage (self : Z * AIUsageQuota.t) (requests tokens : Z)
    (cost_usd : num) : M World (Z * AIUsageQuota.t) :=
  let* q' := lift_res (AIUsageQuota.updated requests tokens cost_usd (snd self)) in
  let* _ := AIUsageQuota_save (fst self, q') in
  ret (fst self, q').

Record QuotaCheck := {
  can_use : bool;
  requests_remaining : Z;
  requests_percentage : num;
  quota : Z * AIUsageQuota.t
}.

Definition check_usage_quota (now : datetime) (user : Z * User.t)
    : M World QuotaCheck :=
  let month_start := month_start_of now in
  let month_end := month_end_of month_start in
  let* qc := AIUsageQuota_get_or_create (fst user) month_start month_end
               (User.ai_usage_limit (snd user))
               (User.ai_usage_limit (snd user) * 1000)
               (if String.eqb (User.subscription_tier (snd user)) "starter"
                then PyDecimal 10 else PyDecimal 50) in
  let quota := fst qc in
  let* pct := lift_res (AIUsageQuota.requests_percentage (snd quota)) in
  ret {| can_use :=
           (negb (AIUsageQuota.is_exceeded (snd quota))
            && (AIUsageQuota.current_requests (snd quota)
                <? AIUsageQuota.max_requests (snd quota)))%bool;
         requests_remaining :=
           Z.max 0 (AIUsageQuota.max_requests (snd quota)
                    - AIUsageQuota.current_requests (snd quota));
         requests_percentage := pct;
         quota := quota |}.

(** [_calculate_cost] *)
Definition _calculate_cost (model : AIModel.t) (input_tokens output_tokens : Z)
    : res num :=
  let? input_cost :=
    mul (Decimal_of_str (AIProvider.cost_per_input_token (AIModel.provider model)))
        (PyInt input_tokens) in
  let? output_cost :=
    mul (Decimal_of_str (AIProvider.cost_per_output_token (AIModel.provider model)))
        (PyInt output_tokens) in
  add input_cost output_cost.

Definition AIRequest_create (r : AIRequest.t) : M World (Z * AIRequest.t) :=
  let* x := objects_create ai_requests with_ai_requests (AIRequest.to_db r) in
  ret (fst x, r).

(** [ai_request.save()] on the local object of a [try] block. *)
Definition ai_request_save : M ((Z * AIRequest.t) * World) unit :=
  let* ai_request := local in
  lift_db (save with_ai_requests (fst ai_request, AIRequest.to_db (snd ai_request))).

(** [self.user.monthly_ai_calls += 1;
     self.user.save(update_fields=['monthly_ai_calls'])] *)
Definition bump_monthly_ai_calls (user : Z * User.t) : M World unit :=
  save_update_fields users with_users (fst user)
    (User.set_monthly_ai_calls (User.monthly_ai_calls (snd user) + 1)).

Definition json_of_option_dict (d : option dict) : json :=
  match d with
  | Some d => JObj d
  | None => JNull
  end.

Definition nl : string := String (Ascii.ascii_of_nat 10) EmptyString.

(** The body of the [try] statement, identical in [process_email_to_task]
    and [generate_filipino_social_content] but for the prompts and the
    sampling parameters.  The local object is [ai_request]. *)
Definition try_body (env : Environment) (now : datetime) (elapsed_ms : Z)
    (user : Z * User.t) (model : Z * AIModel.t) (quota : Z * AIUsageQuota.t)
    (system_prompt user_prompt : string) (max_tokens : Z) (temperature : Q)
    : M ((Z * AIRequest.t) * World) ServiceResult :=
  let* _ := assign (fun r : Z * AIRequest.t =>
              (fst r, AIRequest.set_processed_input
                        ("System: " +:+ system_prompt +:+ nl +:+ nl +:+
                         "User: " +:+ user_prompt) (snd r))) in
  let* _ := ai_request_save in
  let* response := lift_db (client_chat_completions_create env
                     {| cr_model := AIModel.model_id (snd model);
                        cr_system := system_prompt;
                        cr_user := user_prompt;
                        cr_max_tokens := max_tokens;
                        cr_temperature := temperature |}) in
  let* result := lift_res (json_loads env (message_content response)) in
  let* _ := assign (fun r : Z * AIRequest.t =>
              (fst r, AIRequest.set_completed result
                        (prompt_tokens response) (completion_tokens response)
                        (usage_total_tokens response) elapsed_ms now (snd r))) in
  let* cost_usd := lift_res (_calculate_cost (snd model)
                     (prompt_tokens response) (completion_tokens response)) in
  let* cost_php := lift_res (mul cost_usd (PyDecimal 56)) in
  let* _ := assign (fun r : Z * AIRequest.t =>
              (fst r, AIRequest.set_cost cost_usd cost_php (snd r))) in
  let* _ := ai_request_save in
  let* _ := lift_db (bump_monthly_ai_calls user) in
  let* _ := lift_db (update_usage quota 1 (usage_total_tokens response)
                       (float cost_usd)) in
  let* ai_request := local in
  ret (Success result (fst ai_request)
         (AIRequest.cost_php (snd ai_request))
         (AIRequest.total_tokens (snd ai_request))).

(** The [except Exception as e] branch. *)
Definition except_body (now : datetime) (e : exn)
    : M ((Z * AIRequest.t) * World) ServiceResult :=
  let* _ := assign (fun r : Z * AIRequest.t =>
              (fst r, AIRequest.set_failed (str e) now (snd r))) in
  let* _ := ai_request_save in
  let* ai_request := local in
  ret (Failure (str e) (fst ai_request)).

(** Run a block that owns the local object [ai_request]. *)
Definition with_local {L A} (l : L) (c : M (L * World) A) : M World A :=
  fun w => let (r, s) := c (l, w) in (r, snd s).

Definition process_email_to_task (env : Environment) (self_user : option (Z * User.t))
    (now : datetime) (elapsed_ms : Z)
    (email_content : string) (user_context : option dict)
    : M World ServiceResult :=
  match self_user with
  | None => raise (ValueError "User required for AI processing")
  | Some user =>
      let* quota_check := check_usage_quota now user in
      if negb (can_use quota_check) then
        raise (Exception_ "AI usage quota exceeded")
      else
        let* model := get_available_model (User.subscription_tier (snd user)) "chat" in
        match model with
        | None => raise (Exception_ "No AI model available for your subscription")
        | Some model =>
            let business_context :=
              _get_business_context env user (default [] user_context) in
            let* ai_request :=
              AIRequest_create
                (AIRequest.new (fst user) (fst model) "email_to_task" "processing"
                   (JObj [("email_content", JStr email_content);
                          ("user_context", json_of_option_dict user_context);
                          ("business_context", JObj business_context)]%string)
                   now) in
            with_local ai_request
              (try_except
                 (try_body env now elapsed_ms user model (quota quota_check)
                    (_get_filipino_system_prompt env "email_to_task")
                    (_build_email_to_task_prompt env email_content business_context)
                    500 (7 # 10))
                 (except_body now))
        end
  end.

Definition generate_filipino_social_content (env : Environment)
    (self_user : option (Z * User.t)) (now : datetime) (elapsed_ms : Z)
    (business_update platform : string) (user_context : option dict)
    : M World ServiceResult :=
  match self_user with
  | None => raise (ValueError "User required for AI processing")
  | Some user =>
      let* quota_check := check_usage_quota now user in
      if negb (can_use quota_check) then
        raise (Exception_ "AI usage quota exceeded")
      else
        let* model := get_available_model (User.subscription_tier (snd user)) "chat" in
        match model with
        | None => raise (Exception_ "No AI model available")
        | Some model =>
            let business_context :=
              _get_business_context env user (default [] user_context) in
            let* ai_request :=
              AIRequest_create
                (AIRequest.new (fst user) (fst model) "content_generation" "processing"
                   (JObj [("business_update", JStr business_update);
                          ("platform", JStr platform);
                          ("user_context", json_of_option_dict user_context);
                          ("business_context", JObj business_context)]%string)
                   now) in
            with_local ai_request
              (try_except
                 (try_body env now elapsed_ms user model (quota quota_check)
                    (social_system_prompt env platform)
                    (social_user_prompt env business_context business_update platform)
                    300 (8 # 10))
                 (except_body now))
        end
  end.

(** ** Requests and responses *)

(** A model instance of one of the user-facing tables. *)
Inductive Entity :=
| EWorkflow (x : Z * AutomationWorkflow.t)
| EAction (x : Z * AutomationAction.t)
| EExecution (x : Z * WorkflowExecution.t)
| EAIRequest (x : Z * AIRequest.t)
| EQuota (x : Z * AIUsageQuota.t)
| EIntegration (x : Z * Integration.t)
| EIntegrationLog (x : Z * IntegrationLog.t)
| EWebhook (x : Z * WebhookEndpoint.t).

(** The body of a response.  [Records] stands for the output of a
    serializer that has [id] among its fields, for the listed instances:
    the serializer projects each instance on the fields it declares.  The
    output of a serializer without [id] (the two serializers for creation)
    is a [Json] object of the declared fields. *)
Inductive Body :=
| Error (msg : string)
| Message (msg : string) (fields : dict)
| Service (r : ServiceResult)
| Records (l : list Entity)
| Json (j : json)
| NoContent.

Record Response := {
  status_code : Z;
  data : Body
}.

Definition HTTP_200_OK := 200.
Definition HTTP_201_CREATED := 201.
Definition HTTP_202_ACCEPTED := 202.
Definition HTTP_204_NO_CONTENT := 204.
Definition HTTP_400_BAD_REQUEST := 400.
Definition HTTP_401_UNAUTHORIZED := 401.
Definition HTTP_402_PAYMENT_REQUIRED := 402.
Definition HTTP_404_NOT_FOUND := 404.
Definition HTTP_500_INTERNAL_SERVER_ERROR := 500.

Definition respond (status : Z) (b : Body) : Response :=
  {| status_code := status; data := b |}.

(** What the framework does with an exception that leaves a view:
    [ValidationError] is answered with 400, [Http404] with 404,
    a failed authentication with 401, anything else is a server error.
    The writes made before the exception stay ([ATOMIC_REQUESTS] is off). *)
Definition api_view (c : M World Response) : World -> Response * World :=
  fun w =>
    match c w with
    | (Ok r, w') => (r, w')
    | (Raise (ValidationError m), w') => (respond HTTP_400_BAD_REQUEST (Error m), w')
    | (Raise Http404, w') => (respond HTTP_404_NOT_FOUND (Error (str Http404)), w')
    | (Raise NotAuthenticated, w') =>
        (respond HTTP_401_UNAUTHORIZED (Error (str NotAuthenticated)), w')
    | (Raise e, w') => (respond HTTP_500_INTERNAL_SERVER_ERROR (Error (str e)), w')
    end.

(** [request.user]: the row of the authenticated user. *)
Definition authenticate (user : Z) : M World (Z * User.t) :=
  fun w =>
    match users w !! user with
    | Some u => (Ok (user, u), w)
    | None => (Raise NotAuthenticated, w)
    end.

(** [serializer.is_valid(raise_exception=True)] for a serializer without
    code of its own: whether the framework accepts the body is an input,
    [None] standing for a rejected body. *)
Definition is_valid {A} (validated_data : option A) : M World A :=
  match validated_data with
  | Some d => ret d
  | None => raise (ValidationError "Invalid input.")
  end.

Definition json_of_option_string (s : option string) : json :=
  match s with
  | Some s => JStr s
  | None => JNull
  end.

(** ** [ai_services/serializers.py] and [ai_services/views.py] *)

(** The body of a request of the four AI routes, as the field classes of
    the serializer hand it to the [validate_*] methods: the fields have
    their declared types, a [CharField] is trimmed and not blank, an
    optional field that is absent is [None].  A body that the field
    classes refuse is answered with 400 by the framework before any code
    of the repository runs; it has no value here. *)
Record EmailToTaskData := {
  email_content : string;
  sender_email : option string;
  sender_name : option string;
  subject : option string;
  additional_context : dict
}.

Definition EmailToTaskSerializer_is_valid (d : EmailToTaskData)
    : M World EmailToTaskData :=
  if len (strip (email_content d)) <? 10 then
    raise (ValidationError "Email content is too short")
  else ret d.

Record SocialContentData := {
  business_update : string;
  platform : string;
  tone : string;
  include_hashtags : bool;
  include_call_to_action : bool;
  target_audience : option string
}.

Definition PLATFORM_CHOICES : list string :=
  ["facebook"; "instagram"; "tiktok"; "linkedin"; "twitter"]%string.
Definition TONE_CHOICES : list string :=
  ["professional"; "casual"; "friendly"; "excited"; "informative"]%string.

Definition is_choice (s : string) (choices : list string) : bool :=
  existsb (String.eqb s) choices.

Definition SocialContentGenerationSerializer_is_valid (d : SocialContentData)
    : M World SocialContentData :=
  if len (strip (business_update d)) <? 5 then
    raise (ValidationError "Business update is too short")
  else if negb (is_choice (platform d) PLATFORM_CHOICES) then
    raise (ValidationError "Not a valid choice.")
  else if negb (is_choice (tone d) TONE_CHOICES) then
    raise (ValidationError "Not a valid choice.")
  else ret d.

Record TextAnalysisData := {
  text : string;
  analysis_type : string;
  target_language : string
}.

Definition ANALYSIS_CHOICES : list string :=
  ["sentiment"; "summary"; "keywords"; "translation"; "categorization"]%string.
Definition LANGUAGE_CHOICES : list string := ["en"; "tl"; "auto"]%string.

Definition TextAnalysisSerializer_is_valid (d : TextAnalysisData)
    : M World TextAnalysisData :=
  if len (strip (text d)) <? 3 then
    raise (ValidationError "Text is too short for analysis")
  else if 10000 <? len (text d) then
    raise (ValidationError "Text is too long (max 10,000 characters)")
  else if negb (is_choice (analysis_type d) ANALYSIS_CHOICES) then
    raise (ValidationError "Not a valid choice.")
  else if negb (is_choice (target_language d) LANGUAGE_CHOICES) then
    raise (ValidationError "Not a valid choice.")
  else ret d.

Record CustomAIRequestData := {
  template_id : Z;
  input_variables : json;
  custom_instructions : string
}.

(** [validate_template_id]: the premium check raises inside the [try],
    whose [except] clause only catches [DoesNotExist]. *)
Definition CustomAIRequestSerializer_is_valid (request_user : Z * User.t)
    (d : CustomAIRequestData) : M World CustomAIRequestData :=
  fun w =>
    match queryset_get
            (filter (fun kv : Z * AITemplate.t =>
                       fst kv = template_id d
                       /\ AITemplate.is_active (snd kv) = true)
                    (ai_templates w)) with
    | Ok template =>
        if (AITemplate.is_premium (snd template)
            && String.eqb (User.subscription_tier (snd request_user)) "starter")%bool
        then (Raise (ValidationError
                "Premium templates require Business or Pro subscription"), w)
        else (Ok d, w)
    | Raise (DoesNotExist _) =>
        (Raise (ValidationError "Template not found or inactive"), w)
    | Raise e => (Raise e, w)
    end.

Definition limit_exceeded : Response :=
  respond HTTP_402_PAYMENT_REQUIRED
    (Error "AI usage limit exceeded for your subscription").

(** The [try ... except Exception as e] of an AI view. *)
Definition view_try (c : M World Response) : M World Response :=
  try_except c (fun e => ret (respond HTTP_400_BAD_REQUEST (Error (str e)))).

Definition email_to_task (env : Environment) (now : datetime) (elapsed_ms : Z)
    (request_user : Z * User.t) (request_data : EmailToTaskData)
    : M World Response :=
  let* validated_data := EmailToTaskSerializer_is_valid request_data in
  if negb (User.can_use_ai (snd request_user)) then ret limit_exceeded
  else
    view_try
      (let user_context :=
         dict_update
           [("sender_email", json_of_option_string (sender_email validated_data));
            ("sender_name", json_of_option_string (sender_name validated_data));
            ("subject", json_of_option_string (subject validated_data))]%string
           (additional_context validated_data) in
       let* result := process_email_to_task env (Some request_user) now elapsed_ms
                        (email_content validated_data) (Some user_context) in
       ret (respond HTTP_200_OK (Service result))).

Definition generate_social_content (env : Environment) (now : datetime)
    (elapsed_ms : Z) (request_user : Z * User.t) (request_data : SocialContentData)
    : M World Response :=
  let* validated_data := SocialContentGenerationSerializer_is_valid request_data in
  if negb (User.can_use_ai (snd request_user)) then ret limit_exceeded
  else
    view_try
      (let user_context :=
         [("platform", JStr (platform validated_data));
          ("tone", JStr (tone validated_data));
          ("include_hashtags", JBool (include_hashtags validated_data));
          ("include_call_to_action", JBool (include_call_to_action validated_data));
          ("target_audience",
           JStr (default "" (target_audience validated_data)))]%string in
       let* result := generate_filipino_social_content env (Some request_user)
                        now elapsed_ms (business_update validated_data)
                        (platform validated_data) (Some user_context) in
       ret (respond HTTP_200_OK (Service result))).

(** [text[:50]] *)
Definition prefix50 (s : string) : string := String.substring 0 50 s.

(** [analyze_text]: the answer is built in the view (the source marks the
    real analysis as still to be implemented). *)
Definition analyze_text (request_user : Z * User.t) (request_data : TextAnalysisData)
    : M World Response :=
  let* validated_data := TextAnalysisSerializer_is_valid request_data in
  if negb (User.can_use_ai (snd request_user)) then ret limit_exceeded
  else
    let analysis_type := analysis_type validated_data in
    let text := text validated_data in
    ret (respond HTTP_200_OK
           (Json (JObj
              [("success", JBool true);
               ("analysis_type", JStr analysis_type);
               ("result", JObj
                  [("sentiment",
                    if String.eqb analysis_type "sentiment"
                    then JStr "positive" else JNull);
                   ("summary",
                    if String.eqb analysis_type "summary"
                    then JStr ("Summary of: " +:+ prefix50 text +:+ "...")
                    else JNull);
                   ("keywords",
                    if String.eqb analysis_type "keywords"
                    then JList [JStr "business"; JStr "filipino"; JStr "automation"]
                    else JNull)]);
               ("confidence", JNum (85 # 100))]%string))).

(** [template.increment_usage(success=True)] of [AITemplate] *)
Definition AITemplate_increment_usage (template : Z * AITemplate.t) (success : bool)
    : M World unit :=
  let t' := AITemplate.incremented success (snd template) in
  save_update_fields ai_templates with_ai_templates (fst template)
    (fun row =>
       {| AITemplate.name := AITemplate.name row;
          AITemplate.description := AITemplate.description row;
          AITemplate.category := AITemplate.category row;
          AITemplate.business_context := AITemplate.business_context row;
          AITemplate.system_prompt := AITemplate.system_prompt row;
          AITemplate.user_prompt_template := AITemplate.user_prompt_template row;
          AITemplate.usage_count := AITemplate.usage_count t';
          AITemplate.success_rate := AITemplate.success_rate t';
          AITemplate.is_active := AITemplate.is_active row;
          AITemplate.is_premium := AITemplate.is_premium row |}).

(** [custom_ai_request]: a record of the request is created and a fixed
    answer is returned (the source marks the processing as still to be
    implemented).  A missing model is refused by the NOT NULL column. *)
Definition custom_ai_request (now : datetime) (env : Environment)
    (request_user : Z * User.t) (request_data : CustomAIRequestData)
    : M World Response :=
  let* validated_data := CustomAIRequestSerializer_is_valid request_user request_data in
  if negb (User.can_use_ai (snd request_user)) then ret limit_exceeded
  else
    view_try
      (let* template :=
         (fun w => (queryset_get
                      (filter (fun kv : Z * AITemplate.t =>
                                 fst kv = template_id validated_data)
                              (ai_templates w)), w)) in
       let input_variables := input_variables validated_data in
       let custom_instructions := custom_instructions validated_data in
       let* user_prompt :=
         lift_res (str_format env (AITemplate.user_prompt_template (snd template))
                     input_variables) in
       let user_prompt :=
         if String.eqb custom_instructions "" then user_prompt
         else user_prompt +:+ nl +:+ nl +:+ "Additional instructions: "
              +:+ custom_instructions in
       let* model := get_available_model (User.subscription_tier (snd request_user))
                       "chat" in
       let* ai_request :=
         match model with
         | None => raise (IntegrityError "null value in column model_id")
         | Some model =>
             AIRequest_create
               (AIRequest.new (fst request_user) (fst model) "custom" "processing"
                  (JObj [("template_id", JInt (fst template));
                         ("input_variables", input_variables);
                         ("custom_instructions", JStr custom_instructions)]%string)
                  now)
         end in
       let* _ := AITemplate_increment_usage template true in
       ret (respond HTTP_200_OK
              (Json (JObj
                 [("success", JBool true);
                  ("response",
                   JStr ("Processed using template: "
                         +:+ AITemplate.name (snd template)));
                  ("request_id", JInt (fst ai_request))]%string)))).

(** The queryset of [AIRequestListView] and [AIRequestDetailView] *)
Definition AIRequest_get_queryset (request_user : Z * User.t) (w : World)
    : gmap Z AIRequest.t :=
  filter (fun kv : Z * AIRequest.t => AIRequest.user (snd kv) = fst request_user)
         (ai_requests w).


Definition AIRequestDetailView (request_user : Z * User.t) (pk : Z)
    : M World Response :=
  let* qs := gets (AIRequest_get_queryset request_user) in
  let* obj := lift_res (get_object_or_404 qs pk) in
  ret (respond HTTP_200_OK (Records [EAIRequest obj])).

(** [ai_quota_status]: here the defaults of [max_cost_usd] are floats. *)
Definition ai_quota_status (now : datetime) (request_user : Z * User.t)
    : M World Response :=
  let current_month := month_start_of now in
  let month_end := month_end_of current_month in
  let* qc := AIUsageQuota_get_or_create (fst request_user) current_month month_end
               (User.ai_usage_limit (snd request_user))
               (User.ai_usage_limit (snd request_user) * 1000)
               (if String.eqb (User.subscription_tier (snd request_user)) "starter"
                then PyFloat 10 else PyFloat 50) in
  ret (respond HTTP_200_OK (Records [EQuota (fst qc)])).

(** ** Pagination ([PageNumberPagination], [PAGE_SIZE = 20]) *)

Definition PAGE_SIZE : Z := 20.

(** The rows of page [page]; a page number outside [1 .. num_pages] is
    answered with 404.  The filter backends of the list views (query
    parameters that narrow or reorder a list, and the order by
    [-created_at] that [OrderingFilter] gives by default to the views
    that declare [ordering]) are not modelled: a list view without them
    pages its queryset, the others are paged by primary key. *)
Definition paginate {A} (page : Z) (l : list A) : res (list A) :=
  let count := Z.of_nat (length l) in
  let num_pages := Z.max 1 ((count + PAGE_SIZE - 1) / PAGE_SIZE) in
  if ((1 <=? page) && (page <=? num_pages))%bool then
    Ok (take (Z.to_nat PAGE_SIZE) (drop (Z.to_nat ((page - 1) * PAGE_SIZE)) l))
  else Raise Http404.

Definition AIRequestListView (request_user : Z * User.t) (page : Z)
    : M World Response :=
  let* qs := gets (AIRequest_get_queryset request_user) in
  let* rows := lift_res (paginate page (rows_by_pk qs)) in
  ret (respond HTTP_200_OK (Records (map EAIRequest rows))).

(** ** [automations/serializers.py] and [automations/views.py] *)

(** Validated body of [AutomationWorkflowCreateSerializer], with the
    declared defaults for the optional fields. *)
Record WorkflowCreateData := {
  wcd_name : string;
  wcd_description : string;
  wcd_trigger_type : string;
  wcd_trigger_config : json;
  wcd_ai_instructions : string;
  wcd_use_ai_processing : bool;
  wcd_ai_model_preference : string;
  wcd_business_hours_only : bool;
  wcd_language_context : string
}.

(** Validated body of an update through
    [AutomationWorkflowDetailSerializer]; [None] is an absent field. *)
Record WorkflowUpdateData := {
  wud_name : option string;
  wud_description : option string;
  wud_status : option string;
  wud_trigger_type : option string;
  wud_trigger_config : option json;
  wud_ai_instructions : option string;
  wud_use_ai_processing : option bool;
  wud_ai_model_preference : option string;
  wud_business_hours_only : option bool;
  wud_language_context : option string
}.

Definition workflow_new (user : Z) (d : WorkflowCreateData) (now : datetime)
    : AutomationWorkflow.t :=
  {| AutomationWorkflow.user := user;
     AutomationWorkflow.name := wcd_name d;
     AutomationWorkflow.description := wcd_description d;
     AutomationWorkflow.status := "active";
     AutomationWorkflow.trigger_type := wcd_trigger_type d;
     AutomationWorkflow.trigger_config := wcd_trigger_config d;
     AutomationWorkflow.ai_instructions := wcd_ai_instructions d;
     AutomationWorkflow.use_ai_processing := wcd_use_ai_processing d;
     AutomationWorkflow.ai_model_preference := wcd_ai_model_preference d;
     AutomationWorkflow.total_executions := 0;
     AutomationWorkflow.successful_executions := 0;
     AutomationWorkflow.failed_executions := 0;
     AutomationWorkflow.last_executed := None;
     AutomationWorkflow.business_hours_only := wcd_business_hours_only d;
     AutomationWorkflow.language_context := wcd_language_context d;
     AutomationWorkflow.created_at := now;
     AutomationWorkflow.updated_at := now |}.

Definition workflow_update (d : WorkflowUpdateData) (r : AutomationWorkflow.t)
    : AutomationWorkflow.t :=
  {| AutomationWorkflow.user := AutomationWorkflow.user r;
     AutomationWorkflow.name := default (AutomationWorkflow.name r) (wud_name d);
     AutomationWorkflow.description :=
       default (AutomationWorkflow.description r) (wud_description d);
     AutomationWorkflow.status :=
       default (AutomationWorkflow.status r) (wud_status d);
     AutomationWorkflow.trigger_type :=
       default (AutomationWorkflow.trigger_type r) (wud_trigger_type d);
     AutomationWorkflow.trigger_config :=
       default (AutomationWorkflow.trigger_config r) (wud_trigger_config d);
     AutomationWorkflow.ai_instructions :=
       default (AutomationWorkflow.ai_instructions r) (wud_ai_instructions d);
     AutomationWorkflow.use_ai_processing :=
       default (AutomationWorkflow.use_ai_processing r) (wud_use_ai_processing d);
     AutomationWorkflow.ai_model_preference :=
       default (AutomationWorkflow.ai_model_preference r) (wud_ai_model_preference d);
     AutomationWorkflow.total_executions := AutomationWorkflow.total_executions r;
     AutomationWorkflow.successful_executions :=
       AutomationWorkflow.successful_executions r;
     AutomationWorkflow.failed_executions := AutomationWorkflow.failed_executions r;
     AutomationWorkflow.last_executed := AutomationWorkflow.last_executed r;
     AutomationWorkflow.business_hours_only :=
       default (AutomationWorkflow.business_hours_only r) (wud_business_hours_only d);
     AutomationWorkflow.language_context :=
       default (AutomationWorkflow.language_context r) (wud_language_context d);
     AutomationWorkflow.created_at := AutomationWorkflow.created_at r;
     AutomationWorkflow.updated_at := AutomationWorkflow.updated_at r |}.

(** Validated body of [AutomationActionSerializer]; [None] is an absent
    field (on creation the model default applies). *)
Record ActionData := {
  ad_name : option string;
  ad_action_type : option string;
  ad_action_config : option json;
  ad_order : option Z;
  ad_conditions : option json;
  ad_is_conditional : option bool;
  ad_ai_enhanced : option bool;
  ad_ai_prompt_template : option string;
  ad_retry_on_failure : option bool;
  ad_max_retries : option Z;
  ad_delay_seconds : option Z
}.

Definition action_update (d : ActionData) (r : AutomationAction.t)
    : AutomationAction.t :=
  {| AutomationAction.workflow := AutomationAction.workflow r;
     AutomationAction.name := default (AutomationAction.name r) (ad_name d);
     AutomationAction.action_type :=
       default (AutomationAction.action_type r) (ad_action_type d);
     AutomationAction.action_config :=
       default (AutomationAction.action_config r) (ad_action_config d);
     AutomationAction.order := default (AutomationAction.order r) (ad_order d);
     AutomationAction.conditions :=
       default (AutomationAction.conditions r) (ad_conditions d);
     AutomationAction.is_conditional :=
       default (AutomationAction.is_conditional r) (ad_is_conditional d);
     AutomationAction.ai_enhanced :=
       default (AutomationAction.ai_enhanced r) (ad_ai_enhanced d);
     AutomationAction.ai_prompt_template :=
       default (AutomationAction.ai_prompt_template r) (ad_ai_prompt_template d);
     AutomationAction.retry_on_failure :=
       default (AutomationAction.retry_on_failure r) (ad_retry_on_failure d);
     AutomationAction.max_retries :=
       default (AutomationAction.max_retries r) (ad_max_retries d);
     AutomationAction.delay_seconds :=
       default (AutomationAction.delay_seconds r) (ad_delay_seconds d);
     AutomationAction.created_at := AutomationAction.created_at r;
     AutomationAction.updated_at := AutomationAction.updated_at r |}.

Definition action_touch (now : datetime) (r : AutomationAction.t)
    : AutomationAction.t :=
  {| AutomationAction.workflow := AutomationAction.workflow r;
     AutomationAction.name := AutomationAction.name r;
     AutomationAction.action_type := AutomationAction.action_type r;
     AutomationAction.action_config := AutomationAction.action_config r;
     AutomationAction.order := AutomationAction.order r;
     AutomationAction.conditions := AutomationAction.conditions r;
     AutomationAction.is_conditional := AutomationAction.is_conditional r;
     AutomationAction.ai_enhanced := AutomationAction.ai_enhanced r;
     AutomationAction.ai_prompt_template := AutomationAction.ai_prompt_template r;
     AutomationAction.retry_on_failure := AutomationAction.retry_on_failure r;
     AutomationAction.max_retries := AutomationAction.max_retries r;
     AutomationAction.delay_seconds := AutomationAction.delay_seconds r;
     AutomationAction.created_at := AutomationAction.created_at r;
     AutomationAction.updated_at := now |}.

(** [AutomationWorkflow.objects.filter(user=self.request.user)] *)
Definition Workflow_get_queryset (request_user : Z * User.t) (w : World)
    : gmap Z AutomationWorkflow.t :=
  filter (fun kv : Z * AutomationWorkflow.t =>
            AutomationWorkflow.user (snd kv) = fst request_user)
         (automation_workflows w).

(** [workflow.save()] *)
Definition Workflow_save (now : datetime) (x : Z * AutomationWorkflow.t)
    : M World unit :=
  save with_automation_workflows
    (fst x, AutomationWorkflow.set_updated_at now (snd x)).

(** [Meta.ordering = ['order']] *)
Definition order_le (a b : Z * AutomationAction.t) : Prop :=
  AutomationAction.order (snd a) <= AutomationAction.order (snd b).

#[global] Instance order_le_dec : RelDecision order_le.
Proof. intros a b. unfold order_le. apply _. Defined.

(** The related accessor [workflow.actions.all()] *)
Definition workflow_actions (workflow : Z) (w : World)
    : list (Z * AutomationAction.t) :=
  merge_sort order_le
    (map_to_list
       (filter (fun kv : Z * AutomationAction.t =>
                  AutomationAction.workflow (snd kv) = workflow)
               (automation_actions w))).

(** The output of [AutomationWorkflowDetailSerializer]: the workflow and
    its nested [actions]. *)
Definition workflow_detail (x : Z * AutomationWorkflow.t) (w : World) : Body :=
  Records (EWorkflow x :: map EAction (workflow_actions (fst x) w)).

(** [instance.delete()] of a workflow: [on_delete=CASCADE] removes its
    actions and its executions. *)
Definition Workflow_delete (pk : Z) : M World unit :=
  let* _ := modify (with_automation_actions
              (filter (fun kv : Z * AutomationAction.t =>
                         AutomationAction.workflow (snd kv) <> pk))) in
  let* _ := modify (with_workflow_executions
              (filter (fun kv : Z * WorkflowExecution.t =>
                         WorkflowExecution.workflow (snd kv) <> pk))) in
  delete_row with_automation_workflows pk.

Definition AutomationWorkflowListView_get (request_user : Z * User.t) (page : Z)
    : M World Response :=
  let* qs := gets (Workflow_get_queryset request_user) in
  let* rows := lift_res (paginate page (rows_by_pk qs)) in
  ret (respond HTTP_200_OK (Records (map EWorkflow rows))).

(** [AutomationWorkflowCreateSerializer(instance).data]: the nine fields
    of [Meta.fields], which has neither [id] nor [status] nor the
    statistics. *)
Definition AutomationWorkflowCreateSerializer_data (x : AutomationWorkflow.t)
    : json :=
  JObj [("name", JStr (AutomationWorkflow.name x));
        ("description", JStr (AutomationWorkflow.description x));
        ("trigger_type", JStr (AutomationWorkflow.trigger_type x));
        ("trigger_config", AutomationWorkflow.trigger_config x);
        ("ai_instructions", JStr (AutomationWorkflow.ai_instructions x));
        ("use_ai_processing", JBool (AutomationWorkflow.use_ai_processing x));
        ("ai_model_preference", JStr (AutomationWorkflow.ai_model_preference x));
        ("business_hours_only", JBool (AutomationWorkflow.business_hours_only x));
        ("language_context", JStr (AutomationWorkflow.language_context x))]%string.

(** [create] of [ListCreateAPIView]: the view of a [POST] works with
    [AutomationWorkflowCreateSerializer] and answers with its [data]. *)
Definition AutomationWorkflowListView_post (now : datetime)
    (request_user : Z * User.t) (request_data : option WorkflowCreateData)
    : M World Response :=
  let* validated_data := is_valid request_data in
  let* workflow := objects_create automation_workflows with_automation_workflows
                     (workflow_new (fst request_user) validated_data now) in
  ret (respond HTTP_201_CREATED
         (Json (AutomationWorkflowCreateSerializer_data (snd workflow)))).

Definition AutomationWorkflowDetailView_get (request_user : Z * User.t) (pk : Z)
    : M World Response :=
  let* qs := gets (Workflow_get_queryset request_user) in
  let* obj := lift_res (get_object_or_404 qs pk) in
  let* body := gets (workflow_detail obj) in
  ret (respond HTTP_200_OK body).

Definition AutomationWorkflowDetailView_update (now : datetime)
    (request_user : Z * User.t) (pk : Z) (request_data : option WorkflowUpdateData)
    : M World Response :=
  let* qs := gets (Workflow_get_queryset request_user) in
  let* obj := lift_res (get_object_or_404 qs pk) in
  let* validated_data := is_valid request_data in
  let obj' := (fst obj, AutomationWorkflow.set_updated_at now
                          (workflow_update validated_data (snd obj))) in
  let* _ := save with_automation_workflows obj' in
  let* body := gets (workflow_detail obj') in
  ret (respond HTTP_200_OK body).

Definition AutomationWorkflowDetailView_delete (request_user : Z * User.t) (pk : Z)
    : M World Response :=
  let* qs := gets (Workflow_get_queryset request_user) in
  let* obj := lift_res (get_object_or_404 qs pk) in
  let* _ := Workflow_delete (fst obj) in
  ret (respond HTTP_204_NO_CONTENT NoContent).

Definition toggle_workflow_status (now : datetime) (request_user : Z * User.t)
    (workflow_id : Z) : M World Response :=
  let* qs := gets (Workflow_get_queryset request_user) in
  let* workflow := lift_res (get_object_or_404 qs workflow_id) in
  if String.eqb (AutomationWorkflow.status (snd workflow)) "active" then
    let workflow := (fst workflow, AutomationWorkflow.set_status "paused" (snd workflow)) in
    let* _ := Workflow_save now workflow in
    ret (respond HTTP_200_OK
           (Message "Workflow paused successfully"
              [("status", JStr (AutomationWorkflow.status (snd workflow)))]%string))
  else if String.eqb (AutomationWorkflow.status (snd workflow)) "paused" then
    let workflow := (fst workflow, AutomationWorkflow.set_status "active" (snd workflow)) in
    let* _ := Workflow_save now workflow in
    ret (respond HTTP_200_OK
           (Message "Workflow activated successfully"
              [("status", JStr (AutomationWorkflow.status (snd workflow)))]%string))
  else
    ret (respond HTTP_400_BAD_REQUEST (Error "Cannot toggle disabled workflow")).

(** [execute_workflow_manually]: the execution is recorded as pending and
    the view returns; the source leaves the hand-over to a background task
    as a comment. *)
Definition execute_workflow_manually (now : datetime) (request_user : Z * User.t)
    (workflow_id : Z) (request_data : dict) : M World Response :=
  let* qs := gets (Workflow_get_queryset request_user) in
  let* workflow := lift_res (get_object_or_404 qs workflow_id) in
  if negb (String.eqb (AutomationWorkflow.status (snd workflow)) "active") then
    ret (respond HTTP_400_BAD_REQUEST (Error "Workflow must be active to execute"))
  else if (AutomationWorkflow.use_ai_processing (snd workflow)
           && negb (User.can_use_ai (snd request_user)))%bool then
    ret limit_exceeded
  else
    let* execution :=
      objects_create workflow_executions with_workflow_executions
        (WorkflowExecution.new (fst workflow)
           (default (JObj []) (dict_get "trigger_data" request_data))
           "pending" now) in
    ret (respond HTTP_202_ACCEPTED
           (Message "Workflow execution queued"
              [("execution_id", JInt (fst execution))]%string)).

(** [get_queryset] of the two action views *)
Definition Action_get_queryset (request_user : Z * User.t) (workflow_id : Z)
    : M World (list (Z * AutomationAction.t)) :=
  let* qs := gets (Workflow_get_queryset request_user) in
  let* workflow := lift_res (get_object_or_404 qs workflow_id) in
  gets (workflow_actions (fst workflow)).

(** [get_object()] on a queryset given as the list of its rows *)
Definition get_object_in {Row} (l : list (Z * Row)) (pk : Z) : res (Z * Row) :=
  match List.find (fun x => fst x =? pk) l with
  | Some x => Ok x
  | None => Raise Http404
  end.

Definition AutomationActionListView_get (request_user : Z * User.t)
    (workflow_id page : Z) : M World Response :=
  let* actions := Action_get_queryset request_user workflow_id in
  let* rows := lift_res (paginate page actions) in
  ret (respond HTTP_200_OK (Records (map EAction rows))).

Definition AutomationActionListView_post (now : datetime) (request_user : Z * User.t)
    (workflow_id : Z) (request_data : option ActionData) : M World Response :=
  let* validated_data := is_valid request_data in
  match ad_name validated_data, ad_action_type validated_data with
  | Some name, Some action_type =>
      let* qs := gets (Workflow_get_queryset request_user) in
      let* workflow := lift_res (get_object_or_404 qs workflow_id) in
      let* action :=
        objects_create automation_actions with_automation_actions
          (action_update validated_data
             (AutomationAction.new (fst workflow) name action_type (JObj []) 0
                false "" now)) in
      ret (respond HTTP_201_CREATED (Records [EAction action]))
  | _, _ => raise (ValidationError "This field is required.")
  end.

Definition AutomationActionDetailView_get (request_user : Z * User.t)
    (workflow_id pk : Z) : M World Response :=
  let* actions := Action_get_queryset request_user workflow_id in
  let* obj := lift_res (get_object_in actions pk) in
  ret (respond HTTP_200_OK (Records [EAction obj])).

Definition AutomationActionDetailView_update (now : datetime)
    (request_user : Z * User.t) (workflow_id pk : Z)
    (request_data : option ActionData) : M World Response :=
  let* actions := Action_get_queryset request_user workflow_id in
  let* obj := lift_res (get_object_in actions pk) in
  let* validated_data := is_valid request_data in
  let obj' := (fst obj, action_touch now (action_update validated_data (snd obj))) in
  let* _ := save with_automation_actions obj' in
  ret (respond HTTP_200_OK (Records [EAction obj'])).

Definition AutomationActionDetailView_delete (request_user : Z * User.t)
    (workflow_id pk : Z) : M World Response :=
  let* actions := Action_get_queryset request_user workflow_id in
  let* obj := lift_res (get_object_in actions pk) in
  let* _ := delete_row with_automation_actions (fst obj) in
  ret (respond HTTP_204_NO_CONTENT NoContent).

(** [WorkflowExecution.objects.filter(workflow__user=self.request.user)] *)
Definition Execution_get_queryset (request_user : Z * User.t) (w : World)
    : gmap Z WorkflowExecution.t :=
  filter (fun kv : Z * WorkflowExecution.t =>
            AutomationWorkflow.user
              <$> automation_workflows w !! WorkflowExecution.workflow (snd kv)
            = Some (fst request_user))
         (workflow_executions w).

Definition WorkflowExecutionListView (request_user : Z * User.t) (page : Z)
    : M World Response :=
  let* qs := gets (Execution_get_queryset request_user) in
  let* rows := lift_res (paginate page (rows_by_pk qs)) in
  ret (respond HTTP_200_OK (Records (map EExecution rows))).

Definition WorkflowExecutionDetailView (request_user : Z * User.t) (pk : Z)
    : M World Response :=
  let* qs := gets (Execution_get_queryset request_user) in
  let* obj := lift_res (get_object_or_404 qs pk) in
  ret (respond HTTP_200_OK (Records [EExecution obj])).

(** [validate_template_id] of [CreateWorkflowFromTemplateSerializer].
    [template_id] is the integer that the submitted identifier denotes. *)
Definition CreateWorkflowFromTemplateSerializer_is_valid
    (request_user : Z * User.t) (template_id : Z) : M World Z :=
  fun w =>
    match automation_templates w !! template_id with
    | Some template =>
        if (AutomationTemplate.is_premium template
            && String.eqb (User.subscription_tier (snd request_user)) "starter")%bool
        then (Raise (ValidationError
                "Premium templates require Business or Pro subscription"), w)
        else (Ok template_id, w)
    | None => (Raise (ValidationError "Template not found"), w)
    end.

(** The loop [for action_config in ...: AutomationAction.objects.create(...)].
    An entry without ['action_type'] gives [None] to a NOT NULL column and
    the insertion fails; the rows created before it stay.  The function
    returns the created instances in the order of the loop. *)
Fixpoint create_actions (now : datetime) (workflow : Z) (configs : list ActionConfig)
    : M World (list (Z * AutomationAction.t)) :=
  match configs with
  | [] => ret []
  | action_config :: rest =>
      let* action :=
        match ac_action_type action_config with
        | None => raise (IntegrityError "null value in column action_type")
        | Some action_type =>
            objects_create automation_actions with_automation_actions
              (AutomationAction.new workflow
                 (default "" (ac_name action_config))
                 action_type
                 (default (JObj []) (ac_action_config action_config))
                 (default 0 (ac_order action_config))
                 (default false (ac_ai_enhanced action_config))
                 (default "" (ac_ai_prompt_template action_config))
                 now)
        end in
      let* created := create_actions now workflow rest in
      ret (action :: created)
  end.

(** [increment_usage] of [AutomationTemplate] *)
Definition AutomationTemplate_increment_usage (template : Z * AutomationTemplate.t)
    : M World unit :=
  save_update_fields automation_templates with_automation_templates (fst template)
    (AutomationTemplate.set_usage_count
       (AutomationTemplate.usage_count (snd template) + 1)).

Definition create_workflow_from_template (now : datetime) (request_user : Z * User.t)
    (template_id : Z) (workflow_name : string) : M World Response :=
  let* template_id :=
    CreateWorkflowFromTemplateSerializer_is_valid request_user template_id in
  let* template :=
    (fun w => (queryset_get
                 (filter (fun kv : Z * AutomationTemplate.t => fst kv = template_id)
                         (automation_templates w)), w)) in
  let cfg := AutomationTemplate.workflow_config (snd template) in
  let* workflow :=
    objects_create automation_workflows with_automation_workflows
      {| AutomationWorkflow.user := fst request_user;
         AutomationWorkflow.name := workflow_name;
         AutomationWorkflow.description :=
           "Created from template: " +:+ AutomationTemplate.name (snd template);
         AutomationWorkflow.status := "active";
         AutomationWorkflow.trigger_type := default "manual" (wc_trigger_type cfg);
         AutomationWorkflow.trigger_config :=
           default (JObj []) (wc_trigger_config cfg);
         AutomationWorkflow.ai_instructions := default "" (wc_ai_instructions cfg);
         AutomationWorkflow.use_ai_processing :=
           default true (wc_use_ai_processing cfg);
         AutomationWorkflow.ai_model_preference := "auto";
         AutomationWorkflow.total_executions := 0;
         AutomationWorkflow.successful_executions := 0;
         AutomationWorkflow.failed_executions := 0;
         AutomationWorkflow.last_executed := None;
         AutomationWorkflow.business_hours_only := true;
         AutomationWorkflow.language_context :=
           default "mixed" (wc_language_context cfg);
         AutomationWorkflow.created_at := now;
         AutomationWorkflow.updated_at := now |} in
  let* _ := create_actions now (fst workflow) (default [] (wc_actions cfg)) in
  let* _ := AutomationTemplate_increment_usage template in
  let* body := gets (workflow_detail workflow) in
  ret (respond HTTP_201_CREATED body).

(** ** [integrations/serializers.py] and [integrations/views.py] *)

Record IntegrationCreateData := {
  icd_name : string;
  icd_integration_type : string;
  icd_service_name : string;
  icd_service_url : string;
  icd_config_data : json;
  icd_api_key : string;
  icd_api_secret : string;
  icd_webhook_secret : string
}.

Record IntegrationUpdateData := {
  iud_name : option string;
  iud_integration_type : option string;
  iud_service_name : option string;
  iud_service_url : option string;
  iud_config_data : option json;
  iud_is_active : option bool
}.

Definition integration_new (user : Z) (d : IntegrationCreateData) (now : datetime)
    : Integration.t :=
  {| Integration.user := user;
     Integration.name := icd_name d;
     Integration.integration_type := icd_integration_type d;
     Integration.service_name := icd_service_name d;
     Integration.service_url := icd_service_url d;
     Integration.config_data := icd_config_data d;
     Integration.is_active := true;
     Integration.refresh_token := "";
     Integration.api_key := icd_api_key d;
     Integration.api_secret := icd_api_secret d;
     Integration.webhook_secret := icd_webhook_secret d;
     Integration.health_status := "healthy";
     Integration.total_requests := 0;
     Integration.successful_requests := 0;
     Integration.failed_requests := 0;
     Integration.created_at := now;
     Integration.updated_at := now |}.

Definition integration_update (d : IntegrationUpdateData) (now : datetime)
    (r : Integration.t) : Integration.t :=
  {| Integration.user := Integration.user r;
     Integration.name := default (Integration.name r) (iud_name d);
     Integration.integration_type :=
       default (Integration.integration_type r) (iud_integration_type d);
     Integration.service_name :=
       default (Integration.service_name r) (iud_service_name d);
     Integration.service_url := default (Integration.service_url r) (iud_service_url d);
     Integration.config_data := default (Integration.config_data r) (iud_config_data d);
     Integration.is_active := default (Integration.is_active r) (iud_is_active d);
     Integration.refresh_token := Integration.refresh_token r;
     Integration.api_key := Integration.api_key r;
     Integration.api_secret := Integration.api_secret r;
     Integration.webhook_secret := Integration.webhook_secret r;
     Integration.health_status := Integration.health_status r;
     Integration.total_requests := Integration.total_requests r;
     Integration.successful_requests := Integration.successful_requests r;
     Integration.failed_requests := Integration.failed_requests r;
     Integration.created_at := Integration.created_at r;
     Integration.updated_at := now |}.

(** Validated body of [WebhookEndpointSerializer]; [None] is an absent
    field.  [integration] is a writable primary-key field. *)
Record WebhookData := {
  wd_integration : option Z;
  wd_name : option string;
  wd_url_path : option string;
  wd_secret_key : option string;
  wd_allowed_ips : option json;
  wd_require_signature : option bool;
  wd_signature_header : option string;
  wd_status : option string;
  wd_auto_trigger_workflows : option bool
}.

Definition webhook_update (d : WebhookData) (now : datetime) (r : WebhookEndpoint.t)
    : WebhookEndpoint.t :=
  {| WebhookEndpoint.integration :=
       default (WebhookEndpoint.integration r) (wd_integration d);
     WebhookEndpoint.name := default (WebhookEndpoint.name r) (wd_name d);
     WebhookEndpoint.url_path := default (WebhookEndpoint.url_path r) (wd_url_path d);
     WebhookEndpoint.secret_key :=
       default (WebhookEndpoint.secret_key r) (wd_secret_key d);
     WebhookEndpoint.allowed_ips :=
       default (WebhookEndpoint.allowed_ips r) (wd_allowed_ips d);
     WebhookEndpoint.require_signature :=
       default (WebhookEndpoint.require_signature r) (wd_require_signature d);
     WebhookEndpoint.signature_header :=
       default (WebhookEndpoint.signature_header r) (wd_signature_header d);
     WebhookEndpoint.status := default (WebhookEndpoint.status r) (wd_status d);
     WebhookEndpoint.auto_trigger_workflows :=
       default (WebhookEndpoint.auto_trigger_workflows r)
               (wd_auto_trigger_workflows d);
     WebhookEndpoint.total_requests := WebhookEndpoint.total_requests r;
     WebhookEndpoint.successful_requests := WebhookEndpoint.successful_requests r;
     WebhookEndpoint.failed_requests := WebhookEndpoint.failed_requests r;
     WebhookEndpoint.created_at := WebhookEndpoint.created_at r;
     WebhookEndpoint.updated_at := now |}.

(** The primary-key field resolves its value against all integrations. *)
Definition valid_integration_pk (pk : option Z) : M World unit :=
  fun w =>
    match pk with
    | None => (Ok tt, w)
    | Some k =>
        match integrations w !! k with
        | Some _ => (Ok tt, w)
        | None => (Raise (ValidationError "Invalid pk - object does not exist."), w)
        end
    end.

Definition Integration_get_queryset (request_user : Z * User.t) (w : World)
    : gmap Z Integration.t :=
  filter (fun kv : Z * Integration.t => Integration.user (snd kv) = fst request_user)
         (integrations w).

Definition IntegrationLog_get_queryset (request_user : Z * User.t) (w : World)
    : gmap Z IntegrationLog.t :=
  filter (fun kv : Z * IntegrationLog.t =>
            Integration.user <$> integrations w !! IntegrationLog.integration (snd kv)
            = Some (fst request_user))
         (integration_logs w).

Definition Webhook_get_queryset (request_user : Z * User.t) (w : World)
    : gmap Z WebhookEndpoint.t :=
  filter (fun kv : Z * WebhookEndpoint.t =>
            Integration.user <$> integrations w !! WebhookEndpoint.integration (snd kv)
            = Some (fst request_user))
         (webhook_endpoints w).

(** [instance.delete()] of an integration: the cascade removes its logs
    and its webhook endpoints. *)
Definition Integration_delete (pk : Z) : M World unit :=
  let* _ := modify (with_integration_logs
              (filter (fun kv : Z * IntegrationLog.t =>
                         IntegrationLog.integration (snd kv) <> pk))) in
  let* _ := modify (with_webhook_endpoints
              (filter (fun kv : Z * WebhookEndpoint.t =>
                         WebhookEndpoint.integration (snd kv) <> pk))) in
  delete_row with_integrations pk.

Definition IntegrationListView_get (request_user : Z * User.t) (page : Z)
    : M World Response :=
  let* qs := gets (Integration_get_queryset request_user) in
  let* rows := lift_res (paginate page (rows_by_pk qs)) in
  ret (respond HTTP_200_OK (Records (map EIntegration rows))).

(** [IntegrationCreateSerializer(instance).data]: the fields of
    [Meta.fields] that are not [write_only]; [id] is not among them. *)
Definition IntegrationCreateSerializer_data (x : Integration.t) : json :=
  JObj [("name", JStr (Integration.name x));
        ("integration_type", JStr (Integration.integration_type x));
        ("service_name", JStr (Integration.service_name x));
        ("service_url", JStr (Integration.service_url x));
        ("config_data", Integration.config_data x)]%string.

Definition IntegrationListView_post (now : datetime) (request_user : Z * User.t)
    (request_data : option IntegrationCreateData) : M World Response :=
  let* validated_data := is_valid request_data in
  let* integration := objects_create integrations with_integrations
                        (integration_new (fst request_user) validated_data now) in
  ret (respond HTTP_201_CREATED
         (Json (IntegrationCreateSerializer_data (snd integration)))).

Definition IntegrationDetailView_get (request_user : Z * User.t) (pk : Z)
    : M World Response :=
  let* qs := gets (Integration_get_queryset request_user) in
  let* obj := lift_res (get_object_or_404 qs pk) in
  ret (respond HTTP_200_OK (Records [EIntegration obj])).

Definition IntegrationDetailView_update (now : datetime) (request_user : Z * User.t)
    (pk : Z) (request_data : option IntegrationUpdateData) : M World Response :=
  let* qs := gets (Integration_get_queryset request_user) in
  let* obj := lift_res (get_object_or_404 qs pk) in
  let* validated_data := is_valid request_data in
  let obj' := (fst obj, integration_update validated_data now (snd obj)) in
  let* _ := save with_integrations obj' in
  ret (respond HTTP_200_OK (Records [EIntegration obj'])).

Definition IntegrationDetailView_delete (request_user : Z * User.t) (pk : Z)
    : M World Response :=
  let* qs := gets (Integration_get_queryset request_user) in
  let* obj := lift_res (get_object_or_404 qs pk) in
  let* _ := Integration_delete (fst obj) in
  ret (respond HTTP_204_NO_CONTENT NoContent).

Definition TEST_TYPE_CHOICES : list string :=
  ["health_check"; "auth_test"; "api_call"]%string.

(** [test_integration]: a fixed answer, and a log row for it. *)
Definition test_integration (now : datetime) (request_user : Z * User.t)
    (integration_id : Z) (test_type : string) (test_data : json)
    : M World Response :=
  let* qs := gets (Integration_get_queryset request_user) in
  let* integration := lift_res (get_object_or_404 qs integration_id) in
  if negb (is_choice test_type TEST_TYPE_CHOICES) then
    raise (ValidationError "Not a valid choice.")
  else
    let result :=
      JObj [("success", JBool true);
            ("message", JStr (test_type +:+ " completed successfully"));
            ("test_type", JStr test_type);
            ("response_time", JInt 150);
            ("details", JObj
               [("integration", JStr (Integration.name (snd integration)));
                ("service", JStr (Integration.service_name (snd integration)));
                ("health_status", JStr "healthy")])]%string in
    let* _ := objects_create integration_logs with_integration_logs
                {| IntegrationLog.integration := fst integration;
                   IntegrationLog.log_type := "health_check";
                   IntegrationLog.method := "POST";
                   IntegrationLog.endpoint := "/test/" +:+ test_type;
                   IntegrationLog.request_data := test_data;
                   IntegrationLog.response_data := result;
                   IntegrationLog.status_code := Some 200;
                   IntegrationLog.response_time_ms := Some 150;
                   IntegrationLog.created_at := now |} in
    ret (respond HTTP_200_OK (Json result)).

Definition refresh_integration_auth (request_user : Z * User.t) (integration_id : Z)
    : M World Response :=
  let* qs := gets (Integration_get_queryset request_user) in
  let* integration := lift_res (get_object_or_404 qs integration_id) in
  if String.eqb (Integration.refresh_token (snd integration)) "" then
    ret (respond HTTP_400_BAD_REQUEST (Error "No refresh token available"))
  else
    ret (respond HTTP_200_OK
           (Message "Authentication refreshed successfully"
              [("expires_at", JNull)]%string)).

Definition IntegrationLogListView (request_user : Z * User.t) (page : Z)
    : M World Response :=
  let* qs := gets (IntegrationLog_get_queryset request_user) in
  let* rows := lift_res (paginate page (rows_by_pk qs)) in
  ret (respond HTTP_200_OK (Records (map EIntegrationLog rows))).

Definition WebhookEndpointListView_get (request_user : Z * User.t) (page : Z)
    : M World Response :=
  let* qs := gets (Webhook_get_queryset request_user) in
  let* rows := lift_res (paginate page (rows_by_pk qs)) in
  ret (respond HTTP_200_OK (Records (map EWebhook rows))).

(** [perform_create] of [WebhookEndpointListView]: [uuid1] and [uuid2] are
    the values of the two calls of [str(uuid.uuid4())]. *)
Definition WebhookEndpointListView_post (now : datetime) (uuid1 uuid2 : string)
    (request_data : option WebhookData) : M World Response :=
  let* validated_data := is_valid request_data in
  let* _ := valid_integration_pk (wd_integration validated_data) in
  match wd_integration validated_data, wd_name validated_data with
  | Some integration, Some name =>
      let url_path :=
        if String.eqb (default "" (wd_url_path validated_data)) "" then uuid1
        else default "" (wd_url_path validated_data) in
      let secret_key :=
        if String.eqb (default "" (wd_secret_key validated_data)) "" then uuid2
        else default "" (wd_secret_key validated_data) in
      let* webhook :=
        objects_create webhook_endpoints with_webhook_endpoints
          {| WebhookEndpoint.integration := integration;
             WebhookEndpoint.name := name;
             WebhookEndpoint.url_path := url_path;
             WebhookEndpoint.secret_key := secret_key;
             WebhookEndpoint.allowed_ips :=
               default (JList []) (wd_allowed_ips validated_data);
             WebhookEndpoint.require_signature :=
               default true (wd_require_signature validated_data);
             WebhookEndpoint.signature_header :=
               default "X-Signature" (wd_signature_header validated_data);
             WebhookEndpoint.status := default "active" (wd_status validated_data);
             WebhookEndpoint.auto_trigger_workflows :=
               default true (wd_auto_trigger_workflows validated_data);
             WebhookEndpoint.total_requests := 0;
             WebhookEndpoint.successful_requests := 0;
             WebhookEndpoint.failed_requests := 0;
             WebhookEndpoint.created_at := now;
             WebhookEndpoint.updated_at := now |} in
      ret (respond HTTP_201_CREATED (Records [EWebhook webhook]))
  | _, _ => raise (ValidationError "This field is required.")
  end.

Definition WebhookEndpointDetailView_get (request_user : Z * User.t) (pk : Z)
    : M World Response :=
  let* qs := gets (Webhook_get_queryset request_user) in
  let* obj := lift_res (get_object_or_404 qs pk) in
  ret (respond HTTP_200_OK (Records [EWebhook obj])).

Definition WebhookEndpointDetailView_update (now : datetime)
    (request_user : Z * User.t) (pk : Z) (request_data : option WebhookData)
    : M World Response :=
  let* qs := gets (Webhook_get_queryset request_user) in
  let* obj := lift_res (get_object_or_404 qs pk) in
  let* validated_data := is_valid request_data in
  let* _ := valid_integration_pk (wd_integration validated_data) in
  let obj' := (fst obj, webhook_update validated_data now (snd obj)) in
  let* _ := save with_webhook_endpoints obj' in
  ret (respond HTTP_200_OK (Records [EWebhook obj'])).

Definition WebhookEndpointDetailView_delete (request_user : Z * User.t) (pk : Z)
    : M World Response :=
  let* qs := gets (Webhook_get_queryset request_user) in
  let* obj := lift_res (get_object_or_404 qs pk) in
  let* _ := delete_row with_webhook_endpoints (fst obj) in
  ret (respond HTTP_204_NO_CONTENT NoContent).

(** ** The URL configuration *)

(** One constructor per route and method of [ai_services/urls.py],
    [automations/urls.py] and [integrations/urls.py] that reads or writes a
    table of a user.  The routes left out only read: the catalogues of
    models and templates, the statistics, the health check and the two
    fixed lists. *)
Inductive Request :=
| GET_ai_requests (page : Z)
| GET_ai_request (pk : Z)
| POST_email_to_task (d : EmailToTaskData)
| POST_generate_content (d : SocialContentData)
| POST_analyze_text (d : TextAnalysisData)
| POST_custom_request (d : CustomAIRequestData)
| GET_quota_status
| GET_workflows (page : Z)
| POST_workflows (d : option WorkflowCreateData)
| GET_workflow (pk : Z)
| PUT_workflow (pk : Z) (d : option WorkflowUpdateData)
| DELETE_workflow (pk : Z)
| POST_workflow_toggle (workflow_id : Z)
| POST_workflow_execute (workflow_id : Z) (d : dict)
| GET_actions (workflow_id page : Z)
| POST_actions (workflow_id : Z) (d : option ActionData)
| GET_action (workflow_id pk : Z)
| PUT_action (workflow_id pk : Z) (d : option ActionData)
| DELETE_action (workflow_id pk : Z)
| GET_executions (page : Z)
| GET_execution (pk : Z)
| POST_create_from_template (template_id : Z) (workflow_name : string)
| GET_integrations (page : Z)
| POST_integrations (d : option IntegrationCreateData)
| GET_integration (pk : Z)
| PUT_integration (pk : Z) (d : option IntegrationUpdateData)
| DELETE_integration (pk : Z)
| POST_integration_test (integration_id : Z) (test_type : string) (test_data : json)
| POST_integration_refresh (integration_id : Z)
| GET_integration_logs (page : Z)
| GET_webhooks (page : Z)
| POST_webhooks (uuid1 uuid2 : string) (d : option WebhookData)
| GET_webhook (pk : Z)
| PUT_webhook (pk : Z) (d : option WebhookData)
| DELETE_webhook (pk : Z).

Definition view (env : Environment) (now : datetime) (elapsed_ms : Z)
    (request_user : Z * User.t) (rq : Request) : M World Response :=
  match rq with
  | GET_ai_requests page => AIRequestListView request_user page
  | GET_ai_request pk => AIRequestDetailView request_user pk
  | POST_email_to_task d => email_to_task env now elapsed_ms request_user d
  | POST_generate_content d => generate_social_content env now elapsed_ms request_user d
  | POST_analyze_text d => analyze_text request_user d
  | POST_custom_request d => custom_ai_request now env request_user d
  | GET_quota_status => ai_quota_status now request_user
  | GET_workflows page => AutomationWorkflowListView_get request_user page
  | POST_workflows d => AutomationWorkflowListView_post now request_user d
  | GET_workflow pk => AutomationWorkflowDetailView_get request_user pk
  | PUT_workflow pk d => AutomationWorkflowDetailView_update now request_user pk d
  | DELETE_workflow pk => AutomationWorkflowDetailView_delete request_user pk
  | POST_workflow_toggle workflow_id =>
      toggle_workflow_status now request_user workflow_id
  | POST_workflow_execute workflow_id d =>
      execute_workflow_manually now request_user workflow_id d
  | GET_actions workflow_id page =>
      AutomationActionListView_get request_user workflow_id page
  | POST_actions workflow_id d =>
      AutomationActionListView_post now request_user workflow_id d
  | GET_action workflow_id pk => AutomationActionDetailView_get request_user workflow_id pk
  | PUT_action workflow_id pk d =>
      AutomationActionDetailView_update now request_user workflow_id pk d
  | DELETE_action workflow_id pk =>
      AutomationActionDetailView_delete request_user workflow_id pk
  | GET_executions page => WorkflowExecutionListView request_user page
  | GET_execution pk => WorkflowExecutionDetailView request_user pk
  | POST_create_from_template template_id workflow_name =>
      create_workflow_from_template now request_user template_id workflow_name
  | GET_integrations page => IntegrationListView_get request_user page
  | POST_integrations d => IntegrationListView_post now request_user d
  | GET_integration pk => IntegrationDetailView_get request_user pk
  | PUT_integration pk d => IntegrationDetailView_update now request_user pk d
  | DELETE_integration pk => IntegrationDetailView_delete request_user pk
  | POST_integration_test integration_id test_type test_data =>
      test_integration now request_user integration_id test_type test_data
  | POST_integration_refresh integration_id =>
      refresh_integration_auth request_user integration_id
  | GET_integration_logs page => IntegrationLogListView request_user page
  | GET_webhooks page => WebhookEndpointListView_get request_user page
  | POST_webhooks uuid1 uuid2 d => WebhookEndpointListView_post now uuid1 uuid2 d
  | GET_webhook pk => WebhookEndpointDetailView_get request_user pk
  | PUT_webhook pk d => WebhookEndpointDetailView_update now request_user pk d
  | DELETE_webhook pk => WebhookEndpointDetailView_delete request_user pk
  end.

(** One request: the framework authenticates [user], runs the view and
    turns an exception that leaves it into a response. *)
Definition handle (env : Environment) (now : datetime) (elapsed_ms : Z)
    (user : Z) (rq : Request) : World -> Response * World :=
  api_view (let* request_user := authenticate user in
            view env now elapsed_ms request_user rq).

(** A request as it reaches the server: who sends it, when, and how long
    the provider takes to answer. *)
Record Arrival := {
  arr_user : Z;
  arr_now : datetime;
  arr_elapsed_ms : Z;
  arr_request : Request
}.

(** The server handling a sequence of requests one after the other. *)
Fixpoint serve (env : Environment) (arrivals : list Arrival) (w : World) : World :=
  match arrivals with
  | [] => w
  | a :: rest =>
      serve env rest
        (snd (handle env (arr_now a) (arr_elapsed_ms a) (arr_user a)
                (arr_request a) w))
  end.

(** ** Sample data *)

Module Sample.

Definition noon : datetime := Datetime 2025 3 14 12 0 0 0.

Definition alice : User.t :=
  User.Build "alice@tindahan.ph" "" "Tindahan ni Alice" "starter" 0 "retail" "en".

Definition bob : User.t :=
  User.Build "bob@kainan.ph" "" "Kainan ni Bob" "business" 0 "restaurant" "tl".

(** A starter account that has used up its monthly calls. *)
Definition carol : User.t :=
  User.Build "carol@bpo.ph" "" "Carol BPO" "starter" 1000 "bpo" "en".

Definition provider : AIProvider.t :=
  AIProvider.Build "OpenRouter" "openrouter" true
    (PyDecimal (1 # 1000000)) (PyDecimal (2 # 1000000)).

Definition deepseek : AIModel.t :=
  AIModel.Build provider "DeepSeek R1" "deepseek/deepseek-r1" "chat" "basic"
    "starter" true.

Definition workflow_of (user : Z) (status : string) (use_ai : bool)
    : AutomationWorkflow.t :=
  {| AutomationWorkflow.user := user;
     AutomationWorkflow.name := "Invoice follow-up";
     AutomationWorkflow.description := "";
     AutomationWorkflow.status := status;
     AutomationWorkflow.trigger_type := "manual";
     AutomationWorkflow.trigger_config := JObj [];
     AutomationWorkflow.ai_instructions := "";
     AutomationWorkflow.use_ai_processing := use_ai;
     AutomationWorkflow.ai_model_preference := "auto";
     AutomationWorkflow.total_executions := 0;
     AutomationWorkflow.successful_executions := 0;
     AutomationWorkflow.failed_executions := 0;
     AutomationWorkflow.last_executed := None;
     AutomationWorkflow.business_hours_only := true;
     AutomationWorkflow.language_context := "mixed";
     AutomationWorkflow.created_at := noon;
     AutomationWorkflow.updated_at := noon |}.

Definition action_of (workflow order : Z) (name : string) : AutomationAction.t :=
  AutomationAction.new workflow name "send_email" (JObj []) order false "" noon.

Definition template : AutomationTemplate.t :=
  {| AutomationTemplate.name := "Payment reminder";
     AutomationTemplate.description := "";
     AutomationTemplate.business_type := "retail";
     AutomationTemplate.category := "finance_accounting";
     AutomationTemplate.workflow_config :=
       {| wc_trigger_type := Some "schedule"%string;
          wc_trigger_config := None;
          wc_ai_instructions := None;
          wc_use_ai_processing := Some false;
          wc_language_context := None;
          wc_actions :=
            Some [ {| ac_name := Some "notify"%string;
                      ac_action_type := Some "send_sms"%string;
                      ac_action_config := None;
                      ac_order := Some 2;
                      ac_ai_enhanced := None;
                      ac_ai_prompt_template := None |};
                   {| ac_name := Some "remind"%string;
                      ac_action_type := Some "gcash_payment_reminder"%string;
                      ac_action_config := None;
                      ac_order := Some 1;
                      ac_ai_enhanced := None;
                      ac_ai_prompt_template := None |};
                   {| ac_name := None;
                      ac_action_type := Some "create_task"%string;
                      ac_action_config := None;
                      ac_order := None;
                      ac_ai_enhanced := None;
                      ac_ai_prompt_template := None |} ] |};
     AutomationTemplate.usage_count := 0;
     AutomationTemplate.is_featured := false;
     AutomationTemplate.is_premium := false |}.

Definition integration_of (user : Z) : Integration.t :=
  {| Integration.user := user;
     Integration.name := "GCash";
     Integration.integration_type := "gcash";
     Integration.service_name := "GCash";
     Integration.service_url := "";
     Integration.config_data := JObj [];
     Integration.is_active := true;
     Integration.refresh_token := "";
     Integration.api_key := "";
     Integration.api_secret := "";
     Integration.webhook_secret := "";
     Integration.health_status := "healthy";
     Integration.total_requests := 0;
     Integration.successful_requests := 0;
     Integration.failed_requests := 0;
     Integration.created_at := noon;
     Integration.updated_at := noon |}.

(** Three users (1 alice, 2 bob, 3 carol), one model, four workflows
    (10 and 12 of alice, 11 of bob, 13 of carol), three actions of
    workflow 10, one template, one integration each for alice and bob. *)
Definition world : World :=
  {| users := <[1 := alice]> (<[2 := bob]> (<[3 := carol]> ∅));
     ai_models := <[7 := deepseek]> ∅;
     ai_requests := ∅;
     ai_templates := ∅;
     ai_usage_quotas := ∅;
     automation_workflows :=
       <[10 := workflow_of 1 "active" false]>
         (<[11 := workflow_of 2 "paused" true]>
            (<[12 := workflow_of 1 "disabled" true]>
               (<[13 := workflow_of 3 "active" true]> ∅)));
     automation_actions :=
       <[1 := action_of 10 3 "third"]>
         (<[2 := action_of 10 1 "first"]>
            (<[3 := action_of 10 2 "second"]> ∅));
     workflow_executions := ∅;
     automation_templates := <[5 := template]> ∅;
     integrations := <[20 := integration_of 1]> (<[21 := integration_of 2]> ∅);
     integration_logs := ∅;
     webhook_endpoints := ∅;
     provider_calls := [] |}.

(** A provider that answers every request, and one that is down. *)
Definition answer : ChatCompletion :=
  {| message_content := "{}";
     prompt_tokens := 100; completion_tokens := 50; usage_total_tokens := 150 |}.

Definition env : Environment :=
  {| chat_completions_create := fun _ => Ok answer;
     json_loads := fun _ => Ok (JObj []);
     str_format := fun s _ => Ok s;
     _get_business_context := fun _ d => d;
     _get_filipino_system_prompt := fun _ => "system"%string;
     _build_email_to_task_prompt := fun e _ => e;
     social_system_prompt := fun _ => "system"%string;
     social_user_prompt := fun _ b _ => b |}.

(** A provider whose answer costs 0.00015 USD at the prices of
    [provider]: 100 input tokens and 25 output tokens. *)
Definition answer_short : ChatCompletion :=
  {| message_content := "{}";
     prompt_tokens := 100; completion_tokens := 25; usage_total_tokens := 125 |}.

Definition env_short : Environment :=
  {| chat_completions_create := fun _ => Ok answer_short;
     json_loads := json_loads env;
     str_format := str_format env;
     _get_business_context := _get_business_context env;
     _get_filipino_system_prompt := _get_filipino_system_prompt env;
     _build_email_to_task_prompt := _build_email_to_task_prompt env;
     social_system_prompt := social_system_prompt env;
     social_user_prompt := social_user_prompt env |}.


Definition email : EmailToTaskData :=
  {| email_content := "Please send the invoice for March.";
     sender_email := None; sender_name := None; subject := None;
     additional_context := [] |}.


(** A quota row as the database returns it: the cost columns are
    [Decimal] values. *)
Definition stored_quota : AIUsageQuota.t :=
  {| AIUsageQuota.user := 1;
     AIUsageQuota.period_type := "monthly";
     AIUsageQuota.period_start := month_start_of noon;
     AIUsageQuota.period_end := month_end_of (month_start_of noon);
     AIUsageQuota.max_requests := 1000;
     AIUsageQuota.max_tokens := 1000000;
     AIUsageQuota.max_cost_usd := PyDecimal 10;
     AIUsageQuota.current_requests := 999;
     AIUsageQuota.current_tokens := 150;
     AIUsageQuota.current_cost_usd := PyDecimal (2 # 10000);
     AIUsageQuota.is_exceeded := false |}.

(** [world] in a month in which alice already has her quota row. *)
Definition world_with_quota : World :=
  with_ai_usage_quotas (insert 0 stored_quota) world.



(** [world] with one webhook endpoint on alice's integration, and a
    request body that names bob's integration. *)
Definition webhook : WebhookEndpoint.t :=
  {| WebhookEndpoint.integration := 20;
     WebhookEndpoint.name := "orders";
     WebhookEndpoint.url_path := "orders";
     WebhookEndpoint.secret_key := "s3";
     WebhookEndpoint.allowed_ips := JList [];
     WebhookEndpoint.require_signature := true;
     WebhookEndpoint.signature_header := "X-Signature";
     WebhookEndpoint.status := "active";
     WebhookEndpoint.auto_trigger_workflows := true;
     WebhookEndpoint.total_requests := 0;
     WebhookEndpoint.successful_requests := 0;
     WebhookEndpoint.failed_requests := 0;
     WebhookEndpoint.created_at := noon;
     WebhookEndpoint.updated_at := noon |}.

Definition world_with_webhook : World :=
  with_webhook_endpoints (insert 30 webhook) world.

(** The body of a [PUT] that keeps the name, the path and the key of
    [webhook] and names integration 21, which is bob's. *)
Definition to_integration_21 : WebhookData :=
  {| wd_integration := Some 21;
     wd_name := Some "orders"%string;
     wd_url_path := Some "orders"%string;
     wd_secret_key := Some "s3"%string;
     wd_allowed_ips := None;
     wd_require_signature := None;
     wd_signature_header := None;
     wd_status := None;
     wd_auto_trigger_workflows := None |}.

End Sample.

(** * Vocabulary of the statements *)

(** [preserves f c]: running [c] does not change the part [f] of the
    state, whatever [c] returns or raises. *)
Definition preserves {S A X} (f : S -> X) (c : M S A) : Prop :=
  forall s r s', c s = (r, s') -> f s' = f s.


(** The record that a successful run of the [try] block leaves. *)
Definition completed_request (env : Environment) (now : datetime) (ms : Z)
    (model : AIModel.t) (system_prompt user_prompt : string) (result : json)
    (response : ChatCompletion) (r : AIRequest.t) : AIRequest.t :=
  let cost :=
    PyDecimal
      (value (AIProvider.cost_per_input_token (AIModel.provider model))
         * inject_Z (prompt_tokens response)
       + value (AIProvider.cost_per_output_token (AIModel.provider model))
         * inject_Z (completion_tokens response)) in
  AIRequest.set_cost cost (PyDecimal (value cost * value (PyDecimal 56)))
    (AIRequest.set_completed result (prompt_tokens response)
       (completion_tokens response) (usage_total_tokens response) ms now
       (AIRequest.set_processed_input
          ("System: " +:+ system_prompt +:+ nl +:+ nl +:+ "User: " +:+ user_prompt)
          r)).

(** The part of the two services before the [try] statement: either an
    exception leaves the service and no request record has been created,
    or a record with [retry_count = 0] has been created for the user and
    the [try] statement runs. *)
Definition reaches_try (env : Environment) (now : datetime) (ms : Z)
    (user : Z * User.t) (w w' : World) (r : res ServiceResult)
    (request_type sp up : string) (mt : Z) (temp : Q) : Prop :=
  (exists e,
     r = Raise e /\ ai_requests w' = ai_requests w
     /\ provider_calls w' = provider_calls w /\ users w' = users w)
  \/ (exists qc w0 model l,
        check_usage_quota now user w = (Ok qc, w0)
        /\ can_use qc = true
        /\ get_available_model (User.subscription_tier (snd user)) "chat" w0
           = (Ok (Some model), w0)
        /\ fst l = fresh (dom (ai_requests w0))
        /\ AIRequest.retry_count (snd l) = 0
        /\ AIRequest.user (snd l) = fst user
        /\ AIRequest.request_type (snd l) = request_type
        /\ with_local l
             (try_except (try_body env now ms user model (quota qc) sp up mt temp)
                (except_body now))
             (with_ai_requests (insert (fst l) (AIRequest.to_db (snd l))) w0)
           = (r, w')).

(** [stored] is what a column of [places] decimals keeps of [x]: a
    multiple of [10 ^ -places] that is at most half of [10 ^ -places]
    away from [x]. *)
Definition rounded_to (places : positive) (x stored : Q) : Prop :=
  (exists n : Z, stored == n # 10 ^ places)%Q
  /\ (Qabs (stored - x) <= 1 # (2 * 10 ^ places))%Q.

(** What a successful run leaves in the database, for the user [user],
    between the state [w] before the call and the state [w'] after it.
    [w0] is [w] after the admission check, which creates the quota row of
    the month when there is none; [cost] is the computed cost; [q] is the
    quota row and [r] the request record as the database holds them
    afterwards. *)
Definition usage_recorded (env : Environment) (now : datetime)
    (user : Z * User.t) (w w' : World) (request_id tokens_used : Z) : Prop :=
  exists qc w0 model rq response cost q r,
    check_usage_quota now user w = (Ok qc, w0)
    /\ get_available_model (User.subscription_tier (snd user)) "chat" w0
       = (Ok (Some model), w0)
    /\ provider_calls w' = provider_calls w ++ [rq]
    /\ chat_completions_create env rq = Ok response
    /\ cost = (value (AIProvider.cost_per_input_token
                        (AIModel.provider (snd model)))
                 * inject_Z (prompt_tokens response)
               + value (AIProvider.cost_per_output_token
                          (AIModel.provider (snd model)))
                 * inject_Z (completion_tokens response))%Q
    /\ users w'
       = <[fst user := User.set_monthly_ai_calls
                         (User.monthly_ai_calls (snd user) + 1) (snd user)]>
           (users w)
    /\ ai_usage_quotas w' = <[fst (quota qc) := q]> (ai_usage_quotas w0)
    /\ AIUsageQuota.current_requests q
       = AIUsageQuota.current_requests (snd (quota qc)) + 1
    /\ AIUsageQuota.current_tokens q
       = AIUsageQuota.current_tokens (snd (quota qc)) + usage_total_tokens response
    /\ rounded_to 4
         (value (AIUsageQuota.current_cost_usd (snd (quota qc))) + cost)
         (value (AIUsageQuota.current_cost_usd q))
    /\ AIUsageQuota.user q = AIUsageQuota.user (snd (quota qc))
    /\ AIUsageQuota.period_type q = AIUsageQuota.period_type (snd (quota qc))
    /\ AIUsageQuota.period_start q = AIUsageQuota.period_start (snd (quota qc))
    /\ AIUsageQuota.period_end q = AIUsageQuota.period_end (snd (quota qc))
    /\ AIUsageQuota.max_requests q = AIUsageQuota.max_requests (snd (quota qc))
    /\ AIUsageQuota.max_tokens q = AIUsageQuota.max_tokens (snd (quota qc))
    /\ rounded_to 4 (value (AIUsageQuota.max_cost_usd (snd (quota qc))))
         (value (AIUsageQuota.max_cost_usd q))
    /\ ai_requests w' !! request_id = Some r
    /\ AIRequest.status r = "completed"%string
    /\ AIRequest.input_tokens r = prompt_tokens response
    /\ AIRequest.output_tokens r = completion_tokens response
    /\ AIRequest.total_tokens r = usage_total_tokens response
    /\ rounded_to 6 cost (value (AIRequest.cost_usd r))
    /\ ((exists a b : Z,
           value (AIProvider.cost_per_input_token (AIModel.provider (snd model)))
           == a # 10 ^ 6
           /\ value (AIProvider.cost_per_output_token
                       (AIModel.provider (snd model)))
              == b # 10 ^ 6)%Q ->
        (value (AIRequest.cost_usd r) == cost)%Q)
    /\ tokens_used = usage_total_tokens response.

(** How a call of one of the two services can end. *)
Definition service_outcome (w w' : World) (r : res ServiceResult) : Prop :=
  (exists e,
     r = Raise e /\ ai_requests w' = ai_requests w
     /\ provider_calls w' = provider_calls w)
  \/ (exists res rq l,
        r = Ok res
        /\ provider_calls w' = provider_calls w ++ [rq]
        /\ ai_requests w !! l = None
        /\ (forall k, k <> l -> ai_requests w' !! k = ai_requests w !! k)
        /\ (exists x, ai_requests w' !! l = Some x /\ AIRequest.retry_count x = 0)
        /\ (forall msg rid,
              res = Failure msg rid ->
              rid = l
              /\ exists row,
                   ai_requests w' !! rid = Some row
                   /\ AIRequest.status row = "failed"%string
                   /\ AIRequest.error_message row = msg)).

(** The answers of the two views in front of the services. *)
Definition ai_view_outcome (w w' : World) (r : res Response) : Prop :=
  (exists m, r = Raise (ValidationError m) /\ w' = w)
  \/ (r = Ok limit_exceeded /\ w' = w)
  \/ (exists res,
        r = Ok (respond 200 (Service res))
        /\ service_outcome w w' (Ok res))
  \/ (exists e,
        r = Ok (respond 400 (Error (str e)))
        /\ service_outcome w w' (@Raise ServiceResult e)).

(** [steps R c]: whatever [c] returns or raises, the state after it is
    related by [R] to the state before it. *)
Definition steps {S A} (R : relation S) (c : M S A) : Prop :=
  forall s r s', c s = (r, s') -> R s s'.

(** What one request may do to the table of AI requests: a row that is
    there afterwards was there before, unchanged, or has never been
    retried. *)
Definition requests_step (w w' : World) : Prop :=
  forall k r,
    ai_requests w' !! k = Some r ->
    ai_requests w !! k = Some r \/ AIRequest.retry_count r = 0.



(** The quota rows of a user for the month that starts at [ps]. *)
Definition month_quotas (user : Z) (ps : datetime) (w : World)
    : gmap Z AIUsageQuota.t :=
  filter (fun kv : Z * AIUsageQuota.t =>
            AIUsageQuota.user (snd kv) = user
            /\ AIUsageQuota.period_type (snd kv) = "monthly"%string
            /\ AIUsageQuota.period_start (snd kv) = ps)
         (ai_usage_quotas w).

(** The user who owns a record: directly, or through the workflow or the
    integration the record belongs to. *)
Definition owner (w : World) (e : Entity) : option Z :=
  match e with
  | EWorkflow x => Some (AutomationWorkflow.user (snd x))
  | EAction x =>
      AutomationWorkflow.user
        <$> automation_workflows w !! AutomationAction.workflow (snd x)
  | EExecution x =>
      AutomationWorkflow.user
        <$> automation_workflows w !! WorkflowExecution.workflow (snd x)
  | EAIRequest x => Some (AIRequest.user (snd x))
  | EQuota x => Some (AIUsageQuota.user (snd x))
  | EIntegration x => Some (Integration.user (snd x))
  | EIntegrationLog x =>
      Integration.user <$> integrations w !! IntegrationLog.integration (snd x)
  | EWebhook x =>
      Integration.user <$> integrations w !! WebhookEndpoint.integration (snd x)
  end.

(** The record is a row of its table. *)
Definition stored (w : World) (e : Entity) : Prop :=
  match e with
  | EWorkflow x => automation_workflows w !! fst x = Some (snd x)
  | EAction x => automation_actions w !! fst x = Some (snd x)
  | EExecution x => workflow_executions w !! fst x = Some (snd x)
  | EAIRequest x => ai_requests w !! fst x = Some (snd x)
  | EQuota x => ai_usage_quotas w !! fst x = Some (snd x)
  | EIntegration x => integrations w !! fst x = Some (snd x)
  | EIntegrationLog x => integration_logs w !! fst x = Some (snd x)
  | EWebhook x => webhook_endpoints w !! fst x = Some (snd x)
  end.

(** Two records of the same table under the same key. *)
Definition same_row (e1 e2 : Entity) : Prop :=
  match e1, e2 with
  | EWorkflow x, EWorkflow y => fst x = fst y
  | EAction x, EAction y => fst x = fst y
  | EExecution x, EExecution y => fst x = fst y
  | EAIRequest x, EAIRequest y => fst x = fst y
  | EQuota x, EQuota y => fst x = fst y
  | EIntegration x, EIntegration y => fst x = fst y
  | EIntegrationLog x, EIntegrationLog y => fst x = fst y
  | EWebhook x, EWebhook y => fst x = fst y
  | _, _ => False
  end.

(** The records that a response carries. *)
Definition returned (resp : Response) : list Entity :=
  match data resp with
  | Records l => l
  | _ => []
  end.

(** [keeps B w w']: every record that user [B] owns in [w] is in [w'],
    unchanged, and still owned by [B]. *)
Definition keeps (B : Z) (w w' : World) : Prop :=
  forall e, stored w e -> owner w e = Some B ->
            stored w' e /\ owner w' e = Some B.

(** The list, detail, update and delete routes over the tables of a
    user. *)
Definition crud (rq : Request) : Prop :=
  match rq with
  | GET_ai_requests _ | GET_ai_request _
  | GET_workflows _ | GET_workflow _ | PUT_workflow _ _ | DELETE_workflow _
  | GET_actions _ _ | GET_action _ _ | PUT_action _ _ _ | DELETE_action _ _
  | GET_executions _ | GET_execution _
  | GET_integrations _ | GET_integration _ | PUT_integration _ _
  | DELETE_integration _
  | GET_integration_logs _
  | GET_webhooks _ | GET_webhook _ | PUT_webhook _ _ | DELETE_webhook _ => True
  | _ => False
  end.

(** What a view does as seen by another user [B]: the records it returns
    are rows that the requester [A] owned when the request arrived, and
    the records of [B] are kept. *)
Definition isolated (A B : Z) (w : World) (r : res Response) (w' : World) : Prop :=
  (forall resp, r = Ok resp ->
     forall e, e ∈ returned resp ->
               exists e0, same_row e0 e /\ stored w e0 /\ owner w e0 = Some A)
  /\ keeps B w w'.

(** Every [get_queryset] of the list, detail, update and delete views
    holds exactly the stored records of the requester. *)
Definition owned_querysets (ru : Z * User.t) (w : World) : Prop :=
  (forall k r, AIRequest_get_queryset ru w !! k = Some r
               <-> stored w (EAIRequest (k, r))
                   /\ owner w (EAIRequest (k, r)) = Some (fst ru))
  /\ (forall k r, Workflow_get_queryset ru w !! k = Some r
                  <-> stored w (EWorkflow (k, r))
                      /\ owner w (EWorkflow (k, r)) = Some (fst ru))
  /\ (forall k r, Execution_get_queryset ru w !! k = Some r
                  <-> stored w (EExecution (k, r))
                      /\ owner w (EExecution (k, r)) = Some (fst ru))
  /\ (forall k r, Integration_get_queryset ru w !! k = Some r
                  <-> stored w (EIntegration (k, r))
                      /\ owner w (EIntegration (k, r)) = Some (fst ru))
  /\ (forall k r, IntegrationLog_get_queryset ru w !! k = Some r
                  <-> stored w (EIntegrationLog (k, r))
                      /\ owner w (EIntegrationLog (k, r)) = Some (fst ru))
  /\ (forall k r, Webhook_get_queryset ru w !! k = Some r
                  <-> stored w (EWebhook (k, r))
                      /\ owner w (EWebhook (k, r)) = Some (fst ru))
  /\ (forall workflow_id l w1,
        Action_get_queryset ru workflow_id w = (Ok l, w1) ->
        forall x, x ∈ l
                  <-> (stored w (EAction x)
                       /\ AutomationAction.workflow (snd x) = workflow_id)
                      /\ owner w (EAction x) = Some (fst ru)).

(** ** The fields of a workflow that [toggle_workflow_status] leaves alone *)

(** Every column of [AutomationWorkflow] but [status] and [updated_at]
    has the same value in the two rows. *)
Definition same_but_status_and_updated_at (a b : AutomationWorkflow.t) : Prop :=
  AutomationWorkflow.user a = AutomationWorkflow.user b
  /\ AutomationWorkflow.name a = AutomationWorkflow.name b
  /\ AutomationWorkflow.description a = AutomationWorkflow.description b
  /\ AutomationWorkflow.trigger_type a = AutomationWorkflow.trigger_type b
  /\ AutomationWorkflow.trigger_config a = AutomationWorkflow.trigger_config b
  /\ AutomationWorkflow.ai_instructions a = AutomationWorkflow.ai_instructions b
  /\ AutomationWorkflow.use_ai_processing a
     = AutomationWorkflow.use_ai_processing b
  /\ AutomationWorkflow.ai_model_preference a
     = AutomationWorkflow.ai_model_preference b
  /\ AutomationWorkflow.total_executions a
     = AutomationWorkflow.total_executions b
  /\ AutomationWorkflow.successful_executions a
     = AutomationWorkflow.successful_executions b
  /\ AutomationWorkflow.failed_executions a
     = AutomationWorkflow.failed_executions b
  /\ AutomationWorkflow.last_executed a = AutomationWorkflow.last_executed b
  /\ AutomationWorkflow.business_hours_only a
     = AutomationWorkflow.business_hours_only b
  /\ AutomationWorkflow.language_context a
     = AutomationWorkflow.language_context b
  /\ AutomationWorkflow.created_at a = AutomationWorkflow.created_at b.

(** The database [w'] is [w] with the row [row] under the key [k] of the
    table of workflows: the other rows of the table, the other tables and
    the log are those of [w]. *)
Definition only_workflow_written (k : Z) (row : AutomationWorkflow.t)
    (w w' : World) : Prop :=
  automation_workflows w' !! k = Some row
  /\ (forall j, j <> k -> automation_workflows w' !! j = automation_workflows w !! j)
  /\ users w' = users w
  /\ ai_models w' = ai_models w
  /\ ai_requests w' = ai_requests w
  /\ ai_templates w' = ai_templates w
  /\ ai_usage_quotas w' = ai_usage_quotas w
  /\ automation_actions w' = automation_actions w
  /\ workflow_executions w' = workflow_executions w
  /\ automation_templates w' = automation_templates w
  /\ integrations w' = integrations w
  /\ integration_logs w' = integration_logs w
  /\ webhook_endpoints w' = webhook_endpoints w
  /\ provider_calls w' = provider_calls w.

(** ** The model properties and read-only views outside the routes above *)

(** [WebhookEndpoint.success_rate] *)
Definition WebhookEndpoint_success_rate (self : WebhookEndpoint.t) : res num :=
  if WebhookEndpoint.total_requests self =? 0 then Ok (PyInt 0)
  else
    let? ratio := truediv (PyInt (WebhookEndpoint.successful_requests self))
                          (PyInt (WebhookEndpoint.total_requests self)) in
    let? pct := mul ratio (PyInt 100) in
    Ok (round2 pct).

(** A number between 0 and 100 with at most two decimals. *)
Definition two_decimal_percentage (v : num) : Prop :=
  (0 <= value v <= 100)%Q
  /\ exists hundredths : Z, (value v == inject_Z hundredths / 100)%Q.

(** A workflow with two successes in three executions. *)
Definition two_of_three : AutomationWorkflow.t :=
  {| AutomationWorkflow.user := 1;
     AutomationWorkflow.name := "orders";
     AutomationWorkflow.description := "";
     AutomationWorkflow.status := "active";
     AutomationWorkflow.trigger_type := "manual";
     AutomationWorkflow.trigger_config := JObj [];
     AutomationWorkflow.ai_instructions := "";
     AutomationWorkflow.use_ai_processing := false;
     AutomationWorkflow.ai_model_preference := "auto";
     AutomationWorkflow.total_executions := 3;
     AutomationWorkflow.successful_executions := 2;
     AutomationWorkflow.failed_executions := 1;
     AutomationWorkflow.last_executed := None;
     AutomationWorkflow.business_hours_only := true;
     AutomationWorkflow.language_context := "mixed";
     AutomationWorkflow.created_at := Sample.noon;
     AutomationWorkflow.updated_at := Sample.noon |}.

(** [get_queryset] of [AutomationTemplateListView] and
    [AutomationTemplateDetailView] *)
Definition AutomationTemplate_get_queryset (request_user : Z * User.t) (w : World)
    : gmap Z AutomationTemplate.t :=
  let queryset := automation_templates w in
  if String.eqb (User.subscription_tier (snd request_user)) "starter" then
    filter (fun kv : Z * AutomationTemplate.t =>
              AutomationTemplate.is_premium (snd kv) = false) queryset
  else queryset.

(** [get_queryset] of [AITemplateListView] and [AITemplateDetailView] *)
Definition AITemplate_get_queryset (request_user : Z * User.t) (w : World)
    : gmap Z AITemplate.t :=
  let queryset :=
    filter (fun kv : Z * AITemplate.t => AITemplate.is_active (snd kv) = true)
           (ai_templates w) in
  if String.eqb (User.subscription_tier (snd request_user)) "starter" then
    filter (fun kv : Z * AITemplate.t => AITemplate.is_premium (snd kv) = false)
           queryset
  else queryset.

(** [get_queryset] of [AIModelListView] *)
Definition AIModel_get_queryset (request_user : Z * User.t) (w : World)
    : gmap Z AIModel.t :=
  let queryset :=
    filter (fun kv : Z * AIModel.t => AIModel.is_active (snd kv) = true)
           (ai_models w) in
  if String.eqb (User.subscription_tier (snd request_user)) "starter" then
    filter (fun kv : Z * AIModel.t =>
              AIModel.min_subscription_tier (snd kv) = "starter"%string) queryset
  else if String.eqb (User.subscription_tier (snd request_user)) "business" then
    filter (fun kv : Z * AIModel.t =>
              AIModel.min_subscription_tier (snd kv) = "starter"%string
              \/ AIModel.min_subscription_tier (snd kv) = "business"%string)
           queryset
  else queryset.

(** The object of a detail view ([RetrieveAPIView]) on these querysets. *)
Definition AutomationTemplateDetailView (request_user : Z * User.t) (pk : Z)
    (w : World) : res (Z * AutomationTemplate.t) :=
  get_object_or_404 (AutomationTemplate_get_queryset request_user w) pk.

Definition AITemplateDetailView (request_user : Z * User.t) (pk : Z)
    (w : World) : res (Z * AITemplate.t) :=
  get_object_or_404 (AITemplate_get_queryset request_user w) pk.

(** Further sample data. *)
Module Cases.

(** A pro account. *)
Definition dana : User.t :=
  User.Build "dana@agency.ph" "" "Dana Agency" "pro" 0 "agency" "en".

(** A model for business accounts and upwards that is on no priority
    list. *)
Definition mixtral : AIModel.t :=
  AIModel.Build Sample.provider "Mixtral" "mistralai/mixtral-8x7b" "chat"
    "advanced" "business" true.

Definition world_two_models : World :=
  {| users := <[4 := dana]> (users Sample.world);
     ai_models := <[8 := mixtral]> (ai_models Sample.world);
     ai_requests := ai_requests Sample.world;
     ai_templates := ai_templates Sample.world;
     ai_usage_quotas := ai_usage_quotas Sample.world;
     automation_workflows := automation_workflows Sample.world;
     automation_actions := automation_actions Sample.world;
     workflow_executions := workflow_executions Sample.world;
     automation_templates := automation_templates Sample.world;
     integrations := integrations Sample.world;
     integration_logs := integration_logs Sample.world;
     webhook_endpoints := webhook_endpoints Sample.world;
     provider_calls := provider_calls Sample.world |}.

End Cases.

(** The four routes that ask for AI processing. *)
Definition ai_post (rq : Request) : Prop :=
  match rq with
  | POST_email_to_task _ | POST_generate_content _
  | POST_analyze_text _ | POST_custom_request _ => True
  | _ => False
  end.

Module QuotaCases.

(** A quota row of alice for March 2025 that is used up. *)
Definition used_up : AIUsageQuota.t :=
  {| AIUsageQuota.user := 1;
     AIUsageQuota.period_type := "monthly";
     AIUsageQuota.period_start := month_start_of Sample.noon;
     AIUsageQuota.period_end := month_end_of (month_start_of Sample.noon);
     AIUsageQuota.max_requests := 1000;
     AIUsageQuota.max_tokens := 1000000;
     AIUsageQuota.max_cost_usd := PyDecimal 10;
     AIUsageQuota.current_requests := 40;
     AIUsageQuota.current_tokens := 1000000;
     AIUsageQuota.current_cost_usd := PyDecimal 1;
     AIUsageQuota.is_exceeded := true |}.

Definition world_used_up : World :=
  with_ai_usage_quotas (insert 0 used_up) Sample.world.

(** The sample data without any model. *)
Definition world_no_models : World :=
  {| users := users Sample.world;
     ai_models := ∅;
     ai_requests := ai_requests Sample.world;
     ai_templates := ai_templates Sample.world;
     ai_usage_quotas := ai_usage_quotas Sample.world;
     automation_workflows := automation_workflows Sample.world;
     automation_actions := automation_actions Sample.world;
     workflow_executions := workflow_executions Sample.world;
     automation_templates := automation_templates Sample.world;
     integrations := integrations Sample.world;
     integration_logs := integration_logs Sample.world;
     webhook_endpoints := webhook_endpoints Sample.world;
     provider_calls := provider_calls Sample.world |}.

Definition post : SocialContentData :=
  {| business_update := "New branch opens on Monday";
     platform := "facebook";
     tone := "friendly";
     include_hashtags := true;
     include_call_to_action := true;
     target_audience := None |}.

End QuotaCases.

(** [requests_kept w w']: every AI request record of [w] is in [w'],
    unchanged. *)
Definition requests_kept (w w' : World) : Prop :=
  forall k r, ai_requests w !! k = Some r -> ai_requests w' !! k = Some r.

(** [users_step w w']: the accounts are the same, and an account differs
    at most in [monthly_ai_calls], which has not gone down. *)
Definition users_step (w w' : World) : Prop :=
  forall k,
    match users w !! k, users w' !! k with
    | Some u, Some u' =>
        u' = User.set_monthly_ai_calls (User.monthly_ai_calls u') u
        /\ User.monthly_ai_calls u <= User.monthly_ai_calls u'
    | None, None => True
    | _, _ => False
    end.

Module Served.

(** The sample data after one email-to-task request of alice, and two
    requests that follow it. *)
Definition after_one_email : World :=
  snd (handle Sample.env Sample.noon 120 1 (POST_email_to_task Sample.email)
         Sample.world).

Definition later : list Arrival :=
  [ {| arr_user := 1; arr_now := Sample.noon; arr_elapsed_ms := 90;
       arr_request := POST_email_to_task Sample.email |};
    {| arr_user := 2; arr_now := Sample.noon; arr_elapsed_ms := 0;
       arr_request := GET_ai_requests 1 |} ].

(** An AI template, and a custom request that uses it. *)
Definition reply_template : AITemplate.t :=
  {| AITemplate.name := "Polite reply";
     AITemplate.description := "";
     AITemplate.category := "customer_service";
     AITemplate.business_context := "general";
     AITemplate.system_prompt := "You answer customers.";
     AITemplate.user_prompt_template := "Reply to: {message}";
     AITemplate.usage_count := 4;
     AITemplate.success_rate := 100;
     AITemplate.is_active := true;
     AITemplate.is_premium := false |}.

Definition world_with_template : World :=
  with_ai_templates (insert 9 reply_template) Sample.world.

Definition custom : CustomAIRequestData :=
  {| template_id := 9;
     input_variables := JObj [("message", JStr "Magkano po?")]%string;
     custom_instructions := "" |}.

End Served.

(** ** Columns that the server fills in *)

(** [unwritten rows col init w w']: between [w] and [w'] nothing has
    written the column [col] of the table [rows] but the creation of a
    row, which sets it to [init].  A row of [w'] has the value of the row
    that [w] has under the same key, or [init]. *)
Definition unwritten {Row X} (rows : World -> gmap Z Row) (col : Row -> X)
    (init : X) (w w' : World) : Prop :=
  forall k r',
    rows w' !! k = Some r' ->
    col r' = init \/ exists r, rows w !! k = Some r /\ col r' = col r.

(** The columns under [# Statistics] of a workflow. *)
Definition workflow_statistics (r : AutomationWorkflow.t)
    : Z * Z * Z * option datetime :=
  (AutomationWorkflow.total_executions r,
   AutomationWorkflow.successful_executions r,
   AutomationWorkflow.failed_executions r,
   AutomationWorkflow.last_executed r).

(** The refresh token, the health status and the usage statistics of an
    integration. *)
Definition integration_monitoring (r : Integration.t)
    : string * string * Z * Z * Z :=
  (Integration.refresh_token r,
   Integration.health_status r,
   Integration.total_requests r,
   Integration.successful_requests r,
   Integration.failed_requests r).

(** The columns under [# Statistics] of a webhook endpoint. *)
Definition webhook_statistics (r : WebhookEndpoint.t) : Z * Z * Z :=
  (WebhookEndpoint.total_requests r,
   WebhookEndpoint.successful_requests r,
   WebhookEndpoint.failed_requests r).

Module Tokens.

(** Alice adds an integration, renames the one she has, and bob deletes
    his. *)
Definition shopee : IntegrationCreateData :=
  {| icd_name := "Shop";
     icd_integration_type := "shopee";
     icd_service_name := "Shopee";
     icd_service_url := "";
     icd_config_data := JObj [];
     icd_api_key := "key";
     icd_api_secret := "secret";
     icd_webhook_secret := "" |}.

Definition rename : IntegrationUpdateData :=
  {| iud_name := Some "GCash store"%string;
     iud_integration_type := None;
     iud_service_name := None;
     iud_service_url := None;
     iud_config_data := None;
     iud_is_active := None |}.

Definition arrivals : list Arrival :=
  [ {| arr_user := 1; arr_now := Sample.noon; arr_elapsed_ms := 0;
       arr_request := POST_integrations (Some shopee) |};
    {| arr_user := 1; arr_now := Sample.noon; arr_elapsed_ms := 0;
       arr_request := PUT_integration 20 (Some rename) |};
    {| arr_user := 2; arr_now := Sample.noon; arr_elapsed_ms := 0;
       arr_request := DELETE_integration 21 |} ].

End Tokens.

Module Faulty.

(** A template whose second action has no ['action_type']. *)
Definition step (name : string) (action_type : option string) : ActionConfig :=
  {| ac_name := Some name;
     ac_action_type := action_type;
     ac_action_config := None;
     ac_order := None;
     ac_ai_enhanced := None;
     ac_ai_prompt_template := None |}.

Definition template : AutomationTemplate.t :=
  {| AutomationTemplate.name := "Order confirmation";
     AutomationTemplate.description := "";
     AutomationTemplate.business_type := "ecommerce";
     AutomationTemplate.category := "inventory_orders";
     AutomationTemplate.workflow_config :=
       {| wc_trigger_type := None;
          wc_trigger_config := None;
          wc_ai_instructions := None;
          wc_use_ai_processing := None;
          wc_language_context := None;
          wc_actions :=
            Some [ step "confirm" (Some "send_email"%string);
                   step "pack" None;
                   step "ship" (Some "send_sms"%string) ] |};
     AutomationTemplate.usage_count := 4;
     AutomationTemplate.is_featured := false;
     AutomationTemplate.is_premium := false |}.

Definition world : World :=
  with_automation_templates (insert 6 template) Sample.world.

End Faulty.

(** ** Foreign keys *)

(** Every row of the table [child] names, in its column [ref], a row of
    the table [parent]. *)
Definition refers {Child Parent} (child : World -> gmap Z Child) (ref : Child -> Z)
    (parent : World -> gmap Z Parent) (w : World) : Prop :=
  map_Forall (fun _ c => is_Some (parent w !! ref c)) (child w).

(** The four foreign keys of [automations/models.py] and
    [integrations/models.py] between tables that the API writes. *)
Definition foreign_keys_hold (w : World) : Prop :=
  refers automation_actions AutomationAction.workflow automation_workflows w
  /\ refers workflow_executions WorkflowExecution.workflow automation_workflows w
  /\ refers integration_logs IntegrationLog.integration integrations w
  /\ refers webhook_endpoints WebhookEndpoint.integration integrations w.

(** [kept P w w']: if [P] holds of [w], it holds of [w']. *)
Definition kept (P : World -> Prop) (w w' : World) : Prop := P w -> P w'.

Module Keys.

(** Alice instantiates the template, adds a workflow, deletes workflow 10
    with its three actions, tests her integration and deletes it. *)
Definition plain : WorkflowCreateData :=
  {| wcd_name := "Weekly report";
     wcd_description := "";
     wcd_trigger_type := "schedule";
     wcd_trigger_config := JObj [];
     wcd_ai_instructions := "";
     wcd_use_ai_processing := false;
     wcd_ai_model_preference := "auto";
     wcd_business_hours_only := true;
     wcd_language_context := "mixed" |}.

Definition at_noon (user : Z) (rq : Request) : Arrival :=
  {| arr_user := user; arr_now := Sample.noon; arr_elapsed_ms := 0;
     arr_request := rq |}.

Definition arrivals : list Arrival :=
  [ at_noon 1 (POST_create_from_template 5 "Reminders");
    at_noon 1 (POST_workflows (Some plain));
    at_noon 1 (POST_workflow_execute 10 []);
    at_noon 1 (DELETE_workflow 10);
    at_noon 1 (POST_integration_test 20 "health_check" (JObj []));
    at_noon 1 (DELETE_integration 20) ].

End Keys.

(** ** One quota row for a user and a period *)

(** The columns of [unique_together] of [AIUsageQuota]. *)
Definition quota_period (q : AIUsageQuota.t) : Z * string * datetime :=
  (AIUsageQuota.user q, AIUsageQuota.period_type q, AIUsageQuota.period_start q).

Definition unique_quotas (w : World) : Prop :=
  forall k1 k2 q1 q2,
    ai_usage_quotas w !! k1 = Some q1 ->
    ai_usage_quotas w !! k2 = Some q2 ->
    quota_period q1 = quota_period q2 ->
    k1 = k2.

Module Created.

Definition action : ActionData :=
  {| ad_name := Some "notify"%string;
     ad_action_type := Some "send_sms"%string;
     ad_action_config := None;
     ad_order := Some 4;
     ad_conditions := None;
     ad_is_conditional := None;
     ad_ai_enhanced := None;
     ad_ai_prompt_template := None;
     ad_retry_on_failure := None;
     ad_max_retries := None;
     ad_delay_seconds := None |}.

End Created.

(** ** The monthly counter and the limit of the subscription *)

Definition within_limit (w : World) : Prop :=
  map_Forall (fun _ u => User.monthly_ai_calls u <= User.ai_usage_limit u)
             (users w).

(** What the request of an authenticated user does to the accounts:
    nothing, or one more call for that user, who could use AI. *)
Definition one_more_call (ru : Z * User.t) (w w' : World) : Prop :=
  users w' = users w
  \/ (User.can_use_ai (snd ru) = true
      /\ users w'
         = <[fst ru := User.set_monthly_ai_calls
                         (User.monthly_ai_calls (snd ru) + 1) (snd ru)]> (users w)).

(** * Properties *)

(** ** Arithmetic of the Python numbers *)

Lemma Qeq_bool_inject_Z_0 (z : Z) : Qeq_bool (inject_Z z) 0 = (z =? 0).
Proof.
  unfold Qeq_bool, inject_Z. simpl.
  rewrite Z.mul_1_r. destruct z; reflexivity.
Qed.

Lemma truediv_int_ok (a b : Z) :
  b <> 0 -> truediv (PyInt a) (PyInt b) = Ok (PyFloat (inject_Z a / inject_Z b)).
Proof.
  intros Hb. unfold truediv. simpl value.
  rewrite Qeq_bool_inject_Z_0.
  destruct (Z.eqb_spec b 0); [contradiction | reflexivity].
Qed.

Lemma truediv_float (x y : Q) :
  truediv (PyFloat x) (PyFloat y)
  = if Qeq_bool y 0 then Raise (ZeroDivisionError "division by zero")
    else Ok (PyFloat (x / y)).
Proof. reflexivity. Qed.

Lemma mul_float_int (x : Q) (z : Z) :
  mul (PyFloat x) (PyInt z) = Ok (PyFloat (x * inject_Z z)).
Proof. reflexivity. Qed.

Lemma min_100_capped (y : num) : (value (Py.min (PyInt 100) y) <= 100)%Q.
Proof.
  unfold Py.min, ltb.
  destruct (Qle_bool (value y) (value (PyInt 100))) eqn:Hle; simpl.
  - destruct (Qeq_bool (value y) (inject_Z 100)); simpl.
    + apply Qle_refl.
    + apply Qle_bool_iff in Hle. exact Hle.
  - apply Qle_refl.
Qed.

(** The percentage of a counter against a maximum that is not zero. *)
Lemma percentage_int_ok (cur mx : Z) :
  mx <> 0 ->
  exists v,
    (let? ratio := truediv (PyInt cur) (PyInt mx) in
     let? pct := mul ratio (PyInt 100) in
     Ok (Py.min (PyInt 100) pct)) = Ok v
    /\ (value v <= 100)%Q.
Proof.
  intros Hmx. rewrite truediv_int_ok by assumption. simpl res_bind.
  eexists. split; [reflexivity | apply min_100_capped].
Qed.

(** ** Rounding to the decimals of a column *)

Lemma round_half_even_near (q : Q) :
  (Qabs (inject_Z (round_half_even q) - q) <= 1 # 2)%Q.
Proof.
  unfold round_half_even.
  pose proof (Qfloor_le q) as Hlo. pose proof (Qlt_floor q) as Hhi.
  rewrite inject_Z_plus in Hhi. change (inject_Z 1) with 1%Q in Hhi.
  set (f := Qfloor q) in *.
  assert (Hres : forall z : Z, z = f \/ z = f + 1 ->
            (z = f -> (q - inject_Z f <= 1 # 2)%Q) ->
            (z = f + 1 -> (1 # 2 <= q - inject_Z f)%Q) ->
            (Qabs (inject_Z z - q) <= 1 # 2)%Q).
  { intros z [-> | ->] H1 H2.
    - specialize (H1 eq_refl). clear H2.
      generalize dependent (inject_Z f). intros x Hlo Hhi H1.
      apply Qabs_Qle_condition. split; lra.
    - assert (H3 : (1 # 2 <= q - inject_Z f)%Q) by (apply H2; reflexivity).
      clear H1 H2. rewrite inject_Z_plus. change (inject_Z 1) with 1%Q.
      generalize dependent (inject_Z f). intros x Hlo Hhi H3.
      apply Qabs_Qle_condition. split; lra. }
  destruct (Qle_bool (q - inject_Z f) (1 # 2)) eqn:Hle; simpl andb.
  - apply Qle_bool_iff in Hle.
    destruct (Qeq_bool (q - inject_Z f) (1 # 2)) eqn:Heq; simpl negb; cbv iota.
    + apply Qeq_bool_iff in Heq.
      destruct (Z.even f); apply Hres; auto; intros _; rewrite Heq;
        apply Qle_refl.
    + apply Hres; auto. intros H. exfalso. lia.
  - assert (Hgt : ~ (q - inject_Z f <= 1 # 2)%Q).
    { intros H. apply Qle_bool_iff in H. congruence. }
    destruct (Qeq_bool (q - inject_Z f) (1 # 2)) eqn:Heq.
    + apply Qeq_bool_iff in Heq. exfalso. apply Hgt. rewrite Heq.
      apply Qle_refl.
    + apply Hres; auto.
      * intros H. exfalso. lia.
      * intros _. apply Qlt_le_weak, Qnot_le_lt, Hgt.
Qed.

Lemma round_half_even_inject_Z (z : Z) (q : Q) :
  (q == inject_Z z)%Q -> round_half_even q = z.
Proof.
  intros H. unfold round_half_even.
  assert (Hf : Qfloor q = z).
  { rewrite (Qfloor_comp _ _ H). apply Qfloor_Z. }
  rewrite Hf.
  assert (H0 : (q - inject_Z z == 0)%Q) by (rewrite H; ring).
  assert (E1 : Qle_bool (q - inject_Z z) (1 # 2) = true)
    by (apply Qle_bool_iff; rewrite H0; discriminate).
  assert (E2 : Qeq_bool (q - inject_Z z) (1 # 2) = false).
  { destruct (Qeq_bool (q - inject_Z z) (1 # 2)) eqn:E; [| reflexivity].
    apply Qeq_bool_iff in E. rewrite H0 in E. discriminate. }
  rewrite E1, E2. reflexivity.
Qed.

Lemma quantize_rounded_to (places : positive) (a : num) :
  rounded_to places (value a) (value (quantize places a)).
Proof.
  unfold rounded_to, quantize. simpl value.
  set (u := (10 ^ places)%positive).
  split; [eexists; reflexivity |].
  pose proof (round_half_even_near (value a * inject_Z (Zpos u))) as H.
  set (n := round_half_even (value a * inject_Z (Z.pos u))) in *.
  assert (Hu : (0 < inject_Z (Zpos u))%Q) by (unfold Qlt; simpl; lia).
  assert (E : ((n # u) - value a
               == (inject_Z n - value a * inject_Z (Zpos u)) / inject_Z (Zpos u))%Q).
  { rewrite Qmake_Qdiv. field. intros H0. rewrite H0 in Hu.
    exact (Qlt_irrefl _ Hu). }
  rewrite E. unfold Qdiv. rewrite Qabs_Qmult.
  rewrite (Qabs_pos (/ inject_Z (Zpos u))).
  2:{ apply Qlt_le_weak, Qinv_lt_0_compat, Hu. }
  assert (E2 : (1 # (2 * u) == (1 # 2) * / inject_Z (Zpos u))%Q).
  { unfold Qeq, Qmult, Qinv, inject_Z. simpl. lia. }
  rewrite E2. apply Qmult_le_compat_r; [exact H |].
  apply Qlt_le_weak, Qinv_lt_0_compat, Hu.
Qed.

Lemma quantize_exact (places : positive) (a : num) (n : Z) :
  (value a == n # 10 ^ places)%Q ->
  (value (quantize places a) == value a)%Q.
Proof.
  intros H. unfold quantize. simpl value.
  rewrite (round_half_even_inject_Z n).
  - symmetry. exact H.
  - rewrite H. rewrite Qmake_Qdiv. field.
    unfold Qeq, inject_Z. simpl. lia.
Qed.

(** A multiple of the unit is kept as it is, whichever way a tie goes. *)
Lemma rounded_to_exact (places : positive) (x stored : Q) (n : Z) :
  rounded_to places x stored -> (x == n # 10 ^ places)%Q -> (stored == x)%Q.
Proof.
  intros [(m & Hm) Hnear] Hx.
  set (u := (10 ^ places)%positive) in *.
  assert (Hd : (stored - x == (m - n) # u)%Q).
  { rewrite Hm, Hx. unfold Qeq, Qminus, Qplus, Qopp. simpl. nia. }
  rewrite Hd in Hnear.
  assert (Hmn : m - n = 0).
  { destruct (Z.eq_dec (m - n) 0) as [E | E]; [exact E | exfalso].
    unfold Qabs, Qle in Hnear. simpl in Hnear.
    assert (1 <= Z.abs (m - n)) by lia. nia. }
  rewrite Hm, Hx. replace m with n by lia. reflexivity.
Qed.

(** ** The derived percentages *)

Lemma cost_percentage_ok (q : AIUsageQuota.t) :
  exists v, AIUsageQuota.cost_percentage q = Ok v
    /\ (Py.eqb (AIUsageQuota.max_cost_usd q) (PyInt 0) = true -> v = PyInt 0)
    /\ (value v <= 100)%Q.
Proof.
  unfold AIUsageQuota.cost_percentage.
  destruct (Py.eqb (AIUsageQuota.max_cost_usd q) (PyInt 0)) eqn:Hz.
  - exists (PyInt 0). repeat split. discriminate.
  - unfold Py.eqb in Hz. change (value (PyInt 0)) with 0%Q in Hz.
    unfold float. rewrite truediv_float, Hz. simpl res_bind.
    eexists. split; [reflexivity |]. split; [discriminate | apply min_100_capped].
Qed.

Lemma rounded_rate_ok (num_ den : Z) :
  exists v,
    (if den =? 0 then Ok (PyInt 0)
     else
       let? ratio := truediv (PyInt num_) (PyInt den) in
       let? pct := mul ratio (PyInt 100) in
       Ok (round2 pct)) = Ok v
    /\ (den = 0 -> v = PyInt 0).
Proof.
  destruct (Z.eqb_spec den 0) as [-> | Hden].
  - exists (PyInt 0). split; reflexivity.
  - rewrite truediv_int_ok by assumption. simpl res_bind.
    eexists. split; [reflexivity | contradiction].
Qed.

Lemma requests_percentage_ok (q : AIUsageQuota.t) :
  exists v, AIUsageQuota.requests_percentage q = Ok v
    /\ (AIUsageQuota.max_requests q = 0 -> v = PyInt 0)
    /\ (value v <= 100)%Q.
Proof.
  unfold AIUsageQuota.requests_percentage.
  destruct (Z.eqb_spec (AIUsageQuota.max_requests q) 0) as [Hz | Hz].
  - exists (PyInt 0). repeat split. discriminate.
  - destruct (percentage_int_ok (AIUsageQuota.current_requests q) _ Hz)
      as (v & Hv & Hcap).
    exists v. repeat split; [exact Hv | contradiction | exact Hcap].
Qed.

(** C10. Every derived percentage returns a value on every record: the
    three quota percentages return 0 when their maximum is 0 and a value
    of at most 100 otherwise; the success rate of a workflow returns 0
    when [total_executions] is 0; the success percentage of an execution
    returns 0 when [actions_completed + actions_failed] is 0.  None of
    them raises [ZeroDivisionError]. *)
Theorem percentages_total_and_guarded :
  (forall q : AIUsageQuota.t,
     exists v, AIUsageQuota.requests_percentage q = Ok v
       /\ (AIUsageQuota.max_requests q = 0 -> v = PyInt 0)
       /\ (value v <= 100)%Q)
  /\ (forall q : AIUsageQuota.t,
        exists v, AIUsageQuota.tokens_percentage q = Ok v
          /\ (AIUsageQuota.max_tokens q = 0 -> v = PyInt 0)
          /\ (value v <= 100)%Q)
  /\ (forall q : AIUsageQuota.t,
        exists v, AIUsageQuota.cost_percentage q = Ok v
          /\ (Py.eqb (AIUsageQuota.max_cost_usd q) (PyInt 0) = true -> v = PyInt 0)
          /\ (value v <= 100)%Q)
  /\ (forall wf : AutomationWorkflow.t,
        exists v, AutomationWorkflow.success_rate wf = Ok v
          /\ (AutomationWorkflow.total_executions wf = 0 -> v = PyInt 0))
  /\ (forall e : WorkflowExecution.t,
        exists v, WorkflowExecution.success_percentage e = Ok v
          /\ (WorkflowExecution.actions_completed e
              + WorkflowExecution.actions_failed e = 0 -> v = PyInt 0)).
Proof.
  repeat split.
  - exact requests_percentage_ok.
  - intros q. unfold AIUsageQuota.tokens_percentage.
    destruct (Z.eqb_spec (AIUsageQuota.max_tokens q) 0) as [Hz | Hz].
    + exists (PyInt 0). repeat split. discriminate.
    + destruct (percentage_int_ok (AIUsageQuota.current_tokens q) _ Hz)
        as (v & Hv & Hcap).
      exists v. repeat split; [exact Hv | contradiction | exact Hcap].
  - apply cost_percentage_ok.
  - intros wf. apply rounded_rate_ok.
  - intros e. apply rounded_rate_ok.
Qed.

(** ** [update_usage] and the admission check *)

Lemma iadd_float_value (a : num) (x : Q) (c : num) :
  iadd a (PyFloat x) = Ok c -> c = PyFloat (value a + x).
Proof.
  destruct a; unfold iadd, add_op; simpl; intros H; inversion H; reflexivity.
Qed.

Lemma iadd_decimal_float (d x : Q) :
  iadd (PyDecimal d) (PyFloat x)
  = Raise (TypeError
      "unsupported operand type(s) for +=: 'decimal.Decimal' and 'float'").
Proof. reflexivity. Qed.

(** When the addition on the cost is defined, [update_usage] adds the
    three increments, recomputes the flag from the new counters and
    saves the row. *)
Lemma update_usage_adds (self : Z * AIUsageQuota.t) (requests tokens : Z)
    (cost_usd cost' : num) (w : World) :
  iadd (AIUsageQuota.current_cost_usd (snd self)) cost_usd = Ok cost' ->
  exists q',
    update_usage self requests tokens cost_usd w
    = (Ok (fst self, q'),
       with_ai_usage_quotas (insert (fst self) (AIUsageQuota.to_db q')) w)
    /\ AIUsageQuota.current_requests q'
       = AIUsageQuota.current_requests (snd self) + requests
    /\ AIUsageQuota.current_tokens q'
       = AIUsageQuota.current_tokens (snd self) + tokens
    /\ AIUsageQuota.current_cost_usd q' = cost'
    /\ AIUsageQuota.max_requests q' = AIUsageQuota.max_requests (snd self)
    /\ AIUsageQuota.max_tokens q' = AIUsageQuota.max_tokens (snd self)
    /\ AIUsageQuota.max_cost_usd q' = AIUsageQuota.max_cost_usd (snd self)
    /\ AIUsageQuota.is_exceeded q'
       = ((AIUsageQuota.max_requests q' <=? AIUsageQuota.current_requests q')
          || (AIUsageQuota.max_tokens q' <=? AIUsageQuota.current_tokens q')
          || geb (AIUsageQuota.current_cost_usd q') (AIUsageQuota.max_cost_usd q'))%bool.
Proof.
  intros Hadd.
  unfold update_usage, AIUsageQuota.updated, bind, lift_res.
  rewrite Hadd. simpl.
  eexists. split; [reflexivity |]. simpl. repeat split; reflexivity.
Qed.

(** A cost column read from the database is a [Decimal]; the services
    pass [float(cost_usd)].  The [+=] raises and nothing is saved. *)
Lemma update_usage_decimal_float (pk : Z) (q : AIUsageQuota.t) (d x : Q)
    (requests tokens : Z) (w : World) :
  AIUsageQuota.current_cost_usd q = PyDecimal d ->
  update_usage (pk, q) requests tokens (PyFloat x) w
  = (Raise (TypeError
       "unsupported operand type(s) for +=: 'decimal.Decimal' and 'float'"), w).
Proof.
  intros Hd. unfold update_usage, AIUsageQuota.updated, bind, lift_res.
  simpl. rewrite Hd. reflexivity.
Qed.

(** C2, at the input that the services produce.  The quota row of the
    month is read back from the database, one request with 150 tokens and
    a cost of 0.0002 (a float, as [process_email_to_task] passes it) is to
    be added: [update_usage] raises [TypeError], the row keeps
    [current_requests = 999], [current_tokens = 150] and its cost, and
    [is_exceeded] is not recomputed. *)
Theorem update_usage_stored_row_float_cost :
  update_usage (0, Sample.stored_quota) 1 150 (PyFloat (2 # 10000))
    Sample.world_with_quota
  = (Raise (TypeError
       "unsupported operand type(s) for +=: 'decimal.Decimal' and 'float'"),
     Sample.world_with_quota)
  /\ ai_usage_quotas Sample.world_with_quota !! 0 = Some Sample.stored_quota.
Proof.
  split.
  - apply (update_usage_decimal_float 0 Sample.stored_quota (2 # 10000)).
    reflexivity.
  - reflexivity.
Qed.

(** ** [toggle_workflow_status] *)

Lemma workflow_queryset_lookup (ru : Z * User.t) (w : World) (k : Z)
    (wf : AutomationWorkflow.t) :
  Workflow_get_queryset ru w !! k = Some wf
  <-> automation_workflows w !! k = Some wf
      /\ AutomationWorkflow.user wf = fst ru.
Proof.
  unfold Workflow_get_queryset. rewrite map_lookup_filter_Some. simpl. tauto.
Qed.

Lemma toggle_twice_row (now1 now2 : datetime) (s1 s2 : string)
    (wf : AutomationWorkflow.t) :
  AutomationWorkflow.status wf = s2 ->
  AutomationWorkflow.set_updated_at now2
    (AutomationWorkflow.set_status s2
       (AutomationWorkflow.set_updated_at now1
          (AutomationWorkflow.set_status s1 wf)))
  = AutomationWorkflow.set_updated_at now2 wf.
Proof. intros <-. destruct wf. reflexivity. Qed.

Lemma toggle_active (now : datetime) (ru : Z * User.t) (k : Z)
    (wf : AutomationWorkflow.t) (w : World) :
  Workflow_get_queryset ru w !! k = Some wf ->
  AutomationWorkflow.status wf = "active"%string ->
  toggle_workflow_status now ru k w
  = (Ok (respond HTTP_200_OK
           (Message "Workflow paused successfully"
              [("status", JStr "paused")]%string)),
     with_automation_workflows
       (insert k (AutomationWorkflow.set_updated_at now
                    (AutomationWorkflow.set_status "paused" wf))) w).
Proof.
  intros Hq Hs.
  unfold toggle_workflow_status, bind, gets, lift_res, get_object_or_404.
  rewrite Hq. simpl. rewrite Hs. reflexivity.
Qed.

Lemma toggle_paused (now : datetime) (ru : Z * User.t) (k : Z)
    (wf : AutomationWorkflow.t) (w : World) :
  Workflow_get_queryset ru w !! k = Some wf ->
  AutomationWorkflow.status wf = "paused"%string ->
  toggle_workflow_status now ru k w
  = (Ok (respond HTTP_200_OK
           (Message "Workflow activated successfully"
              [("status", JStr "active")]%string)),
     with_automation_workflows
       (insert k (AutomationWorkflow.set_updated_at now
                    (AutomationWorkflow.set_status "active" wf))) w).
Proof.
  intros Hq Hs.
  unfold toggle_workflow_status, bind, gets, lift_res, get_object_or_404.
  rewrite Hq. simpl. rewrite Hs. reflexivity.
Qed.

Lemma toggle_other (now : datetime) (ru : Z * User.t) (k : Z)
    (wf : AutomationWorkflow.t) (w : World) :
  Workflow_get_queryset ru w !! k = Some wf ->
  AutomationWorkflow.status wf <> "active"%string ->
  AutomationWorkflow.status wf <> "paused"%string ->
  toggle_workflow_status now ru k w
  = (Ok (respond HTTP_400_BAD_REQUEST (Error "Cannot toggle disabled workflow")), w).
Proof.
  intros Hq Ha Hp.
  unfold toggle_workflow_status, bind, gets, lift_res, get_object_or_404.
  rewrite Hq. simpl.
  destruct (String.eqb_spec (AutomationWorkflow.status wf) "active");
    [contradiction |].
  destruct (String.eqb_spec (AutomationWorkflow.status wf) "paused");
    [contradiction | reflexivity].
Qed.

Lemma toggled_in_queryset (ru : Z * User.t) (k : Z) (now : datetime) (s : string)
    (wf : AutomationWorkflow.t) (w : World) :
  Workflow_get_queryset ru w !! k = Some wf ->
  Workflow_get_queryset ru
    (with_automation_workflows
       (insert k (AutomationWorkflow.set_updated_at now
                    (AutomationWorkflow.set_status s wf))) w) !! k
  = Some (AutomationWorkflow.set_updated_at now (AutomationWorkflow.set_status s wf)).
Proof.
  rewrite !workflow_queryset_lookup. intros [_ Hu]. destruct w. simpl.
  split; [apply lookup_insert_eq | exact Hu].
Qed.

Lemma with_automation_workflows_insert_twice (k : Z)
    (x y : AutomationWorkflow.t) (w : World) :
  with_automation_workflows (insert k x) (with_automation_workflows (insert k y) w)
  = with_automation_workflows (insert k x) w.
Proof. destruct w. simpl. f_equal. apply insert_insert_eq. Qed.

Lemma same_but_status_and_updated_at_set (now : datetime) (s : string)
    (wf : AutomationWorkflow.t) :
  same_but_status_and_updated_at wf
    (AutomationWorkflow.set_updated_at now (AutomationWorkflow.set_status s wf)).
Proof. destruct wf. repeat split. Qed.

Lemma only_workflow_written_insert (k : Z) (row : AutomationWorkflow.t)
    (w : World) :
  only_workflow_written k row w (with_automation_workflows (insert k row) w).
Proof.
  destruct w. unfold only_workflow_written. simpl.
  split; [apply lookup_insert_eq |].
  split; [intros j Hj; apply lookup_insert_ne; congruence |].
  repeat split.
Qed.

(** C9. For a workflow [wf] that the requester owns, stored under [k]:
    - when its status is ['active'] the answer is 200 with the message
      'Workflow paused successfully' and the field ['status'] equal to
      ['paused']; the row stored under [k] afterwards has status
      ['paused'], [updated_at] equal to the time of the call and every
      other column as in [wf]; nothing else of the database changes; a
      second call then answers 200 with 'Workflow activated successfully'
      and ['status'] ['active'], and leaves a row with the status of [wf],
      ['active'], the time of the second call in [updated_at] and every
      other column as in [wf];
    - the same with ['paused'] and ['active'] exchanged;
    - when its status is ['disabled'] the answer is 400 with the error
      'Cannot toggle disabled workflow' and the database is unchanged;
    - whatever the status, the database after the call is the one before
      it or differs from it in the row [k] of the workflows only, and
      there in [status] and [updated_at] only.
    For a key that is not in the requester's workflows the view raises
    [Http404] and writes nothing. *)
Theorem toggle_workflow_status_spec (now now2 : datetime) (ru : Z * User.t)
    (k : Z) (w : World) :
  (forall wf,
     Workflow_get_queryset ru w !! k = Some wf ->
     (AutomationWorkflow.status wf = "active"%string ->
      exists row w1,
        toggle_workflow_status now ru k w
        = (Ok {| status_code := 200;
                 data := Message "Workflow paused successfully"
                           [("status", JStr "paused")]%string |}, w1)
        /\ only_workflow_written k row w w1
        /\ AutomationWorkflow.status row = "paused"%string
        /\ AutomationWorkflow.updated_at row = now
        /\ same_but_status_and_updated_at wf row
        /\ exists row2 w2,
             toggle_workflow_status now2 ru k w1
             = (Ok {| status_code := 200;
                      data := Message "Workflow activated successfully"
                                [("status", JStr "active")]%string |}, w2)
             /\ only_workflow_written k row2 w w2
             /\ AutomationWorkflow.status row2 = "active"%string
             /\ AutomationWorkflow.status row2 = AutomationWorkflow.status wf
             /\ AutomationWorkflow.updated_at row2 = now2
             /\ same_but_status_and_updated_at wf row2)
     /\ (AutomationWorkflow.status wf = "paused"%string ->
         exists row w1,
           toggle_workflow_status now ru k w
           = (Ok {| status_code := 200;
                    data := Message "Workflow activated successfully"
                              [("status", JStr "active")]%string |}, w1)
           /\ only_workflow_written k row w w1
           /\ AutomationWorkflow.status row = "active"%string
           /\ AutomationWorkflow.updated_at row = now
           /\ same_but_status_and_updated_at wf row
           /\ exists row2 w2,
                toggle_workflow_status now2 ru k w1
                = (Ok {| status_code := 200;
                         data := Message "Workflow paused successfully"
                                   [("status", JStr "paused")]%string |}, w2)
                /\ only_workflow_written k row2 w w2
                /\ AutomationWorkflow.status row2 = "paused"%string
                /\ AutomationWorkflow.status row2 = AutomationWorkflow.status wf
                /\ AutomationWorkflow.updated_at row2 = now2
                /\ same_but_status_and_updated_at wf row2)
     /\ (AutomationWorkflow.status wf = "disabled"%string ->
         toggle_workflow_status now ru k w
         = (Ok {| status_code := 400;
                  data := Error "Cannot toggle disabled workflow" |}, w))
     /\ (exists r w1,
           toggle_workflow_status now ru k w = (Ok r, w1)
           /\ (w1 = w
               \/ exists row,
                    only_workflow_written k row w w1
                    /\ same_but_status_and_updated_at wf row)))
  /\ (Workflow_get_queryset ru w !! k = None ->
      toggle_workflow_status now ru k w = (Raise Http404, w)).
Proof.
  split.
  - intros wf Hq. repeat split.
    + intros Hs. rewrite (toggle_active now ru k wf w Hq Hs).
      eexists _, _. split; [reflexivity |].
      split; [apply only_workflow_written_insert |].
      split; [destruct wf; reflexivity |].
      split; [destruct wf; reflexivity |].
      split; [apply same_but_status_and_updated_at_set |].
      pose proof (toggled_in_queryset ru k now "paused" wf w Hq) as Hq1.
      rewrite (toggle_paused now2 ru k _ _ Hq1 eq_refl).
      rewrite with_automation_workflows_insert_twice.
      rewrite (toggle_twice_row now now2 "paused" "active" wf Hs).
      eexists _, _. split; [reflexivity |].
      split; [apply only_workflow_written_insert |].
      split; [destruct wf; exact Hs |].
      split; [destruct wf; reflexivity |].
      split; [destruct wf; reflexivity |].
      destruct wf; repeat split.
    + intros Hs. rewrite (toggle_paused now ru k wf w Hq Hs).
      eexists _, _. split; [reflexivity |].
      split; [apply only_workflow_written_insert |].
      split; [destruct wf; reflexivity |].
      split; [destruct wf; reflexivity |].
      split; [apply same_but_status_and_updated_at_set |].
      pose proof (toggled_in_queryset ru k now "active" wf w Hq) as Hq1.
      rewrite (toggle_active now2 ru k _ _ Hq1 eq_refl).
      rewrite with_automation_workflows_insert_twice.
      rewrite (toggle_twice_row now now2 "active" "paused" wf Hs).
      eexists _, _. split; [reflexivity |].
      split; [apply only_workflow_written_insert |].
      split; [destruct wf; exact Hs |].
      split; [destruct wf; reflexivity |].
      split; [destruct wf; reflexivity |].
      destruct wf; repeat split.
    + intros Hs.
      apply (toggle_other now ru k wf w Hq); rewrite Hs; discriminate.
    + destruct (String.eqb_spec (AutomationWorkflow.status wf) "active")
        as [Ha | Ha].
      { rewrite (toggle_active now ru k wf w Hq Ha).
        eexists _, _. split; [reflexivity |]. right. eexists.
        split; [apply only_workflow_written_insert |].
        apply same_but_status_and_updated_at_set. }
      destruct (String.eqb_spec (AutomationWorkflow.status wf) "paused")
        as [Hp | Hp].
      { rewrite (toggle_paused now ru k wf w Hq Hp).
        eexists _, _. split; [reflexivity |]. right. eexists.
        split; [apply only_workflow_written_insert |].
        apply same_but_status_and_updated_at_set. }
      rewrite (toggle_other now ru k wf w Hq Ha Hp).
      eexists _, _. split; [reflexivity |]. left. reflexivity.
  - intros Hq.
    unfold toggle_workflow_status, bind, gets, lift_res, get_object_or_404.
    rewrite Hq. reflexivity.
Qed.

(** Alice pauses her active workflow 10 and activates it again. *)
Lemma toggle_workflow_status_spec_witness :
  Workflow_get_queryset (1, Sample.alice) Sample.world !! 10
  = Some (Sample.workflow_of 1 "active" false)
  /\ exists row w1,
       toggle_workflow_status Sample.noon (1, Sample.alice) 10 Sample.world
       = (Ok {| status_code := 200;
                data := Message "Workflow paused successfully"
                          [("status", JStr "paused")]%string |}, w1)
       /\ automation_workflows w1 !! 10 = Some row
       /\ AutomationWorkflow.status row = "paused"%string
       /\ AutomationWorkflow.name row = "Invoice follow-up"%string.
Proof.
  assert (H : Workflow_get_queryset (1, Sample.alice) Sample.world !! 10
              = Some (Sample.workflow_of 1 "active" false))
    by (vm_compute; reflexivity).
  split; [exact H |].
  destruct (toggle_workflow_status_spec Sample.noon Sample.noon
              (1, Sample.alice) 10 Sample.world) as (Hown & _).
  destruct (Hown _ H) as (Ha & _).
  destruct (Ha eq_refl) as (row & w1 & E & Hw & S & _ & Hsame & _).
  exists row, w1. split; [exact E |].
  split; [exact (proj1 Hw) |]. split; [exact S |].
  destruct Hsame as (_ & Hname & _). symmetry. exact Hname.
Defined.

(** ** Reasoning about computations *)

Lemma bind_inv {S A B} (c : M S A) (k : A -> M S B) (s s' : S) (r : res B) :
  bind c k s = (r, s') ->
  (exists a s1, c s = (Ok a, s1) /\ k a s1 = (r, s'))
  \/ (exists e, c s = (Raise e, s') /\ r = Raise e).
Proof.
  unfold bind. destruct (c s) as [[a | e] s1]; intros H.
  - left. eauto.
  - right. inversion H; subst. eauto.
Qed.

Lemma bind_Ok_inv {S A B} (c : M S A) (k : A -> M S B) (s s' : S) (b : B) :
  bind c k s = (Ok b, s') ->
  exists a s1, c s = (Ok a, s1) /\ k a s1 = (Ok b, s').
Proof.
  intros H. apply bind_inv in H as [H | (e & _ & H)]; [exact H | discriminate].
Qed.

Lemma try_except_inv {S A} (c : M S A) (h : exn -> M S A) (s s' : S) (r : res A) :
  try_except c h s = (r, s') ->
  (exists a, c s = (Ok a, s') /\ r = Ok a)
  \/ (exists e s1, c s = (Raise e, s1) /\ h e s1 = (r, s')).
Proof.
  unfold try_except. destruct (c s) as [[a | e] s1]; intros H.
  - left. inversion H; subst. eauto.
  - right. eauto.
Qed.

Lemma preserves_ret {S A X} (f : S -> X) (a : A) : preserves f (ret a).
Proof. intros s r s' H. inversion H. reflexivity. Qed.

Lemma preserves_raise {S A X} (f : S -> X) (e : exn) :
  preserves f (@raise S A e).
Proof. intros s r s' H. inversion H. reflexivity. Qed.

Lemma preserves_lift_res {S A X} (f : S -> X) (x : res A) :
  preserves f (@lift_res S A x).
Proof. intros s r s' H. inversion H. reflexivity. Qed.

Lemma preserves_gets {S A X} (f : S -> X) (g : S -> A) : preserves f (gets g).
Proof. intros s r s' H. inversion H. reflexivity. Qed.

Lemma preserves_bind {S A B X} (f : S -> X) (c : M S A) (k : A -> M S B) :
  preserves f c -> (forall a, preserves f (k a)) -> preserves f (bind c k).
Proof.
  intros Hc Hk s r s' H.
  apply bind_inv in H as [(a & s1 & H1 & H2) | (e & H1 & _)].
  - rewrite (Hk a _ _ _ H2). exact (Hc _ _ _ H1).
  - exact (Hc _ _ _ H1).
Qed.

Lemma preserves_try_except {S A X} (f : S -> X) (c : M S A) (h : exn -> M S A) :
  preserves f c -> (forall e, preserves f (h e)) -> preserves f (try_except c h).
Proof.
  intros Hc Hh s r s' H.
  apply try_except_inv in H as [(a & H1 & _) | (e & s1 & H1 & H2)].
  - exact (Hc _ _ _ H1).
  - rewrite (Hh e _ _ _ H2). exact (Hc _ _ _ H1).
Qed.

Lemma preserves_modify {S X} (f : S -> X) (g : S -> S) :
  (forall s, f (g s) = f s) -> preserves f (modify g).
Proof. intros Hg s r s' H. inversion H. apply Hg. Qed.

Lemma preserves_lift_db {L A X} (f : World -> X) (c : M World A) :
  preserves f c -> preserves (fun s : L * World => f (snd s)) (lift_db c).
Proof.
  intros Hc [l w] r s' H. unfold lift_db in H. simpl in H.
  destruct (c w) as [r1 w1] eqn:E. inversion H; subst. simpl.
  exact (Hc _ _ _ E).
Qed.

Lemma preserves_local {L X} (f : World -> X) :
  preserves (fun s : L * World => f (snd s)) local.
Proof. intros s r s' H. inversion H. reflexivity. Qed.

Lemma preserves_assign {L X} (f : World -> X) (g : L -> L) :
  preserves (fun s : L * World => f (snd s)) (assign g).
Proof. intros s r s' H. inversion H. reflexivity. Qed.

Lemma preserves_with_local {L A X} (f : World -> X) (l : L) (c : M (L * World) A) :
  preserves (fun s : L * World => f (snd s)) c -> preserves f (with_local l c).
Proof.
  intros Hc w r w' H. unfold with_local in H.
  destruct (c (l, w)) as [r1 s1] eqn:E. inversion H; subst.
  exact (Hc _ _ _ E).
Qed.

(** A computation that returns the state it was given. *)
Lemma preserves_reader {S A X} (f : S -> X) (c : M S A) :
  (forall s, snd (c s) = s) -> preserves f c.
Proof. intros Hc s r s' H. specialize (Hc s). rewrite H in Hc. simpl in Hc. now subst. Qed.

Section Frame.

Context {Row X : Type}.
Variable f : World -> X.
Variable rows : World -> gmap Z Row.
Variable with_rows : (gmap Z Row -> gmap Z Row) -> World -> World.
Hypothesis frame : forall g w, f (with_rows g w) = f w.

Lemma preserves_objects_create (r : Row) :
  preserves f (objects_create rows with_rows r).
Proof. intros s x s' H. inversion H. apply frame. Qed.

Lemma preserves_save (x : Z * Row) : preserves f (save with_rows x).
Proof. apply preserves_modify. intros s. apply frame. Qed.

Lemma preserves_save_update_fields (pk : Z) (upd : Row -> Row) :
  preserves f (save_update_fields rows with_rows pk upd).
Proof.
  intros s x s' H. unfold save_update_fields in H.
  destruct (rows s !! pk); inversion H; [apply frame | reflexivity].
Qed.

Lemma preserves_delete_row (pk : Z) : preserves f (delete_row with_rows pk).
Proof. apply preserves_modify. intros s. apply frame. Qed.

End Frame.

(** The computations that only read. *)

Lemma authenticate_reads (user : Z) (s : World) : snd (authenticate user s) = s.
Proof. unfold authenticate. destruct (users s !! user); reflexivity. Qed.

Lemma get_available_model_reads (tier model_type : string) (s : World) :
  snd (get_available_model tier model_type s) = s.
Proof.
  unfold get_available_model.
  destruct (first_preferred _ _ _) as [[m |] | e]; reflexivity.
Qed.

Lemma valid_integration_pk_reads (pk : option Z) (s : World) :
  snd (valid_integration_pk pk s) = s.
Proof.
  unfold valid_integration_pk. destruct pk as [k |]; [| reflexivity].
  destruct (integrations s !! k); reflexivity.
Qed.

Lemma CustomAIRequestSerializer_reads (ru : Z * User.t) (d : CustomAIRequestData)
    (s : World) :
  snd (CustomAIRequestSerializer_is_valid ru d s) = s.
Proof.
  unfold CustomAIRequestSerializer_is_valid.
  destruct (queryset_get _) as [t | e].
  - destruct (_ && _)%bool; reflexivity.
  - destruct e; reflexivity.
Qed.

Lemma CreateWorkflowFromTemplateSerializer_reads (ru : Z * User.t) (k : Z)
    (s : World) :
  snd (CreateWorkflowFromTemplateSerializer_is_valid ru k s) = s.
Proof.
  unfold CreateWorkflowFromTemplateSerializer_is_valid.
  destruct (automation_templates s !! k) as [t |]; [| reflexivity].
  destruct (_ && _)%bool; reflexivity.
Qed.

Lemma preserves_is_valid {A X} (f : World -> X) (d : option A) :
  preserves f (is_valid d).
Proof. destruct d; [apply preserves_ret | apply preserves_raise]. Qed.

Lemma preserves_get_or_create {X} (f : World -> X) user ps pe mr mt mc :
  (forall g w, f (with_ai_usage_quotas g w) = f w) ->
  preserves f (AIUsageQuota_get_or_create user ps pe mr mt mc).
Proof.
  intros Hf s r s' H. unfold AIUsageQuota_get_or_create in H.
  destruct (queryset_get _) as [q | e].
  - inversion H. reflexivity.
  - destruct e; inversion H; subst; try reflexivity. apply Hf.
Qed.

Lemma preserves_provider_call {X} (f : World -> X) env rq :
  (forall g w, f (with_provider_calls g w) = f w) ->
  preserves f (client_chat_completions_create env rq).
Proof. intros Hf s r s' H. inversion H. apply Hf. Qed.

Ltac head_of t :=
  lazymatch t with
  | ?f _ => head_of f
  | _ => t
  end.

Ltac frame := intros ? []; reflexivity.

(** One step of a proof that a computation preserves a table on which it
    has no write: the combinators by their lemmas, a branch by cases, a
    defined computation by unfolding. *)
Ltac preserve_step :=
  first
    [ apply preserves_ret
    | apply preserves_raise
    | apply preserves_lift_res
    | apply preserves_gets
    | apply preserves_is_valid
    | apply preserves_local
    | apply preserves_assign
    | apply preserves_bind; [| intros ?]
    | apply preserves_try_except; [| intros ?]
    | apply preserves_lift_db
    | apply preserves_with_local
    | apply preserves_reader, authenticate_reads
    | apply preserves_reader, get_available_model_reads
    | apply preserves_reader, valid_integration_pk_reads
    | apply preserves_reader, CustomAIRequestSerializer_reads
    | apply preserves_reader, CreateWorkflowFromTemplateSerializer_reads
    | apply preserves_get_or_create; frame
    | apply preserves_provider_call; frame
    | apply preserves_objects_create; frame
    | apply preserves_save_update_fields; frame
    | apply preserves_save; frame
    | apply preserves_delete_row; frame
    | apply preserves_modify; intros []; reflexivity
    | solve [apply preserves_reader; intros ?; reflexivity]
    | match goal with
      | |- preserves _ (match ?x with _ => _ end) => destruct x
      | |- preserves _ (let _ := _ in _) => lazy zeta
      end ].

Ltac preserve_unfold :=
  match goal with
  | |- preserves _ ?c => let h := head_of c in unfold h
  end.

Ltac preserve := repeat first [preserve_step | preserve_unfold].

(** ** Executions are created pending and never updated *)

Lemma create_actions_preserves {X} (f : World -> X) now workflow configs :
  (forall g w, f (with_automation_actions g w) = f w) ->
  preserves f (create_actions now workflow configs).
Proof.
  intros Hf. induction configs as [| c rest IH]; simpl.
  - apply preserves_ret.
  - apply preserves_bind.
    + destruct (ac_action_type c).
      * apply preserves_objects_create. exact Hf.
      * apply preserves_raise.
    + intros a. apply preserves_bind; [exact IH | intros ?; apply preserves_ret].
Qed.


Lemma api_view_state (c : M World Response) (w : World) :
  snd (api_view c w) = snd (c w).
Proof.
  unfold api_view. destruct (c w) as [[r | e] w']; [reflexivity |].
  destruct e; reflexivity.
Qed.



(** The gate on the monthly AI calls: nothing is recorded. *)
Lemma execute_gated (now : datetime) (ru : Z * User.t) (k : Z) (d : dict)
    (wf : AutomationWorkflow.t) (w : World) :
  Workflow_get_queryset ru w !! k = Some wf ->
  AutomationWorkflow.status wf = "active"%string ->
  AutomationWorkflow.use_ai_processing wf = true ->
  User.can_use_ai (snd ru) = false ->
  execute_workflow_manually now ru k d w = (Ok limit_exceeded, w).
Proof.
  intros Hq Hs Hai Hcan.
  unfold execute_workflow_manually, bind, gets, lift_res, get_object_or_404.
  rewrite Hq. simpl. rewrite Hs, Hai, Hcan. reflexivity.
Qed.








(** ** The actions of a workflow, in order *)

#[global] Instance order_le_transitive : Transitive order_le.
Proof. intros a b c. unfold order_le. lia. Qed.

#[global] Instance order_le_total : Total order_le.
Proof. intros a b. unfold order_le. lia. Qed.

Lemma workflow_actions_sorted (k : Z) (w : World) :
  StronglySorted order_le (workflow_actions k w).
Proof. unfold workflow_actions. apply StronglySorted_merge_sort; apply _. Qed.

Lemma workflow_actions_elem (k : Z) (w : World) (x : Z * AutomationAction.t) :
  x ∈ workflow_actions k w
  <-> automation_actions w !! fst x = Some (snd x)
      /\ AutomationAction.workflow (snd x) = k.
Proof.
  unfold workflow_actions. rewrite merge_sort_Permutation.
  rewrite elem_of_map_to_list'. rewrite map_lookup_filter_Some. reflexivity.
Qed.

Section Pages.

Context {A : Type} (R : relation A).

Lemma StronglySorted_drop (n : nat) (l : list A) :
  StronglySorted R l -> StronglySorted R (drop n l).
Proof.
  intros H. rewrite <- (take_drop n l) in H.
  exact (StronglySorted_app_1_r R _ _ H).
Qed.

Lemma StronglySorted_take (n : nat) (l : list A) :
  StronglySorted R l -> StronglySorted R (take n l).
Proof.
  intros H. rewrite <- (take_drop n l) in H.
  exact (StronglySorted_app_1_l R _ _ H).
Qed.

Lemma paginate_sorted (page : Z) (l rows : list A) :
  paginate page l = Ok rows ->
  StronglySorted R l ->
  StronglySorted R rows /\ (forall x, x ∈ rows -> x ∈ l).
Proof.
  unfold paginate. destruct (_ && _)%bool; [| discriminate].
  intros H Hs. inversion H; subst. split.
  - apply StronglySorted_take, StronglySorted_drop, Hs.
  - intros x Hx. apply elem_of_take in Hx as (i & Hx & _).
    rewrite lookup_drop in Hx. eapply list_elem_of_lookup_2, Hx.
Qed.

End Pages.

(** The instances that [create_actions] returns carry the configured
    order and are stored; the rows that were there stay. *)
Lemma create_actions_spec (now : datetime) (wk : Z) (configs : list ActionConfig) :
  forall (w w' : World) (created : list (Z * AutomationAction.t)),
    create_actions now wk configs w = (Ok created, w') ->
    Forall2 (fun a c =>
               AutomationAction.workflow (snd a) = wk
               /\ AutomationAction.order (snd a) = default 0 (ac_order c)
               /\ Some (AutomationAction.action_type (snd a)) = ac_action_type c)
            created configs
    /\ (forall a, a ∈ created -> automation_actions w' !! fst a = Some (snd a))
    /\ (forall k a, automation_actions w !! k = Some a ->
                    automation_actions w' !! k = Some a).
Proof.
  induction configs as [| c rest IH]; intros w w' created H; simpl in H.
  - inversion H; subst. split; [constructor |]. split; [| auto].
    intros a Ha. inversion Ha.
  - apply bind_Ok_inv in H as (a & w1 & Ha & H).
    apply bind_Ok_inv in H as (cr & w2 & Hrest & H).
    inversion H; subst; clear H.
    destruct (ac_action_type c) as [ty |] eqn:Hty; [| discriminate].
    unfold objects_create in Ha. inversion Ha; subst; clear Ha.
    destruct (IH _ _ _ Hrest) as (HF & Hst & Hmono).
    assert (Hkeep : forall k a, automation_actions w !! k = Some a ->
              automation_actions
                (with_automation_actions
                   (insert (fresh (dom (automation_actions w)))
                      (AutomationAction.new wk (default ""%string (ac_name c)) ty
                         (default (JObj []) (ac_action_config c))
                         (default 0 (ac_order c))
                         (default false (ac_ai_enhanced c))
                         (default ""%string (ac_ai_prompt_template c)) now)) w)
              !! k = Some a).
    { intros k a Hk. destruct w; simpl in *.
      rewrite lookup_insert_ne; [exact Hk |].
      intros <-. pose proof (is_fresh (dom automation_actions0)) as Hf.
      apply not_elem_of_dom in Hf. congruence. }
    split; [| split].
    + constructor; [| exact HF]. simpl. rewrite Hty. auto.
    + intros a Ha. apply elem_of_cons in Ha as [-> | Ha]; [| auto].
      apply Hmono. destruct w; simpl. apply lookup_insert_eq.
    + intros k a Hk. apply Hmono, Hkeep, Hk.
Qed.

Lemma queryset_get_Ok_lookup {Row} (qs : gmap Z Row) (x : Z * Row) :
  queryset_get qs = Ok x -> qs !! fst x = Some (snd x).
Proof.
  unfold queryset_get. intros H.
  assert (Hx : x ∈ rows_by_pk qs).
  { destruct (rows_by_pk qs) as [| y [| z l]]; inversion H; subst.
    apply list_elem_of_here. }
  unfold rows_by_pk in Hx. rewrite merge_sort_Permutation in Hx.
  apply elem_of_map_to_list' in Hx. exact Hx.
Qed.

Lemma queryset_get_singleton {Row} (k : Z) (v : Row) :
  queryset_get ({[k := v]} : gmap Z Row) = Ok (k, v).
Proof.
  unfold queryset_get, rows_by_pk. rewrite map_to_list_singleton. reflexivity.
Qed.

Lemma queryset_get_empty {Row} :
  queryset_get (∅ : gmap Z Row)
  = Raise (DoesNotExist "matching query does not exist.").
Proof. unfold queryset_get, rows_by_pk. rewrite map_to_list_empty. reflexivity. Qed.

(** [get] on a queryset that is narrowed to one primary key. *)
Lemma queryset_get_by_pk {Row} (qs : gmap Z Row) (k : Z) :
  (forall k' r, qs !! k' = Some r -> k' = k) ->
  queryset_get qs
  = match qs !! k with
    | Some r => Ok (k, r)
    | None => Raise (DoesNotExist "matching query does not exist.")
    end.
Proof.
  intros Hk. destruct (qs !! k) as [r |] eqn:E.
  - assert (Hqs : qs = {[k := r]}).
    { apply map_eq. intros k'. destruct (decide (k' = k)) as [-> | Hne].
      - rewrite lookup_singleton_eq. exact E.
      - rewrite lookup_singleton_ne by congruence.
        destruct (qs !! k') as [r' |] eqn:E'; [| reflexivity].
        apply Hk in E'. contradiction. }
    rewrite Hqs. apply queryset_get_singleton.
  - assert (Hqs : qs = ∅).
    { apply map_empty. intros k'. destruct (qs !! k') as [r' |] eqn:E';
        [| reflexivity].
      pose proof (Hk _ _ E'). subst k'. congruence. }
    rewrite Hqs. apply queryset_get_empty.
Qed.

(** What a 201 answer of [create_workflow_from_template] stands for. *)
Lemma create_workflow_from_template_spec (now : datetime) (ru : Z * User.t)
    (tid : Z) (name : string) (w w' : World) (resp : Response) :
  create_workflow_from_template now ru tid name w = (Ok resp, w') ->
  exists t wk row created,
    automation_templates w !! tid = Some t
    /\ resp = respond 201
                (Records (EWorkflow (wk, row)
                            :: map EAction (workflow_actions wk w')))
    /\ Forall2 (fun a c =>
                  AutomationAction.workflow (snd a) = wk
                  /\ AutomationAction.order (snd a) = default 0 (ac_order c)
                  /\ Some (AutomationAction.action_type (snd a)) = ac_action_type c)
               created
               (default [] (wc_actions (AutomationTemplate.workflow_config t)))
    /\ (forall a, a ∈ created -> a ∈ workflow_actions wk w').
Proof.
  unfold create_workflow_from_template. intros H.
  apply bind_Ok_inv in H as (tid' & w1 & Hv & H).
  unfold CreateWorkflowFromTemplateSerializer_is_valid in Hv.
  destruct (automation_templates w !! tid) as [t |] eqn:Ht; [| discriminate].
  destruct (_ && _)%bool; [discriminate |].
  inversion Hv; subst tid' w1; clear Hv.
  apply bind_Ok_inv in H as ([tk t'] & w1 & Hg & H).
  inversion Hg as [[Hget Hw]]; subst w1; clear Hg.
  apply queryset_get_Ok_lookup in Hget.
  apply map_lookup_filter_Some in Hget as [Hget Hk]. simpl in Hk, Hget.
  subst tk. rewrite Ht in Hget. inversion Hget; subst t'; clear Hget.
  apply bind_Ok_inv in H as ([wk row] & w2 & Hc & H).
  apply bind_Ok_inv in H as (created & w3 & Hacts & H).
  apply bind_Ok_inv in H as ([] & w4 & Hinc & H).
  apply bind_Ok_inv in H as (body & w5 & Hbody & H).
  inversion Hbody; subst; clear Hbody. inversion H; subst; clear H.
  apply create_actions_spec in Hacts as (HF & Hst & _).
  assert (Hsame : automation_actions w' = automation_actions w3).
  { revert Hinc. apply preserves_save_update_fields. frame. }
  exists t, wk, row, created. split; [reflexivity |].
  split; [reflexivity |]. split; [exact HF |].
  intros a Ha. apply workflow_actions_elem. rewrite Hsame.
  split; [apply Hst, Ha |].
  apply list_elem_of_lookup in Ha as [i Hi].
  destruct (Forall2_lookup_l _ _ _ _ _ HF Hi) as (c & _ & Hw & _).
  exact Hw.
Qed.

Lemma action_list_spec (ru : Z * User.t) (wid page : Z) (w w' : World)
    (resp : Response) :
  AutomationActionListView_get ru wid page w = (Ok resp, w') ->
  exists rows,
    resp = respond 200 (Records (map EAction rows))
    /\ StronglySorted order_le rows
    /\ (forall x, x ∈ rows -> x ∈ workflow_actions wid w).
Proof.
  unfold AutomationActionListView_get, Action_get_queryset, bind, gets,
    lift_res, get_object_or_404.
  destruct (Workflow_get_queryset ru w !! wid) as [wf |]; simpl; [| discriminate].
  destruct (paginate page (workflow_actions wid w)) as [rows | e] eqn:Hp;
    [| discriminate].
  intros H. inversion H; subst. exists rows. split; [reflexivity |].
  exact (paginate_sorted order_le _ _ _ Hp (workflow_actions_sorted _ _)).
Qed.

Lemma workflow_detail_spec (ru : Z * User.t) (pk : Z) (w w' : World)
    (resp : Response) :
  AutomationWorkflowDetailView_get ru pk w = (Ok resp, w') ->
  exists row,
    resp = respond 200
             (Records (EWorkflow (pk, row) :: map EAction (workflow_actions pk w))).
Proof.
  unfold AutomationWorkflowDetailView_get, bind, gets, lift_res, get_object_or_404.
  destruct (Workflow_get_queryset ru w !! pk) as [wf |]; simpl; [| discriminate].
  intros H. inversion H; subst. exists wf. reflexivity.
Qed.

Lemma workflow_actions_NoDup (k : Z) (w : World) :
  NoDup (workflow_actions k w).
Proof.
  unfold workflow_actions.
  rewrite merge_sort_Permutation. apply NoDup_map_to_list.
Qed.

Lemma paginate_page {A} (page : Z) (l : list A) :
  1 <= page <= Z.max 1 ((Z.of_nat (length l) + 19) / 20) ->
  paginate page l = Ok (take 20 (drop (Z.to_nat (20 * (page - 1))) l)).
Proof.
  intros [H1 H2]. unfold paginate, PAGE_SIZE.
  replace (Z.of_nat (length l) + 20 - 1) with (Z.of_nat (length l) + 19) by lia.
  assert (E1 : (1 <=? page) = true) by (apply Z.leb_le; exact H1).
  assert (E2 : (page <=? Z.max 1 ((Z.of_nat (length l) + 19) / 20)) = true)
    by (apply Z.leb_le; exact H2).
  rewrite E1, E2. simpl andb. cbv iota.
  replace ((page - 1) * 20) with (20 * (page - 1)) by lia. reflexivity.
Qed.

Lemma paginate_no_page {A} (page : Z) (l : list A) :
  ~ (1 <= page <= Z.max 1 ((Z.of_nat (length l) + 19) / 20)) ->
  paginate page l = Raise Http404.
Proof.
  intros H. unfold paginate, PAGE_SIZE.
  replace (Z.of_nat (length l) + 20 - 1) with (Z.of_nat (length l) + 19) by lia.
  destruct (1 <=? page) eqn:E1; [| reflexivity].
  destruct (page <=? Z.max 1 ((Z.of_nat (length l) + 19) / 20)) eqn:E2;
    [| reflexivity].
  apply Z.leb_le in E1, E2. exfalso. apply H. split; assumption.
Qed.

Lemma action_list_page (ru : Z * User.t) (wid page : Z) (w : World)
    (wf : AutomationWorkflow.t) :
  Workflow_get_queryset ru w !! wid = Some wf ->
  AutomationActionListView_get ru wid page w
  = (match paginate page (workflow_actions wid w) with
     | Ok rows => Ok (respond 200 (Records (map EAction rows)))
     | Raise e => Raise e
     end, w).
Proof.
  intros Hq.
  unfold AutomationActionListView_get, Action_get_queryset, bind, gets,
    lift_res, get_object_or_404.
  rewrite Hq. simpl.
  destruct (paginate page (workflow_actions wid w)); reflexivity.
Qed.

(** C7. The related accessor [workflow.actions.all()] lists the stored
    actions of the workflow, each once, in ascending [order].  For a
    workflow of the requester the action list endpoint answers page
    [page] of that list with 200: the twenty rows that follow the first
    [20 * (page - 1)], in that order, and so the whole list on page 1
    when the workflow has at most twenty actions; a page number outside
    [1 .. max 1 (ceil (n / 20))] is answered with [Http404], as is a
    workflow that is not the requester's.  The detail view answers the
    workflow followed by the whole list.  When a workflow is created from
    a template the answer is 201, with the new workflow and its actions
    in ascending [order], each entry of the template having given one
    stored action of the new workflow whose [order] is the configured
    value (0 when the entry has none).  None of the reads changes the
    database. *)
Theorem actions_listed_in_order :
  (forall (k : Z) (w : World),
     StronglySorted
       (fun a b : Z * AutomationAction.t =>
          AutomationAction.order (snd a) <= AutomationAction.order (snd b))
       (workflow_actions k w)
     /\ NoDup (workflow_actions k w)
     /\ forall x, x ∈ workflow_actions k w
                  <-> automation_actions w !! fst x = Some (snd x)
                      /\ AutomationAction.workflow (snd x) = k)
  /\ (forall ru wid page w wf,
        Workflow_get_queryset ru w !! wid = Some wf ->
        (1 <= page
              <= Z.max 1 ((Z.of_nat (length (workflow_actions wid w)) + 19) / 20) ->
         AutomationActionListView_get ru wid page w
         = (Ok {| status_code := 200;
                  data := Records
                            (map EAction
                               (take 20 (drop (Z.to_nat (20 * (page - 1)))
                                              (workflow_actions wid w)))) |}, w))
        /\ (~ (1 <= page
                 <= Z.max 1
                      ((Z.of_nat (length (workflow_actions wid w)) + 19) / 20)) ->
            AutomationActionListView_get ru wid page w = (Raise Http404, w))
        /\ ((length (workflow_actions wid w) <= 20)%nat ->
            AutomationActionListView_get ru wid 1 w
            = (Ok {| status_code := 200;
                     data := Records (map EAction (workflow_actions wid w)) |},
               w)))
  /\ (forall ru wid page w,
        Workflow_get_queryset ru w !! wid = None ->
        AutomationActionListView_get ru wid page w = (Raise Http404, w))
  /\ (forall ru pk w wf,
        Workflow_get_queryset ru w !! pk = Some wf ->
        AutomationWorkflowDetailView_get ru pk w
        = (Ok {| status_code := 200;
                 data := Records (EWorkflow (pk, wf)
                                    :: map EAction (workflow_actions pk w)) |},
           w))
  /\ (forall now ru tid name w w' resp,
        create_workflow_from_template now ru tid name w = (Ok resp, w') ->
        exists t wk row created,
          automation_templates w !! tid = Some t
          /\ resp = {| status_code := 201;
                       data := Records (EWorkflow (wk, row)
                                          :: map EAction (workflow_actions wk w')) |}
          /\ Forall2 (fun a c =>
                        AutomationAction.workflow (snd a) = wk
                        /\ AutomationAction.order (snd a)
                           = default 0 (ac_order c)
                        /\ Some (AutomationAction.action_type (snd a))
                           = ac_action_type c)
                     created
                     (default [] (wc_actions (AutomationTemplate.workflow_config t)))
          /\ (forall a, a ∈ created -> a ∈ workflow_actions wk w')).
Proof.
  split; [| split; [| split; [| split]]].
  - intros k w. split; [exact (workflow_actions_sorted k w) |].
    split; [apply workflow_actions_NoDup |].
    intros x. apply workflow_actions_elem.
  - intros ru wid page w wf Hq. split; [| split].
    + intros Hp. rewrite (action_list_page ru wid page w wf Hq).
      rewrite (paginate_page _ _ Hp). reflexivity.
    + intros Hp. rewrite (action_list_page ru wid page w wf Hq).
      rewrite (paginate_no_page _ _ Hp). reflexivity.
    + intros Hn. rewrite (action_list_page ru wid 1 w wf Hq).
      rewrite paginate_page by lia.
      change (Z.to_nat (20 * (1 - 1))) with 0%nat. rewrite drop_0.
      rewrite take_ge by exact Hn. reflexivity.
  - intros ru wid page w Hq.
    unfold AutomationActionListView_get, Action_get_queryset, bind, gets,
      lift_res, get_object_or_404.
    rewrite Hq. reflexivity.
  - intros ru pk w wf Hq.
    unfold AutomationWorkflowDetailView_get, bind, gets, lift_res,
      get_object_or_404.
    rewrite Hq. reflexivity.
  - intros. eapply create_workflow_from_template_spec. eassumption.
Qed.

(** On the sample data: the first page of the actions of workflow 10
    lists its three actions by [order], not by key; there is no second
    page; bob's workflow 11 is not found; and the workflow made from
    template 5, whose entries are configured with 2, 1 and no order,
    lists its actions with the orders 0, 1, 2. *)
Lemma actions_listed_in_order_witness :
  AutomationActionListView_get (1, Sample.alice) 10 1 Sample.world
  = (Ok {| status_code := 200;
           data := Records
                     (map EAction
                        [(2, Sample.action_of 10 1 "first");
                         (3, Sample.action_of 10 2 "second");
                         (1, Sample.action_of 10 3 "third")]) |},
     Sample.world)
  /\ AutomationActionListView_get (1, Sample.alice) 10 2 Sample.world
     = (Raise Http404, Sample.world)
  /\ AutomationActionListView_get (1, Sample.alice) 11 1 Sample.world
     = (Raise Http404, Sample.world)
  /\ (exists w' wk row,
        create_workflow_from_template Sample.noon (1, Sample.alice) 5 "Reminders"
          Sample.world
        = (Ok {| status_code := 201;
                 data := Records (EWorkflow (wk, row)
                                    :: map EAction (workflow_actions wk w')) |},
           w')
        /\ map (fun a : Z * AutomationAction.t => AutomationAction.order (snd a))
               (workflow_actions wk w') = [0; 1; 2]).
Proof.
  destruct actions_listed_in_order as (_ & Hlist & Hnone & _ & Hspec).
  assert (Hq : Workflow_get_queryset (1, Sample.alice) Sample.world !! 10
               = Some (Sample.workflow_of 1 "active" false))
    by (vm_compute; reflexivity).
  destruct (Hlist (1, Sample.alice) 10 1 Sample.world _ Hq) as (Hp1 & _ & _).
  destruct (Hlist (1, Sample.alice) 10 2 Sample.world _ Hq) as (_ & Hp2 & _).
  split; [| split; [| split]].
  - rewrite Hp1 by (split; [lia | vm_compute; discriminate]).
    vm_compute. reflexivity.
  - apply Hp2. vm_compute. intros [_ H]. apply H. reflexivity.
  - apply Hnone. vm_compute. reflexivity.
  - destruct (create_workflow_from_template Sample.noon (1, Sample.alice) 5
                "Reminders" Sample.world) as [[resp | e] w'] eqn:E;
      [| vm_compute in E; discriminate].
    destruct (Hspec _ _ _ _ _ _ _ E) as (t & wk & row & created & _ & Hr & _).
    subst resp. exists w', wk, row. split; [reflexivity |].
    vm_compute in E. inversion E; subst. vm_compute. reflexivity.
Defined.

(** ** The AI services *)

Lemma assign_inv {L} (g : L -> L) (s s' : L * World) (r : res unit) :
  assign g s = (r, s') -> r = Ok tt /\ s' = (g (fst s), snd s).
Proof. intros H. inversion H. auto. Qed.

Lemma local_inv {L} (s s' : L * World) (r : res L) :
  local s = (r, s') -> r = Ok (fst s) /\ s' = s.
Proof. intros H. inversion H. auto. Qed.

Lemma lift_res_inv {S A} (x r : res A) (s s' : S) :
  lift_res x s = (r, s') -> r = x /\ s' = s.
Proof. intros H. inversion H. auto. Qed.

Lemma lift_db_inv {L A} (c : M World A) (s s' : L * World) (r : res A) :
  lift_db c s = (r, s') -> exists w', c (snd s) = (r, w') /\ s' = (fst s, w').
Proof.
  unfold lift_db. destruct (c (snd s)) as [r1 w1]. intros H.
  inversion H; subst. eauto.
Qed.

Lemma ai_request_save_eq (l : Z * AIRequest.t) (w : World) :
  ai_request_save (l, w)
  = (Ok tt, (l, with_ai_requests (insert (fst l) (AIRequest.to_db (snd l))) w)).
Proof. reflexivity. Qed.

Lemma bump_inv (user : Z * User.t) (w w' : World) (x : unit) :
  bump_monthly_ai_calls user w = (Ok x, w') ->
  exists row,
    users w !! fst user = Some row
    /\ w' = with_users
              (insert (fst user)
                 (User.set_monthly_ai_calls
                    (User.monthly_ai_calls (snd user) + 1) row)) w.
Proof.
  unfold bump_monthly_ai_calls, save_update_fields.
  destruct (users w !! fst user) as [row |]; intros H; inversion H.
  eauto.
Qed.

Lemma update_usage_Ok_inv (self : Z * AIUsageQuota.t) (requests tokens : Z)
    (cost_usd : num) (w w' : World) (x : Z * AIUsageQuota.t) :
  update_usage self requests tokens cost_usd w = (Ok x, w') ->
  exists cost' q',
    iadd (AIUsageQuota.current_cost_usd (snd self)) cost_usd = Ok cost'
    /\ x = (fst self, q')
    /\ w' = with_ai_usage_quotas (insert (fst self) (AIUsageQuota.to_db q')) w
    /\ AIUsageQuota.current_requests q'
       = AIUsageQuota.current_requests (snd self) + requests
    /\ AIUsageQuota.current_tokens q'
       = AIUsageQuota.current_tokens (snd self) + tokens
    /\ AIUsageQuota.current_cost_usd q' = cost'
    /\ AIUsageQuota.updated requests tokens cost_usd (snd self) = Ok q'.
Proof.
  intros H.
  destruct (iadd (AIUsageQuota.current_cost_usd (snd self)) cost_usd)
    as [cost' | e] eqn:Hadd.
  - destruct (update_usage_adds self requests tokens cost_usd cost' w Hadd)
      as (q' & Heq & Hr & Ht & Hc & _).
    rewrite Heq in H. inversion H as [[Hx Hw]].
    exists cost', q'. repeat split; auto.
    revert Heq. unfold update_usage, bind, lift_res.
    destruct (AIUsageQuota.updated requests tokens cost_usd (snd self))
      as [q2 | e]; [| discriminate].
    unfold AIUsageQuota_save, save, modify, ret. intros Heq.
    inversion Heq. reflexivity.
  - unfold update_usage, AIUsageQuota.updated, bind, lift_res in H.
    rewrite Hadd in H. simpl in H. discriminate.
Qed.

Lemma calculate_cost_eq (model : AIModel.t) (input_tokens output_tokens : Z) :
  _calculate_cost model input_tokens output_tokens
  = Ok (PyDecimal
          (value (AIProvider.cost_per_input_token (AIModel.provider model))
             * inject_Z input_tokens
           + value (AIProvider.cost_per_output_token (AIModel.provider model))
             * inject_Z output_tokens)).
Proof. reflexivity. Qed.

(** A successful run of the [try] block, step by step. *)
Lemma try_body_Ok (env : Environment) (now : datetime) (ms : Z)
    (user : Z * User.t) (model : Z * AIModel.t) (quota : Z * AIUsageQuota.t)
    (sp up : string) (mt : Z) (temp : Q)
    (l : Z * AIRequest.t) (w : World) (res : ServiceResult)
    (s' : (Z * AIRequest.t) * World) :
  try_body env now ms user model quota sp up mt temp (l, w) = (Ok res, s') ->
  exists response result row q',
    let rq := {| cr_model := AIModel.model_id (snd model); cr_system := sp;
                 cr_user := up; cr_max_tokens := mt; cr_temperature := temp |} in
    let r' := completed_request env now ms (snd model) sp up result response (snd l) in
    chat_completions_create env rq = Ok response
    /\ json_loads env (message_content response) = Ok result
    /\ users w !! fst user = Some row
    /\ res = Success result (fst l) (AIRequest.cost_php r')
               (usage_total_tokens response)
    /\ fst s' = (fst l, r')
    /\ snd s'
       = with_ai_usage_quotas (insert (fst quota) (AIUsageQuota.to_db q'))
           (with_users
              (insert (fst user)
                 (User.set_monthly_ai_calls
                    (User.monthly_ai_calls (snd user) + 1) row))
              (with_ai_requests (insert (fst l) (AIRequest.to_db r'))
                 (with_provider_calls (fun c => c ++ [rq])
                    (with_ai_requests
                       (insert (fst l)
                          (AIRequest.to_db
                             (AIRequest.set_processed_input
                                ("System: " +:+ sp +:+ nl +:+ nl +:+ "User: " +:+ up)
                                (snd l)))) w))))
    /\ AIUsageQuota.current_requests q'
       = AIUsageQuota.current_requests (snd quota) + 1
    /\ AIUsageQuota.current_tokens q'
       = AIUsageQuota.current_tokens (snd quota) + usage_total_tokens response
    /\ AIUsageQuota.current_cost_usd q'
       = PyFloat (value (AIUsageQuota.current_cost_usd (snd quota))
                  + value (AIRequest.cost_usd r'))
    /\ AIUsageQuota.updated 1 (usage_total_tokens response)
         (float (AIRequest.cost_usd r')) (snd quota) = Ok q'.
Proof.
  unfold try_body. intros H.
  apply bind_Ok_inv in H as ([] & s1 & H1 & H).
  apply assign_inv in H1 as [_ ->]. simpl fst in H; simpl snd in H.
  apply bind_Ok_inv in H as ([] & s2 & H2 & H).
  rewrite ai_request_save_eq in H2. inversion H2; subst s2; clear H2.
  apply bind_Ok_inv in H as (response & s3 & H3 & H).
  apply lift_db_inv in H3 as (w3 & H3 & ->). simpl in H3.
  unfold client_chat_completions_create in H3.
  inversion H3 as [[Hresp Hw3]]; subst w3; clear H3.
  apply bind_Ok_inv in H as (result & s4 & H4 & H).
  apply lift_res_inv in H4 as [H4 ->].
  apply bind_Ok_inv in H as ([] & s5 & H5 & H).
  apply assign_inv in H5 as [_ ->]. simpl fst in H; simpl snd in H.
  apply bind_Ok_inv in H as (cost_usd & s6 & H6 & H).
  apply lift_res_inv in H6 as [H6 ->]. rewrite calculate_cost_eq in H6.
  inversion H6; subst cost_usd; clear H6.
  apply bind_Ok_inv in H as (cost_php & s7 & H7 & H).
  apply lift_res_inv in H7 as [H7 ->].
  simpl in H7. inversion H7; subst cost_php; clear H7.
  apply bind_Ok_inv in H as ([] & s8 & H8 & H).
  apply assign_inv in H8 as [_ ->]. simpl fst in H; simpl snd in H.
  apply bind_Ok_inv in H as ([] & s9 & H9 & H).
  rewrite ai_request_save_eq in H9. inversion H9; subst s9; clear H9.
  apply bind_Ok_inv in H as ([] & s10 & H10 & H).
  apply lift_db_inv in H10 as (w10 & H10 & ->). simpl in H10.
  apply bump_inv in H10 as (row & Hrow & ->).
  apply bind_Ok_inv in H as (qx & s11 & H11 & H).
  apply lift_db_inv in H11 as (w11 & H11 & ->). simpl in H11.
  apply update_usage_Ok_inv in H11
    as (cost' & q' & Hadd & -> & -> & Hr & Ht & Hc & Hupd).
  apply iadd_float_value in Hadd. subst cost'.
  apply bind_Ok_inv in H as (air & s12 & H12 & H).
  apply local_inv in H12 as [H12 ->]. inversion H12; subst air; clear H12.
  inversion H; subst; clear H.
  exists response, result, row, q'. cbv zeta.
  split; [exact Hresp |].
  split; [symmetry; exact H4 |].
  split; [destruct w; exact Hrow |].
  split; [reflexivity |]. split; [reflexivity |]. split; [reflexivity |].
  split; [exact Hr |]. split; [exact Ht |]. split; [exact Hc |]. exact Hupd.
Qed.

(** However the [try] block ends, it has called the client of the
    provider exactly once, its local object is still the same record
    (same key, same [retry_count]), and the only row of [ai_requests]
    that it has written is the one of that record. *)
Lemma try_body_any (env : Environment) (now : datetime) (ms : Z)
    (user : Z * User.t) (model : Z * AIModel.t) (quota : Z * AIUsageQuota.t)
    (sp up : string) (mt : Z) (temp : Q)
    (l : Z * AIRequest.t) (w : World) (r : res ServiceResult)
    (s' : (Z * AIRequest.t) * World) :
  try_body env now ms user model quota sp up mt temp (l, w) = (r, s') ->
  provider_calls (snd s')
  = provider_calls w
      ++ [{| cr_model := AIModel.model_id (snd model); cr_system := sp;
             cr_user := up; cr_max_tokens := mt; cr_temperature := temp |}]
  /\ fst (fst s') = fst l
  /\ AIRequest.retry_count (snd (fst s')) = AIRequest.retry_count (snd l)
  /\ (forall k, k <> fst l -> ai_requests (snd s') !! k = ai_requests w !! k)
  /\ (exists x, ai_requests (snd s') !! fst l = Some x
                /\ AIRequest.retry_count x = AIRequest.retry_count (snd l)).
Proof.
  unfold try_body, bind, assign, ai_request_save, lift_db, local, lift_res,
    client_chat_completions_create, save, modify, bump_monthly_ai_calls,
    save_update_fields, update_usage, AIUsageQuota_save, AIUsageQuota.updated,
    bind, lift_res, save, modify, ret.
  simpl.
  destruct (chat_completions_create env _) as [response | e]; simpl.
  2: { intros H. inversion H; subst; simpl. destruct w; simpl.
       repeat split; auto.
       - intros k Hk. apply lookup_insert_ne. congruence.
       - eexists. split; [apply lookup_insert_eq | reflexivity]. }
  destruct (json_loads env _) as [result | e]; simpl.
  2: { intros H. inversion H; subst; simpl. destruct w; simpl.
       repeat split; auto.
       - intros k Hk. apply lookup_insert_ne. congruence.
       - eexists. split; [apply lookup_insert_eq | reflexivity]. }
  destruct w; simpl.
  destruct (users0 !! fst user) as [row |]; simpl.
  2: { intros H. inversion H; subst; simpl.
       repeat split; auto.
       - intros k Hk. rewrite !lookup_insert_ne by congruence. reflexivity.
       - eexists. split; [apply lookup_insert_eq | reflexivity]. }
  destruct (iadd _ _) as [cost' | e]; simpl.
  all: intros H; inversion H; subst; simpl.
  all: repeat split; auto.
  all: try (intros k Hk; rewrite !lookup_insert_ne by congruence; reflexivity).
  all: eexists; split; [apply lookup_insert_eq | reflexivity].
Qed.

(** The [try ... except] statement around the block: it never raises. *)
Lemma tracked_outcome (env : Environment) (now : datetime) (ms : Z)
    (user : Z * User.t) (model : Z * AIModel.t) (quota : Z * AIUsageQuota.t)
    (sp up : string) (mt : Z) (temp : Q)
    (l : Z * AIRequest.t) (w w' : World) (r : res ServiceResult) :
  with_local l
    (try_except (try_body env now ms user model quota sp up mt temp)
       (except_body now)) w = (r, w') ->
  provider_calls w'
  = provider_calls w
      ++ [{| cr_model := AIModel.model_id (snd model); cr_system := sp;
             cr_user := up; cr_max_tokens := mt; cr_temperature := temp |}]
  /\ (forall k, k <> fst l -> ai_requests w' !! k = ai_requests w !! k)
  /\ (exists x, ai_requests w' !! fst l = Some x
                /\ AIRequest.retry_count x = AIRequest.retry_count (snd l))
  /\ ((exists res s',
         try_body env now ms user model quota sp up mt temp (l, w) = (Ok res, s')
         /\ r = Ok res /\ w' = snd s')
      \/ (exists e s1 row,
            try_body env now ms user model quota sp up mt temp (l, w)
            = (Raise e, s1)
            /\ r = Ok (Failure (str e) (fst l))
            /\ ai_requests w' !! fst l = Some row
            /\ AIRequest.status row = "failed"%string
            /\ AIRequest.error_message row = str e)).
Proof.
  unfold with_local, try_except.
  destruct (try_body env now ms user model quota sp up mt temp (l, w))
    as [[res | e] s1] eqn:E;
    destruct (try_body_any _ _ _ _ _ _ _ _ _ _ _ _ _ _ E)
      as (Hc & Hk & Hr & Hne & Hx).
  - intros H. inversion H; subst.
    split; [exact Hc |]. split; [exact Hne |]. split; [exact Hx |].
    left. eauto.
  - unfold except_body, bind, assign, ai_request_save, lift_db, local, ret, save,
      modify. simpl. intros H. inversion H; subst; clear H.
    destruct s1 as [[k1 r1] w1]. simpl in *. subst k1.
    destruct w1; simpl in *.
    split; [exact Hc |].
    split; [intros k Hne'; rewrite lookup_insert_ne by congruence; auto |].
    split; [eexists; split; [apply lookup_insert_eq | exact Hr] |].
    right. exists e. eexists _, _. split; [reflexivity |].
    split; [reflexivity |].
    split; [apply lookup_insert_eq |]. split; reflexivity.
Qed.

Lemma check_usage_quota_preserves_requests now user :
  preserves ai_requests (check_usage_quota now user).
Proof. preserve. Qed.

Lemma check_usage_quota_preserves_calls now user :
  preserves provider_calls (check_usage_quota now user).
Proof. preserve. Qed.

Lemma check_usage_quota_preserves_users now user :
  preserves users (check_usage_quota now user).
Proof. preserve. Qed.

Ltac service_head H :=
  unfold bind at 1 in H;
  match type of H with
  | context [check_usage_quota ?now ?user ?w] =>
      let qc := fresh "qc" in
      let w0 := fresh "w0" in
      let e := fresh "e" in
      let Hq := fresh "Hq" in
      destruct (check_usage_quota now user w) as [[qc | e] w0] eqn:Hq;
      [ destruct (can_use qc) eqn:Hcan; simpl in H;
        [ unfold bind at 1 in H;
          match type of H with
          | context [get_available_model ?t ?m w0] =>
              let Hm := fresh "Hm" in
              pose proof (get_available_model_reads t m w0) as Hm;
              destruct (get_available_model t m w0) as [[[model |] | e] w0'] eqn:Hgm;
              simpl in Hm; subst w0'
          end
        | ]
      | ];
      try (left; inversion H; subst; eexists;
           split; [reflexivity |];
           split; [exact (check_usage_quota_preserves_requests _ _ _ _ _ Hq) |];
           split; [exact (check_usage_quota_preserves_calls _ _ _ _ _ Hq) |];
           exact (check_usage_quota_preserves_users _ _ _ _ _ Hq))
  end.

Lemma process_email_to_task_head env now ms user email ctx w w' r :
  process_email_to_task env (Some user) now ms email ctx w = (r, w') ->
  reaches_try env now ms user w w' r "email_to_task"
    (_get_filipino_system_prompt env "email_to_task")
    (_build_email_to_task_prompt env email
       (_get_business_context env user (default [] ctx)))
    500 (7 # 10).
Proof.
  unfold process_email_to_task, reaches_try. intros H.
  service_head H.
  right. unfold bind, AIRequest_create, objects_create, ret in H. simpl in H.
  match type of H with
  | with_local ?l _ _ = _ => exists qc, w0, model, l
  end.
  simpl. repeat (split; [first [reflexivity | assumption] |]). exact H.
Qed.

Lemma generate_filipino_social_content_head env now ms user bu pf ctx w w' r :
  generate_filipino_social_content env (Some user) now ms bu pf ctx w = (r, w') ->
  reaches_try env now ms user w w' r "content_generation"
    (social_system_prompt env pf)
    (social_user_prompt env (_get_business_context env user (default [] ctx)) bu pf)
    300 (8 # 10).
Proof.
  unfold generate_filipino_social_content, reaches_try. intros H.
  service_head H.
  right. unfold bind, AIRequest_create, objects_create, ret in H. simpl in H.
  match type of H with
  | with_local ?l _ _ = _ => exists qc, w0, model, l
  end.
  simpl. repeat (split; [first [reflexivity | assumption] |]). exact H.
Qed.

(** The columns that [update_usage] does not assign. *)
Lemma updated_keeps (requests tokens : Z) (cost_usd : num)
    (self q' : AIUsageQuota.t) :
  AIUsageQuota.updated requests tokens cost_usd self = Ok q' ->
  AIUsageQuota.user q' = AIUsageQuota.user self
  /\ AIUsageQuota.period_type q' = AIUsageQuota.period_type self
  /\ AIUsageQuota.period_start q' = AIUsageQuota.period_start self
  /\ AIUsageQuota.period_end q' = AIUsageQuota.period_end self
  /\ AIUsageQuota.max_requests q' = AIUsageQuota.max_requests self
  /\ AIUsageQuota.max_tokens q' = AIUsageQuota.max_tokens self
  /\ AIUsageQuota.max_cost_usd q' = AIUsageQuota.max_cost_usd self.
Proof.
  unfold AIUsageQuota.updated.
  destruct (iadd (AIUsageQuota.current_cost_usd self) cost_usd);
    [| discriminate].
  simpl. intros H. inversion H; subst. simpl. repeat split.
Qed.

(** The cost of a request at prices of six decimals has six decimals. *)
Lemma cost_has_six_decimals (ci co : Q) (a b i o : Z) :
  (ci == a # 10 ^ 6)%Q -> (co == b # 10 ^ 6)%Q ->
  (ci * inject_Z i + co * inject_Z o == (a * i + b * o) # 10 ^ 6)%Q.
Proof.
  intros -> ->. unfold Qeq, Qplus, Qmult, inject_Z. simpl. nia.
Qed.

Lemma reaches_try_success env now ms user w w' payload rid cph tokens
    rt sp up mt temp :
  users w !! fst user = Some (snd user) ->
  reaches_try env now ms user w w' (Ok (Success payload rid cph tokens))
    rt sp up mt temp ->
  usage_recorded env now user w w' rid tokens.
Proof.
  intros Hu [(e & He & _) | (qc & w0 & model & l & Hq & Hcan & Hgm & Hl & _ & _ & _ & H)];
    [discriminate |].
  pose proof (check_usage_quota_preserves_users _ _ _ _ _ Hq) as Hu0.
  pose proof (check_usage_quota_preserves_calls _ _ _ _ _ Hq) as Hc0.
  apply tracked_outcome in H as (Hcalls & _ & _ & [(res & s' & Hb & Hr & Hw') | Hf]).
  2: { destruct Hf as (e & s1 & row & _ & Hr & _). discriminate. }
  inversion Hr; subst res; clear Hr.
  apply try_body_Ok in Hb
    as (response & result & row & q' & Hresp & _ & Hrow & Hres & Hl' & Hs'
        & Hqr & Hqt & Hqc & Hupd).
  cbv zeta in *. inversion Hres; subst; clear Hres.
  assert (Hrow' : row = snd user).
  { destruct w0; simpl in *. rewrite Hu0, Hu in Hrow. congruence. }
  subst row.
  apply updated_keeps in Hupd as (Ku & Kt & Ks & Ke & Kr & Kk & Kc).
  unfold usage_recorded.
  eexists qc, w0, model, _, response, _, (AIUsageQuota.to_db q'), _.
  split; [exact Hq |]. split; [exact Hgm |].
  split. { rewrite Hcalls. destruct w0; simpl. rewrite <- Hc0. reflexivity. }
  split; [exact Hresp |]. split; [reflexivity |].
  split. { rewrite Hs'. destruct w0; simpl in *. rewrite Hu0. reflexivity. }
  split. { rewrite Hs'. destruct w0; simpl. reflexivity. }
  split; [exact Hqr |]. split; [exact Hqt |].
  split.
  { pose proof (quantize_rounded_to 4 (AIUsageQuota.current_cost_usd q')) as Hq4.
    rewrite Hqc in Hq4 at 1. exact Hq4. }
  split; [exact Ku |]. split; [exact Kt |]. split; [exact Ks |].
  split; [exact Ke |]. split; [exact Kr |]. split; [exact Kk |].
  split.
  { pose proof (quantize_rounded_to 4 (AIUsageQuota.max_cost_usd q')) as Hq4.
    rewrite Kc in Hq4 at 1. exact Hq4. }
  split. { rewrite Hs'. destruct w0; simpl. apply lookup_insert_eq. }
  split; [reflexivity |]. split; [reflexivity |]. split; [reflexivity |].
  split; [reflexivity |].
  assert (Hsix :
    rounded_to 6
      (value (AIProvider.cost_per_input_token (AIModel.provider (snd model)))
         * inject_Z (prompt_tokens response)
       + value (AIProvider.cost_per_output_token (AIModel.provider (snd model)))
         * inject_Z (completion_tokens response))
      (value (AIRequest.cost_usd
                (AIRequest.to_db
                   (completed_request env now ms (snd model) sp up result
                      response (snd l)))))).
  { exact (quantize_rounded_to 6
             (AIRequest.cost_usd
                (completed_request env now ms (snd model) sp up result response
                   (snd l)))). }
  split; [exact Hsix |].
  split; [| reflexivity].
  intros (a & b & Ha & Hb).
  eapply rounded_to_exact; [exact Hsix |].
  apply cost_has_six_decimals; eassumption.
Qed.

(** C4 as stated fails: the cost columns of the quota row have four
    decimals.  With prices of 0.000001 and 0.000002 USD per token and an
    answer of 100 input and 25 output tokens, the computed cost is
    0.00015 USD; after the first successful request of the month the
    stored [current_cost_usd] is 0.0002, not 0 plus 0.00015. *)
Lemma stored_cost_is_rounded :
  exists payload rid cph w' q,
    process_email_to_task Sample.env_short (Some (1, Sample.alice)) Sample.noon
      120 "Please send the invoice for March." None Sample.world
    = (Ok (Success payload rid cph 125), w')
    /\ ai_usage_quotas Sample.world = ∅
    /\ ai_usage_quotas w' !! 0 = Some q
    /\ (value (AIProvider.cost_per_input_token Sample.provider) * inject_Z 100
        + value (AIProvider.cost_per_output_token Sample.provider) * inject_Z 25
        == 15 # 100000)%Q
    /\ AIUsageQuota.current_requests q = 1
    /\ AIUsageQuota.current_tokens q = 125
    /\ AIUsageQuota.current_cost_usd q = PyDecimal (2 # 10000)
    /\ ~ (value (AIUsageQuota.current_cost_usd q) == 0 + (15 # 100000))%Q.
Proof.
  eexists _, _, _, _, _.
  split; [vm_compute; reflexivity |].
  split; [reflexivity |].
  split; [vm_compute; reflexivity |].
  split; [reflexivity |].
  split; [reflexivity |]. split; [reflexivity |]. split; [reflexivity |].
  intros H. vm_compute in H. discriminate H.
Qed.

(** C4, amended.  When [process_email_to_task] or
    [generate_filipino_social_content] returns [success: True] for a user
    whose row is [snd user]: the row of the user is the old one with
    [monthly_ai_calls] one higher and no other row of [users] changed; the
    quota row of the month is the one the admission check saw with
    [current_requests] one higher, [current_tokens] higher by the total
    tokens of the answer and [current_cost_usd] the old value plus the
    computed cost, as a column of four decimals keeps that sum (the
    nearest multiple of 0.0001); its other columns are unchanged, and no
    other quota row changed; the cost is input tokens times
    [cost_per_input_token] plus output tokens times
    [cost_per_output_token]; and the [AIRequest] record of the call is
    ['completed'] with the token counts of the answer and that cost as a
    column of six decimals keeps it, which is the cost itself when the
    two prices have six decimals, as they have in the database. *)
Theorem successful_completion_updates_counters (env : Environment)
    (now : datetime) (ms : Z) (user : Z * User.t) (w w' : World)
    (payload : json) (rid : Z) (cph : num) (tokens : Z) :
  users w !! fst user = Some (snd user) ->
  (exists email ctx,
     process_email_to_task env (Some user) now ms email ctx w
     = (Ok (Success payload rid cph tokens), w'))
  \/ (exists bu pf ctx,
        generate_filipino_social_content env (Some user) now ms bu pf ctx w
        = (Ok (Success payload rid cph tokens), w')) ->
  usage_recorded env now user w w' rid tokens.
Proof.
  intros Hu [(email & ctx & H) | (bu & pf & ctx & H)].
  - apply process_email_to_task_head in H.
    eapply reaches_try_success; eassumption.
  - apply generate_filipino_social_content_head in H.
    eapply reaches_try_success; eassumption.
Qed.

Lemma successful_completion_updates_counters_witness :
  users Sample.world !! 1 = Some Sample.alice
  /\ exists payload rid cph tokens w',
       process_email_to_task Sample.env (Some (1, Sample.alice)) Sample.noon 120
         "Please send the invoice for March." None Sample.world
       = (Ok (Success payload rid cph tokens), w')
       /\ usage_recorded Sample.env Sample.noon (1, Sample.alice)
            Sample.world w' rid tokens.
Proof.
  assert (Hu : users Sample.world !! 1 = Some Sample.alice) by reflexivity.
  split; [exact Hu |].
  destruct (process_email_to_task Sample.env (Some (1, Sample.alice)) Sample.noon
              120 "Please send the invoice for March." None Sample.world)
    as [[[payload rid cph tokens | msg rid] | e] w'] eqn:E;
    [| vm_compute in E; discriminate | vm_compute in E; discriminate].
  exists payload, rid, cph, tokens, w'. split; [reflexivity |].
  apply (successful_completion_updates_counters Sample.env Sample.noon 120
           (1, Sample.alice) Sample.world w' payload rid cph tokens Hu).
  left. exists "Please send the invoice for March."%string, None. exact E.
Defined.

(** The same call in a month in which the quota row already exists: the
    provider has answered and [monthly_ai_calls] is one higher when
    [update_usage] raises; the service returns [success: False], the
    record of the call is ['failed'] and the quota row is the old one. *)
Remark second_request_of_the_month_fails :
  let out := process_email_to_task Sample.env (Some (1, Sample.alice)) Sample.noon
               120 "Please send the invoice for March." None
               Sample.world_with_quota in
  fst out
  = Ok (Failure
          "unsupported operand type(s) for +=: 'decimal.Decimal' and 'float'" 0)
  /\ User.monthly_ai_calls <$> users (snd out) !! 1 = Some 1
  /\ length (provider_calls (snd out)) = 1%nat
  /\ ai_usage_quotas (snd out) !! 0 = Some Sample.stored_quota
  /\ AIRequest.status <$> ai_requests (snd out) !! 0 = Some "failed"%string.
Proof. vm_compute. repeat split. Qed.


Lemma reaches_try_outcome env now ms user w w' r rt sp up mt temp :
  reaches_try env now ms user w w' r rt sp up mt temp ->
  service_outcome w w' r.
Proof.
  intros [(e & He & Hr & Hc & _)
         | (qc & w0 & model & l & Hq & Hcan & Hgm & Hl & Hrc & _ & _ & H)].
  - left. eauto.
  - right.
    pose proof (check_usage_quota_preserves_requests _ _ _ _ _ Hq) as Hr0.
    pose proof (check_usage_quota_preserves_calls _ _ _ _ _ Hq) as Hc0.
    apply tracked_outcome in H as (Hcalls & Hne & (x & Hx & Hxr) & Hres).
    assert (Hnew : ai_requests w !! fst l = None).
    { rewrite <- Hr0, Hl. apply not_elem_of_dom, is_fresh. }
    assert (Hne' : forall k, k <> fst l -> ai_requests w' !! k = ai_requests w !! k).
    { intros k Hk. rewrite (Hne k Hk), <- Hr0. destruct w0; simpl.
      apply lookup_insert_ne. congruence. }
    assert (Hcalls' : provider_calls w'
                      = provider_calls w
                          ++ [{| cr_model := AIModel.model_id (snd model);
                                 cr_system := sp; cr_user := up;
                                 cr_max_tokens := mt; cr_temperature := temp |}]).
    { rewrite Hcalls, <- Hc0. destruct w0; reflexivity. }
    destruct Hres as [(res & s' & Hb & -> & _)
                     | (e & s1 & row & _ & -> & Hrow & Hs & Hm)].
    + exists res. eexists _, (fst l). split; [reflexivity |].
      split; [exact Hcalls' |]. split; [exact Hnew |]. split; [exact Hne' |].
      split; [exists x; split; [exact Hx | congruence] |].
      intros msg rid ->.
      apply try_body_Ok in Hb as (? & ? & ? & ? & _ & _ & _ & Hres & _).
      discriminate.
    + eexists _, _, (fst l). split; [reflexivity |].
      split; [exact Hcalls' |]. split; [exact Hnew |]. split; [exact Hne' |].
      split; [exists x; split; [exact Hx | congruence] |].
      intros msg rid Hf. inversion Hf; subst. split; [reflexivity |].
      exists row. auto.
Qed.

Lemma process_email_to_task_outcome env now ms user email ctx w w' r :
  process_email_to_task env user now ms email ctx w = (r, w') ->
  service_outcome w w' r.
Proof.
  destruct user as [user |].
  - intros H. apply process_email_to_task_head in H.
    eapply reaches_try_outcome, H.
  - intros H. inversion H; subst. left. eauto.
Qed.

Lemma generate_filipino_social_content_outcome env now ms user bu pf ctx w w' r :
  generate_filipino_social_content env user now ms bu pf ctx w = (r, w') ->
  service_outcome w w' r.
Proof.
  destruct user as [user |].
  - intros H. apply generate_filipino_social_content_head in H.
    eapply reaches_try_outcome, H.
  - intros H. inversion H; subst. left. eauto.
Qed.

(** The [try ... except Exception] of a view around a service call. *)
Lemma view_try_service_inv (c : M World ServiceResult) (w w' : World)
    (r : res Response) :
  view_try (let* result := c in ret (respond HTTP_200_OK (Service result))) w
  = (r, w') ->
  (exists res, r = Ok (respond 200 (Service res)) /\ c w = (Ok res, w'))
  \/ (exists e, r = Ok (respond 400 (Error (str e))) /\ c w = (Raise e, w')).
Proof.
  unfold view_try. intros H.
  apply try_except_inv in H as [(a & Hc & ->) | (e & s1 & Hc & Hh)].
  - apply bind_Ok_inv in Hc as (res & w2 & Hp & Hret).
    inversion Hret; subst. left. eauto.
  - apply bind_inv in Hc as [(res & w2 & Hp & Hret) | (e' & Hp & He)].
    + inversion Hret.
    + inversion He; subst e'. inversion Hh; subst. right. eauto.
Qed.

Lemma email_to_task_outcome env now ms ru d w w' r :
  email_to_task env now ms ru d w = (r, w') -> ai_view_outcome w w' r.
Proof.
  unfold email_to_task. intros H.
  apply bind_inv in H as [(vd & w1 & Hv & H) | (e & Hv & ->)];
    unfold EmailToTaskSerializer_is_valid in Hv;
    destruct (_ <? 10); inversion Hv; subst.
  - destruct (negb _).
    + inversion H; subst. right. left. auto.
    + apply view_try_service_inv in H as [(res & -> & E) | (e & -> & E)];
        apply process_email_to_task_outcome in E.
      * right. right. left. eauto.
      * right. right. right. eauto.
  - left. eauto.
Qed.

Lemma generate_social_content_outcome env now ms ru d w w' r :
  generate_social_content env now ms ru d w = (r, w') -> ai_view_outcome w w' r.
Proof.
  unfold generate_social_content. intros H.
  apply bind_inv in H as [(vd & w1 & Hv & H) | (e & Hv & ->)];
    unfold SocialContentGenerationSerializer_is_valid in Hv;
    destruct (_ <? 5);
    try destruct (negb (is_choice _ PLATFORM_CHOICES));
    try destruct (negb (is_choice _ TONE_CHOICES));
    inversion Hv; subst; try (left; eauto; fail).
  destruct (negb _).
  - inversion H; subst. right. left. auto.
  - apply view_try_service_inv in H as [(res & -> & E) | (e & -> & E)];
      apply generate_filipino_social_content_outcome in E.
    + right. right. left. eauto.
    + right. right. right. eauto.
Qed.

(** ** Steps of the state *)

Section Steps.

Context {S : Type} (R : relation S) `{!Reflexive R} `{!Transitive R}.

Lemma steps_ret {A} (a : A) : steps R (ret a).
Proof. intros s r s' H. inversion H. reflexivity. Qed.

Lemma steps_raise {A} (e : exn) : steps R (@raise S A e).
Proof. intros s r s' H. inversion H. reflexivity. Qed.

Lemma steps_bind {A B} (c : M S A) (k : A -> M S B) :
  steps R c -> (forall a, steps R (k a)) -> steps R (bind c k).
Proof.
  intros Hc Hk s r s' H.
  apply bind_inv in H as [(a & s1 & H1 & H2) | (e & H1 & _)].
  - transitivity s1; [exact (Hc _ _ _ H1) | exact (Hk a _ _ _ H2)].
  - exact (Hc _ _ _ H1).
Qed.

Lemma steps_try_except {A} (c : M S A) (h : exn -> M S A) :
  steps R c -> (forall e, steps R (h e)) -> steps R (try_except c h).
Proof.
  intros Hc Hh s r s' H.
  apply try_except_inv in H as [(a & H1 & _) | (e & s1 & H1 & H2)].
  - exact (Hc _ _ _ H1).
  - transitivity s1; [exact (Hc _ _ _ H1) | exact (Hh e _ _ _ H2)].
Qed.

(** A computation that preserves what [R] looks at makes an [R] step. *)
Lemma preserves_steps {A X} (f : S -> X) (c : M S A) :
  (forall s s', f s' = f s -> R s s') -> preserves f c -> steps R c.
Proof. intros Hf Hc s r s' H. apply Hf. exact (Hc _ _ _ H). Qed.

End Steps.

(** ** No request is retried *)

#[global] Instance requests_step_refl : Reflexive requests_step.
Proof. intros w k r H. left. exact H. Qed.

#[global] Instance requests_step_trans : Transitive requests_step.
Proof.
  intros w1 w2 w3 H12 H23 k r H.
  apply H23 in H as [H | H]; [apply H12, H | right; exact H].
Qed.







Ltac preserve_view :=
  unfold view;
  try (preserve; fail);
  unfold create_workflow_from_template; preserve;
  try (apply create_actions_preserves; frame);
  preserve.

Lemma view_preserves_requests env now ms ru rq :
  (forall d, rq <> POST_email_to_task d) ->
  (forall d, rq <> POST_generate_content d) ->
  (forall d, rq <> POST_custom_request d) ->
  preserves ai_requests (view env now ms ru rq).
Proof.
  intros H1 H2 H3.
  destruct rq; try (exfalso; eapply H1; reflexivity);
    try (exfalso; eapply H2; reflexivity);
    try (exfalso; eapply H3; reflexivity);
    preserve_view.
Qed.






(** ** What a computation does not depend on *)

Section Unaffected.

Context {S : Type} (g : S -> S).






End Unaffected.













(** ** Requests forwarded to the provider *)




(** ** The admission check under two requests at once *)

Lemma queryset_get_Ok_singleton {Row} (qs : gmap Z Row) (x : Z * Row) :
  queryset_get qs = Ok x -> qs = {[fst x := snd x]}.
Proof.
  unfold queryset_get. intros H.
  assert (Hx : rows_by_pk qs = [x]).
  { destruct (rows_by_pk qs) as [| y [| z l]]; inversion H; subst. reflexivity. }
  unfold rows_by_pk in Hx. apply map_to_list_inj.
  rewrite map_to_list_singleton. rewrite <- (merge_sort_Permutation pk_le).
  rewrite Hx. destruct x. reflexivity.
Qed.

Lemma queryset_get_DoesNotExist {Row} (qs : gmap Z Row) (m : string) :
  queryset_get qs = Raise (DoesNotExist m) -> qs = ∅.
Proof.
  unfold queryset_get. intros H.
  assert (Hx : rows_by_pk qs = []).
  { destruct (rows_by_pk qs) as [| y [| z l]]; inversion H; subst. reflexivity. }
  unfold rows_by_pk in Hx. apply map_to_list_empty_iff.
  apply Permutation_nil_r. rewrite <- (merge_sort_Permutation pk_le). rewrite Hx.
  reflexivity.
Qed.

(** After [get_or_create], the month has exactly one quota row, the one
    of the returned instance. *)
Lemma get_or_create_row user ps pe mr mt mc w q created w1 :
  AIUsageQuota_get_or_create user ps pe mr mt mc w = (Ok (q, created), w1) ->
  exists row,
    month_quotas user ps w1 = {[fst q := row]}
    /\ AIUsageQuota.is_exceeded row = AIUsageQuota.is_exceeded (snd q)
    /\ AIUsageQuota.current_requests row = AIUsageQuota.current_requests (snd q)
    /\ AIUsageQuota.max_requests row = AIUsageQuota.max_requests (snd q).
Proof.
  unfold AIUsageQuota_get_or_create. fold (month_quotas user ps w).
  destruct (queryset_get (month_quotas user ps w)) as [x | e] eqn:Hget.
  - intros H. inversion H; subst. exists (snd q). split; [| auto].
    apply queryset_get_Ok_singleton, Hget.
  - destruct e; try (intros H; inversion H; fail).
    apply queryset_get_DoesNotExist in Hget.
    unfold objects_create. intros H. inversion H; subst; clear H. simpl.
    eexists. split.
    + unfold month_quotas in *. destruct w; simpl in *.
      rewrite map_filter_insert_True by (simpl; auto).
      rewrite Hget. reflexivity.
    + simpl. auto.
Qed.

Lemma get_or_create_existing user ps pe mr mt mc w k row :
  month_quotas user ps w = {[k := row]} ->
  AIUsageQuota_get_or_create user ps pe mr mt mc w = (Ok ((k, row), false), w).
Proof.
  intros H. unfold AIUsageQuota_get_or_create. fold (month_quotas user ps w).
  rewrite H, queryset_get_singleton. reflexivity.
Qed.

Lemma check_usage_quota_existing now user w k row :
  month_quotas (fst user) (month_start_of now) w = {[k := row]} ->
  exists qc,
    check_usage_quota now user w = (Ok qc, w)
    /\ quota qc = (k, row)
    /\ can_use qc
       = (negb (AIUsageQuota.is_exceeded row)
          && (AIUsageQuota.current_requests row <? AIUsageQuota.max_requests row))%bool
    /\ requests_remaining qc
       = Z.max 0 (AIUsageQuota.max_requests row - AIUsageQuota.current_requests row).
Proof.
  intros H. unfold check_usage_quota, bind.
  erewrite get_or_create_existing by exact H. simpl.
  destruct (requests_percentage_ok row) as (v & Hv & _).
  unfold lift_res. rewrite Hv.
  eexists. split; [reflexivity |]. simpl. auto.
Qed.

Lemma check_usage_quota_row now user w qc w1 :
  check_usage_quota now user w = (Ok qc, w1) ->
  exists row,
    month_quotas (fst user) (month_start_of now) w1 = {[fst (quota qc) := row]}
    /\ AIUsageQuota.is_exceeded row = AIUsageQuota.is_exceeded (snd (quota qc))
    /\ AIUsageQuota.current_requests row
       = AIUsageQuota.current_requests (snd (quota qc))
    /\ AIUsageQuota.max_requests row = AIUsageQuota.max_requests (snd (quota qc))
    /\ can_use qc
       = (negb (AIUsageQuota.is_exceeded row)
          && (AIUsageQuota.current_requests row <? AIUsageQuota.max_requests row))%bool
    /\ requests_remaining qc
       = Z.max 0 (AIUsageQuota.max_requests row - AIUsageQuota.current_requests row).
Proof.
  unfold check_usage_quota. intros H.
  apply bind_Ok_inv in H as ([q created] & w2 & Hg & H).
  apply bind_Ok_inv in H as (pct & w3 & Hp & H).
  apply lift_res_inv in Hp as [_ ->]. inversion H; subst; clear H. simpl.
  apply get_or_create_row in Hg as (row & Hm & He & Hc & Hx).
  exists row. rewrite He, Hc, Hx. repeat split; auto.
Qed.

Lemma update_usage_row (self : Z * AIUsageQuota.t) (requests tokens : Z)
    (cost_usd : num) (w w' : World) (x : Z * AIUsageQuota.t) :
  update_usage self requests tokens cost_usd w = (Ok x, w') ->
  exists row,
    ai_usage_quotas w' = <[fst self := row]> (ai_usage_quotas w)
    /\ AIUsageQuota.current_requests row
       = AIUsageQuota.current_requests (snd self) + requests
    /\ AIUsageQuota.max_requests row = AIUsageQuota.max_requests (snd self)
    /\ AIUsageQuota.user row = AIUsageQuota.user (snd self)
    /\ AIUsageQuota.period_type row = AIUsageQuota.period_type (snd self)
    /\ AIUsageQuota.period_start row = AIUsageQuota.period_start (snd self).
Proof.
  unfold update_usage, AIUsageQuota.updated, bind, lift_res, AIUsageQuota_save,
    save, modify, ret.
  destruct (iadd _ _) as [c' | e]; simpl; intros H; inversion H; subst.
  eexists. split; [destruct w; reflexivity |]. simpl. auto.
Qed.

Lemma month_quotas_member user ps w k row :
  month_quotas user ps w = {[k := row]} ->
  ai_usage_quotas w !! k = Some row
  /\ AIUsageQuota.user row = user
  /\ AIUsageQuota.period_type row = "monthly"%string
  /\ AIUsageQuota.period_start row = ps.
Proof.
  intros H.
  assert (Hk : month_quotas user ps w !! k = Some row)
    by (rewrite H; apply lookup_singleton_eq).
  unfold month_quotas in Hk. apply map_lookup_filter_Some in Hk. simpl in Hk.
  tauto.
Qed.

(** C6. Two requests of one user run the admission check before either
    of them runs its update.  If the first is admitted, the second is
    admitted too, on the same row and the same counters, also when one
    request was left.  When both updates then go through, the stored
    counter has gone up by one, not by two.  Had the first update been
    stored before the second check, with one request left the second
    request would have been refused. *)
Theorem concurrent_checks_both_admitted (now : datetime) (user : Z * User.t)
    (w w1 : World) (qc1 : QuotaCheck) :
  check_usage_quota now user w = (Ok qc1, w1) ->
  can_use qc1 = true ->
  exists qc2,
    check_usage_quota now user w1 = (Ok qc2, w1)
    /\ can_use qc2 = true
    /\ fst (quota qc2) = fst (quota qc1)
    /\ AIUsageQuota.current_requests (snd (quota qc2))
       = AIUsageQuota.current_requests (snd (quota qc1))
    /\ requests_remaining qc2 = requests_remaining qc1
    /\ (forall t1 c1 t2 c2 x1 w2 x2 w3,
          update_usage (quota qc1) 1 t1 c1 w1 = (Ok x1, w2) ->
          update_usage (quota qc2) 1 t2 c2 w2 = (Ok x2, w3) ->
          AIUsageQuota.current_requests <$> ai_usage_quotas w3 !! fst (quota qc1)
          = Some (AIUsageQuota.current_requests (snd (quota qc1)) + 1))
    /\ (forall t c x1 w2,
          update_usage (quota qc1) 1 t c w1 = (Ok x1, w2) ->
          requests_remaining qc1 = 1 ->
          exists qc3,
            check_usage_quota now user w2 = (Ok qc3, w2)
            /\ can_use qc3 = false).
Proof.
  intros H1 Hcan.
  destruct (check_usage_quota_row _ _ _ _ _ H1)
    as (row & Hm & He & Hc & Hx & Hcu & Hrem).
  destruct (check_usage_quota_existing now user w1 _ _ Hm)
    as (qc2 & H2 & Hq2 & Hcu2 & Hrem2).
  exists qc2. split; [exact H2 |].
  split; [rewrite Hcu2, <- Hcu; exact Hcan |].
  split; [rewrite Hq2; reflexivity |].
  split; [rewrite Hq2; exact Hc |].
  split; [rewrite Hrem2, Hrem; reflexivity |].
  split.
  - intros t1 c1 t2 c2 x1 w2 x2 w3 Hu1 Hu2.
    apply update_usage_row in Hu2 as (row2 & Hw3 & Hr2 & _).
    rewrite Hw3, Hq2. simpl. rewrite lookup_insert_eq. simpl.
    rewrite Hr2, Hq2. simpl. rewrite Hc. reflexivity.
  - intros t c x1 w2 Hu1 Hone.
    apply update_usage_row in Hu1 as (row1 & Hw2 & Hr1 & Hmx & Hus & Hpt & Hps).
    destruct (month_quotas_member _ _ _ _ _ Hm) as (_ & Hu & Hp & Hs).
    assert (Hm2 : month_quotas (fst user) (month_start_of now) w2
                  = {[fst (quota qc1) := row1]}).
    { unfold month_quotas in *. rewrite Hw2.
      rewrite map_filter_insert_True.
      - rewrite Hm. apply insert_singleton_eq.
      - simpl.
        assert (Hin := H1). unfold check_usage_quota in Hin.
        apply bind_Ok_inv in Hin as ([q created] & w0 & Hg & Hin).
        apply bind_Ok_inv in Hin as (pct & w0' & Hpct & Hin).
        inversion Hin; subst qc1; clear Hin. simpl in *.
        unfold AIUsageQuota_get_or_create in Hg.
        fold (month_quotas (fst user) (month_start_of now) w) in Hg.
        destruct (queryset_get (month_quotas (fst user) (month_start_of now) w))
          as [y | e] eqn:Hget.
        + inversion Hg; subst.
          apply queryset_get_Ok_singleton in Hget.
          apply month_quotas_member in Hget as (_ & Hu' & Hp' & Hs').
          rewrite Hus, Hpt, Hps. auto.
        + destruct e; try (inversion Hg; fail).
          unfold objects_create in Hg. inversion Hg; subst.
          rewrite Hus, Hpt, Hps. simpl. auto. }
    destruct (check_usage_quota_existing now user w2 _ _ Hm2)
      as (qc3 & H3 & _ & Hcu3 & _).
    exists qc3. split; [exact H3 |]. rewrite Hcu3.
    apply andb_false_intro2. apply Z.ltb_ge.
    rewrite Hr1, Hmx. rewrite Hrem in Hone. rewrite <- Hc, <- Hx. lia.
Qed.

Lemma concurrent_checks_both_admitted_witness :
  exists qc1 w1 qc2,
    check_usage_quota Sample.noon (1, Sample.alice) Sample.world_with_quota
    = (Ok qc1, w1)
    /\ can_use qc1 = true
    /\ requests_remaining qc1 = 1
    /\ check_usage_quota Sample.noon (1, Sample.alice) w1 = (Ok qc2, w1)
    /\ can_use qc2 = true.
Proof.
  destruct (check_usage_quota Sample.noon (1, Sample.alice)
              Sample.world_with_quota) as [[qc1 | e] w1] eqn:E;
    [| vm_compute in E; discriminate].
  assert (Hcan : can_use qc1 = true).
  { vm_compute in E. inversion E. reflexivity. }
  assert (Hrem : requests_remaining qc1 = 1).
  { vm_compute in E. inversion E. reflexivity. }
  destruct (concurrent_checks_both_admitted Sample.noon (1, Sample.alice)
              Sample.world_with_quota w1 qc1 E Hcan)
    as (qc2 & H2 & Hcan2 & _).
  exists qc1, w1, qc2. repeat split; assumption.
Defined.

(** ** Records of one user and requests of another *)

#[global] Instance keeps_refl (B : Z) : Reflexive (keeps B).
Proof. intros w e Hs Ho. auto. Qed.

#[global] Instance keeps_trans (B : Z) : Transitive (keeps B).
Proof.
  intros w1 w2 w3 H12 H23 e Hs Ho.
  destruct (H12 e Hs Ho) as [Hs2 Ho2]. exact (H23 e Hs2 Ho2).
Qed.

Section Keeps.

Variables (A B : Z) (w : World).
Hypothesis A_not_B : A <> B.

Lemma keeps_workflow_update (pk : Z) (row row' : AutomationWorkflow.t) :
  automation_workflows w !! pk = Some row ->
  AutomationWorkflow.user row = A ->
  AutomationWorkflow.user row' = A ->
  keeps B w (with_automation_workflows (insert pk row') w).
Proof.
  intros Hpk Hu Hu' e Hs Ho. destruct w; simpl in *.
  destruct e as [[k v] | [k v] | [k v] | [k v] | [k v] | [k v] | [k v] | [k v]];
    simpl in *; auto.
  - assert (k <> pk) by (intros ->; congruence).
    rewrite lookup_insert_ne by congruence. auto.
  - split; [exact Hs |].
    destruct (decide (AutomationAction.workflow v = pk)) as [E | E].
    + rewrite E, Hpk in Ho. simpl in Ho. congruence.
    + rewrite lookup_insert_ne by congruence. exact Ho.
  - split; [exact Hs |].
    destruct (decide (WorkflowExecution.workflow v = pk)) as [E | E].
    + rewrite E, Hpk in Ho. simpl in Ho. congruence.
    + rewrite lookup_insert_ne by congruence. exact Ho.
Qed.

Lemma keeps_workflow_delete (pk : Z) (row : AutomationWorkflow.t) :
  automation_workflows w !! pk = Some row ->
  AutomationWorkflow.user row = A ->
  keeps B w (snd (Workflow_delete pk w)).
Proof.
  intros Hpk Hu e Hs Ho. destruct w; simpl in *.
  destruct e as [[k v] | [k v] | [k v] | [k v] | [k v] | [k v] | [k v] | [k v]];
    simpl in *; auto.
  - assert (k <> pk) by (intros ->; congruence).
    rewrite lookup_delete_ne by congruence. auto.
  - assert (AutomationAction.workflow v <> pk).
    { intros E. rewrite E, Hpk in Ho. simpl in Ho. congruence. }
    split.
    + apply map_lookup_filter_Some. auto.
    + rewrite lookup_delete_ne by congruence. exact Ho.
  - assert (WorkflowExecution.workflow v <> pk).
    { intros E. rewrite E, Hpk in Ho. simpl in Ho. congruence. }
    split.
    + apply map_lookup_filter_Some. auto.
    + rewrite lookup_delete_ne by congruence. exact Ho.
Qed.

Lemma keeps_action_update (pk : Z) (row row' : AutomationAction.t)
    (wf : AutomationWorkflow.t) :
  automation_actions w !! pk = Some row ->
  automation_workflows w !! AutomationAction.workflow row = Some wf ->
  AutomationWorkflow.user wf = A ->
  keeps B w (with_automation_actions (insert pk row') w).
Proof.
  intros Hpk Hwf Hu e Hs Ho. destruct w; simpl in *.
  destruct e as [[k v] | [k v] | [k v] | [k v] | [k v] | [k v] | [k v] | [k v]];
    simpl in *; auto.
  split; [| exact Ho].
  assert (k <> pk).
  { intros ->. rewrite Hpk in Hs. inversion Hs; subst.
    rewrite Hwf in Ho. simpl in Ho. congruence. }
  rewrite lookup_insert_ne by congruence. exact Hs.
Qed.

Lemma keeps_action_delete (pk : Z) (row : AutomationAction.t)
    (wf : AutomationWorkflow.t) :
  automation_actions w !! pk = Some row ->
  automation_workflows w !! AutomationAction.workflow row = Some wf ->
  AutomationWorkflow.user wf = A ->
  keeps B w (with_automation_actions (delete pk) w).
Proof.
  intros Hpk Hwf Hu e Hs Ho. destruct w; simpl in *.
  destruct e as [[k v] | [k v] | [k v] | [k v] | [k v] | [k v] | [k v] | [k v]];
    simpl in *; auto.
  split; [| exact Ho].
  assert (k <> pk).
  { intros ->. rewrite Hpk in Hs. inversion Hs; subst.
    rewrite Hwf in Ho. simpl in Ho. congruence. }
  rewrite lookup_delete_ne by congruence. exact Hs.
Qed.

Lemma keeps_integration_update (pk : Z) (row row' : Integration.t) :
  integrations w !! pk = Some row ->
  Integration.user row = A ->
  Integration.user row' = A ->
  keeps B w (with_integrations (insert pk row') w).
Proof.
  intros Hpk Hu Hu' e Hs Ho. destruct w; simpl in *.
  destruct e as [[k v] | [k v] | [k v] | [k v] | [k v] | [k v] | [k v] | [k v]];
    simpl in *; auto.
  - assert (k <> pk) by (intros ->; congruence).
    rewrite lookup_insert_ne by congruence. auto.
  - split; [exact Hs |].
    destruct (decide (IntegrationLog.integration v = pk)) as [E | E].
    + rewrite E, Hpk in Ho. simpl in Ho. congruence.
    + rewrite lookup_insert_ne by congruence. exact Ho.
  - split; [exact Hs |].
    destruct (decide (WebhookEndpoint.integration v = pk)) as [E | E].
    + rewrite E, Hpk in Ho. simpl in Ho. congruence.
    + rewrite lookup_insert_ne by congruence. exact Ho.
Qed.

Lemma keeps_integration_delete (pk : Z) (row : Integration.t) :
  integrations w !! pk = Some row ->
  Integration.user row = A ->
  keeps B w (snd (Integration_delete pk w)).
Proof.
  intros Hpk Hu e Hs Ho. destruct w; simpl in *.
  destruct e as [[k v] | [k v] | [k v] | [k v] | [k v] | [k v] | [k v] | [k v]];
    simpl in *; auto.
  - assert (k <> pk) by (intros ->; congruence).
    rewrite lookup_delete_ne by congruence. auto.
  - assert (IntegrationLog.integration v <> pk).
    { intros E. rewrite E, Hpk in Ho. simpl in Ho. congruence. }
    split.
    + apply map_lookup_filter_Some. auto.
    + rewrite lookup_delete_ne by congruence. exact Ho.
  - assert (WebhookEndpoint.integration v <> pk).
    { intros E. rewrite E, Hpk in Ho. simpl in Ho. congruence. }
    split.
    + apply map_lookup_filter_Some. auto.
    + rewrite lookup_delete_ne by congruence. exact Ho.
Qed.

Lemma keeps_webhook_write (pk : Z) (row : WebhookEndpoint.t)
    (f : gmap Z WebhookEndpoint.t -> gmap Z WebhookEndpoint.t) :
  webhook_endpoints w !! pk = Some row ->
  Integration.user <$> integrations w !! WebhookEndpoint.integration row = Some A ->
  (forall m k, k <> pk -> f m !! k = m !! k) ->
  keeps B w (with_webhook_endpoints f w).
Proof.
  intros Hpk Hown Hf e Hs Ho. destruct w; simpl in *.
  destruct e as [[k v] | [k v] | [k v] | [k v] | [k v] | [k v] | [k v] | [k v]];
    simpl in *; auto.
  split; [| exact Ho].
  assert (k <> pk).
  { intros ->. rewrite Hpk in Hs. inversion Hs; subst.
    rewrite Hown in Ho. congruence. }
  rewrite Hf by assumption. exact Hs.
Qed.

End Keeps.

Lemma elem_of_map {X Y} (f : X -> Y) (l : list X) (y : Y) :
  y ∈ map f l -> exists x, y = f x /\ x ∈ l.
Proof.
  rewrite list_elem_of_In, in_map_iff. intros (x & <- & Hx).
  exists x. split; [reflexivity |]. apply list_elem_of_In, Hx.
Qed.

Lemma paginate_elem {X} (page : Z) (l rows : list X) (x : X) :
  paginate page l = Ok rows -> x ∈ rows -> x ∈ l.
Proof.
  unfold paginate. destruct (_ && _)%bool; [| discriminate].
  intros H Hx. inversion H; subst.
  apply elem_of_take in Hx as (i & Hx & _).
  rewrite lookup_drop in Hx. eapply list_elem_of_lookup_2, Hx.
Qed.

Lemma rows_by_pk_elem {Row} (qs : gmap Z Row) (x : Z * Row) :
  x ∈ rows_by_pk qs <-> qs !! fst x = Some (snd x).
Proof.
  unfold rows_by_pk. rewrite merge_sort_Permutation. apply elem_of_map_to_list'.
Qed.

Lemma page_of_queryset {Row} (qs : gmap Z Row) (page : Z) (rows : list (Z * Row))
    (x : Z * Row) :
  paginate page (rows_by_pk qs) = Ok rows -> x ∈ rows -> qs !! fst x = Some (snd x).
Proof. intros Hp Hx. eapply rows_by_pk_elem, paginate_elem; eassumption. Qed.

Lemma get_object_in_Ok {Row} (l : list (Z * Row)) (pk : Z) (x : Z * Row) :
  get_object_in l pk = Ok x -> x ∈ l /\ fst x = pk.
Proof.
  unfold get_object_in. destruct (List.find _ l) as [y |] eqn:Hf; [| discriminate].
  intros H. inversion H; subst. apply find_some in Hf as [Hin Hk].
  split; [apply list_elem_of_In, Hin | apply Z.eqb_eq, Hk].
Qed.

Lemma isolated_no_records (A B : Z) (w : World) (r : res Response) :
  (forall resp, r = Ok resp -> returned resp = []) -> isolated A B w r w.
Proof.
  intros H. split; [| reflexivity].
  intros resp Hr e He. rewrite (H resp Hr) in He. inversion He.
Qed.

Ltac view_run H :=
  repeat
    (simpl in H;
     match type of H with
     | context [match ?x with _ => _ end] => destruct x eqn:?
     end);
  simpl in H; inversion H; subst; clear H.

Ltac no_records :=
  match goal with
  | |- isolated _ _ _ _ _ =>
      apply isolated_no_records; intros ? Hresp; inversion Hresp; reflexivity
  end.

Ltac one_record e0 :=
  intros ? Hresp ? Hin; inversion Hresp; subst; clear Hresp;
  unfold returned in Hin; simpl in Hin;
  apply list_elem_of_singleton in Hin; subst;
  exists e0; split; [simpl; reflexivity |].

Ltac page_records :=
  intros ? Hresp ? Hin; inversion Hresp; subst; clear Hresp;
  unfold returned in Hin; simpl in Hin;
  apply elem_of_map in Hin as (? & -> & Hin);
  match goal with
  | |- exists e0, same_row e0 ?e /\ _ => exists e
  end;
  split; [simpl; reflexivity |];
  match goal with
  | Hp : paginate _ (rows_by_pk _) = Ok _ |- _ =>
      pose proof (page_of_queryset _ _ _ _ Hp Hin) as Hrow;
      apply map_lookup_filter_Some in Hrow as [Hrow Hown];
      simpl in *;
      split; [exact Hrow | first [exact Hown | congruence]]
  end.

Section Isolation.

Variables (env : Environment) (now : datetime) (ms : Z).
Variables (ru : Z * User.t) (B : Z).
Hypothesis other : fst ru <> B.

Lemma list_views_isolated page w r w' :
  (AIRequestListView ru page w = (r, w')
   \/ AutomationWorkflowListView_get ru page w = (r, w')
   \/ WorkflowExecutionListView ru page w = (r, w')
   \/ IntegrationListView_get ru page w = (r, w')
   \/ IntegrationLogListView ru page w = (r, w')
   \/ WebhookEndpointListView_get ru page w = (r, w')) ->
  isolated (fst ru) B w r w'.
Proof.
  intros [H | [H | [H | [H | [H | H]]]]];
    [ unfold AIRequestListView in H
    | unfold AutomationWorkflowListView_get in H
    | unfold WorkflowExecutionListView in H
    | unfold IntegrationListView_get in H
    | unfold IntegrationLogListView in H
    | unfold WebhookEndpointListView_get in H ];
    unfold bind, gets, lift_res, ret in H.
  all: match type of H with
       | context [paginate ?p ?l] => destruct (paginate p l) as [rows | e] eqn:Hp
       end; simpl in H; inversion H; subst; clear H.
  all: try (apply isolated_no_records; intros ? Hresp; discriminate Hresp).
  all: split; [page_records | reflexivity].
Qed.

Lemma detail_views_isolated pk w r w' :
  (AIRequestDetailView ru pk w = (r, w')
   \/ WorkflowExecutionDetailView ru pk w = (r, w')
   \/ IntegrationDetailView_get ru pk w = (r, w')
   \/ WebhookEndpointDetailView_get ru pk w = (r, w')) ->
  isolated (fst ru) B w r w'.
Proof.
  intros [H | [H | [H | H]]];
    [ unfold AIRequestDetailView in H
    | unfold WorkflowExecutionDetailView in H
    | unfold IntegrationDetailView_get in H
    | unfold WebhookEndpointDetailView_get in H ];
    unfold bind, gets, lift_res, ret, get_object_or_404 in H.
  all: match type of H with
       | context [?qs !! ?k] => destruct (qs !! k) as [row |] eqn:Hrow
       end; simpl in H; inversion H; subst; clear H.
  all: try (apply isolated_no_records; intros ? Hresp; discriminate Hresp).
  all: apply map_lookup_filter_Some in Hrow as [Hrow Hown]; simpl in Hown.
  all: split; [| reflexivity].
  - one_record (EAIRequest (pk, row)). simpl. split; congruence.
  - one_record (EExecution (pk, row)). simpl. auto.
  - one_record (EIntegration (pk, row)). simpl. split; congruence.
  - one_record (EWebhook (pk, row)). simpl. auto.
Qed.

End Isolation.

Section IsolationWrites.

Variables (env : Environment) (now : datetime) (ms : Z).
Variables (ru : Z * User.t) (B : Z).
Hypothesis other : fst ru <> B.

Lemma owned_workflow w pk row :
  Workflow_get_queryset ru w !! pk = Some row ->
  automation_workflows w !! pk = Some row
  /\ AutomationWorkflow.user row = fst ru.
Proof. apply workflow_queryset_lookup. Qed.

Lemma nested_actions_owned w w' pk row e :
  automation_workflows w !! pk = Some row ->
  AutomationWorkflow.user row = fst ru ->
  automation_actions w' = automation_actions w ->
  e ∈ map EAction (workflow_actions pk w') ->
  exists e0, same_row e0 e /\ stored w e0 /\ owner w e0 = Some (fst ru).
Proof.
  intros Hrow Hu Hsame He. apply elem_of_map in He as (x & -> & Hx).
  apply workflow_actions_elem in Hx as [Hx Hw]. rewrite Hsame in Hx.
  exists (EAction x). split; [simpl; reflexivity |]. simpl.
  split; [exact Hx |]. rewrite Hw, Hrow. simpl. congruence.
Qed.

Lemma workflow_detail_isolated pk w r w' :
  AutomationWorkflowDetailView_get ru pk w = (r, w') ->
  isolated (fst ru) B w r w'.
Proof.
  unfold AutomationWorkflowDetailView_get, bind, gets, lift_res, ret,
    get_object_or_404, workflow_detail.
  destruct (Workflow_get_queryset ru w !! pk) as [row |] eqn:Hrow; simpl;
    intros H; inversion H; subst; clear H;
    [| apply isolated_no_records; intros ? Hresp; discriminate Hresp].
  apply owned_workflow in Hrow as [Hrow Hu].
  split; [| reflexivity].
  intros resp Hresp e He. inversion Hresp; subst; clear Hresp.
  unfold returned in He. simpl in He. apply elem_of_cons in He as [-> | He].
  - exists (EWorkflow (pk, row)). split; [simpl; reflexivity |]. simpl.
    split; congruence.
  - eapply nested_actions_owned; eauto.
Qed.

Lemma workflow_update_isolated pk d w r w' :
  AutomationWorkflowDetailView_update now ru pk d w = (r, w') ->
  isolated (fst ru) B w r w'.
Proof.
  unfold AutomationWorkflowDetailView_update, bind, gets, lift_res, ret,
    get_object_or_404, workflow_detail, is_valid, save, modify, raise.
  destruct (Workflow_get_queryset ru w !! pk) as [row |] eqn:Hrow; simpl;
    [| intros H; inversion H; subst;
       apply isolated_no_records; intros ? Hresp; discriminate Hresp].
  destruct d as [d |]; simpl; intros H; inversion H; subst; clear H;
    [| apply isolated_no_records; intros ? Hresp; discriminate Hresp].
  apply owned_workflow in Hrow as [Hrow Hu].
  split.
  - intros resp Hresp e He. inversion Hresp; subst; clear Hresp.
    unfold returned in He. simpl in He. apply elem_of_cons in He as [-> | He].
    + exists (EWorkflow (pk, row)). split; [simpl; reflexivity |]. simpl.
      split; congruence.
    + eapply (nested_actions_owned w _ pk row e Hrow Hu); [| exact He].
      destruct w; reflexivity.
  - eapply keeps_workflow_update; eauto.
Qed.

Lemma workflow_delete_isolated pk w r w' :
  AutomationWorkflowDetailView_delete ru pk w = (r, w') ->
  isolated (fst ru) B w r w'.
Proof.
  unfold AutomationWorkflowDetailView_delete.
  unfold bind at 1 2, gets, lift_res, get_object_or_404.
  destruct (Workflow_get_queryset ru w !! pk) as [row |] eqn:Hrow; simpl;
    [| intros H; inversion H; subst;
       apply isolated_no_records; intros ? Hresp; discriminate Hresp].
  apply owned_workflow in Hrow as [Hrow Hu].
  intros H. apply bind_inv in H as [(a & w1 & Hd & H) | (e & Hd & ->)].
  - inversion H; subst; clear H. split.
    + intros resp Hresp e He. inversion Hresp; subst. inversion He.
    + pose proof (keeps_workflow_delete (fst ru) B w other pk row Hrow Hu) as Hk.
      rewrite Hd in Hk. exact Hk.
  - split; [intros ? Hresp; discriminate Hresp |].
    pose proof (keeps_workflow_delete (fst ru) B w other pk row Hrow Hu) as Hk.
    rewrite Hd in Hk. exact Hk.
Qed.

(** An action found through the action views belongs to a workflow of
    the requester. *)
Lemma action_queryset_owned wid w (l : list (Z * AutomationAction.t)) w1 :
  Action_get_queryset ru wid w = (Ok l, w1) ->
  w1 = w
  /\ l = workflow_actions wid w
  /\ exists wf, automation_workflows w !! wid = Some wf
                /\ AutomationWorkflow.user wf = fst ru.
Proof.
  unfold Action_get_queryset, bind, gets, lift_res, get_object_or_404.
  destruct (Workflow_get_queryset ru w !! wid) as [wf |] eqn:Hwf; simpl;
    intros H; inversion H; subst.
  apply owned_workflow in Hwf. eauto.
Qed.

Lemma action_queryset_raises wid w e w1 :
  Action_get_queryset ru wid w = (Raise e, w1) -> w1 = w.
Proof.
  unfold Action_get_queryset, bind, gets, lift_res, get_object_or_404.
  destruct (Workflow_get_queryset ru w !! wid); simpl; intros H; inversion H;
    reflexivity.
Qed.

Lemma action_views_isolated wid w r w' :
  (exists page, AutomationActionListView_get ru wid page w = (r, w'))
  \/ (exists pk, AutomationActionDetailView_get ru wid pk w = (r, w'))
  \/ (exists pk d, AutomationActionDetailView_update now ru wid pk d w = (r, w'))
  \/ (exists pk, AutomationActionDetailView_delete ru wid pk w = (r, w')) ->
  isolated (fst ru) B w r w'.
Proof.
  intros H.
  assert (Hraise : forall e w1,
            Action_get_queryset ru wid w = (Raise e, w1) ->
            isolated (fst ru) B w (@Raise Response e) w1).
  { intros e w1 Hq. apply action_queryset_raises in Hq. subst.
    apply isolated_no_records. intros ? Hresp. discriminate Hresp. }
  assert (Hmember : forall wf x,
            automation_workflows w !! wid = Some wf ->
            AutomationWorkflow.user wf = fst ru ->
            x ∈ workflow_actions wid w ->
            stored w (EAction x) /\ owner w (EAction x) = Some (fst ru)).
  { intros wf x Hwf Hu Hx. apply workflow_actions_elem in Hx as [Hx Hw]. simpl.
    split; [exact Hx |]. rewrite Hw, Hwf. simpl. congruence. }
  destruct H as [(page & H) | [(pk & H) | [(pk & d & H) | (pk & H)]]].
  - unfold AutomationActionListView_get in H.
    apply bind_inv in H as [(l & w1 & Hq & H) | (e & Hq & ->)]; [| eauto].
    apply action_queryset_owned in Hq as (-> & -> & wf & Hwf & Hu).
    unfold bind, lift_res, ret in H.
    destruct (paginate page (workflow_actions wid w)) as [rows | e] eqn:Hp;
      simpl in H; inversion H; subst; clear H;
      [| apply isolated_no_records; intros ? Hresp; discriminate Hresp].
    split; [| reflexivity].
    intros resp Hresp e He. inversion Hresp; subst; clear Hresp.
    unfold returned in He. simpl in He. apply elem_of_map in He as (x & -> & Hx).
    exists (EAction x). split; [simpl; reflexivity |].
    eapply Hmember; eauto. eapply paginate_elem; eauto.
  - unfold AutomationActionDetailView_get in H.
    apply bind_inv in H as [(l & w1 & Hq & H) | (e & Hq & ->)]; [| eauto].
    apply action_queryset_owned in Hq as (-> & -> & wf & Hwf & Hu).
    unfold bind, lift_res, ret in H.
    destruct (get_object_in (workflow_actions wid w) pk) as [obj | e] eqn:Ho;
      simpl in H; inversion H; subst; clear H;
      [| apply isolated_no_records; intros ? Hresp; discriminate Hresp].
    apply get_object_in_Ok in Ho as [Ho _].
    split; [| reflexivity].
    one_record (EAction obj). eapply Hmember; eauto.
  - unfold AutomationActionDetailView_update in H.
    apply bind_inv in H as [(l & w1 & Hq & H) | (e & Hq & ->)]; [| eauto].
    apply action_queryset_owned in Hq as (-> & -> & wf & Hwf & Hu).
    unfold bind, lift_res, ret, is_valid, save, modify, raise in H.
    destruct (get_object_in (workflow_actions wid w) pk) as [[k row] | e] eqn:Ho;
      simpl in H;
      [| inversion H; subst;
         apply isolated_no_records; intros ? Hresp; discriminate Hresp].
    destruct d as [d |]; simpl in H; inversion H; subst; clear H;
      [| apply isolated_no_records; intros ? Hresp; discriminate Hresp].
    apply get_object_in_Ok in Ho as [Ho _].
    destruct (Hmember wf _ Hwf Hu Ho) as [Hst Hown]. simpl in Hst, Hown.
    apply workflow_actions_elem in Ho as [_ Hw]. simpl in Hw.
    split.
    + one_record (EAction (k, row)). simpl. auto.
    + eapply keeps_action_update; eauto. rewrite Hw. exact Hwf.
  - unfold AutomationActionDetailView_delete in H.
    apply bind_inv in H as [(l & w1 & Hq & H) | (e & Hq & ->)]; [| eauto].
    apply action_queryset_owned in Hq as (-> & -> & wf & Hwf & Hu).
    unfold bind, lift_res, ret, delete_row, modify in H.
    destruct (get_object_in (workflow_actions wid w) pk) as [[k row] | e] eqn:Ho;
      simpl in H; inversion H; subst; clear H;
      [| apply isolated_no_records; intros ? Hresp; discriminate Hresp].
    apply get_object_in_Ok in Ho as [Ho _].
    destruct (Hmember wf _ Hwf Hu Ho) as [Hst Hown]. simpl in Hst, Hown.
    apply workflow_actions_elem in Ho as [_ Hw]. simpl in Hw.
    split.
    + intros resp Hresp e He. inversion Hresp; subst. inversion He.
    + eapply keeps_action_delete; eauto. rewrite Hw. exact Hwf.
Qed.

Lemma integration_writes_isolated pk w r w' :
  (exists d, IntegrationDetailView_update now ru pk d w = (r, w'))
  \/ IntegrationDetailView_delete ru pk w = (r, w') ->
  isolated (fst ru) B w r w'.
Proof.
  intros [(d & H) | H].
  - unfold IntegrationDetailView_update, bind, gets, lift_res, ret,
      get_object_or_404, is_valid, save, modify, raise in H.
    destruct (Integration_get_queryset ru w !! pk) as [row |] eqn:Hrow;
      simpl in H;
      [| inversion H; subst;
         apply isolated_no_records; intros ? Hresp; discriminate Hresp].
    destruct d as [d |]; simpl in H; inversion H; subst; clear H;
      [| apply isolated_no_records; intros ? Hresp; discriminate Hresp].
    apply map_lookup_filter_Some in Hrow as [Hrow Hu]. simpl in Hu.
    split.
    + one_record (EIntegration (pk, row)). simpl. split; congruence.
    + eapply keeps_integration_update; eauto.
  - unfold IntegrationDetailView_delete in H.
    unfold bind at 1 2, gets, lift_res, get_object_or_404 in H.
    destruct (Integration_get_queryset ru w !! pk) as [row |] eqn:Hrow;
      simpl in H;
      [| inversion H; subst;
         apply isolated_no_records; intros ? Hresp; discriminate Hresp].
    apply map_lookup_filter_Some in Hrow as [Hrow Hu]. simpl in Hu.
    pose proof (keeps_integration_delete (fst ru) B w other pk row Hrow Hu) as Hk.
    apply bind_inv in H as [(a & w1 & Hd & H) | (e & Hd & ->)];
      rewrite Hd in Hk.
    + inversion H; subst; clear H. split; [| exact Hk].
      intros resp Hresp e He. inversion Hresp; subst. inversion He.
    + split; [intros ? Hresp; discriminate Hresp | exact Hk].
Qed.

Lemma webhook_writes_isolated pk w r w' :
  (exists d, WebhookEndpointDetailView_update now ru pk d w = (r, w'))
  \/ WebhookEndpointDetailView_delete ru pk w = (r, w') ->
  isolated (fst ru) B w r w'.
Proof.
  intros [(d & H) | H].
  - unfold WebhookEndpointDetailView_update in H.
    unfold bind at 1 2, gets, lift_res, get_object_or_404 in H.
    destruct (Webhook_get_queryset ru w !! pk) as [row |] eqn:Hrow;
      simpl in H;
      [| inversion H; subst;
         apply isolated_no_records; intros ? Hresp; discriminate Hresp].
    apply map_lookup_filter_Some in Hrow as [Hrow Hown]. simpl in Hown.
    apply bind_inv in H as [(vd & w1 & Hv & H) | (e & Hv & ->)].
    2: { destruct d; inversion Hv; subst.
         apply isolated_no_records. intros ? Hresp. discriminate Hresp. }
    destruct d as [d |]; inversion Hv as [[Hvd Hw1]]; clear Hv.
    subst vd w1.
    apply bind_inv in H as [([] & w2 & Hv & H) | (e & Hv & ->)];
      pose proof (valid_integration_pk_reads (wd_integration d) w) as Hr;
      rewrite Hv in Hr; simpl in Hr.
    2: { subst w'. apply isolated_no_records. intros ? Hresp. discriminate Hresp. }
    subst w2.
    unfold bind, save, modify, ret in H. simpl in H.
    inversion H as [[Hresp Hw']]; clear H. subst r w'.
    split.
    + one_record (EWebhook (pk, row)). simpl. auto.
    + eapply keeps_webhook_write; eauto.
      intros m k Hk. apply lookup_insert_ne. congruence.
  - unfold WebhookEndpointDetailView_delete, bind, gets, lift_res, ret,
      get_object_or_404, delete_row, modify in H.
    destruct (Webhook_get_queryset ru w !! pk) as [row |] eqn:Hrow;
      simpl in H; inversion H; subst; clear H;
      [| apply isolated_no_records; intros ? Hresp; discriminate Hresp].
    apply map_lookup_filter_Some in Hrow as [Hrow Hown]. simpl in Hown.
    split.
    + intros resp Hresp e He. inversion Hresp; subst. inversion He.
    + eapply keeps_webhook_write; eauto.
      intros m k Hk. apply lookup_delete_ne. congruence.
Qed.

End IsolationWrites.

Lemma querysets_are_owned (ru : Z * User.t) (w : World) : owned_querysets ru w.
Proof.
  unfold owned_querysets, AIRequest_get_queryset, Workflow_get_queryset,
    Execution_get_queryset, Integration_get_queryset,
    IntegrationLog_get_queryset, Webhook_get_queryset.
  repeat (split;
          [intros k r; rewrite map_lookup_filter_Some; simpl;
           split; intros [? ?]; split; congruence |]).
  intros workflow_id l w1 Hq x.
  apply action_queryset_owned in Hq as (-> & -> & wf & Hwf & Hu).
  rewrite workflow_actions_elem. simpl. split.
  - intros [Hx Hw]. split; [split; assumption |].
    rewrite Hw, Hwf. simpl. congruence.
  - intros [[Hx Hw] _]. split; assumption.
Qed.

Lemma same_row_stored (w : World) (e0 e : Entity) :
  same_row e0 e -> stored w e0 -> stored w e -> e0 = e.
Proof.
  destruct e0 as [[k0 v0] | [k0 v0] | [k0 v0] | [k0 v0] | [k0 v0] | [k0 v0]
                 | [k0 v0] | [k0 v0]];
    destruct e as [[k v] | [k v] | [k v] | [k v] | [k v] | [k v] | [k v] | [k v]];
    simpl; try contradiction; intros -> H0 H; congruence.
Qed.

Lemma crud_view_isolated (env : Environment) (now : datetime) (ms : Z)
    (ru : Z * User.t) (B : Z) (rq : Request) (w : World) (r : res Response)
    (w' : World) :
  fst ru <> B -> crud rq ->
  view env now ms ru rq w = (r, w') ->
  isolated (fst ru) B w r w'.
Proof.
  intros other Hrq H. destruct rq; simpl in Hrq; try contradiction; simpl in H.
  all: first
    [ eapply list_views_isolated; solve [eauto 10]
    | eapply detail_views_isolated; solve [eauto 10]
    | eapply workflow_detail_isolated; solve [eauto]
    | eapply (workflow_update_isolated now); solve [eauto]
    | eapply workflow_delete_isolated; solve [eauto]
    | eapply (action_views_isolated now); solve [eauto 10]
    | eapply (integration_writes_isolated now); solve [eauto 10]
    | eapply (webhook_writes_isolated now); solve [eauto 10] ].
Qed.

(** What the querysets give.  The querysets of the list, detail, update
    and delete endpoints over workflows, actions, executions, AI requests,
    integrations, integration logs and webhook endpoints hold exactly the
    stored records of the requesting user.  So for two distinct users [A]
    and [B] and any such request authenticated as [A]: every record in
    the response is (the row, possibly just updated, of) a record that
    was stored and owned by [A] before the request, and every record that
    [B] owned before the request is still stored, unchanged and owned by
    [B], after it.  Who owns a record of [A] after the request is another
    matter, settled below for the update of a webhook endpoint. *)
Theorem tenant_isolation (env : Environment) (now : datetime) (ms : Z)
    (A B : Z) (rq : Request) (w : World) :
  crud rq -> A <> B ->
  let resp := fst (handle env now ms A rq w) in
  let w' := snd (handle env now ms A rq w) in
  (forall u, users w !! A = Some u -> owned_querysets (A, u) w)
  /\ (forall e, e ∈ returned resp ->
                exists e0, same_row e0 e /\ stored w e0 /\ owner w e0 = Some A)
  /\ (forall e, e ∈ returned resp -> stored w e -> owner w e <> Some B)
  /\ keeps B w w'.
Proof.
  intros Hrq HAB resp w'.
  assert (Hret : (forall e, e ∈ returned resp ->
                    exists e0, same_row e0 e /\ stored w e0 /\ owner w e0 = Some A)
                 /\ keeps B w w').
  { subst resp w'. unfold handle, api_view, bind, authenticate.
    destruct (users w !! A) as [u |] eqn:Hu; simpl;
      [| split; [intros e He; inversion He | reflexivity]].
    destruct (view env now ms (A, u) rq w) as [r w1] eqn:Hv.
    apply (crud_view_isolated env now ms (A, u) B) in Hv as [Hv Hk];
      [| exact HAB | exact Hrq].
    simpl in Hv.
    destruct r as [resp | e]; simpl.
    - split; [exact (Hv resp eq_refl) | exact Hk].
    - split; [| destruct e; exact Hk].
      intros x Hx. destruct e; inversion Hx. }
  destruct Hret as [Hret Hk].
  split; [intros u _; apply querysets_are_owned |].
  split; [exact Hret |]. split; [| exact Hk].
  intros e He Hs Ho. destruct (Hret e He) as (e0 & Hsame & Hs0 & Ho0).
  rewrite (same_row_stored w e0 e Hsame Hs0 Hs) in Ho0. congruence.
Qed.

(** On the sample world alice asks to delete workflow 11, which is
    bob's: the workflow is still there afterwards, and so is every other
    record of bob. *)
Lemma tenant_isolation_witness :
  crud (DELETE_workflow 11)
  /\ 1 <> 2
  /\ keeps 2 Sample.world
       (snd (handle Sample.env Sample.noon 0 1 (DELETE_workflow 11) Sample.world))
  /\ automation_workflows
       (snd (handle Sample.env Sample.noon 0 1 (DELETE_workflow 11) Sample.world))
     !! 11 = Some (Sample.workflow_of 2 "paused" true).
Proof.
  assert (Hne : 1 <> 2) by lia.
  destruct (tenant_isolation Sample.env Sample.noon 0 1 2 (DELETE_workflow 11)
              Sample.world I Hne) as (_ & _ & _ & Hk).
  split; [exact I |]. split; [exact Hne |]. split; [exact Hk |].
  destruct (Hk (EWorkflow (11, Sample.workflow_of 2 "paused" true))) as [Hs _];
    [reflexivity | reflexivity | exact Hs].
Defined.

(** C8.  The claim fails at the update of a webhook endpoint:
    [WebhookEndpointSerializer] has [integration] among its writable
    fields and accepts the key of any integration, not only of one of
    the requester.  On the sample data alice (user 1) owns endpoint 30
    through her integration 20, and bob (user 2) has integration 21 and
    no endpoint.  Alice sends [PUT /webhooks/30/] with
    [integration = 21].  The answer is 200 with the updated record; in
    the database after the request that record belongs to bob's
    integration, so the record that the request has returned and
    modified is one that bob owns; it is in bob's queryset and bob's
    list shows it, it has left alice's queryset, and alice's next
    request for it is answered with 404. *)
Theorem webhook_update_crosses_tenants :
  let rq := PUT_webhook 30 (Some Sample.to_integration_21) in
  let out := handle Sample.env Sample.noon 0 1 rq Sample.world_with_webhook in
  let row := webhook_update Sample.to_integration_21 Sample.noon Sample.webhook in
  crud rq
  /\ Webhook_get_queryset (1, Sample.alice) Sample.world_with_webhook !! 30
     = Some Sample.webhook
  /\ owner Sample.world_with_webhook (EWebhook (30, Sample.webhook)) = Some 1
  /\ Webhook_get_queryset (2, Sample.bob) Sample.world_with_webhook = ∅
  /\ Integration.user <$> integrations Sample.world_with_webhook !! 21 = Some 2
  /\ fst out = {| status_code := 200; data := Records [EWebhook (30, row)] |}
  /\ WebhookEndpoint.integration row = 21
  /\ webhook_endpoints (snd out) !! 30 = Some row
  /\ owner (snd out) (EWebhook (30, row)) = Some 2
  /\ Webhook_get_queryset (2, Sample.bob) (snd out) !! 30 = Some row
  /\ fst (handle Sample.env Sample.noon 0 2 (GET_webhooks 1) (snd out))
     = {| status_code := 200; data := Records [EWebhook (30, row)] |}
  /\ Webhook_get_queryset (1, Sample.alice) (snd out) !! 30 = None
  /\ status_code (fst (handle Sample.env Sample.noon 0 1 (GET_webhook 30) (snd out)))
     = 404.
Proof. vm_compute. repeat split. Qed.

(** * Further properties of the code *)

(** ** The choice of a model *)


Lemma queryset_get_raises {Row} (qs : gmap Z Row) (e : exn) :
  queryset_get qs = Raise e ->
  (exists m, e = DoesNotExist m /\ qs = ∅)
  \/ (exists m, e = MultipleObjectsReturned m).
Proof.
  intros H. unfold queryset_get in H.
  destruct (rows_by_pk qs) as [| y [| z l]] eqn:Hr; inversion H; subst.
  - left. eexists. split; [reflexivity |].
    eapply queryset_get_DoesNotExist. unfold queryset_get. rewrite Hr. reflexivity.
  - right. eauto.
Qed.

Lemma first_preferred_spec (models : gmap Z AIModel.t) (mt : string)
    (preferred : list string) :
  match first_preferred models mt preferred with
  | Ok (Some m) =>
      models !! fst m = Some (snd m)
      /\ AIModel.model_type (snd m) = mt
      /\ AIModel.is_active (snd m) = true
      /\ exists before after,
           preferred = before ++ AIModel.model_id (snd m) :: after
           /\ forall k m', models !! k = Some m' ->
                AIModel.model_type m' = mt -> AIModel.is_active m' = true ->
                AIModel.model_id m' ∉ before
  | Ok None =>
      forall k m', models !! k = Some m' ->
        AIModel.model_type m' = mt -> AIModel.is_active m' = true ->
        AIModel.model_id m' ∉ preferred
  | Raise e => exists msg, e = MultipleObjectsReturned msg
  end.
Proof.
  induction preferred as [| id rest IH]; simpl.
  - intros k m' _ _ _ H. inversion H.
  - destruct (queryset_get _) as [m | e] eqn:Hget.
    + apply queryset_get_Ok_lookup in Hget.
      apply map_lookup_filter_Some in Hget as [Hm (Hid & Hty & Hact)].
      simpl in *. split; [exact Hm |]. split; [exact Hty |]. split; [exact Hact |].
      exists [], rest. split; [simpl; congruence |].
      intros k m' _ _ _ H. inversion H.
    + apply queryset_get_raises in Hget as [(msg & -> & Hempty) | (msg & ->)];
        [| eauto].
      assert (Hnone : forall k m', models !! k = Some m' ->
                AIModel.model_type m' = mt -> AIModel.is_active m' = true ->
                AIModel.model_id m' <> id).
      { intros k m' Hk Hty Hact Hid.
        assert (Hin : filter (fun kv : Z * AIModel.t =>
                                AIModel.model_id (snd kv) = id
                                /\ AIModel.model_type (snd kv) = mt
                                /\ AIModel.is_active (snd kv) = true) models !! k
                      = Some m').
        { apply map_lookup_filter_Some. simpl. auto. }
        rewrite Hempty in Hin. rewrite lookup_empty in Hin. discriminate. }
      destruct (first_preferred models mt rest) as [[m |] | e].
      * destruct IH as (Hm & Hty & Hact & before & after & -> & Hb).
        split; [exact Hm |]. split; [exact Hty |]. split; [exact Hact |].
        exists (id :: before), after. split; [reflexivity |].
        intros k m' Hk Hty' Hact' Hin. apply elem_of_cons in Hin as [Hin | Hin].
        -- exact (Hnone k m' Hk Hty' Hact' Hin).
        -- exact (Hb k m' Hk Hty' Hact' Hin).
      * intros k m' Hk Hty Hact Hin. apply elem_of_cons in Hin as [Hin | Hin].
        -- exact (Hnone k m' Hk Hty Hact Hin).
        -- exact (IH k m' Hk Hty Hact Hin).
      * exact IH.
Qed.

#[global] Instance pk_le_transitive {Row} : Transitive (@pk_le Row).
Proof. intros a b c. unfold pk_le. lia. Qed.

#[global] Instance pk_le_total {Row} : Total (@pk_le Row).
Proof. intros a b. unfold pk_le. lia. Qed.

Lemma queryset_first_spec {Row} (qs : gmap Z Row) :
  match queryset_first qs with
  | Some x => qs !! fst x = Some (snd x)
              /\ forall k r, qs !! k = Some r -> fst x <= k
  | None => qs = ∅
  end.
Proof.
  unfold queryset_first.
  pose proof (StronglySorted_merge_sort pk_le (map_to_list qs)) as Hs.
  fold (rows_by_pk qs) in Hs.
  assert (Hin : forall x, x ∈ rows_by_pk qs <-> qs !! fst x = Some (snd x)).
  { intros x. unfold rows_by_pk. rewrite merge_sort_Permutation.
    apply elem_of_map_to_list'. }
  destruct (rows_by_pk qs) as [| x l] eqn:Hr; simpl.
  - apply map_empty. intros k. destruct (qs !! k) as [r |] eqn:Hk; [| reflexivity].
    specialize (Hin (k, r)). simpl in Hin. apply Hin in Hk. inversion Hk.
  - split.
    + apply Hin. apply list_elem_of_here.
    + intros k r Hk. specialize (Hin (k, r)). simpl in Hin. apply Hin in Hk.
      apply elem_of_cons in Hk as [<- | Hk]; [simpl; lia |].
      apply StronglySorted_inv in Hs as [_ Hall].
      rewrite List.Forall_forall in Hall. apply list_elem_of_In in Hk.
      exact (Hall _ Hk).
Qed.

(** X1. [get_available_model] only reads.  A model it returns is a stored,
    active model of the requested type: either the first identifier of
    the priority list of the tier that an active model of that type
    carries, or, when no identifier of the list is carried by one, the
    active model of that type with the smallest key whose minimum tier is
    ['starter'] or the tier given.  It returns [None] only when there is
    no such model at all, and it raises only [MultipleObjectsReturned],
    when two active models of the type carry the same preferred
    identifier. *)
Theorem get_available_model_spec (tier model_type : string) (w : World) :
  snd (get_available_model tier model_type w) = w
  /\ match fst (get_available_model tier model_type w) with
     | Ok (Some m) =>
         ai_models w !! fst m = Some (snd m)
         /\ AIModel.model_type (snd m) = model_type
         /\ AIModel.is_active (snd m) = true
         /\ ((exists before after,
                model_priorities tier = before ++ AIModel.model_id (snd m) :: after
                /\ forall k m', ai_models w !! k = Some m' ->
                     AIModel.model_type m' = model_type ->
                     AIModel.is_active m' = true ->
                     AIModel.model_id m' ∉ before)
             \/ ((forall k m', ai_models w !! k = Some m' ->
                    AIModel.model_type m' = model_type ->
                    AIModel.is_active m' = true ->
                    AIModel.model_id m' ∉ model_priorities tier)
                 /\ (AIModel.min_subscription_tier (snd m) = "starter"%string
                     \/ AIModel.min_subscription_tier (snd m) = tier)
                 /\ forall k m', ai_models w !! k = Some m' ->
                      AIModel.model_type m' = model_type ->
                      AIModel.is_active m' = true ->
                      AIModel.min_subscription_tier m' = "starter"%string
                      \/ AIModel.min_subscription_tier m' = tier ->
                      fst m <= k))
     | Ok None =>
         forall k m', ai_models w !! k = Some m' ->
           AIModel.model_type m' = model_type ->
           AIModel.is_active m' = true ->
           (AIModel.model_id m' ∉ model_priorities tier)
           /\ AIModel.min_subscription_tier m' <> "starter"%string
           /\ AIModel.min_subscription_tier m' <> tier
     | Raise e => exists msg, e = MultipleObjectsReturned msg
     end.
Proof.
  split; [apply get_available_model_reads |].
  unfold get_available_model.
  pose proof (first_preferred_spec (ai_models w) model_type (model_priorities tier))
    as Hp.
  destruct (first_preferred _ _ _) as [[m |] | e]; simpl.
  - destruct Hp as (Hm & Hty & Hact & Hpre). repeat split; auto.
  - match goal with |- context [queryset_first ?qs] =>
      pose proof (queryset_first_spec qs) as Hf;
      destruct (queryset_first qs) as [m |]
    end.
    + destruct Hf as [Hm Hmin].
      apply map_lookup_filter_Some in Hm as [Hm (Hty & Hact & Htier)].
      simpl in *. repeat split; auto. right. split; [exact Hp |].
      split; [exact Htier |].
      intros k m' Hk Hty' Hact' Htier'. apply (Hmin k m').
      apply map_lookup_filter_Some. simpl. auto.
    + intros k m' Hk Hty Hact. split; [exact (Hp k m' Hk Hty Hact) |].
      assert (Hnot : ~ (AIModel.min_subscription_tier m' = "starter"%string
                        \/ AIModel.min_subscription_tier m' = tier)).
      { intros Htier.
        assert (Hin : filter (fun kv : Z * AIModel.t =>
                          AIModel.model_type (snd kv) = model_type
                          /\ AIModel.is_active (snd kv) = true
                          /\ (AIModel.min_subscription_tier (snd kv) = "starter"%string
                              \/ AIModel.min_subscription_tier (snd kv) = tier))
                        (ai_models w) !! k = Some m').
        { apply map_lookup_filter_Some. simpl. auto. }
        rewrite Hf, lookup_empty in Hin. discriminate. }
      tauto.
  - exact Hp.
Qed.

(** ** Success rates *)

Lemma round_half_even_bounds (q : Q) (N : Z) :
  (0 <= q)%Q -> (q <= inject_Z N)%Q -> 0 <= round_half_even q <= N.
Proof.
  intros H0 HN. unfold round_half_even.
  pose proof (Qfloor_le q) as Hf.
  assert (Hf0 : 0 <= Qfloor q).
  { change 0 with (Qfloor 0). apply Qfloor_resp_le. exact H0. }
  assert (HfN : Qfloor q <= N).
  { rewrite Zle_Qle. lra. }
  assert (Hup : (inject_Z (Qfloor q) < q)%Q -> Qfloor q + 1 <= N).
  { intros Hlt. assert (Qfloor q < N); [| lia]. rewrite Zlt_Qlt. lra. }
  destruct (Qle_bool (q - inject_Z (Qfloor q)) (1 # 2)) eqn:Hle;
    destruct (Qeq_bool (q - inject_Z (Qfloor q)) (1 # 2)) eqn:Heq; simpl.
  - apply Qeq_bool_iff in Heq.
    destruct (Z.even (Qfloor q)); [lia |]. split; [lia |]. apply Hup. lra.
  - lia.
  - apply Qeq_bool_iff in Heq.
    destruct (Z.even (Qfloor q)); [lia |]. split; [lia |]. apply Hup. lra.
  - split; [lia |]. apply Hup.
    destruct (Qlt_le_dec (1 # 2) (q - inject_Z (Qfloor q))) as [Hgt | Hno];
      [lra |].
    apply Qle_bool_iff in Hno. congruence.
Qed.

(** [round((successful / total) * 100, 2)] for consistent counters. *)
Lemma rounded_rate_bounds (successful total : Z) :
  0 <= successful <= total ->
  exists v,
    (if total =? 0 then Ok (PyInt 0)
     else
       let? ratio := truediv (PyInt successful) (PyInt total) in
       let? pct := mul ratio (PyInt 100) in
       Ok (round2 pct)) = Ok v
    /\ (0 <= value v <= 100)%Q
    /\ (successful = 0 -> (value v == 0)%Q)
    /\ (successful = total -> total <> 0 -> (value v == 100)%Q)
    /\ exists hundredths : Z, (value v == inject_Z hundredths / 100)%Q.
Proof.
  intros [Hs Ht].
  destruct (Z.eqb_spec total 0) as [-> | Hne].
  - exists (PyInt 0). split; [reflexivity |]. simpl.
    split; [split; [apply Qle_refl | discriminate] |].
    split; [reflexivity |]. split; [contradiction |].
    exists 0. reflexivity.
  - rewrite truediv_int_ok by assumption. simpl res_bind.
    eexists. split; [reflexivity |]. simpl value.
    set (y := (inject_Z successful / inject_Z total * inject_Z 100 * 100)%Q).
    assert (Hpos : (0 < inject_Z total)%Q).
    { change 0%Q with (inject_Z 0). rewrite <- Zlt_Qlt. lia. }
    assert (His : (0 <= inject_Z successful)%Q).
    { change 0%Q with (inject_Z 0). rewrite <- Zle_Qle. lia. }
    assert (Hst : (inject_Z successful <= inject_Z total)%Q).
    { rewrite <- Zle_Qle. lia. }
    assert (Hr0 : (0 <= inject_Z successful / inject_Z total)%Q).
    { apply Qle_shift_div_l; [exact Hpos | lra]. }
    assert (Hr1 : (inject_Z successful / inject_Z total <= 1)%Q).
    { apply Qle_shift_div_r; [exact Hpos | lra]. }
    assert (Hy0 : (0 <= y)%Q).
    { unfold y. change (inject_Z 100) with 100%Q. lra. }
    assert (Hy1 : (y <= inject_Z 10000)%Q).
    { unfold y. change (inject_Z 100) with 100%Q.
      change (inject_Z 10000) with 10000%Q. lra. }
    pose proof (round_half_even_bounds y 10000 Hy0 Hy1) as [Hz0 Hz1].
    rewrite Zle_Qle in Hz0, Hz1.
    change (inject_Z 0) with 0%Q in Hz0.
    change (inject_Z 10000) with 10000%Q in Hz1.
    assert (Hdiv : forall z : Z,
              (inject_Z z / 100 == inject_Z z * (1 # 100))%Q) by reflexivity.
    split; [rewrite Hdiv; split; lra |].
    split; [| split].
    + intros ->.
      assert (Hy : (y <= inject_Z 0)%Q).
      { unfold y. change (inject_Z 0) with 0%Q.
        assert (E : (0 / inject_Z total == 0)%Q) by (unfold Qdiv; lra).
        change (inject_Z 100) with 100%Q. lra. }
      pose proof (round_half_even_bounds y 0 Hy0 Hy) as Hz.
      assert (Ez : round_half_even y = 0) by lia. rewrite Ez. reflexivity.
    + intros -> _.
      assert (E : (inject_Z total / inject_Z total == 1)%Q).
      { unfold Qdiv. apply Qmult_inv_r. lra. }
      assert (Hy : (inject_Z 10000 <= y)%Q).
      { unfold y. change (inject_Z 100) with 100%Q.
        change (inject_Z 10000) with 10000%Q. lra. }
      assert (Hfl : 10000 <= Qfloor y).
      { rewrite <- (Qfloor_Z 10000). apply Qfloor_resp_le. exact Hy. }
      assert (Hlow : Qfloor y <= round_half_even y).
      { unfold round_half_even.
        destruct (_ && _)%bool; [lia |].
        destruct (Qeq_bool _ _); [destruct (Z.even _) |]; lia. }
      assert (Ez : round_half_even y = 10000).
      { apply Z.le_antisymm; [| lia]. rewrite Zle_Qle. exact Hz1. }
      rewrite Ez. reflexivity.
    + eexists. reflexivity.
Qed.

(** X2. With counters that are consistent ([0 <= successful <= total]),
    the success rate of a workflow, of an integration and of a webhook
    endpoint, and the success percentage of an execution, return a value
    between 0 and 100 with at most two decimals; the value is 0 when
    nothing succeeded and 100 when everything did. *)
Theorem success_rates_bounded :
  (forall wf : AutomationWorkflow.t,
     0 <= AutomationWorkflow.successful_executions wf
       <= AutomationWorkflow.total_executions wf ->
     exists v, AutomationWorkflow.success_rate wf = Ok v
       /\ two_decimal_percentage v
       /\ (AutomationWorkflow.successful_executions wf = 0 -> (value v == 0)%Q)
       /\ (AutomationWorkflow.successful_executions wf
           = AutomationWorkflow.total_executions wf ->
           AutomationWorkflow.total_executions wf <> 0 -> (value v == 100)%Q))
  /\ (forall i : Integration.t,
        0 <= Integration.successful_requests i <= Integration.total_requests i ->
        exists v, Integration.success_rate i = Ok v
          /\ two_decimal_percentage v
          /\ (Integration.successful_requests i = 0 -> (value v == 0)%Q)
          /\ (Integration.successful_requests i = Integration.total_requests i ->
              Integration.total_requests i <> 0 -> (value v == 100)%Q))
  /\ (forall h : WebhookEndpoint.t,
        0 <= WebhookEndpoint.successful_requests h
          <= WebhookEndpoint.total_requests h ->
        exists v, WebhookEndpoint_success_rate h = Ok v
          /\ two_decimal_percentage v
          /\ (WebhookEndpoint.successful_requests h = 0 -> (value v == 0)%Q)
          /\ (WebhookEndpoint.successful_requests h
              = WebhookEndpoint.total_requests h ->
              WebhookEndpoint.total_requests h <> 0 -> (value v == 100)%Q))
  /\ (forall e : WorkflowExecution.t,
        0 <= WorkflowExecution.actions_completed e ->
        0 <= WorkflowExecution.actions_failed e ->
        exists v, WorkflowExecution.success_percentage e = Ok v
          /\ two_decimal_percentage v
          /\ (WorkflowExecution.actions_completed e = 0 -> (value v == 0)%Q)
          /\ (WorkflowExecution.actions_failed e = 0 ->
              WorkflowExecution.actions_completed e <> 0 -> (value v == 100)%Q)).
Proof.
  unfold two_decimal_percentage.
  split; [| split; [| split]].
  - intros wf H. unfold AutomationWorkflow.success_rate.
    destruct (rounded_rate_bounds _ _ H) as (v & Hv & Hb & H0 & H1 & Hh).
    exists v. auto.
  - intros i H. unfold Integration.success_rate.
    destruct (rounded_rate_bounds _ _ H) as (v & Hv & Hb & H0 & H1 & Hh).
    exists v. auto.
  - intros h H. unfold WebhookEndpoint_success_rate.
    destruct (rounded_rate_bounds _ _ H) as (v & Hv & Hb & H0 & H1 & Hh).
    exists v. auto.
  - intros e Hc Hf. unfold WorkflowExecution.success_percentage. cbv zeta.
    assert (H : 0 <= WorkflowExecution.actions_completed e
                  <= WorkflowExecution.actions_completed e
                     + WorkflowExecution.actions_failed e) by lia.
    destruct (rounded_rate_bounds _ _ H) as (v & Hv & Hb & H0 & H1 & Hh).
    exists v. split; [exact Hv |]. split; [auto |]. split; [exact H0 |].
    intros Hz Hne. apply H1; lia.
Qed.

(** Two successes in three executions: the rate is 66.67. *)
Lemma success_rates_bounded_witness :
  0 <= AutomationWorkflow.successful_executions two_of_three
    <= AutomationWorkflow.total_executions two_of_three
  /\ exists v, AutomationWorkflow.success_rate two_of_three = Ok v
       /\ two_decimal_percentage v
       /\ (value v == 6667 # 100)%Q.
Proof.
  assert (H : 0 <= AutomationWorkflow.successful_executions two_of_three
                <= AutomationWorkflow.total_executions two_of_three)
    by (simpl; lia).
  split; [exact H |].
  destruct success_rates_bounded as (Hwf & _).
  destruct (Hwf two_of_three H) as (v & Hv & Hp & _).
  exists v. split; [exact Hv |]. split; [exact Hp |].
  vm_compute in Hv. inversion Hv; subst v. reflexivity.
Defined.

(** ** Templates and models by subscription tier *)

(** X3. A template can be used exactly when the detail view of the
    templates shows it to the user: [validate_template_id] of
    [CreateWorkflowFromTemplateSerializer] accepts an identifier exactly
    when [AutomationTemplateDetailView] finds that template, and
    [validate_template_id] of [CustomAIRequestSerializer] accepts one
    exactly when [AITemplateDetailView] finds it.  A refusal is a
    [ValidationError], and neither check writes. *)
Theorem template_usable_iff_visible (ru : Z * User.t) (w : World) :
  (forall k,
     (CreateWorkflowFromTemplateSerializer_is_valid ru k w = (Ok k, w)
      <-> exists t, AutomationTemplateDetailView ru k w = Ok (k, t))
     /\ (CreateWorkflowFromTemplateSerializer_is_valid ru k w = (Ok k, w)
         \/ exists msg,
              CreateWorkflowFromTemplateSerializer_is_valid ru k w
              = (Raise (ValidationError msg), w)))
  /\ (forall d,
        (CustomAIRequestSerializer_is_valid ru d w = (Ok d, w)
         <-> exists t, AITemplateDetailView ru (template_id d) w
                       = Ok (template_id d, t))
        /\ (CustomAIRequestSerializer_is_valid ru d w = (Ok d, w)
            \/ exists msg,
                 CustomAIRequestSerializer_is_valid ru d w
                 = (Raise (ValidationError msg), w))).
Proof.
  split.
  - intros k.
    unfold CreateWorkflowFromTemplateSerializer_is_valid,
      AutomationTemplateDetailView, AutomationTemplate_get_queryset,
      get_object_or_404. cbv zeta.
    destruct (automation_templates w !! k) as [t |] eqn:Ht.
    + destruct (String.eqb (User.subscription_tier (snd ru)) "starter") eqn:Hs.
      * destruct (AutomationTemplate.is_premium t) eqn:Hp; simpl.
        -- rewrite map_lookup_filter_None_2
             by (right; intros t' Ht'; simpl; congruence).
           split; [split; [discriminate | intros (? & ?); discriminate] |].
           right. eauto.
        -- rewrite (map_lookup_filter_Some_2 _ _ k t) by (simpl; auto).
           split; [split; eauto | left; reflexivity].
      * rewrite andb_false_r, Ht.
        split; [split; eauto | left; reflexivity].
    + assert (Hnone : (if String.eqb (User.subscription_tier (snd ru)) "starter"
                       then filter (fun kv : Z * AutomationTemplate.t =>
                                      AutomationTemplate.is_premium (snd kv) = false)
                                   (automation_templates w)
                       else automation_templates w) !! k = None).
      { destruct (String.eqb _ _); [| exact Ht].
        apply map_lookup_filter_None_2. left. exact Ht. }
      rewrite Hnone.
      split; [split; [discriminate | intros (? & ?); discriminate] |].
      right. eauto.
  - intros d.
    unfold CustomAIRequestSerializer_is_valid, AITemplateDetailView,
      AITemplate_get_queryset, get_object_or_404. cbv zeta.
    rewrite (queryset_get_by_pk _ (template_id d))
      by (intros k' r Hk'; apply map_lookup_filter_Some in Hk' as [_ [Hk' _]];
          exact Hk').
    destruct (ai_templates w !! template_id d) as [t |] eqn:Ht.
    + destruct (AITemplate.is_active t) eqn:Ha.
      * rewrite (map_lookup_filter_Some_2 _ _ (template_id d) t)
          by (simpl; auto).
        simpl.
        destruct (String.eqb (User.subscription_tier (snd ru)) "starter") eqn:Hs.
        -- destruct (AITemplate.is_premium t) eqn:Hp; simpl.
           ++ rewrite map_lookup_filter_None_2
                by (right; intros t' Ht'; simpl;
                    apply map_lookup_filter_Some in Ht' as [Ht' _]; congruence).
              split; [split; [discriminate | intros (? & ?); discriminate] |].
              right. eauto.
           ++ rewrite (map_lookup_filter_Some_2 _ _ (template_id d) t).
              ** split; [split; eauto | left; reflexivity].
              ** apply map_lookup_filter_Some_2; simpl; auto.
              ** simpl. exact Hp.
        -- rewrite andb_false_r.
           rewrite (map_lookup_filter_Some_2 _ _ (template_id d) t)
             by (simpl; auto).
           split; [split; eauto | left; reflexivity].
      * assert (Hf : filter (fun kv : Z * AITemplate.t =>
                               AITemplate.is_active (snd kv) = true)
                            (ai_templates w) !! template_id d = None).
        { apply map_lookup_filter_None_2. right. intros t' Ht'. simpl. congruence. }
        rewrite map_lookup_filter_None_2
          by (right; intros t' Ht'; simpl; intros [_ Hact]; congruence).
        assert (Hnone : (if String.eqb (User.subscription_tier (snd ru)) "starter"
                         then filter (fun kv : Z * AITemplate.t =>
                                        AITemplate.is_premium (snd kv) = false)
                                (filter (fun kv : Z * AITemplate.t =>
                                           AITemplate.is_active (snd kv) = true)
                                        (ai_templates w))
                         else filter (fun kv : Z * AITemplate.t =>
                                        AITemplate.is_active (snd kv) = true)
                                     (ai_templates w)) !! template_id d = None).
        { destruct (String.eqb _ _); [| exact Hf].
          apply map_lookup_filter_None_2. left. exact Hf. }
        rewrite Hnone.
        split; [split; [discriminate | intros (? & ?); discriminate] |].
        right. eauto.
    + assert (Hf : filter (fun kv : Z * AITemplate.t =>
                             AITemplate.is_active (snd kv) = true)
                          (ai_templates w) !! template_id d = None).
      { apply map_lookup_filter_None_2. left. exact Ht. }
      rewrite map_lookup_filter_None_2 by (left; exact Ht).
      assert (Hnone : (if String.eqb (User.subscription_tier (snd ru)) "starter"
                       then filter (fun kv : Z * AITemplate.t =>
                                      AITemplate.is_premium (snd kv) = false)
                              (filter (fun kv : Z * AITemplate.t =>
                                         AITemplate.is_active (snd kv) = true)
                                      (ai_templates w))
                       else filter (fun kv : Z * AITemplate.t =>
                                      AITemplate.is_active (snd kv) = true)
                                   (ai_templates w)) !! template_id d = None).
      { destruct (String.eqb _ _); [| exact Hf].
        apply map_lookup_filter_None_2. left. exact Hf. }
      rewrite Hnone.
      split; [split; [discriminate | intros (? & ?); discriminate] |].
      right. eauto.
Qed.

(** X4. The catalogue of models ([AIModelListView]) grows with the tier:
    what a starter account sees a business account sees, and a pro
    account sees every active model.  When [get_available_model] falls
    back to a model that is on no priority list, that model is in the
    catalogue of the user. *)
Theorem model_catalogue_by_tier (s b p : Z * User.t) (w : World) :
  User.subscription_tier (snd s) = "starter"%string ->
  User.subscription_tier (snd b) = "business"%string ->
  User.subscription_tier (snd p) = "pro"%string ->
  AIModel_get_queryset s w ⊆ AIModel_get_queryset b w
  /\ AIModel_get_queryset b w ⊆ AIModel_get_queryset p w
  /\ (forall k m, AIModel_get_queryset p w !! k = Some m
                  <-> ai_models w !! k = Some m /\ AIModel.is_active m = true)
  /\ (forall ru model_type m,
        ru = s \/ ru = b \/ ru = p ->
        fst (get_available_model (User.subscription_tier (snd ru)) model_type w)
        = Ok (Some m) ->
        AIModel.model_id (snd m) ∉ model_priorities (User.subscription_tier (snd ru)) ->
        AIModel_get_queryset ru w !! fst m = Some (snd m)).
Proof.
  intros Hs Hb Hp.
  assert (Qs : forall k m, AIModel_get_queryset s w !! k = Some m
                 <-> ai_models w !! k = Some m /\ AIModel.is_active m = true
                     /\ AIModel.min_subscription_tier m = "starter"%string).
  { intros k m. unfold AIModel_get_queryset. rewrite Hs. simpl.
    rewrite !map_lookup_filter_Some. simpl. tauto. }
  assert (Qb : forall k m, AIModel_get_queryset b w !! k = Some m
                 <-> ai_models w !! k = Some m /\ AIModel.is_active m = true
                     /\ (AIModel.min_subscription_tier m = "starter"%string
                         \/ AIModel.min_subscription_tier m = "business"%string)).
  { intros k m. unfold AIModel_get_queryset. rewrite Hb. simpl.
    rewrite !map_lookup_filter_Some. simpl. tauto. }
  assert (Qp : forall k m, AIModel_get_queryset p w !! k = Some m
                 <-> ai_models w !! k = Some m /\ AIModel.is_active m = true).
  { intros k m. unfold AIModel_get_queryset. rewrite Hp. simpl.
    rewrite !map_lookup_filter_Some. simpl. tauto. }
  split; [| split; [| split; [exact Qp |]]].
  - apply map_subseteq_spec. intros k m H. apply Qb. apply Qs in H. tauto.
  - apply map_subseteq_spec. intros k m H. apply Qp. apply Qb in H. tauto.
  - intros ru mt m Hru Hget Hnot.
    unfold get_available_model in Hget.
    pose proof (first_preferred_spec (ai_models w) mt
                  (model_priorities (User.subscription_tier (snd ru)))) as Hpref.
    destruct (first_preferred _ _ _) as [[m' |] | e]; simpl in Hget;
      [| | discriminate].
    + inversion Hget; subst m'.
      destruct Hpref as (_ & _ & _ & before & after & Hl & _).
      exfalso. apply Hnot. rewrite Hl. apply elem_of_app. right.
      apply list_elem_of_here.
    + inversion Hget as [Hfirst]. clear Hget.
      match type of Hfirst with queryset_first ?qs = _ =>
        pose proof (queryset_first_spec qs) as Hf; rewrite Hfirst in Hf
      end.
      destruct Hf as [Hm _].
      apply map_lookup_filter_Some in Hm as [Hm (_ & Hact & Htier)]. simpl in *.
      destruct Hru as [-> | [-> | ->]].
      * apply Qs. rewrite Hs in Htier. tauto.
      * apply Qb. rewrite Hb in Htier. tauto.
      * apply Qp. tauto.
Qed.

(** On the sample data with a second model: no model of the priority
    list of a business account is stored, and the fallback is model 7. *)
Lemma model_catalogue_by_tier_witness :
  User.subscription_tier Sample.alice = "starter"%string
  /\ User.subscription_tier Sample.bob = "business"%string
  /\ User.subscription_tier Cases.dana = "pro"%string
  /\ AIModel_get_queryset (1, Sample.alice) Cases.world_two_models
     ⊆ AIModel_get_queryset (2, Sample.bob) Cases.world_two_models
  /\ AIModel_get_queryset (2, Sample.bob) Cases.world_two_models !! 7
     = Some Sample.deepseek.
Proof.
  assert (Hs : User.subscription_tier Sample.alice = "starter"%string)
    by reflexivity.
  assert (Hb : User.subscription_tier Sample.bob = "business"%string)
    by reflexivity.
  assert (Hp : User.subscription_tier Cases.dana = "pro"%string) by reflexivity.
  destruct (model_catalogue_by_tier (1, Sample.alice) (2, Sample.bob)
              (4, Cases.dana) Cases.world_two_models Hs Hb Hp)
    as (Hsb & _ & _ & Hfall).
  split; [exact Hs |]. split; [exact Hb |]. split; [exact Hp |].
  split; [exact Hsb |].
  apply (Hfall (2, Sample.bob) "chat"%string (7, Sample.deepseek)).
  - right. left. reflexivity.
  - vm_compute. reflexivity.
  - simpl. intros H. repeat (apply elem_of_cons in H as [H | H]; [discriminate |]).
    inversion H.
Defined.

(** ** Requests for AI processing that are refused *)

Lemma CustomAIRequestSerializer_cases (ru : Z * User.t) (d : CustomAIRequestData)
    (w : World) :
  CustomAIRequestSerializer_is_valid ru d w = (Ok d, w)
  \/ exists msg,
       CustomAIRequestSerializer_is_valid ru d w = (Raise (ValidationError msg), w).
Proof.
  unfold CustomAIRequestSerializer_is_valid.
  rewrite (queryset_get_by_pk _ (template_id d))
    by (intros k' r Hk'; apply map_lookup_filter_Some in Hk' as [_ [Hk' _]];
        exact Hk').
  destruct (_ !! template_id d) as [t |]; [| right; eauto].
  simpl. destruct (_ && _)%bool; [right; eauto | left; reflexivity].
Qed.

Lemma EmailToTaskSerializer_cases (d : EmailToTaskData) (w : World) :
  EmailToTaskSerializer_is_valid d w = (Ok d, w)
  \/ exists msg,
       EmailToTaskSerializer_is_valid d w = (Raise (ValidationError msg), w).
Proof.
  unfold EmailToTaskSerializer_is_valid.
  destruct (_ <? _); [right; eauto | left; reflexivity].
Qed.

Lemma SocialContentGenerationSerializer_cases (d : SocialContentData) (w : World) :
  SocialContentGenerationSerializer_is_valid d w = (Ok d, w)
  \/ exists msg,
       SocialContentGenerationSerializer_is_valid d w
       = (Raise (ValidationError msg), w).
Proof.
  unfold SocialContentGenerationSerializer_is_valid.
  repeat (destruct (_ : bool); [right; eauto |]). left. reflexivity.
Qed.

Lemma TextAnalysisSerializer_cases (d : TextAnalysisData) (w : World) :
  TextAnalysisSerializer_is_valid d w = (Ok d, w)
  \/ exists msg,
       TextAnalysisSerializer_is_valid d w = (Raise (ValidationError msg), w).
Proof.
  unfold TextAnalysisSerializer_is_valid.
  repeat (destruct (_ : bool); [right; eauto |]). left. reflexivity.
Qed.

(** A request of an authenticated user runs the view as that user. *)
Lemma handle_authenticated (env : Environment) (now : datetime) (ms A : Z)
    (u : User.t) (rq : Request) (w : World) :
  users w !! A = Some u ->
  handle env now ms A rq w = api_view (view env now ms (A, u) rq) w.
Proof.
  intros Hu. unfold handle, api_view, bind, authenticate. rewrite Hu. reflexivity.
Qed.

(** X5. A user who has reached the monthly limit of the subscription
    cannot leave a trace through the four AI routes: the answer is never
    200, it is 400 with a message of the serializer or 402 with the
    message of the limit, and then neither the database nor the log of
    the calls of the provider's client has changed. *)
Theorem refused_ai_request_leaves_no_trace (env : Environment) (now : datetime)
    (ms A : Z) (u : User.t) (rq : Request) (w : World) :
  users w !! A = Some u ->
  User.can_use_ai u = false ->
  ai_post rq ->
  snd (handle env now ms A rq w) = w
  /\ (fst (handle env now ms A rq w)
      = {| status_code := 402;
           data := Error "AI usage limit exceeded for your subscription" |}
      \/ exists msg,
           fst (handle env now ms A rq w)
           = {| status_code := 400; data := Error msg |}).
Proof.
  intros Hu Hcan Hrq. rewrite (handle_authenticated _ _ _ _ u) by exact Hu.
  assert (Hview :
    view env now ms (A, u) rq w = (Ok limit_exceeded, w)
    \/ exists msg,
         view env now ms (A, u) rq w = (Raise (ValidationError msg), w)).
  { destruct rq; try contradiction; unfold view.
    - unfold email_to_task, bind.
      destruct (EmailToTaskSerializer_cases d w) as [E | (msg & E)]; rewrite E.
      + left. simpl. rewrite Hcan. auto.
      + right. eauto.
    - unfold generate_social_content, bind.
      destruct (SocialContentGenerationSerializer_cases d w) as [E | (msg & E)];
        rewrite E.
      + left. simpl. rewrite Hcan. auto.
      + right. eauto.
    - unfold analyze_text, bind.
      destruct (TextAnalysisSerializer_cases d w) as [E | (msg & E)]; rewrite E.
      + left. simpl. rewrite Hcan. auto.
      + right. eauto.
    - unfold custom_ai_request, bind.
      destruct (CustomAIRequestSerializer_cases (A, u) d w) as [E | (msg & E)];
        rewrite E.
      + left. simpl. rewrite Hcan. auto.
      + right. eauto. }
  unfold api_view.
  destruct Hview as [E | (msg & E)]; rewrite E; simpl.
  - split; [reflexivity |]. left. reflexivity.
  - split; [reflexivity |]. right. eauto.
Qed.

(** Carol has used her 1000 calls: her email is answered with 402 and
    nothing is written. *)
Lemma refused_ai_request_leaves_no_trace_witness :
  users Sample.world !! 3 = Some Sample.carol
  /\ User.can_use_ai Sample.carol = false
  /\ ai_post (POST_email_to_task Sample.email)
  /\ snd (handle Sample.env Sample.noon 120 3 (POST_email_to_task Sample.email)
            Sample.world) = Sample.world
  /\ status_code (fst (handle Sample.env Sample.noon 120 3
                         (POST_email_to_task Sample.email) Sample.world)) = 402.
Proof.
  assert (Hu : users Sample.world !! 3 = Some Sample.carol) by reflexivity.
  assert (Hc : User.can_use_ai Sample.carol = false) by reflexivity.
  destruct (refused_ai_request_leaves_no_trace Sample.env Sample.noon 120 3
              Sample.carol (POST_email_to_task Sample.email) Sample.world Hu Hc I)
    as [Hw _].
  split; [exact Hu |]. split; [exact Hc |]. split; [exact I |].
  split; [exact Hw |]. vm_compute. reflexivity.
Defined.

Lemma first_preferred_none (models : gmap Z AIModel.t) (mt : string)
    (preferred : list string) :
  (forall k m, models !! k = Some m ->
     AIModel.model_type m = mt -> AIModel.is_active m = false) ->
  first_preferred models mt preferred = Ok None.
Proof.
  intros Hnone. induction preferred as [| id rest IH]; simpl; [reflexivity |].
  match goal with |- context [queryset_get ?qs] =>
    assert (Hqs : qs = ∅)
  end.
  { apply map_empty. intros k. apply map_lookup_filter_None_2.
    destruct (models !! k) as [m |] eqn:Hk; [right | left; reflexivity].
    intros m' Hm' (_ & Hty & Hact). simpl in *. inversion Hm'; subst m'.
    rewrite (Hnone k m Hk Hty) in Hact. discriminate. }
  rewrite Hqs, queryset_get_empty. exact IH.
Qed.

Lemma get_available_model_none (tier mt : string) (w : World) :
  (forall k m, ai_models w !! k = Some m ->
     AIModel.model_type m = mt -> AIModel.is_active m = false) ->
  get_available_model tier mt w = (Ok None, w).
Proof.
  intros Hnone. unfold get_available_model.
  rewrite (first_preferred_none _ _ _ Hnone).
  match goal with |- context [queryset_first ?qs] =>
    assert (Hqs : qs = ∅)
  end.
  { apply map_empty. intros k. apply map_lookup_filter_None_2.
    destruct (ai_models w !! k) as [m |] eqn:Hk; [right | left; reflexivity].
    intros m' Hm' (Hty & Hact & _). simpl in *. inversion Hm'; subst m'.
    rewrite (Hnone k m Hk Hty) in Hact. discriminate. }
  rewrite Hqs. unfold queryset_first, rows_by_pk. rewrite map_to_list_empty.
  reflexivity.
Qed.

Lemma accepted_email (d : EmailToTaskData) (w : World) :
  fst (EmailToTaskSerializer_is_valid d w) = Ok d ->
  EmailToTaskSerializer_is_valid d w = (Ok d, w).
Proof.
  intros H. destruct (EmailToTaskSerializer_cases d w) as [E | (msg & E)];
    [exact E |]. rewrite E in H. discriminate.
Qed.

Lemma accepted_social (d : SocialContentData) (w : World) :
  fst (SocialContentGenerationSerializer_is_valid d w) = Ok d ->
  SocialContentGenerationSerializer_is_valid d w = (Ok d, w).
Proof.
  intros H.
  destruct (SocialContentGenerationSerializer_cases d w) as [E | (msg & E)];
    [exact E |]. rewrite E in H. discriminate.
Qed.

(** X6. The quota row of the month is a second gate behind the monthly
    counter of the user.  When the row is marked as exceeded or its
    requests are used up, an accepted email-to-task or content request
    of a user who is still below the limit of the subscription is
    answered with 400 and the message of the service; no request record
    is created, nothing is sent to the provider and nothing is written. *)
Theorem exhausted_quota_is_refused (env : Environment) (now : datetime) (ms : Z)
    (ru : Z * User.t) (k : Z) (row : AIUsageQuota.t) (w : World) :
  month_quotas (fst ru) (month_start_of now) w = {[k := row]} ->
  AIUsageQuota.is_exceeded row = true
  \/ AIUsageQuota.max_requests row <= AIUsageQuota.current_requests row ->
  User.can_use_ai (snd ru) = true ->
  (forall d, fst (EmailToTaskSerializer_is_valid d w) = Ok d ->
     email_to_task env now ms ru d w
     = (Ok (respond 400 (Error "AI usage quota exceeded")), w))
  /\ (forall d, fst (SocialContentGenerationSerializer_is_valid d w) = Ok d ->
        generate_social_content env now ms ru d w
        = (Ok (respond 400 (Error "AI usage quota exceeded")), w)).
Proof.
  intros Hrow Hused Hcan.
  destruct (check_usage_quota_existing now ru w k row Hrow)
    as (qc & Hq & _ & Hcu & _).
  assert (Hno : can_use qc = false).
  { rewrite Hcu. destruct Hused as [-> | Hle]; [reflexivity |].
    apply andb_false_iff. right. apply Z.ltb_ge. exact Hle. }
  split; intros d Hd.
  - unfold email_to_task, bind. rewrite (accepted_email d w Hd). simpl.
    rewrite Hcan. simpl.
    unfold view_try, try_except, bind, process_email_to_task, bind.
    rewrite Hq, Hno. reflexivity.
  - unfold generate_social_content, bind. rewrite (accepted_social d w Hd). simpl.
    rewrite Hcan. simpl.
    unfold view_try, try_except, bind, generate_filipino_social_content, bind.
    rewrite Hq, Hno. reflexivity.
Qed.

Lemma exhausted_quota_is_refused_witness :
  month_quotas 1 (month_start_of Sample.noon) QuotaCases.world_used_up
  = {[0 := QuotaCases.used_up]}
  /\ User.can_use_ai Sample.alice = true
  /\ email_to_task Sample.env Sample.noon 120 (1, Sample.alice) Sample.email
       QuotaCases.world_used_up
     = (Ok (respond 400 (Error "AI usage quota exceeded")),
        QuotaCases.world_used_up).
Proof.
  assert (Hrow : month_quotas (fst (1, Sample.alice)) (month_start_of Sample.noon)
                   QuotaCases.world_used_up = {[0 := QuotaCases.used_up]}).
  { unfold month_quotas, QuotaCases.world_used_up. simpl.
    rewrite insert_empty. apply map_filter_singleton_True. simpl. auto. }
  assert (Hcan : User.can_use_ai (snd (1, Sample.alice)) = true) by reflexivity.
  destruct (exhausted_quota_is_refused Sample.env Sample.noon 120 (1, Sample.alice)
              0 QuotaCases.used_up QuotaCases.world_used_up Hrow
              (or_introl eq_refl) Hcan) as [He _].
  split; [exact Hrow |]. split; [exact Hcan |].
  apply He. reflexivity.
Defined.

(** X7. Without an active chat model, an accepted email-to-task or
    content request that passes both gates is answered with 400 and the
    message of the service.  The admission check has run (it creates the
    quota row of the month when there is none); no request record is
    created and nothing is sent to the provider. *)
Theorem missing_model_is_refused (env : Environment) (now : datetime) (ms : Z)
    (ru : Z * User.t) (w w0 : World) (qc : QuotaCheck) :
  (forall k m, ai_models w !! k = Some m ->
     AIModel.model_type m = "chat"%string -> AIModel.is_active m = false) ->
  User.can_use_ai (snd ru) = true ->
  check_usage_quota now ru w = (Ok qc, w0) ->
  can_use qc = true ->
  (forall d, fst (EmailToTaskSerializer_is_valid d w) = Ok d ->
     email_to_task env now ms ru d w
     = (Ok (respond 400 (Error "No AI model available for your subscription")),
        w0))
  /\ (forall d, fst (SocialContentGenerationSerializer_is_valid d w) = Ok d ->
        generate_social_content env now ms ru d w
        = (Ok (respond 400 (Error "No AI model available")), w0))
  /\ ai_requests w0 = ai_requests w
  /\ provider_calls w0 = provider_calls w.
Proof.
  intros Hnone Hcan Hq Huse.
  assert (Hmodels : ai_models w0 = ai_models w).
  { assert (P : preserves ai_models (check_usage_quota now ru)) by preserve.
    exact (P _ _ _ Hq). }
  assert (Hgm : get_available_model (User.subscription_tier (snd ru)) "chat" w0
                = (Ok None, w0)).
  { apply get_available_model_none. rewrite Hmodels. exact Hnone. }
  split; [| split; [| split]].
  - intros d Hd. unfold email_to_task, bind. rewrite (accepted_email d w Hd).
    simpl. rewrite Hcan. simpl.
    unfold view_try, try_except, bind, process_email_to_task, bind.
    rewrite Hq, Huse. simpl. rewrite Hgm. reflexivity.
  - intros d Hd. unfold generate_social_content, bind.
    rewrite (accepted_social d w Hd). simpl. rewrite Hcan. simpl.
    unfold view_try, try_except, bind, generate_filipino_social_content, bind.
    rewrite Hq, Huse. simpl. rewrite Hgm. reflexivity.
  - exact (check_usage_quota_preserves_requests _ _ _ _ _ Hq).
  - exact (check_usage_quota_preserves_calls _ _ _ _ _ Hq).
Qed.

Lemma missing_model_is_refused_witness :
  exists w0,
    fst (generate_social_content Sample.env Sample.noon 120 (1, Sample.alice)
           QuotaCases.post QuotaCases.world_no_models)
    = Ok (respond 400 (Error "No AI model available"))
    /\ snd (generate_social_content Sample.env Sample.noon 120 (1, Sample.alice)
              QuotaCases.post QuotaCases.world_no_models) = w0
    /\ ai_requests w0 = ai_requests QuotaCases.world_no_models
    /\ provider_calls w0 = provider_calls QuotaCases.world_no_models.
Proof.
  destruct (check_usage_quota Sample.noon (1, Sample.alice)
              QuotaCases.world_no_models) as [[qc | e] w0] eqn:Hq;
    [| vm_compute in Hq; discriminate].
  assert (Huse : can_use qc = true).
  { vm_compute in Hq. inversion Hq; subst qc. reflexivity. }
  assert (Hnone : forall k m, ai_models QuotaCases.world_no_models !! k = Some m ->
            AIModel.model_type m = "chat"%string -> AIModel.is_active m = false).
  { intros k m H. simpl in H. rewrite lookup_empty in H. discriminate. }
  destruct (missing_model_is_refused Sample.env Sample.noon 120 (1, Sample.alice)
              QuotaCases.world_no_models w0 qc Hnone eq_refl Hq Huse)
    as (_ & Hs & Hr & Hc).
  exists w0. rewrite (Hs QuotaCases.post eq_refl). simpl. auto.
Defined.

(** ** The log of AI requests and the monthly counter *)

#[global] Instance requests_kept_refl : Reflexive requests_kept.
Proof. intros w k r H. exact H. Qed.

#[global] Instance requests_kept_trans : Transitive requests_kept.
Proof. intros w1 w2 w3 H12 H23 k r H. apply H23, H12, H. Qed.

Lemma requests_kept_same (w w' : World) :
  ai_requests w' = ai_requests w -> requests_kept w w'.
Proof. intros E k r H. rewrite E. exact H. Qed.

Lemma service_outcome_requests_kept (w w' : World) (r : res ServiceResult) :
  service_outcome w w' r -> requests_kept w w'.
Proof.
  intros [(e & _ & Hr & _) | (res & rq & l & _ & _ & Hnew & Hne & _)].
  - apply requests_kept_same, Hr.
  - intros k row Hk. rewrite Hne; [exact Hk |]. congruence.
Qed.

Lemma ai_view_outcome_requests_kept (w w' : World) (r : res Response) :
  ai_view_outcome w w' r -> requests_kept w w'.
Proof.
  intros [(m & _ & ->) | [[_ ->] | [(res & _ & H) | (e & _ & H)]]];
    try reflexivity; eapply service_outcome_requests_kept, H.
Qed.

Lemma AIRequest_create_kept (r : AIRequest.t) :
  steps requests_kept (AIRequest_create r).
Proof.
  intros w x w' H. unfold AIRequest_create, bind, objects_create, ret in H.
  inversion H; subst; clear H. intros k row Hk.
  destruct w as [? ? requests ? ? ? ? ? ? ? ? ? ?]; simpl in *.
  rewrite lookup_insert_ne; [exact Hk |].
  intros <-. pose proof (is_fresh (dom requests)) as Hf.
  apply not_elem_of_dom in Hf. congruence.
Qed.

Ltac requests_untouched :=
  apply (preserves_steps requests_kept ai_requests);
  [ exact requests_kept_same | preserve ].

Lemma custom_ai_request_kept now env ru d :
  steps requests_kept (custom_ai_request now env ru d).
Proof.
  unfold custom_ai_request.
  apply steps_bind; [apply _ | requests_untouched | intros vd].
  destruct (negb _); [apply steps_ret; apply _ |].
  unfold view_try.
  apply steps_try_except; [apply _ | | intros e; apply steps_ret; apply _].
  apply steps_bind; [apply _ | requests_untouched | intros template].
  apply steps_bind; [apply _ | requests_untouched | intros prompt].
  apply steps_bind; [apply _ | requests_untouched | intros model].
  apply steps_bind; [apply _ | | intros air].
  - destruct model as [model |]; [| apply steps_raise; apply _].
    apply AIRequest_create_kept.
  - apply steps_bind; [apply _ | requests_untouched | intros ?].
    apply steps_ret; apply _.
Qed.

Lemma view_requests_kept env now ms ru rq :
  steps requests_kept (view env now ms ru rq).
Proof.
  destruct rq;
    try (apply (preserves_steps requests_kept ai_requests);
         [ exact requests_kept_same
         | apply view_preserves_requests; discriminate ]).
  - intros w r w' H. eapply ai_view_outcome_requests_kept.
    eapply email_to_task_outcome, H.
  - intros w r w' H. eapply ai_view_outcome_requests_kept.
    eapply generate_social_content_outcome, H.
  - apply custom_ai_request_kept.
Qed.

Lemma handle_requests_kept env now ms user rq (w : World) :
  requests_kept w (snd (handle env now ms user rq w)).
Proof.
  unfold handle. rewrite api_view_state.
  destruct (bind (authenticate user) (fun ru => view env now ms ru rq) w)
    as [r w'] eqn:E. simpl. revert E.
  apply steps_bind; [apply _ | | intros ru; apply view_requests_kept].
  apply (preserves_steps requests_kept ai_requests);
    [exact requests_kept_same | preserve].
Qed.

Lemma serve_requests_kept env (arrivals : list Arrival) (w : World) :
  requests_kept w (serve env arrivals w).
Proof.
  revert w. induction arrivals as [| a rest IH]; intros w; simpl.
  - reflexivity.
  - etransitivity; [apply handle_requests_kept | apply IH].
Qed.

(** X8. The table of AI requests is a log: whatever requests the server
    handles, a record that is stored stays stored under its key with
    every field as it was.  A record is written only by the request that
    created it. *)
Theorem ai_request_log_is_append_only (env : Environment)
    (arrivals : list Arrival) (w : World) (k : Z) (r : AIRequest.t) :
  ai_requests w !! k = Some r ->
  ai_requests (serve env arrivals w) !! k = Some r.
Proof.
  revert w. induction arrivals as [| a rest IH]; intros w H; simpl.
  - exact H.
  - apply IH.
    exact (handle_requests_kept env (arr_now a) (arr_elapsed_ms a) (arr_user a)
             (arr_request a) w k r H).
Qed.

Lemma ai_request_log_is_append_only_witness :
  exists r,
    ai_requests Served.after_one_email !! 0 = Some r
    /\ AIRequest.status r = "completed"%string
    /\ ai_requests (serve Sample.env Served.later Served.after_one_email) !! 0
       = Some r.
Proof.
  destruct (ai_requests Served.after_one_email !! 0) as [r |] eqn:E;
    [| vm_compute in E; discriminate].
  exists r. split; [reflexivity |]. split.
  - vm_compute in E. inversion E; subst r. reflexivity.
  - apply (ai_request_log_is_append_only Sample.env Served.later
             Served.after_one_email 0 r E).
Defined.


(** X9. A custom request that is answered with 200 has only been
    recorded: its record is new, belongs to the requester, has the type
    ['custom'] and the status ['processing'], and keeps that status
    whatever requests follow.  The usage count of the template has gone up
    by one; nothing has been sent to the provider, and neither the
    monthly counter of the user nor a quota row has changed. *)
Theorem custom_request_stays_processing (env : Environment) (now : datetime)
    (ru : Z * User.t) (d : CustomAIRequestData) (w w' : World) (resp : Response) :
  custom_ai_request now env ru d w = (Ok resp, w') ->
  status_code resp = 200 ->
  exists rid row t,
    ai_requests w !! rid = None
    /\ ai_requests w' !! rid = Some row
    /\ AIRequest.status row = "processing"%string
    /\ AIRequest.request_type row = "custom"%string
    /\ AIRequest.user row = fst ru
    /\ ai_templates w !! template_id d = Some t
    /\ AITemplate.usage_count <$> ai_templates w' !! template_id d
       = Some (AITemplate.usage_count t + 1)
    /\ users w' = users w
    /\ ai_usage_quotas w' = ai_usage_quotas w
    /\ provider_calls w' = provider_calls w
    /\ forall arrivals,
         ai_requests (serve env arrivals w') !! rid = Some row.
Proof.
  unfold custom_ai_request. intros H Hstatus.
  apply bind_Ok_inv in H as (vd & w1 & Hv & H).
  destruct (CustomAIRequestSerializer_cases ru d w) as [E | (msg & E)];
    rewrite E in Hv; inversion Hv; subst vd w1; clear Hv E.
  destruct (negb _); [inversion H; subst; discriminate |].
  unfold view_try in H.
  apply try_except_inv in H as [(a & H & Ha) | (e & s1 & _ & H)];
    [| inversion H; subst; discriminate].
  inversion Ha; subst a; clear Ha.
  apply bind_Ok_inv in H as ([tk t] & w1 & Hget & H).
  inversion Hget as [[Hq Hw1]]; subst w1; clear Hget.
  apply queryset_get_Ok_lookup in Hq.
  apply map_lookup_filter_Some in Hq as [Ht Hk]. simpl in Ht, Hk. subst tk.
  apply bind_Ok_inv in H as (prompt & w1 & Hp & H).
  apply lift_res_inv in Hp as [_ ->].
  apply bind_Ok_inv in H as (model & w1 & Hm & H).
  pose proof (get_available_model_reads (User.subscription_tier (snd ru))
                "chat" w) as Hr.
  rewrite Hm in Hr. simpl in Hr. subst w1.
  apply bind_Ok_inv in H as ([rid row] & w1 & Hc & H).
  destruct model as [model |]; [| discriminate].
  unfold AIRequest_create, bind, objects_create, ret in Hc.
  inversion Hc; subst rid row w1; clear Hc.
  apply bind_Ok_inv in H as ([] & w2 & Hinc & H).
  inversion H; subst resp w2; clear H.
  unfold AITemplate_increment_usage, save_update_fields in Hinc.
  destruct w as [us ms rs ts qs wf ac ex at_ ig lg wh pc]. simpl in *.
  rewrite Ht in Hinc. inversion Hinc; subst w'; clear Hinc. simpl.
  eexists (fresh (dom rs)), _, t.
  split; [apply not_elem_of_dom, is_fresh |].
  split; [apply lookup_insert_eq |].
  split; [reflexivity |]. split; [reflexivity |]. split; [reflexivity |].
  split; [exact Ht |].
  split; [rewrite lookup_insert_eq; reflexivity |].
  split; [reflexivity |]. split; [reflexivity |]. split; [reflexivity |].
  intros arrivals. apply serve_requests_kept. simpl. apply lookup_insert_eq.
Qed.

Lemma custom_request_stays_processing_witness :
  exists resp w' rid row,
    custom_ai_request Sample.noon Sample.env (1, Sample.alice) Served.custom
      Served.world_with_template = (Ok resp, w')
    /\ status_code resp = 200
    /\ ai_requests w' !! rid = Some row
    /\ AIRequest.status row = "processing"%string
    /\ ai_requests (serve Sample.env Served.later w') !! rid = Some row.
Proof.
  destruct (custom_ai_request Sample.noon Sample.env (1, Sample.alice)
              Served.custom Served.world_with_template)
    as [[resp | e] w'] eqn:E; [| vm_compute in E; discriminate].
  assert (Hs : status_code resp = 200).
  { vm_compute in E. inversion E; subst resp. reflexivity. }
  destruct (custom_request_stays_processing Sample.env Sample.noon
              (1, Sample.alice) Served.custom Served.world_with_template w' resp
              E Hs)
    as (rid & row & t & _ & Hrow & Hst & _ & _ & _ & _ & _ & _ & _ & Hkeep).
  exists resp, w', rid, row. split; [reflexivity |]. split; [exact Hs |].
  split; [exact Hrow |]. split; [exact Hst |]. apply Hkeep.
Defined.

#[global] Instance users_step_refl : Reflexive users_step.
Proof.
  intros w k. destruct (users w !! k) as [u |]; [| exact I].
  split; [destruct u; reflexivity | lia].
Qed.

#[global] Instance users_step_trans : Transitive users_step.
Proof.
  intros w1 w2 w3 H12 H23 k. specialize (H12 k). specialize (H23 k).
  destruct (users w1 !! k) as [u1 |], (users w2 !! k) as [u2 |],
    (users w3 !! k) as [u3 |]; try contradiction; try exact I.
  destruct H12 as [E2 L2], H23 as [E3 L3]. split; [| lia].
  rewrite E3. rewrite E2. destruct u1; reflexivity.
Qed.

Lemma users_step_same (w w' : World) : users w' = users w -> users_step w w'.
Proof. intros E k. rewrite E. apply (users_step_refl w). Qed.

(** One more call of a user whose stored row is the one in hand. *)
Lemma users_step_bump (w w' : World) (user : Z * User.t) :
  users w !! fst user = Some (snd user) ->
  users w'
  = <[fst user := User.set_monthly_ai_calls
                    (User.monthly_ai_calls (snd user) + 1) (snd user)]> (users w) ->
  users_step w w'.
Proof.
  intros Hu E k. rewrite E. destruct (decide (k = fst user)) as [-> | Hne].
  - rewrite Hu, lookup_insert_eq. simpl. split; [reflexivity | lia].
  - rewrite lookup_insert_ne by congruence.
    destruct (users w !! k) as [u |]; [| exact I].
    split; [destruct u; reflexivity | lia].
Qed.

(** What the [try] block does to the accounts: nothing, or one more call
    for the user. *)
Lemma try_body_users (env : Environment) (now : datetime) (ms : Z)
    (user : Z * User.t) (model : Z * AIModel.t) (quota : Z * AIUsageQuota.t)
    (sp up : string) (mt : Z) (temp : Q)
    (l : Z * AIRequest.t) (w : World) (r : res ServiceResult)
    (s' : (Z * AIRequest.t) * World) :
  try_body env now ms user model quota sp up mt temp (l, w) = (r, s') ->
  users (snd s') = users w
  \/ exists row,
       users w !! fst user = Some row
       /\ users (snd s')
          = <[fst user := User.set_monthly_ai_calls
                            (User.monthly_ai_calls (snd user) + 1) row]> (users w).
Proof.
  unfold try_body, bind, assign, ai_request_save, lift_db, local, lift_res,
    client_chat_completions_create, save, modify, bump_monthly_ai_calls,
    save_update_fields, update_usage, AIUsageQuota_save, AIUsageQuota.updated,
    bind, lift_res, save, modify, ret.
  simpl.
  destruct (chat_completions_create env _) as [response | e]; simpl.
  2: { intros H. inversion H; subst; simpl. destruct w; simpl. left. reflexivity. }
  destruct (json_loads env _) as [result | e]; simpl.
  2: { intros H. inversion H; subst; simpl. destruct w; simpl. left. reflexivity. }
  destruct w as [us ? ? ? ? ? ? ? ? ? ? ? ?]; simpl.
  destruct (us !! fst user) as [row |] eqn:Hrow; simpl.
  2: { intros H. inversion H; subst; simpl. left. reflexivity. }
  destruct (iadd _ _) as [cost' | e]; simpl.
  all: intros H; inversion H; subst; simpl.
  all: right; exists row; split; [first [exact Hrow | reflexivity] | reflexivity].
Qed.

Lemma except_body_users (now : datetime) (e : exn) :
  preserves (fun s : (Z * AIRequest.t) * World => users (snd s))
            (except_body now e).
Proof. preserve. Qed.

Lemma reaches_try_users env now ms user w w' r rt sp up mt temp :
  users w !! fst user = Some (snd user) ->
  reaches_try env now ms user w w' r rt sp up mt temp ->
  users_step w w'.
Proof.
  intros Hu [(e & _ & _ & _ & E)
            | (qc & w0 & model & l & Hq & _ & _ & _ & _ & _ & _ & H)].
  - apply users_step_same, E.
  - pose proof (check_usage_quota_preserves_users _ _ _ _ _ Hq) as Hu0.
    unfold with_local, try_except in H.
    match type of H with
    | context [try_body ?a1 ?a2 ?a3 ?a4 ?a5 ?a6 ?a7 ?a8 ?a9 ?a10 ?a11] =>
        destruct (try_body a1 a2 a3 a4 a5 a6 a7 a8 a9 a10 a11)
          as [[res | e] s1] eqn:E
    end.
    + inversion H; subst; clear H.
      apply try_body_users in E. simpl in E.
      assert (Hw : users (with_ai_requests
                            (insert (fst l) (AIRequest.to_db (snd l))) w0)
                   = users w).
      { destruct w0; simpl in *. exact Hu0. }
      rewrite Hw in E. destruct E as [E | (row & Hrow & E)].
      * apply users_step_same, E.
      * rewrite Hu in Hrow. inversion Hrow; subst row.
        apply (users_step_bump _ _ user Hu E).
    + destruct (except_body now e s1) as [r2 s2] eqn:E2.
      inversion H; subst; clear H.
      pose proof (except_body_users now e _ _ _ E2) as Hx. simpl in Hx.
      apply try_body_users in E. simpl in E.
      assert (Hw : users (with_ai_requests
                            (insert (fst l) (AIRequest.to_db (snd l))) w0)
                   = users w).
      { destruct w0; simpl in *. exact Hu0. }
      rewrite Hw, <- Hx in E. destruct E as [E | (row & Hrow & E)].
      * apply users_step_same, E.
      * rewrite Hu in Hrow. inversion Hrow; subst row.
        apply (users_step_bump _ _ user Hu E).
Qed.

Lemma view_users_step env now ms ru rq (w w' : World) (r : res Response) :
  users w !! fst ru = Some (snd ru) ->
  view env now ms ru rq w = (r, w') ->
  users_step w w'.
Proof.
  intros Hu H.
  assert (Hother :
    (forall d, rq <> POST_email_to_task d) ->
    (forall d, rq <> POST_generate_content d) ->
    users_step w w').
  { intros H1 H2. apply users_step_same. revert H.
    destruct rq; try (exfalso; eapply H1; reflexivity);
      try (exfalso; eapply H2; reflexivity);
      match goal with
      | |- view ?env ?now ?ms ?ru ?rq ?w = _ -> _ =>
          assert (P : preserves users (view env now ms ru rq)) by preserve_view;
          intros H; exact (P _ _ _ H)
      end. }
  destruct rq; try (apply Hother; discriminate); simpl in H.
  - unfold email_to_task in H.
    apply bind_inv in H as [(vd & w1 & Hv & H) | (e & Hv & _)].
    + destruct (EmailToTaskSerializer_cases d w) as [E | (msg & E)];
        rewrite E in Hv; inversion Hv; subst vd w1; clear Hv E.
      destruct (negb _); [inversion H; reflexivity |].
      apply view_try_service_inv in H as [(res & _ & E) | (e & _ & E)];
        apply process_email_to_task_head in E;
        eapply reaches_try_users; eassumption.
    + destruct (EmailToTaskSerializer_cases d w) as [E | (msg & E)];
        rewrite E in Hv; inversion Hv; reflexivity.
  - unfold generate_social_content in H.
    apply bind_inv in H as [(vd & w1 & Hv & H) | (e & Hv & _)].
    + destruct (SocialContentGenerationSerializer_cases d w) as [E | (msg & E)];
        rewrite E in Hv; inversion Hv; subst vd w1; clear Hv E.
      destruct (negb _); [inversion H; reflexivity |].
      apply view_try_service_inv in H as [(res & _ & E) | (e & _ & E)];
        apply generate_filipino_social_content_head in E;
        eapply reaches_try_users; eassumption.
    + destruct (SocialContentGenerationSerializer_cases d w) as [E | (msg & E)];
        rewrite E in Hv; inversion Hv; reflexivity.
Qed.

Lemma handle_users_step env now ms user rq (w : World) :
  users_step w (snd (handle env now ms user rq w)).
Proof.
  destruct (users w !! user) as [u |] eqn:Hu.
  - rewrite (handle_authenticated _ _ _ _ u) by exact Hu.
    rewrite api_view_state.
    destruct (view env now ms (user, u) rq w) as [r w'] eqn:E. simpl.
    eapply (view_users_step env now ms (user, u)); [exact Hu | exact E].
  - unfold handle, api_view, bind, authenticate. rewrite Hu. simpl. reflexivity.
Qed.

Lemma serve_users_step env (arrivals : list Arrival) (w : World) :
  users_step w (serve env arrivals w).
Proof.
  revert w. induction arrivals as [| a rest IH]; intros w; simpl.
  - reflexivity.
  - etransitivity; [apply handle_users_step | apply IH].
Qed.

(** X10. No request resets the monthly counter or changes an account in
    any other field: whatever requests the server handles, the account
    of a user is the one it was but for [monthly_ai_calls], which has not
    gone down.  So a user who has reached the limit of the subscription
    stays refused by [can_use_ai]. *)
Theorem monthly_counter_only_grows (env : Environment) (arrivals : list Arrival)
    (w : World) (k : Z) (u : User.t) :
  users w !! k = Some u ->
  exists u',
    users (serve env arrivals w) !! k = Some u'
    /\ u' = User.set_monthly_ai_calls (User.monthly_ai_calls u') u
    /\ User.monthly_ai_calls u <= User.monthly_ai_calls u'
    /\ User.ai_usage_limit u' = User.ai_usage_limit u
    /\ (User.can_use_ai u = false -> User.can_use_ai u' = false).
Proof.
  intros Hu. pose proof (serve_users_step env arrivals w k) as H.
  rewrite Hu in H.
  destruct (users (serve env arrivals w) !! k) as [u' |]; [| contradiction].
  destruct H as [E L]. exists u'. split; [reflexivity |]. split; [exact E |].
  split; [exact L |].
  assert (Hlim : User.ai_usage_limit u' = User.ai_usage_limit u).
  { rewrite E. destruct u; reflexivity. }
  split; [exact Hlim |].
  unfold User.can_use_ai. rewrite Hlim. intros Hno.
  apply Z.ltb_ge in Hno. apply Z.ltb_ge. lia.
Qed.

Lemma monthly_counter_only_grows_witness :
  users Served.after_one_email !! 1
  = Some (User.set_monthly_ai_calls 1 Sample.alice)
  /\ exists u',
       users (serve Sample.env Served.later Served.after_one_email) !! 1 = Some u'
       /\ 1 <= User.monthly_ai_calls u'.
Proof.
  assert (Hu : users Served.after_one_email !! 1
               = Some (User.set_monthly_ai_calls 1 Sample.alice))
    by (vm_compute; reflexivity).
  destruct (monthly_counter_only_grows Sample.env Served.later
              Served.after_one_email 1 _ Hu) as (u' & Hu' & _ & L & _).
  split; [exact Hu |]. exists u'. split; [exact Hu' | exact L].
Defined.

(** ** Columns that the server fills in *)

Section Unwritten.

Context {Row X : Type}.
Variable rows : World -> gmap Z Row.
Variable col : Row -> X.
Variable init : X.

#[global] Instance unwritten_refl : Reflexive (unwritten rows col init).
Proof. intros w k r' H. right. exists r'. auto. Qed.

#[global] Instance unwritten_trans : Transitive (unwritten rows col init).
Proof.
  intros w1 w2 w3 H12 H23 k r3 H3.
  destruct (H23 k r3 H3) as [E | (r2 & H2 & E)]; [left; exact E |].
  destruct (H12 k r2 H2) as [E2 | (r1 & H1 & E2)].
  - left. congruence.
  - right. exists r1. split; [exact H1 | congruence].
Qed.

Lemma unwritten_same (w w' : World) :
  rows w' = rows w -> unwritten rows col init w w'.
Proof. intros E k r' H. right. exists r'. rewrite <- E. auto. Qed.

Lemma unwritten_created (w w' : World) (k : Z) (r : Row) :
  rows w' = <[k := r]> (rows w) -> col r = init ->
  unwritten rows col init w w'.
Proof.
  intros E Hr k' r' H. rewrite E in H.
  destruct (decide (k' = k)) as [-> | Hne].
  - rewrite lookup_insert_eq in H. left. congruence.
  - rewrite lookup_insert_ne in H by congruence. right. exists r'. auto.
Qed.

Lemma unwritten_updated (w w' : World) (k : Z) (r0 r : Row) :
  rows w !! k = Some r0 ->
  rows w' = <[k := r]> (rows w) -> col r = col r0 ->
  unwritten rows col init w w'.
Proof.
  intros H0 E Hr k' r' H. rewrite E in H. right.
  destruct (decide (k' = k)) as [-> | Hne].
  - rewrite lookup_insert_eq in H. exists r0. split; [exact H0 | congruence].
  - rewrite lookup_insert_ne in H by congruence. exists r'. auto.
Qed.

Lemma unwritten_removed (w w' : World) :
  rows w' ⊆ rows w -> unwritten rows col init w w'.
Proof.
  intros Hsub k r' H. right. exists r'. split; [| reflexivity].
  eapply lookup_weaken; eassumption.
Qed.

End Unwritten.

(** A relation that every view respects holds between the database
    before and after any sequence of requests. *)
Lemma serve_steps (R : relation World) `{!Reflexive R} `{!Transitive R}
    (env : Environment) :
  (forall now ms ru rq, steps R (view env now ms ru rq)) ->
  forall (arrivals : list Arrival) (w : World), R w (serve env arrivals w).
Proof.
  intros Hview arrivals.
  induction arrivals as [| a rest IH]; intros w; simpl; [reflexivity |].
  etransitivity; [| apply IH].
  unfold handle. rewrite api_view_state.
  destruct (bind (authenticate (arr_user a))
              (fun ru => view env (arr_now a) (arr_elapsed_ms a) ru
                           (arr_request a)) w) as [r w'] eqn:E.
  simpl. revert E.
  apply steps_bind; [apply _ | | intros ru; apply Hview].
  intros s x s' H. pose proof (authenticate_reads (arr_user a) s) as Hs.
  rewrite H in Hs. simpl in Hs. subst s'. reflexivity.
Qed.

Ltac untouched rows :=
  match goal with
  | |- steps ?R (view ?env ?now ?ms ?ru ?rq) =>
      apply (preserves_steps R rows);
      [ apply unwritten_same | preserve_view ]
  end.

Lemma view_workflow_statistics env now ms ru rq :
  steps (unwritten automation_workflows workflow_statistics (0, 0, 0, None))
        (view env now ms ru rq).
Proof.
  destruct rq; try (untouched automation_workflows; fail); unfold view.
  - (* POST_workflows *)
    intros w r w' H.
    unfold AutomationWorkflowListView_post, bind, is_valid, objects_create,
      ret, raise in H.
    destruct d as [d |]; simpl in H; inversion H; subst; clear H;
      [| reflexivity].
    eapply unwritten_created; [destruct w; reflexivity | reflexivity].
  - (* PUT_workflow *)
    intros w r w' H.
    unfold AutomationWorkflowDetailView_update, bind, gets, lift_res, ret,
      get_object_or_404, workflow_detail, is_valid, save, modify, raise in H.
    destruct (Workflow_get_queryset ru w !! pk) as [row |] eqn:Hrow;
      simpl in H; [| inversion H; reflexivity].
    destruct d as [d |]; simpl in H; inversion H; subst; clear H;
      [| reflexivity].
    apply workflow_queryset_lookup in Hrow as [Hrow _].
    eapply unwritten_updated;
      [exact Hrow | destruct w; reflexivity | reflexivity].
  - (* DELETE_workflow *)
    intros w r w' H.
    unfold AutomationWorkflowDetailView_delete, Workflow_delete, bind, gets,
      lift_res, ret, get_object_or_404, delete_row, modify in H.
    destruct (Workflow_get_queryset ru w !! pk) as [row |] eqn:Hrow;
      simpl in H; inversion H; subst; clear H; [| reflexivity].
    apply unwritten_removed. destruct w; simpl. apply delete_subseteq.
  - (* POST_workflow_toggle *)
    intros w r w' H.
    unfold toggle_workflow_status, Workflow_save, bind, gets, lift_res, ret,
      get_object_or_404, save, modify in H.
    destruct (Workflow_get_queryset ru w !! workflow_id) as [row |] eqn:Hrow;
      simpl in H; [| inversion H; reflexivity].
    apply workflow_queryset_lookup in Hrow as [Hrow _].
    destruct (String.eqb (AutomationWorkflow.status row) "active");
      [| destruct (String.eqb (AutomationWorkflow.status row) "paused")];
      simpl in H; inversion H; subst; clear H; try reflexivity.
    all: eapply unwritten_updated;
      [exact Hrow | destruct w; reflexivity | reflexivity].
  - (* POST_create_from_template *)
    unfold create_workflow_from_template.
    apply steps_bind; [apply _ | | intros tid].
    { apply (preserves_steps _ automation_workflows);
        [apply unwritten_same | preserve]. }
    apply steps_bind; [apply _ | | intros template].
    { apply (preserves_steps _ automation_workflows);
        [apply unwritten_same |].
      apply preserves_reader. intros s. reflexivity. }
    apply steps_bind; [apply _ | | intros workflow].
    { intros w r w' H. unfold objects_create in H. inversion H; subst.
      eapply unwritten_created; [destruct w; reflexivity | reflexivity]. }
    apply (preserves_steps _ automation_workflows);
      [apply unwritten_same |].
    preserve; try (apply create_actions_preserves; frame); preserve.
Qed.

Lemma view_integration_monitoring env now ms ru rq :
  steps (unwritten integrations integration_monitoring
           (""%string, "healthy"%string, 0, 0, 0))
        (view env now ms ru rq).
Proof.
  destruct rq; try (untouched integrations; fail); unfold view.
  - (* POST_integrations *)
    intros w r w' H.
    unfold IntegrationListView_post, bind, is_valid, objects_create,
      ret, raise in H.
    destruct d as [d |]; simpl in H; inversion H; subst; clear H;
      [| reflexivity].
    eapply unwritten_created; [destruct w; reflexivity | reflexivity].
  - (* PUT_integration *)
    intros w r w' H.
    unfold IntegrationDetailView_update, bind, gets, lift_res, ret,
      get_object_or_404, is_valid, save, modify, raise in H.
    destruct (Integration_get_queryset ru w !! pk) as [row |] eqn:Hrow;
      simpl in H; [| inversion H; reflexivity].
    destruct d as [d |]; simpl in H; inversion H; subst; clear H;
      [| reflexivity].
    apply map_lookup_filter_Some in Hrow as [Hrow _].
    eapply unwritten_updated;
      [exact Hrow | destruct w; reflexivity | reflexivity].
  - (* DELETE_integration *)
    intros w r w' H.
    unfold IntegrationDetailView_delete, Integration_delete, bind, gets,
      lift_res, ret, get_object_or_404, delete_row, modify in H.
    destruct (Integration_get_queryset ru w !! pk) as [row |] eqn:Hrow;
      simpl in H; inversion H; subst; clear H; [| reflexivity].
    apply unwritten_removed. destruct w; simpl. apply delete_subseteq.
Qed.

Lemma view_webhook_statistics env now ms ru rq :
  steps (unwritten webhook_endpoints webhook_statistics (0, 0, 0))
        (view env now ms ru rq).
Proof.
  destruct rq; try (untouched webhook_endpoints; fail); unfold view.
  - (* DELETE_integration *)
    intros w r w' H.
    unfold IntegrationDetailView_delete, Integration_delete, bind, gets,
      lift_res, ret, get_object_or_404, delete_row, modify in H.
    destruct (Integration_get_queryset ru w !! pk) as [row |] eqn:Hrow;
      simpl in H; inversion H; subst; clear H; [| reflexivity].
    apply unwritten_removed. destruct w; simpl. apply map_filter_subseteq.
  - (* POST_webhooks *)
    intros w r w' H. unfold WebhookEndpointListView_post in H.
    apply bind_inv in H as [(vd & w1 & Hv & H) | (e & Hv & _)].
    2: { destruct d; inversion Hv; reflexivity. }
    destruct d as [d |]; inversion Hv as [[Hvd Hw1]]; clear Hv. subst vd w1.
    apply bind_inv in H as [([] & w2 & Hv & H) | (e & Hv & _)];
      pose proof (valid_integration_pk_reads (wd_integration d) w) as Hr;
      rewrite Hv in Hr; simpl in Hr.
    2: { subst w'. reflexivity. }
    subst w2.
    destruct (wd_integration d) as [i |], (wd_name d) as [n |];
      unfold bind, objects_create, ret, raise in H; simpl in H;
      inversion H; subst; clear H; try reflexivity.
    eapply unwritten_created; [destruct w; reflexivity | reflexivity].
  - (* PUT_webhook *)
    intros w r w' H. unfold WebhookEndpointDetailView_update in H.
    unfold bind at 1 2, gets, lift_res, get_object_or_404 in H.
    destruct (Webhook_get_queryset ru w !! pk) as [row |] eqn:Hrow;
      simpl in H; [| inversion H; reflexivity].
    apply map_lookup_filter_Some in Hrow as [Hrow _].
    apply bind_inv in H as [(vd & w1 & Hv & H) | (e & Hv & _)].
    2: { destruct d; inversion Hv; reflexivity. }
    destruct d as [d |]; inversion Hv as [[Hvd Hw1]]; clear Hv. subst vd w1.
    apply bind_inv in H as [([] & w2 & Hv & H) | (e & Hv & _)];
      pose proof (valid_integration_pk_reads (wd_integration d) w) as Hr;
      rewrite Hv in Hr; simpl in Hr.
    2: { subst w'. reflexivity. }
    subst w2.
    unfold bind, save, modify, ret in H. simpl in H.
    inversion H; subst; clear H.
    eapply unwritten_updated;
      [exact Hrow | destruct w; reflexivity | reflexivity].
  - (* DELETE_webhook *)
    intros w r w' H.
    unfold WebhookEndpointDetailView_delete, bind, gets, lift_res, ret,
      get_object_or_404, delete_row, modify in H.
    destruct (Webhook_get_queryset ru w !! pk) as [row |] eqn:Hrow;
      simpl in H; inversion H; subst; clear H; [| reflexivity].
    apply unwritten_removed. destruct w; simpl. apply delete_subseteq.
Qed.

(** X11. No request writes the statistics of a workflow, of an
    integration or of a webhook endpoint, nor the health status or the
    refresh token of an integration: after any sequence of requests a
    stored row has the values that the row under its key had before, or
    the values that a new row starts with (zero counters, no last
    execution, health 'healthy', an empty refresh token). *)
Theorem statistics_are_never_written (env : Environment)
    (arrivals : list Arrival) (w : World) :
  unwritten automation_workflows workflow_statistics (0, 0, 0, None)
    w (serve env arrivals w)
  /\ unwritten integrations integration_monitoring
       (""%string, "healthy"%string, 0, 0, 0) w (serve env arrivals w)
  /\ unwritten webhook_endpoints webhook_statistics (0, 0, 0)
       w (serve env arrivals w).
Proof.
  split; [| split].
  - apply serve_steps; [apply _ | apply _ |].
    intros. apply view_workflow_statistics.
  - apply serve_steps; [apply _ | apply _ |].
    intros. apply view_integration_monitoring.
  - apply serve_steps; [apply _ | apply _ |].
    intros. apply view_webhook_statistics.
Qed.

(** ** Refreshing the authentication of an integration *)

Lemma no_refresh_token_kept (env : Environment) (arrivals : list Arrival)
    (w : World) :
  (forall k r, integrations w !! k = Some r -> Integration.refresh_token r = ""%string) ->
  forall k r, integrations (serve env arrivals w) !! k = Some r ->
              Integration.refresh_token r = ""%string.
Proof.
  intros Hw k r' H.
  assert (Hs : unwritten integrations integration_monitoring
                 (""%string, "healthy"%string, 0, 0, 0) w (serve env arrivals w)).
  { apply serve_steps; [apply _ | apply _ |].
    intros. apply view_integration_monitoring. }
  destruct (Hs k r' H) as [E | (r & Hr & E)].
  - unfold integration_monitoring in E. congruence.
  - unfold integration_monitoring in E. specialize (Hw k r Hr). congruence.
Qed.

(** X12. [refresh_integration_auth] writes nothing, and no other request
    stores a refresh token.  So in a database whose integrations have no
    refresh token, as every integration created through the API, the
    refresh is never answered with 200, whatever requests came before:
    for an integration of the requester the answer is 400 'No refresh
    token available', otherwise 404 (401 without an account). *)
Theorem refresh_is_never_granted (env : Environment) (arrivals : list Arrival)
    (w : World) (now : datetime) (ms user integration_id : Z) :
  (forall k r, integrations w !! k = Some r ->
               Integration.refresh_token r = ""%string) ->
  let w1 := serve env arrivals w in
  let out := handle env now ms user (POST_integration_refresh integration_id) w1 in
  snd out = w1
  /\ status_code (fst out) <> 200
  /\ (forall u r,
        users w1 !! user = Some u ->
        integrations w1 !! integration_id = Some r ->
        fst out
        = if decide (Integration.user r = user)
          then respond 400 (Error "No refresh token available")
          else respond 404 (Error "Not found.")).
Proof.
  intros Hw w1 out.
  pose proof (no_refresh_token_kept env arrivals w Hw) as Hno. fold w1 in Hno.
  subst out. unfold handle, api_view, bind, authenticate.
  destruct (users w1 !! user) as [u |] eqn:Hu; simpl.
  2: { split; [reflexivity |]. split; [discriminate |]. intros ? ? Hx. discriminate Hx. }
  unfold refresh_integration_auth, bind, gets, lift_res, get_object_or_404, ret.
  destruct (Integration_get_queryset (user, u) w1 !! integration_id)
    as [row |] eqn:Hrow; simpl.
  - apply map_lookup_filter_Some in Hrow as [Hrow Hown]. simpl in Hown.
    rewrite (Hno _ _ Hrow). simpl.
    split; [reflexivity |]. split; [discriminate |].
    intros u0 r _ Hr. rewrite Hrow in Hr. inversion Hr; subst r.
    destruct (decide (Integration.user row = user)); [reflexivity | contradiction].
  - split; [reflexivity |]. split; [discriminate |].
    intros u0 r _ Hr.
    destruct (decide (Integration.user r = user)) as [Hown | Hown];
      [| reflexivity].
    exfalso.
    assert (Hin : Integration_get_queryset (user, u) w1 !! integration_id = Some r).
    { apply map_lookup_filter_Some. split; [exact Hr | exact Hown]. }
    congruence.
Qed.

Lemma refresh_is_never_granted_witness :
  fst (handle Sample.env Sample.noon 0 1 (POST_integration_refresh 20)
         (serve Sample.env Tokens.arrivals Sample.world))
  = respond 400 (Error "No refresh token available").
Proof.
  assert (Hw : forall k r, integrations Sample.world !! k = Some r ->
                           Integration.refresh_token r = ""%string).
  { intros k r H. simpl in H.
    destruct (decide (k = 20)) as [-> | H20].
    - rewrite lookup_insert_eq in H. inversion H. reflexivity.
    - rewrite lookup_insert_ne in H by congruence.
      destruct (decide (k = 21)) as [-> | H21].
      + rewrite lookup_insert_eq in H. inversion H. reflexivity.
      + rewrite lookup_insert_ne in H by congruence.
        rewrite lookup_empty in H. discriminate H. }
  destruct (refresh_is_never_granted Sample.env Tokens.arrivals Sample.world
              Sample.noon 0 1 20 Hw) as (_ & _ & H).
  apply (H Sample.alice
           (integration_update Tokens.rename Sample.noon (Sample.integration_of 1)));
    vm_compute; reflexivity.
Defined.

(** ** A template with an action that cannot be stored *)




(** ** The test of an integration *)



(** ** The quota row of the month *)

(** X15. [ai_quota_status] creates the quota row of the month at most
    once.  When it answers, the database is the one before the call or
    has one more row, with zero counters and the limits of the account;
    and a later call in the same month, also after the account has
    changed (another subscription tier, say), writes nothing and returns
    the row that is stored, with the limits it was created with. *)
Theorem quota_status_creates_once (now now' : datetime) (ru ru' : Z * User.t)
    (w w1 : World) (resp : Response) :
  ai_quota_status now ru w = (Ok resp, w1) ->
  month_start_of now' = month_start_of now ->
  fst ru' = fst ru ->
  exists k q row,
    resp = respond 200 (Records [EQuota (k, q)])
    /\ ai_usage_quotas w1 !! k = Some row
    /\ (ai_usage_quotas w1 = ai_usage_quotas w
        \/ (ai_usage_quotas w !! k = None
            /\ ai_usage_quotas w1 = <[k := row]> (ai_usage_quotas w)
            /\ AIUsageQuota.current_requests row = 0
            /\ AIUsageQuota.current_tokens row = 0
            /\ AIUsageQuota.is_exceeded row = false
            /\ AIUsageQuota.max_requests row = User.ai_usage_limit (snd ru)
            /\ AIUsageQuota.max_tokens row = User.ai_usage_limit (snd ru) * 1000))
    /\ ai_quota_status now' ru' w1
       = (Ok (respond 200 (Records [EQuota (k, row)])), w1).
Proof.
  intros H Hmonth Hsame. unfold ai_quota_status in H.
  apply bind_Ok_inv in H as ([q created] & w2 & Hg & Hret).
  inversion Hret; subst w2 resp; clear Hret.
  assert (Hone : exists row, month_quotas (fst ru) (month_start_of now) w1
                             = {[fst q := row]}
                             /\ ai_usage_quotas w1 !! fst q = Some row).
  { destruct (get_or_create_row _ _ _ _ _ _ _ _ _ _ Hg) as (row & Hm & _).
    exists row. split; [exact Hm |].
    assert (Hl : month_quotas (fst ru) (month_start_of now) w1 !! fst q = Some row)
      by (rewrite Hm; apply lookup_singleton_eq).
    apply map_lookup_filter_Some in Hl as [Hl _]. exact Hl. }
  destruct Hone as (row & Hm & Hrow).
  exists (fst q), (snd q), row.
  split; [destruct q; reflexivity |]. split; [exact Hrow |].
  split.
  - unfold AIUsageQuota_get_or_create in Hg.
    fold (month_quotas (fst ru) (month_start_of now) w) in Hg.
    destruct (queryset_get (month_quotas (fst ru) (month_start_of now) w))
      as [x | e] eqn:Hget.
    + inversion Hg; subst. left. reflexivity.
    + destruct e; try (inversion Hg; fail).
      unfold objects_create in Hg. inversion Hg; subst; clear Hg. right.
      simpl in Hrow |- *.
      assert (Hk : ai_usage_quotas w !! fresh (dom (ai_usage_quotas w)) = None).
      { apply not_elem_of_dom. apply is_fresh. }
      assert (Hrow' : row = AIUsageQuota.to_db
                {| AIUsageQuota.user := fst ru;
                   AIUsageQuota.period_type := "monthly";
                   AIUsageQuota.period_start := month_start_of now;
                   AIUsageQuota.period_end := month_end_of (month_start_of now);
                   AIUsageQuota.max_requests := User.ai_usage_limit (snd ru);
                   AIUsageQuota.max_tokens := User.ai_usage_limit (snd ru) * 1000;
                   AIUsageQuota.max_cost_usd :=
                     if String.eqb (User.subscription_tier (snd ru)) "starter"
                     then PyFloat 10 else PyFloat 50;
                   AIUsageQuota.current_requests := 0;
                   AIUsageQuota.current_tokens := 0;
                   AIUsageQuota.current_cost_usd := PyFloat 0;
                   AIUsageQuota.is_exceeded := false |}).
      { destruct w; simpl in *. rewrite lookup_insert_eq in Hrow.
        inversion Hrow. reflexivity. }
      split; [exact Hk |].
      split; [rewrite Hrow'; destruct w; reflexivity |].
      rewrite Hrow'. simpl. auto.
  - unfold ai_quota_status, bind. rewrite Hmonth, Hsame.
    rewrite (get_or_create_existing _ _ _ _ _ _ _ _ _ Hm). reflexivity.
Qed.

Lemma quota_status_creates_once_witness :
  exists k row,
    ai_usage_quotas (snd (ai_quota_status Sample.noon (1, Sample.alice) Sample.world))
      !! k = Some row
    /\ AIUsageQuota.max_requests row = 1000
    /\ ai_quota_status Sample.noon (1, Sample.bob)
         (snd (ai_quota_status Sample.noon (1, Sample.alice) Sample.world))
       = (Ok (respond 200 (Records [EQuota (k, row)])),
          snd (ai_quota_status Sample.noon (1, Sample.alice) Sample.world)).
Proof.
  destruct (ai_quota_status Sample.noon (1, Sample.alice) Sample.world)
    as [r w1] eqn:E.
  assert (Hr : exists resp, r = Ok resp).
  { vm_compute in E. inversion E. eauto. }
  destruct Hr as [resp ->].
  destruct (quota_status_creates_once Sample.noon Sample.noon (1, Sample.alice)
              (1, Sample.bob) Sample.world w1 resp E eq_refl eq_refl)
    as (k & q & row & _ & Hrow & Hcase & Hagain).
  exists k, row. simpl. split; [exact Hrow |]. split; [| exact Hagain].
  destruct Hcase as [Hsame | (_ & _ & _ & _ & _ & Hmax & _)].
  - exfalso. rewrite Hsame in Hrow. simpl in Hrow. rewrite lookup_empty in Hrow.
    discriminate Hrow.
  - rewrite Hmax. reflexivity.
Defined.

(** ** Foreign keys *)

#[global] Instance kept_refl (P : World -> Prop) : Reflexive (kept P).
Proof. intros w H. exact H. Qed.

#[global] Instance kept_trans (P : World -> Prop) : Transitive (kept P).
Proof. intros w1 w2 w3 H12 H23 H. apply H23, H12, H. Qed.

Section Refers.

Context {Child Parent : Type}.
Variable child : World -> gmap Z Child.
Variable ref : Child -> Z.
Variable parent : World -> gmap Z Parent.

Lemma refers_same (w w' : World) :
  child w' = child w -> parent w' = parent w ->
  kept (refers child ref parent) w w'.
Proof. intros Ec Ep H. unfold refers. rewrite Ec, Ep. exact H. Qed.

Lemma refers_untouched {A} (c : M World A) :
  preserves child c -> preserves parent c ->
  steps (kept (refers child ref parent)) c.
Proof.
  intros Hc Hp w r w' H. apply refers_same; [exact (Hc _ _ _ H) | exact (Hp _ _ _ H)].
Qed.

Lemma refers_parent_written (w w' : World) (k : Z) (p : Parent) :
  child w' = child w -> parent w' = <[k := p]> (parent w) ->
  kept (refers child ref parent) w w'.
Proof.
  intros Ec Ep H i c Hc. rewrite Ec in Hc. destruct (H i c Hc) as [p0 Hp].
  rewrite Ep. destruct (decide (ref c = k)) as [-> | Hne].
  - rewrite lookup_insert_eq. eauto.
  - rewrite lookup_insert_ne by congruence. eauto.
Qed.

Lemma refers_cascade (w w' : World) (pk : Z) :
  parent w' = delete pk (parent w) ->
  child w' = filter (fun kv : Z * Child => ref (snd kv) <> pk) (child w) ->
  kept (refers child ref parent) w w'.
Proof.
  intros Ep Ec H i c Hc. rewrite Ec in Hc.
  apply map_lookup_filter_Some in Hc as [Hc Hne]. simpl in Hne.
  destruct (H i c Hc) as [p0 Hp]. rewrite Ep.
  rewrite lookup_delete_ne by congruence. eauto.
Qed.

Lemma refers_child_written (w w' : World) (k : Z) (c : Child) :
  parent w' = parent w -> child w' = <[k := c]> (child w) ->
  is_Some (parent w !! ref c) ->
  kept (refers child ref parent) w w'.
Proof.
  intros Ep Ec Hnew H i c' Hc. rewrite Ec in Hc. rewrite Ep.
  destruct (decide (i = k)) as [-> | Hne].
  - rewrite lookup_insert_eq in Hc. inversion Hc; subst c'. exact Hnew.
  - rewrite lookup_insert_ne in Hc by congruence. exact (H i c' Hc).
Qed.

Lemma refers_child_removed (w w' : World) :
  parent w' = parent w -> child w' ⊆ child w ->
  kept (refers child ref parent) w w'.
Proof.
  intros Ep Ec H i c Hc. rewrite Ep. apply (H i c).
  eapply lookup_weaken; eassumption.
Qed.

End Refers.

(** The loop over the actions of a template touches the table of actions
    only, and every row it adds names the workflow it is given. *)
Lemma create_actions_any (now : datetime) (wk : Z) (configs : list ActionConfig) :
  forall (w w' : World) (r : res (list (Z * AutomationAction.t))),
    create_actions now wk configs w = (r, w') ->
    automation_workflows w' = automation_workflows w
    /\ forall k a, automation_actions w' !! k = Some a ->
                   automation_actions w !! k = Some a
                   \/ AutomationAction.workflow a = wk.
Proof.
  induction configs as [| c rest IH]; intros w w' r H; simpl in H.
  - inversion H; subst. auto.
  - apply bind_inv in H as [(a & w1 & Ha & H) | (e & Ha & _)].
    + destruct (ac_action_type c) as [ty |]; [| discriminate].
      unfold objects_create in Ha. inversion Ha; subst a w1; clear Ha.
      apply bind_inv in H as [(cr & w2 & Hrest & H) | (e & Hrest & _)].
      * inversion H; subst; clear H.
        destruct (IH _ _ _ Hrest) as [Hwf Hnew].
        split; [rewrite Hwf; destruct w; reflexivity |].
        intros k a Ha. destruct (Hnew k a Ha) as [Hin | Hw]; [| auto].
        destruct w as [? ? ? ? ? ? acts ? ? ? ? ? ?]; simpl in *.
        destruct (decide (k = fresh (dom acts))) as [-> | Hne].
        -- rewrite lookup_insert_eq in Hin. inversion Hin. right. reflexivity.
        -- rewrite lookup_insert_ne in Hin by congruence. auto.
      * destruct (IH _ _ _ Hrest) as [Hwf Hnew].
        split; [rewrite Hwf; destruct w; reflexivity |].
        intros k a Ha. destruct (Hnew k a Ha) as [Hin | Hw]; [| auto].
        destruct w as [? ? ? ? ? ? acts ? ? ? ? ? ?]; simpl in *.
        destruct (decide (k = fresh (dom acts))) as [-> | Hne].
        -- rewrite lookup_insert_eq in Hin. inversion Hin. right. reflexivity.
        -- rewrite lookup_insert_ne in Hin by congruence. auto.
    + destruct (ac_action_type c) as [ty |].
      * unfold objects_create in Ha. inversion Ha.
      * inversion Ha; subst. auto.
Qed.

Ltac both_untouched := apply refers_untouched; preserve_view.

Lemma view_actions_refer env now ms ru rq :
  steps (kept (refers automation_actions AutomationAction.workflow
                 automation_workflows))
        (view env now ms ru rq).
Proof.
  destruct rq;
    try (both_untouched; fail);
    unfold view.
  - (* POST_workflows *)
    intros w r w' H.
    unfold AutomationWorkflowListView_post, bind, is_valid, objects_create,
      ret, raise in H.
    destruct d as [d |]; simpl in H; inversion H; subst; clear H;
      [| reflexivity].
    eapply refers_parent_written; destruct w; reflexivity.
  - (* PUT_workflow *)
    intros w r w' H.
    unfold AutomationWorkflowDetailView_update, bind, gets, lift_res, ret,
      get_object_or_404, workflow_detail, is_valid, save, modify, raise in H.
    destruct (Workflow_get_queryset ru w !! pk) as [row |] eqn:Hrow;
      simpl in H; [| inversion H; reflexivity].
    destruct d as [d |]; simpl in H; inversion H; subst; clear H;
      [| reflexivity].
    eapply refers_parent_written; destruct w; reflexivity.
  - (* DELETE_workflow *)
    intros w r w' H.
    unfold AutomationWorkflowDetailView_delete, Workflow_delete, bind, gets,
      lift_res, ret, get_object_or_404, delete_row, modify in H.
    destruct (Workflow_get_queryset ru w !! pk) as [row |] eqn:Hrow;
      simpl in H; inversion H; subst; clear H; [| reflexivity].
    eapply refers_cascade; destruct w; reflexivity.
  - (* POST_workflow_toggle *)
    intros w r w' H.
    unfold toggle_workflow_status, Workflow_save, bind, gets, lift_res, ret,
      get_object_or_404, save, modify in H.
    destruct (Workflow_get_queryset ru w !! workflow_id) as [row |] eqn:Hrow;
      simpl in H; [| inversion H; reflexivity].
    destruct (String.eqb (AutomationWorkflow.status row) "active");
      [| destruct (String.eqb (AutomationWorkflow.status row) "paused")];
      simpl in H; inversion H; subst; clear H; try reflexivity.
    all: eapply refers_parent_written; destruct w; reflexivity.
  - (* POST_actions *)
    intros w r w' H.
    unfold AutomationActionListView_post in H.
    apply bind_inv in H as [(vd & w1 & Hv & H) | (e & Hv & _)].
    2: { destruct d; inversion Hv; reflexivity. }
    destruct d as [d |]; inversion Hv as [[Hvd Hw1]]; clear Hv. subst vd w1.
    destruct (ad_name d) as [name |], (ad_action_type d) as [ty |];
      try (inversion H; reflexivity).
    unfold bind, gets, lift_res, get_object_or_404, objects_create, ret in H.
    destruct (Workflow_get_queryset ru w !! workflow_id) as [row |] eqn:Hrow;
      simpl in H; inversion H; subst; clear H; [| reflexivity].
    apply workflow_queryset_lookup in Hrow as [Hrow _].
    eapply refers_child_written; [destruct w; reflexivity .. |].
    simpl. rewrite Hrow. eauto.
  - (* PUT_action *)
    intros w r w' H.
    unfold AutomationActionDetailView_update in H.
    apply bind_inv in H as [(l & w1 & Hq & H) | (e & Hq & _)].
    2: { unfold Action_get_queryset, bind, gets, lift_res, get_object_or_404 in Hq.
         destruct (Workflow_get_queryset ru w !! workflow_id);
           inversion Hq; reflexivity. }
    unfold Action_get_queryset, bind, gets, lift_res, get_object_or_404 in Hq.
    destruct (Workflow_get_queryset ru w !! workflow_id) as [wf |] eqn:Hwf;
      simpl in Hq; inversion Hq; subst l w1; clear Hq.
    apply workflow_queryset_lookup in Hwf as [Hwf _].
    unfold bind, lift_res, ret, is_valid, save, modify, raise in H.
    destruct (get_object_in (workflow_actions workflow_id w) pk)
      as [[k row] | e] eqn:Ho; simpl in H; [| inversion H; reflexivity].
    destruct d as [d |]; simpl in H; inversion H; subst; clear H;
      [| reflexivity].
    apply get_object_in_Ok in Ho as [Ho _].
    apply workflow_actions_elem in Ho as [_ Hw]. simpl in Hw.
    eapply refers_child_written; [destruct w; reflexivity .. |].
    simpl. rewrite Hw, Hwf. eauto.
  - (* DELETE_action *)
    intros w r w' H.
    unfold AutomationActionDetailView_delete in H.
    apply bind_inv in H as [(l & w1 & Hq & H) | (e & Hq & _)].
    2: { unfold Action_get_queryset, bind, gets, lift_res, get_object_or_404 in Hq.
         destruct (Workflow_get_queryset ru w !! workflow_id);
           inversion Hq; reflexivity. }
    unfold Action_get_queryset, bind, gets, lift_res, get_object_or_404 in Hq.
    destruct (Workflow_get_queryset ru w !! workflow_id) as [wf |] eqn:Hwf;
      simpl in Hq; inversion Hq; subst l w1; clear Hq.
    unfold bind, lift_res, ret, delete_row, modify in H.
    destruct (get_object_in (workflow_actions workflow_id w) pk)
      as [[k row] | e] eqn:Ho; simpl in H; inversion H; subst; clear H;
      [| reflexivity].
    eapply refers_child_removed; [destruct w; reflexivity |].
    destruct w; simpl. apply delete_subseteq.
  - (* POST_create_from_template *)
    intros w r w' H Hrefs.
    unfold create_workflow_from_template in H.
    apply bind_inv in H as [(tid & wa & Hv & H) | (e & Hv & _)];
      match type of Hv with
      | CreateWorkflowFromTemplateSerializer_is_valid _ ?t _ = _ =>
          pose proof (CreateWorkflowFromTemplateSerializer_reads ru t w) as Hr
      end;
      rewrite Hv in Hr; simpl in Hr.
    2: { subst w'. exact Hrefs. }
    subst wa.
    apply bind_inv in H as [(template & wb & Hg & H) | (e & Hg & _)];
      inversion Hg as [[Hq Hwb]].
    2: { subst w'. exact Hrefs. }
    subst wb. clear Hg.
    apply bind_inv in H as [(workflow & wc & Hc & H) | (e & Hc & _)];
      unfold objects_create in Hc; inversion Hc as [[Hwk Hwc]].
    clear Hc. subst workflow.
    set (wk := fresh (dom (automation_workflows w))) in *.
    assert (Hwf1 : exists row,
              automation_workflows wc = <[wk := row]> (automation_workflows w)).
    { subst wc. eexists. destruct w; reflexivity. }
    destruct Hwf1 as [row Hwf1].
    assert (Hac1 : automation_actions wc = automation_actions w)
      by (subst wc; destruct w; reflexivity).
    clear Hwc.
    assert (Hrefs1 : refers automation_actions AutomationAction.workflow
                       automation_workflows wc).
    { eapply refers_parent_written; [exact Hac1 | exact Hwf1 | exact Hrefs]. }
    simpl fst in H.
    assert (Hloop : forall w2 x,
              create_actions now wk
                (default [] (wc_actions (AutomationTemplate.workflow_config
                                           (snd template)))) wc = (x, w2) ->
              refers automation_actions AutomationAction.workflow
                automation_workflows w2).
    { intros w2 x Hx. apply create_actions_any in Hx as [Hwf2 Hnew].
      intros k a Ha. rewrite Hwf2.
      destruct (Hnew k a Ha) as [Hin | Hw].
      - exact (Hrefs1 k a Hin).
      - rewrite Hw, Hwf1, lookup_insert_eq. eauto. }
    apply bind_inv in H as [(created & w2 & Hx & H) | (e & Hx & _)];
      [| exact (Hloop _ _ Hx)].
    specialize (Hloop _ _ Hx). revert Hloop.
    match type of H with
    | ?c w2 = _ =>
        assert (Hp : steps (kept (refers automation_actions
                                    AutomationAction.workflow
                                    automation_workflows)) c)
          by (apply refers_untouched; preserve);
        exact (Hp _ _ _ H)
    end.
Qed.

Lemma view_executions_refer env now ms ru rq :
  steps (kept (refers workflow_executions WorkflowExecution.workflow
                 automation_workflows))
        (view env now ms ru rq).
Proof.
  destruct rq; try (both_untouched; fail); unfold view.
  - (* POST_workflows *)
    intros w r w' H.
    unfold AutomationWorkflowListView_post, bind, is_valid, objects_create,
      ret, raise in H.
    destruct d as [d |]; simpl in H; inversion H; subst; clear H;
      [| reflexivity].
    eapply refers_parent_written; destruct w; reflexivity.
  - (* PUT_workflow *)
    intros w r w' H.
    unfold AutomationWorkflowDetailView_update, bind, gets, lift_res, ret,
      get_object_or_404, workflow_detail, is_valid, save, modify, raise in H.
    destruct (Workflow_get_queryset ru w !! pk) as [row |] eqn:Hrow;
      simpl in H; [| inversion H; reflexivity].
    destruct d as [d |]; simpl in H; inversion H; subst; clear H;
      [| reflexivity].
    eapply refers_parent_written; destruct w; reflexivity.
  - (* DELETE_workflow *)
    intros w r w' H.
    unfold AutomationWorkflowDetailView_delete, Workflow_delete, bind, gets,
      lift_res, ret, get_object_or_404, delete_row, modify in H.
    destruct (Workflow_get_queryset ru w !! pk) as [row |] eqn:Hrow;
      simpl in H; inversion H; subst; clear H; [| reflexivity].
    eapply refers_cascade; destruct w; reflexivity.
  - (* POST_workflow_toggle *)
    intros w r w' H.
    unfold toggle_workflow_status, Workflow_save, bind, gets, lift_res, ret,
      get_object_or_404, save, modify in H.
    destruct (Workflow_get_queryset ru w !! workflow_id) as [row |] eqn:Hrow;
      simpl in H; [| inversion H; reflexivity].
    destruct (String.eqb (AutomationWorkflow.status row) "active");
      [| destruct (String.eqb (AutomationWorkflow.status row) "paused")];
      simpl in H; inversion H; subst; clear H; try reflexivity.
    all: eapply refers_parent_written; destruct w; reflexivity.
  - (* POST_workflow_execute *)
    intros w r w' H.
    unfold execute_workflow_manually, bind, gets, lift_res, ret,
      get_object_or_404, objects_create in H.
    destruct (Workflow_get_queryset ru w !! workflow_id) as [row |] eqn:Hrow;
      simpl in H; [| inversion H; reflexivity].
    apply workflow_queryset_lookup in Hrow as [Hrow _].
    destruct (negb _); [inversion H; reflexivity |].
    destruct (_ && _)%bool; inversion H; subst; clear H; [reflexivity |].
    eapply refers_child_written; [destruct w; reflexivity .. |].
    simpl. rewrite Hrow. eauto.
  - (* POST_create_from_template *)
    unfold create_workflow_from_template.
    apply steps_bind; [apply _ | | intros tid].
    { apply refers_untouched; preserve. }
    apply steps_bind; [apply _ | | intros template].
    { apply refers_untouched; apply preserves_reader; intros s; reflexivity. }
    apply steps_bind; [apply _ | | intros workflow].
    { intros w r w' H. unfold objects_create in H. inversion H; subst.
      eapply refers_parent_written; destruct w; reflexivity. }
    apply refers_untouched;
      preserve; try (apply create_actions_preserves; frame); preserve.
Qed.

Lemma view_logs_refer env now ms ru rq :
  steps (kept (refers integration_logs IntegrationLog.integration integrations))
        (view env now ms ru rq).
Proof.
  destruct rq; try (both_untouched; fail); unfold view.
  - (* POST_integrations *)
    intros w r w' H.
    unfold IntegrationListView_post, bind, is_valid, objects_create,
      ret, raise in H.
    destruct d as [d |]; simpl in H; inversion H; subst; clear H;
      [| reflexivity].
    eapply refers_parent_written; destruct w; reflexivity.
  - (* PUT_integration *)
    intros w r w' H.
    unfold IntegrationDetailView_update, bind, gets, lift_res, ret,
      get_object_or_404, is_valid, save, modify, raise in H.
    destruct (Integration_get_queryset ru w !! pk) as [row |] eqn:Hrow;
      simpl in H; [| inversion H; reflexivity].
    destruct d as [d |]; simpl in H; inversion H; subst; clear H;
      [| reflexivity].
    eapply refers_parent_written; destruct w; reflexivity.
  - (* DELETE_integration *)
    intros w r w' H.
    unfold IntegrationDetailView_delete, Integration_delete, bind, gets,
      lift_res, ret, get_object_or_404, delete_row, modify in H.
    destruct (Integration_get_queryset ru w !! pk) as [row |] eqn:Hrow;
      simpl in H; inversion H; subst; clear H; [| reflexivity].
    eapply refers_cascade; destruct w; reflexivity.
  - (* POST_integration_test *)
    intros w r w' H.
    unfold test_integration, bind, gets, lift_res, ret, raise,
      get_object_or_404, objects_create in H.
    destruct (Integration_get_queryset ru w !! integration_id) as [row |] eqn:Hrow;
      simpl in H; [| inversion H; reflexivity].
    apply map_lookup_filter_Some in Hrow as [Hrow _].
    destruct (negb _); inversion H; subst; clear H; [reflexivity |].
    eapply refers_child_written; [destruct w; reflexivity .. |].
    simpl. rewrite Hrow. eauto.
Qed.

Lemma view_webhooks_refer env now ms ru rq :
  steps (kept (refers webhook_endpoints WebhookEndpoint.integration integrations))
        (view env now ms ru rq).
Proof.
  destruct rq; try (both_untouched; fail); unfold view.
  - (* POST_integrations *)
    intros w r w' H.
    unfold IntegrationListView_post, bind, is_valid, objects_create,
      ret, raise in H.
    destruct d as [d |]; simpl in H; inversion H; subst; clear H;
      [| reflexivity].
    eapply refers_parent_written; destruct w; reflexivity.
  - (* PUT_integration *)
    intros w r w' H.
    unfold IntegrationDetailView_update, bind, gets, lift_res, ret,
      get_object_or_404, is_valid, save, modify, raise in H.
    destruct (Integration_get_queryset ru w !! pk) as [row |] eqn:Hrow;
      simpl in H; [| inversion H; reflexivity].
    destruct d as [d |]; simpl in H; inversion H; subst; clear H;
      [| reflexivity].
    eapply refers_parent_written; destruct w; reflexivity.
  - (* DELETE_integration *)
    intros w r w' H.
    unfold IntegrationDetailView_delete, Integration_delete, bind, gets,
      lift_res, ret, get_object_or_404, delete_row, modify in H.
    destruct (Integration_get_queryset ru w !! pk) as [row |] eqn:Hrow;
      simpl in H; inversion H; subst; clear H; [| reflexivity].
    eapply refers_cascade; destruct w; reflexivity.
  - (* POST_webhooks *)
    intros w r w' H. unfold WebhookEndpointListView_post in H.
    apply bind_inv in H as [(vd & w1 & Hv & H) | (e & Hv & _)].
    2: { destruct d; inversion Hv; reflexivity. }
    destruct d as [d |]; inversion Hv as [[Hvd Hw1]]; clear Hv. subst vd w1.
    apply bind_inv in H as [([] & w2 & Hv & H) | (e & Hv & _)];
      pose proof (valid_integration_pk_reads (wd_integration d) w) as Hr;
      rewrite Hv in Hr; simpl in Hr.
    2: { subst w'. reflexivity. }
    subst w2.
    destruct (wd_integration d) as [i |] eqn:Hi, (wd_name d) as [n |];
      unfold bind, objects_create, ret, raise in H; simpl in H;
      inversion H; subst; clear H; try reflexivity.
    unfold valid_integration_pk in Hv.
    destruct (integrations w !! i) as [row |] eqn:Hrow; [| discriminate].
    eapply refers_child_written; [destruct w; reflexivity .. |].
    simpl. rewrite Hrow. eauto.
  - (* PUT_webhook *)
    intros w r w' H Hrefs. unfold WebhookEndpointDetailView_update in H.
    unfold bind at 1 2, gets, lift_res, get_object_or_404 in H.
    destruct (Webhook_get_queryset ru w !! pk) as [row |] eqn:Hrow;
      simpl in H; [| inversion H; subst; exact Hrefs].
    apply map_lookup_filter_Some in Hrow as [Hrow _].
    apply bind_inv in H as [(vd & w1 & Hv & H) | (e & Hv & _)].
    2: { destruct d; inversion Hv; subst; exact Hrefs. }
    destruct d as [d |]; inversion Hv as [[Hvd Hw1]]; clear Hv. subst vd w1.
    apply bind_inv in H as [([] & w2 & Hv & H) | (e & Hv & _)];
      pose proof (valid_integration_pk_reads (wd_integration d) w) as Hr;
      rewrite Hv in Hr; simpl in Hr.
    2: { subst w'. exact Hrefs. }
    subst w2.
    unfold bind, save, modify, ret in H. simpl in H.
    inversion H; subst; clear H.
    assert (Hsome : is_Some (integrations w
                               !! WebhookEndpoint.integration
                                    (webhook_update d now row))).
    { simpl. unfold valid_integration_pk in Hv.
      destruct (wd_integration d) as [i |]; simpl.
      - destruct (integrations w !! i) as [row' |]; [eauto | discriminate].
      - exact (Hrefs pk row Hrow). }
    revert Hrefs.
    eapply refers_child_written; [destruct w; reflexivity .. | exact Hsome].
  - (* DELETE_webhook *)
    intros w r w' H.
    unfold WebhookEndpointDetailView_delete, bind, gets, lift_res, ret,
      get_object_or_404, delete_row, modify in H.
    destruct (Webhook_get_queryset ru w !! pk) as [row |] eqn:Hrow;
      simpl in H; inversion H; subst; clear H; [| reflexivity].
    eapply refers_child_removed; [destruct w; reflexivity |].
    destruct w; simpl. apply delete_subseteq.
Qed.

#[global] Instance refers_dec {Child Parent} (child : World -> gmap Z Child)
    (ref : Child -> Z) (parent : World -> gmap Z Parent) (w : World) :
  Decision (refers child ref parent w).
Proof. unfold refers. apply _. Defined.

(** X16. The foreign keys survive every request: if every action and
    every execution names a stored workflow, and every log row and every
    webhook endpoint a stored integration, then this is so after any
    sequence of requests.  A creation names a row that was looked up or
    validated, an update keeps the reference or validates the new one, and
    the deletion of a workflow or an integration takes the rows that name
    it along. *)
Theorem foreign_keys_are_kept (env : Environment) (arrivals : list Arrival)
    (w : World) :
  foreign_keys_hold w -> foreign_keys_hold (serve env arrivals w).
Proof.
  intros (Ha & He & Hl & Hh). split; [| split; [| split]].
  - revert Ha. apply serve_steps; [apply _ | apply _ |].
    intros. apply view_actions_refer.
  - revert He. apply serve_steps; [apply _ | apply _ |].
    intros. apply view_executions_refer.
  - revert Hl. apply serve_steps; [apply _ | apply _ |].
    intros. apply view_logs_refer.
  - revert Hh. apply serve_steps; [apply _ | apply _ |].
    intros. apply view_webhooks_refer.
Qed.

Lemma foreign_keys_are_kept_witness :
  foreign_keys_hold Sample.world_with_webhook
  /\ foreign_keys_hold (serve Sample.env Keys.arrivals Sample.world_with_webhook).
Proof.
  assert (H : foreign_keys_hold Sample.world_with_webhook).
  { repeat split; apply (bool_decide_unpack _); vm_compute; exact I. }
  split; [exact H |].
  exact (foreign_keys_are_kept Sample.env Keys.arrivals Sample.world_with_webhook H).
Defined.

(** ** One quota row for a user and a period *)

Lemma unique_quotas_same (w w' : World) :
  ai_usage_quotas w' = ai_usage_quotas w -> kept unique_quotas w w'.
Proof. intros E H. unfold unique_quotas. rewrite E. exact H. Qed.

Lemma unique_quotas_updated (w w' : World) (k : Z) (q0 q : AIUsageQuota.t) :
  ai_usage_quotas w !! k = Some q0 ->
  ai_usage_quotas w' = <[k := q]> (ai_usage_quotas w) ->
  quota_period q = quota_period q0 ->
  kept unique_quotas w w'.
Proof.
  intros H0 E Hq H k1 k2 q1 q2 H1 H2 Hp. rewrite E in H1, H2.
  destruct (decide (k1 = k)) as [-> | N1], (decide (k2 = k)) as [-> | N2];
    [reflexivity | | |].
  - rewrite lookup_insert_eq in H1. rewrite lookup_insert_ne in H2 by congruence.
    inversion H1; subst q1. symmetry. apply (H k2 k q2 q0 H2 H0). congruence.
  - rewrite lookup_insert_eq in H2. rewrite lookup_insert_ne in H1 by congruence.
    inversion H2; subst q2. apply (H k1 k q1 q0 H1 H0). congruence.
  - rewrite lookup_insert_ne in H1, H2 by congruence. exact (H _ _ _ _ H1 H2 Hp).
Qed.

Lemma unique_quotas_created (w w' : World) (k : Z) (q : AIUsageQuota.t) :
  (forall k' q', ai_usage_quotas w !! k' = Some q' ->
                 quota_period q' <> quota_period q) ->
  ai_usage_quotas w' = <[k := q]> (ai_usage_quotas w) ->
  kept unique_quotas w w'.
Proof.
  intros Hnone E H k1 k2 q1 q2 H1 H2 Hp. rewrite E in H1, H2.
  destruct (decide (k1 = k)) as [-> | N1], (decide (k2 = k)) as [-> | N2];
    [reflexivity | | |].
  - rewrite lookup_insert_eq in H1. rewrite lookup_insert_ne in H2 by congruence.
    inversion H1; subst q1. exfalso. apply (Hnone k2 q2 H2). congruence.
  - rewrite lookup_insert_eq in H2. rewrite lookup_insert_ne in H1 by congruence.
    inversion H2; subst q2. exfalso. apply (Hnone k1 q1 H1). congruence.
  - rewrite lookup_insert_ne in H1, H2 by congruence. exact (H _ _ _ _ H1 H2 Hp).
Qed.

(** [get_or_create] keeps the rows unique; the instance it returns and
    the row stored under its key are of the user and the month asked
    for. *)
Lemma get_or_create_unique user ps pe mr mt mc w r w1 :
  AIUsageQuota_get_or_create user ps pe mr mt mc w = (r, w1) ->
  kept unique_quotas w w1
  /\ forall q created,
       r = Ok (q, created) ->
       quota_period (snd q) = (user, "monthly"%string, ps)
       /\ exists row, ai_usage_quotas w1 !! fst q = Some row
                      /\ quota_period row = (user, "monthly"%string, ps).
Proof.
  unfold AIUsageQuota_get_or_create. fold (month_quotas user ps w).
  destruct (queryset_get (month_quotas user ps w)) as [x | e] eqn:Hget.
  - intros H. inversion H; subst; clear H. split; [reflexivity |].
    intros q created Hq. inversion Hq; subst; clear Hq.
    apply queryset_get_Ok_lookup in Hget.
    apply map_lookup_filter_Some in Hget as [Hrow (Hu & Ht & Hs)].
    simpl in Hu, Ht, Hs. unfold quota_period. rewrite Hu, Ht, Hs.
    split; [reflexivity |]. exists (snd q). rewrite Hu, Ht, Hs. auto.
  - destruct e; try (intros H; inversion H; subst; split;
                     [reflexivity | intros ? ? Hq; discriminate Hq]).
    apply queryset_get_DoesNotExist in Hget.
    unfold objects_create. intros H. inversion H; subst; clear H.
    split.
    + eapply unique_quotas_created; [| destruct w; reflexivity].
      intros k' q' Hk' Hp. unfold quota_period in Hp. simpl in Hp.
      inversion Hp as [[Hu Ht Hs]].
      assert (Hin : month_quotas user ps w !! k' = Some q').
      { apply map_lookup_filter_Some. split; [exact Hk' |]. simpl. auto. }
      rewrite Hget, lookup_empty in Hin. discriminate Hin.
    + intros q created Hq. inversion Hq; subst; clear Hq. simpl.
      split; [reflexivity |]. eexists. split.
      * destruct w; simpl. apply lookup_insert_eq.
      * reflexivity.
Qed.

Lemma try_body_quotas (env : Environment) (now : datetime) (ms : Z)
    (user : Z * User.t) (model : Z * AIModel.t) (quota : Z * AIUsageQuota.t)
    (sp up : string) (mt : Z) (temp : Q)
    (l : Z * AIRequest.t) (w : World) (r : res ServiceResult)
    (s' : (Z * AIRequest.t) * World) :
  try_body env now ms user model quota sp up mt temp (l, w) = (r, s') ->
  ai_usage_quotas (snd s') = ai_usage_quotas w
  \/ exists row,
       ai_usage_quotas (snd s') = <[fst quota := row]> (ai_usage_quotas w)
       /\ quota_period row = quota_period (snd quota).
Proof.
  unfold try_body, bind, assign, ai_request_save, lift_db, local, lift_res,
    client_chat_completions_create, save, modify, bump_monthly_ai_calls,
    save_update_fields, update_usage, AIUsageQuota_save, AIUsageQuota.updated,
    bind, lift_res, save, modify, ret.
  simpl.
  destruct (chat_completions_create env _) as [response | e]; simpl.
  2: { intros H. inversion H; subst; simpl. destruct w; simpl. left. reflexivity. }
  destruct (json_loads env _) as [result | e]; simpl.
  2: { intros H. inversion H; subst; simpl. destruct w; simpl. left. reflexivity. }
  destruct w as [us ? ? ? ? ? ? ? ? ? ? ? ?]; simpl.
  destruct (us !! fst user) as [row |] eqn:Hrow; simpl.
  2: { intros H. inversion H; subst; simpl. left. reflexivity. }
  destruct (iadd _ _) as [cost' | e]; simpl.
  all: intros H; inversion H; subst; simpl.
  - right. eexists. split; reflexivity.
  - left. reflexivity.
Qed.

Lemma except_body_quotas (now : datetime) (e : exn) :
  preserves (fun s : (Z * AIRequest.t) * World => ai_usage_quotas (snd s))
            (except_body now e).
Proof. preserve. Qed.

Lemma try_statement_quotas env now ms user model quota sp up mt temp
    (l : Z * AIRequest.t) (w w' : World) (r : res ServiceResult) :
  with_local l
    (try_except (try_body env now ms user model quota sp up mt temp)
       (except_body now)) w = (r, w') ->
  ai_usage_quotas w' = ai_usage_quotas w
  \/ exists row,
       ai_usage_quotas w' = <[fst quota := row]> (ai_usage_quotas w)
       /\ quota_period row = quota_period (snd quota).
Proof.
  unfold with_local, try_except. intros H.
  match type of H with
  | context [try_body ?a1 ?a2 ?a3 ?a4 ?a5 ?a6 ?a7 ?a8 ?a9 ?a10 ?a11] =>
      destruct (try_body a1 a2 a3 a4 a5 a6 a7 a8 a9 a10 a11)
        as [[res | e] s1] eqn:E
  end.
  - inversion H; subst; clear H. apply try_body_quotas in E. exact E.
  - destruct (except_body now e s1) as [r2 s2] eqn:E2.
    inversion H; subst; clear H.
    pose proof (except_body_quotas now e _ _ _ E2) as Hx. simpl in Hx.
    apply try_body_quotas in E. simpl in E. rewrite Hx. exact E.
Qed.

(** What a service does to the quota rows: the admission check, then at
    most the update of the row that the check returned. *)
Lemma admitted_run_unique now user w qc w0 w2 w' :
  check_usage_quota now user w = (Ok qc, w0) ->
  ai_usage_quotas w2 = ai_usage_quotas w0 ->
  (ai_usage_quotas w' = ai_usage_quotas w2
   \/ exists row,
        ai_usage_quotas w' = <[fst (quota qc) := row]> (ai_usage_quotas w2)
        /\ quota_period row = quota_period (snd (quota qc))) ->
  kept unique_quotas w w'.
Proof.
  intros Hq H2 Hrun. unfold check_usage_quota in Hq.
  apply bind_Ok_inv in Hq as ([q created] & w1 & Hg & Hq).
  apply bind_Ok_inv in Hq as (pct & w1' & Hp & Hq).
  unfold lift_res in Hp. inversion Hp; subst w1'; clear Hp.
  inversion Hq; subst; clear Hq. simpl in Hrun.
  destruct (get_or_create_unique _ _ _ _ _ _ _ _ _ Hg) as [Hkept Hid].
  destruct (Hid q created eq_refl) as (Hqp & row0 & Hrow0 & Hp0).
  transitivity w0; [exact Hkept |].
  destruct Hrun as [E | (row & E & Hp)].
  - apply unique_quotas_same. congruence.
  - rewrite H2 in E.
    eapply unique_quotas_updated; [exact Hrow0 | exact E | congruence].
Qed.

Lemma check_usage_quota_unique now user w r w0 :
  check_usage_quota now user w = (r, w0) -> kept unique_quotas w w0.
Proof.
  unfold check_usage_quota. intros H.
  apply bind_inv in H as [(qc & w1 & Hg & H) | (e & Hg & _)].
  - destruct (get_or_create_unique _ _ _ _ _ _ _ _ _ Hg) as [Hkept _].
    transitivity w1; [exact Hkept |]. apply unique_quotas_same.
    revert H. match goal with
    | |- ?c w1 = _ -> _ =>
        assert (Hp : preserves ai_usage_quotas c) by preserve;
        intros H; exact (Hp _ _ _ H)
    end.
  - exact (proj1 (get_or_create_unique _ _ _ _ _ _ _ _ _ Hg)).
Qed.

Lemma process_email_to_task_unique env now ms user email ctx w w' r :
  process_email_to_task env (Some user) now ms email ctx w = (r, w') ->
  kept unique_quotas w w'.
Proof.
  unfold process_email_to_task. intros H.
  unfold bind at 1 in H.
  destruct (check_usage_quota now user w) as [[qc | e] w0] eqn:Hq.
  2: { inversion H; subst. eapply check_usage_quota_unique, Hq. }
  destruct (can_use qc); simpl in H.
  2: { inversion H; subst. eapply check_usage_quota_unique, Hq. }
  unfold bind at 1 in H.
  pose proof (get_available_model_reads
                (User.subscription_tier (snd user)) "chat" w0) as Hm.
  destruct (get_available_model (User.subscription_tier (snd user)) "chat" w0)
    as [[[model |] | e] w0'] eqn:Hgm; simpl in Hm; subst w0'.
  2, 3: inversion H; subst; eapply check_usage_quota_unique, Hq.
  unfold bind, AIRequest_create, objects_create, ret in H. simpl in H.
  apply try_statement_quotas in H.
  eapply admitted_run_unique; [exact Hq | | exact H].
  destruct w0; reflexivity.
Qed.

Lemma generate_filipino_social_content_unique env now ms user bu pf ctx w w' r :
  generate_filipino_social_content env (Some user) now ms bu pf ctx w = (r, w') ->
  kept unique_quotas w w'.
Proof.
  unfold generate_filipino_social_content. intros H.
  unfold bind at 1 in H.
  destruct (check_usage_quota now user w) as [[qc | e] w0] eqn:Hq.
  2: { inversion H; subst. eapply check_usage_quota_unique, Hq. }
  destruct (can_use qc); simpl in H.
  2: { inversion H; subst. eapply check_usage_quota_unique, Hq. }
  unfold bind at 1 in H.
  pose proof (get_available_model_reads
                (User.subscription_tier (snd user)) "chat" w0) as Hm.
  destruct (get_available_model (User.subscription_tier (snd user)) "chat" w0)
    as [[[model |] | e] w0'] eqn:Hgm; simpl in Hm; subst w0'.
  2, 3: inversion H; subst; eapply check_usage_quota_unique, Hq.
  unfold bind, AIRequest_create, objects_create, ret in H. simpl in H.
  apply try_statement_quotas in H.
  eapply admitted_run_unique; [exact Hq | | exact H].
  destruct w0; reflexivity.
Qed.

Lemma view_unique_quotas env now ms ru rq :
  steps (kept unique_quotas) (view env now ms ru rq).
Proof.
  destruct rq;
    try (apply (preserves_steps _ ai_usage_quotas);
         [apply unique_quotas_same | preserve_view]; fail);
    unfold view.
  - (* POST_email_to_task *)
    intros w r w' H. unfold email_to_task in H.
    apply bind_inv in H as [(vd & w1 & Hv & H) | (e & Hv & _)].
    + destruct (EmailToTaskSerializer_cases d w) as [E | (msg & E)];
        rewrite E in Hv; inversion Hv; subst vd w1; clear Hv E.
      destruct (negb _); [inversion H; reflexivity |].
      apply view_try_service_inv in H as [(res & _ & E) | (e & _ & E)];
        eapply process_email_to_task_unique, E.
    + destruct (EmailToTaskSerializer_cases d w) as [E | (msg & E)];
        rewrite E in Hv; inversion Hv; reflexivity.
  - (* POST_generate_content *)
    intros w r w' H. unfold generate_social_content in H.
    apply bind_inv in H as [(vd & w1 & Hv & H) | (e & Hv & _)].
    + destruct (SocialContentGenerationSerializer_cases d w) as [E | (msg & E)];
        rewrite E in Hv; inversion Hv; subst vd w1; clear Hv E.
      destruct (negb _); [inversion H; reflexivity |].
      apply view_try_service_inv in H as [(res & _ & E) | (e & _ & E)];
        eapply generate_filipino_social_content_unique, E.
    + destruct (SocialContentGenerationSerializer_cases d w) as [E | (msg & E)];
        rewrite E in Hv; inversion Hv; reflexivity.
  - (* GET_quota_status *)
    intros w r w' H. unfold ai_quota_status in H.
    apply bind_inv in H as [(qc & w1 & Hg & H) | (e & Hg & _)].
    + inversion H; subst.
      exact (proj1 (get_or_create_unique _ _ _ _ _ _ _ _ _ Hg)).
    + exact (proj1 (get_or_create_unique _ _ _ _ _ _ _ _ _ Hg)).
Qed.

(** With unique rows, [get] on the rows of a user and a month finds one
    row or none. *)
Lemma unique_quotas_get user ps w :
  unique_quotas w ->
  (exists x, queryset_get (month_quotas user ps w) = Ok x)
  \/ queryset_get (month_quotas user ps w)
     = Raise (DoesNotExist "matching query does not exist.").
Proof.
  intros Hu. unfold queryset_get.
  destruct (rows_by_pk (month_quotas user ps w)) as [| x [| y l]] eqn:Hr;
    [right; reflexivity | left; eauto |].
  exfalso.
  assert (Hperm : rows_by_pk (month_quotas user ps w)
                  ≡ₚ map_to_list (month_quotas user ps w))
    by apply merge_sort_Permutation.
  assert (Hnd : NoDup (rows_by_pk (month_quotas user ps w)).*1).
  { rewrite Hperm. apply NoDup_fst_map_to_list. }
  assert (Hin : forall z, z ∈ rows_by_pk (month_quotas user ps w) ->
                          ai_usage_quotas w !! fst z = Some (snd z)
                          /\ quota_period (snd z) = (user, "monthly"%string, ps)).
  { intros z Hz. rewrite Hperm in Hz. apply elem_of_map_to_list' in Hz.
    apply map_lookup_filter_Some in Hz as [Hz (H1 & H2 & H3)].
    simpl in H1, H2, H3. split; [exact Hz |]. unfold quota_period.
    rewrite H1, H2, H3. reflexivity. }
  rewrite Hr in Hnd, Hin.
  destruct (Hin x ltac:(apply list_elem_of_here)) as [Hx Hpx].
  destruct (Hin y ltac:(apply list_elem_of_further, list_elem_of_here)) as [Hy Hpy].
  assert (Hk : fst x = fst y) by (eapply Hu; [exact Hx | exact Hy | congruence]).
  simpl in Hnd. apply NoDup_cons in Hnd as [Hnot _].
  apply Hnot. rewrite Hk. apply list_elem_of_here.
Qed.

(** X17. Served one after the other, the requests keep the quota rows
    unique for a user, a period type and a period start, which is what
    [unique_together] demands: the admission check and the quota status
    create a row only when there is none, and [update_usage] writes the
    row it was given.  So [get_or_create] never finds two rows, and the
    quota status of an account is always answered with 200. *)
Theorem quota_rows_stay_unique (env : Environment) (arrivals : list Arrival)
    (w : World) (now : datetime) (ms user : Z) (u : User.t) :
  unique_quotas w ->
  users (serve env arrivals w) !! user = Some u ->
  unique_quotas (serve env arrivals w)
  /\ status_code (fst (handle env now ms user GET_quota_status
                         (serve env arrivals w))) = 200.
Proof.
  intros Hw Hu.
  assert (Hs : unique_quotas (serve env arrivals w)).
  { revert Hw. apply serve_steps; [apply _ | apply _ |].
    intros. apply view_unique_quotas. }
  split; [exact Hs |].
  rewrite (handle_authenticated _ _ _ _ u) by exact Hu.
  unfold api_view, view, ai_quota_status, bind, AIUsageQuota_get_or_create.
  simpl fst.
  fold (month_quotas user (month_start_of now) (serve env arrivals w)).
  destruct (unique_quotas_get user (month_start_of now) _ Hs) as [[x Hx] | Hx];
    rewrite Hx; reflexivity.
Qed.

Lemma quota_rows_stay_unique_witness :
  unique_quotas (serve Sample.env Served.later Served.after_one_email)
  /\ status_code
       (fst (handle Sample.env Sample.noon 0 1 GET_quota_status
               (serve Sample.env Served.later Served.after_one_email))) = 200.
Proof.
  assert (Hw : unique_quotas Served.after_one_email).
  { assert (E : exists row, ai_usage_quotas Served.after_one_email = {[0 := row]}).
    { eexists. vm_compute. reflexivity. }
    destruct E as [row E]. intros k1 k2 q1 q2 H1 H2 _. rewrite E in H1, H2.
    apply lookup_singleton_Some in H1 as [<- _].
    apply lookup_singleton_Some in H2 as [<- _]. reflexivity. }
  assert (Hu : exists u, users (serve Sample.env Served.later Served.after_one_email)
                           !! 1 = Some u).
  { eexists. vm_compute. reflexivity. }
  destruct Hu as [u Hu].
  exact (quota_rows_stay_unique Sample.env Served.later Served.after_one_email
           Sample.noon 0 1 u Hw Hu).
Defined.

(** ** Reading what has been created *)

Lemma no_actions_of_a_new_workflow (w : World) (k : Z) :
  refers automation_actions AutomationAction.workflow automation_workflows w ->
  automation_workflows w !! k = None ->
  workflow_actions k w = [].
Proof.
  intros Hrefs Hk. unfold workflow_actions.
  assert (E : filter (fun kv : Z * AutomationAction.t =>
                        AutomationAction.workflow (snd kv) = k)
                     (automation_actions w) = ∅).
  { apply map_empty. intros i. apply map_lookup_filter_None. right.
    intros a Ha Hw. simpl in Hw.
    destruct (Hrefs i a Ha) as [p Hp]. congruence. }
  rewrite E, map_to_list_empty. reflexivity.
Qed.

(** X18. A workflow that has been created can be read back, by its owner
    only.  The creation answers 201 with the nine fields of the create
    serializer, as the validated body has them, and without a key; it
    stores one row under a key [k] that was not in use and changes
    nothing else; the row is a workflow of the requester with the name
    of the body, active and with zero statistics.  The detail view at
    [k] then returns that workflow, with no actions when the foreign keys
    hold, and answers 404 to every other user. *)
Theorem created_workflow_is_read_back (now : datetime) (ru : Z * User.t)
    (d : WorkflowCreateData) (w : World) :
  refers automation_actions AutomationAction.workflow automation_workflows w ->
  exists k row w',
    AutomationWorkflowListView_post now ru (Some d) w
    = (Ok {| status_code := 201;
             data := Json
                       (JObj [("name", JStr (wcd_name d));
                              ("description", JStr (wcd_description d));
                              ("trigger_type", JStr (wcd_trigger_type d));
                              ("trigger_config", wcd_trigger_config d);
                              ("ai_instructions", JStr (wcd_ai_instructions d));
                              ("use_ai_processing",
                               JBool (wcd_use_ai_processing d));
                              ("ai_model_preference",
                               JStr (wcd_ai_model_preference d));
                              ("business_hours_only",
                               JBool (wcd_business_hours_only d));
                              ("language_context",
                               JStr (wcd_language_context d))]%string) |},
       w')
    /\ automation_workflows w !! k = None
    /\ only_workflow_written k row w w'
    /\ AutomationWorkflow.user row = fst ru
    /\ AutomationWorkflow.name row = wcd_name d
    /\ AutomationWorkflow.status row = "active"%string
    /\ workflow_statistics row = (0, 0, 0, None)
    /\ AutomationWorkflowDetailView_get ru k w'
       = (Ok {| status_code := 200; data := Records [EWorkflow (k, row)] |}, w')
    /\ forall other : Z * User.t,
         fst other <> fst ru ->
         AutomationWorkflowDetailView_get other k w' = (Raise Http404, w').
Proof.
  intros Hrefs.
  set (k := fresh (dom (automation_workflows w))).
  assert (Hk : automation_workflows w !! k = None).
  { apply not_elem_of_dom. apply is_fresh. }
  exists k, (workflow_new (fst ru) d now),
    (with_automation_workflows (insert k (workflow_new (fst ru) d now)) w).
  set (w' := with_automation_workflows (insert k (workflow_new (fst ru) d now)) w).
  assert (Hw' : automation_workflows w' = <[k := workflow_new (fst ru) d now]>
                                            (automation_workflows w))
    by (subst w'; destruct w; reflexivity).
  assert (Ha' : automation_actions w' = automation_actions w)
    by (subst w'; destruct w; reflexivity).
  split; [reflexivity |]. split; [exact Hk |].
  split; [apply only_workflow_written_insert |].
  split; [reflexivity |]. split; [reflexivity |]. split; [reflexivity |].
  split; [reflexivity |].
  split.
  - unfold AutomationWorkflowDetailView_get, bind, gets, lift_res,
      get_object_or_404.
    assert (Hq : Workflow_get_queryset ru w' !! k = Some (workflow_new (fst ru) d now)).
    { apply workflow_queryset_lookup. rewrite Hw', lookup_insert_eq. auto. }
    rewrite Hq. simpl. unfold workflow_detail, ret. simpl.
    assert (Hnone : workflow_actions k w' = []).
    { unfold workflow_actions. rewrite Ha'.
      apply (no_actions_of_a_new_workflow w k Hrefs Hk). }
    rewrite Hnone. reflexivity.
  - intros other Hother.
    unfold AutomationWorkflowDetailView_get, bind, gets, lift_res,
      get_object_or_404.
    assert (Hq : Workflow_get_queryset other w' !! k = None).
    { destruct (Workflow_get_queryset other w' !! k) as [x |] eqn:E;
        [| reflexivity].
      apply workflow_queryset_lookup in E as [E Hu].
      rewrite Hw', lookup_insert_eq in E. inversion E; subst x.
      simpl in Hu. congruence. }
    rewrite Hq. reflexivity.
Qed.

(** Alice creates a workflow on the sample data: the answer has the name
    of the body and no [id]; the row is stored under a key of its own,
    where alice finds it and bob does not. *)
Lemma created_workflow_is_read_back_witness :
  exists k row w' fields,
    AutomationWorkflowListView_post Sample.noon (1, Sample.alice)
      (Some Keys.plain) Sample.world
    = (Ok {| status_code := 201; data := Json (JObj fields) |}, w')
    /\ dict_get "name" fields = Some (JStr (wcd_name Keys.plain))
    /\ dict_get "id" fields = None
    /\ automation_workflows Sample.world !! k = None
    /\ automation_workflows w' !! k = Some row
    /\ AutomationWorkflowDetailView_get (1, Sample.alice) k w'
       = (Ok {| status_code := 200; data := Records [EWorkflow (k, row)] |}, w')
    /\ AutomationWorkflowDetailView_get (2, Sample.bob) k w' = (Raise Http404, w').
Proof.
  assert (H : refers automation_actions AutomationAction.workflow
                automation_workflows Sample.world).
  { apply (bool_decide_unpack _). vm_compute. exact I. }
  destruct (created_workflow_is_read_back Sample.noon (1, Sample.alice)
              Keys.plain Sample.world H)
    as (k & row & w' & Hpost & Hnew & Hwr & _ & _ & _ & _ & Hget & Hother).
  exists k, row, w'. eexists. split; [exact Hpost |].
  split; [reflexivity |]. split; [reflexivity |].
  split; [exact Hnew |]. split; [exact (proj1 Hwr) |].
  split; [exact Hget |].
  apply Hother. simpl. lia.
Defined.

Lemma get_object_in_stored (wid k : Z) (row : AutomationAction.t) (w : World) :
  automation_actions w !! k = Some row ->
  get_object_in (workflow_actions wid w) k
  = if decide (AutomationAction.workflow row = wid) then Ok (k, row)
    else Raise Http404.
Proof.
  intros Hrow. unfold get_object_in.
  destruct (List.find (fun x : Z * AutomationAction.t => fst x =? k)
              (workflow_actions wid w)) as [x |] eqn:Hf.
  - apply find_some in Hf as [Hin Hk]. apply Z.eqb_eq in Hk.
    apply list_elem_of_In, workflow_actions_elem in Hin as [Hx Hw].
    destruct x as [kx rx]. simpl in Hk, Hx, Hw. subst kx.
    rewrite Hrow in Hx. inversion Hx; subst rx.
    destruct (decide (AutomationAction.workflow row = wid));
      [reflexivity | contradiction].
  - destruct (decide (AutomationAction.workflow row = wid)) as [Hw |];
      [| reflexivity].
    exfalso.
    assert (Hin : (k, row) ∈ workflow_actions wid w).
    { apply workflow_actions_elem. simpl. auto. }
    apply list_elem_of_In in Hin.
    pose proof (find_none _ _ Hf _ Hin) as Hno. simpl in Hno.
    rewrite Z.eqb_refl in Hno. discriminate Hno.
Qed.

(** X19. An action is created under the workflow of the URL and is
    reached through that workflow only: for a workflow of the requester
    and a body with a name and an action type, the creation answers 201
    with a new key, the action is among the actions of the workflow, the
    detail view of the action under that workflow returns it, and under
    any other workflow identifier the detail view answers 404 to
    everybody. *)
Theorem created_action_belongs_to_its_workflow (now : datetime)
    (ru : Z * User.t) (wid : Z) (d : ActionData) (name ty : string)
    (w : World) (wf : AutomationWorkflow.t) :
  automation_workflows w !! wid = Some wf ->
  AutomationWorkflow.user wf = fst ru ->
  ad_name d = Some name ->
  ad_action_type d = Some ty ->
  exists k row w',
    AutomationActionListView_post now ru wid (Some d) w
    = (Ok (respond 201 (Records [EAction (k, row)])), w')
    /\ automation_actions w !! k = None
    /\ AutomationAction.workflow row = wid
    /\ AutomationAction.name row = name
    /\ AutomationAction.action_type row = ty
    /\ (k, row) ∈ workflow_actions wid w'
    /\ AutomationActionDetailView_get ru wid k w'
       = (Ok (respond 200 (Records [EAction (k, row)])), w')
    /\ forall (other : Z * User.t) (wid' : Z),
         wid' <> wid ->
         AutomationActionDetailView_get other wid' k w' = (Raise Http404, w').
Proof.
  intros Hwf Hown Hname Hty.
  assert (Hq : Workflow_get_queryset ru w !! wid = Some wf).
  { apply workflow_queryset_lookup. auto. }
  set (k := fresh (dom (automation_actions w))).
  assert (Hk : automation_actions w !! k = None).
  { apply not_elem_of_dom. apply is_fresh. }
  set (row := action_update d
                (AutomationAction.new wid name ty (JObj []) 0 false "" now)).
  set (w' := with_automation_actions (insert k row) w).
  assert (Ha' : automation_actions w' = <[k := row]> (automation_actions w))
    by (subst w'; destruct w; reflexivity).
  assert (Hw' : automation_workflows w' = automation_workflows w)
    by (subst w'; destruct w; reflexivity).
  assert (Hrow : automation_actions w' !! k = Some row)
    by (rewrite Ha'; apply lookup_insert_eq).
  assert (Hq' : Workflow_get_queryset ru w' !! wid = Some wf).
  { apply workflow_queryset_lookup. rewrite Hw'. auto. }
  exists k, row, w'.
  split.
  { unfold AutomationActionListView_post, bind, is_valid, ret. simpl.
    rewrite Hname, Hty. unfold gets, lift_res, get_object_or_404.
    rewrite Hq. reflexivity. }
  split; [exact Hk |].
  split; [reflexivity |].
  split; [subst row; simpl; rewrite Hname; reflexivity |].
  split; [subst row; simpl; rewrite Hty; reflexivity |].
  split; [apply workflow_actions_elem; simpl; auto |].
  split.
  - unfold AutomationActionDetailView_get, Action_get_queryset, bind, gets,
      lift_res, get_object_or_404.
    rewrite Hq'. simpl. rewrite (get_object_in_stored wid k row w' Hrow).
    destruct (decide (AutomationAction.workflow row = wid)); [| contradiction].
    reflexivity.
  - intros other wid' Hne.
    unfold AutomationActionDetailView_get, Action_get_queryset, bind, gets,
      lift_res, get_object_or_404.
    destruct (Workflow_get_queryset other w' !! wid'); simpl; [| reflexivity].
    rewrite (get_object_in_stored wid' k row w' Hrow).
    destruct (decide (AutomationAction.workflow row = wid')) as [E |];
      [| reflexivity].
    exfalso. apply Hne. rewrite <- E. reflexivity.
Qed.

Lemma created_action_belongs_to_its_workflow_witness :
  exists k row w',
    AutomationActionListView_post Sample.noon (1, Sample.alice) 10
      (Some Created.action) Sample.world
    = (Ok (respond 201 (Records [EAction (k, row)])), w')
    /\ AutomationActionDetailView_get (1, Sample.alice) 10 k w'
       = (Ok (respond 200 (Records [EAction (k, row)])), w')
    /\ AutomationActionDetailView_get (1, Sample.alice) 12 k w'
       = (Raise Http404, w').
Proof.
  destruct (created_action_belongs_to_its_workflow Sample.noon (1, Sample.alice)
              10 Created.action "notify" "send_sms" Sample.world
              (Sample.workflow_of 1 "active" false)
              ltac:(vm_compute; reflexivity) ltac:(reflexivity)
              ltac:(reflexivity) ltac:(reflexivity))
    as (k & row & w' & Hpost & _ & _ & _ & _ & _ & Hget & Hother).
  exists k, row, w'. split; [exact Hpost |]. split; [exact Hget |].
  apply Hother. lia.
Defined.

(** ** The monthly counter and the limit of the subscription *)

Lemma reaches_try_one_more_call env now ms user w w' r rt sp up mt temp :
  users w !! fst user = Some (snd user) ->
  User.can_use_ai (snd user) = true ->
  reaches_try env now ms user w w' r rt sp up mt temp ->
  one_more_call user w w'.
Proof.
  intros Hu Hcan [(e & _ & _ & _ & E)
                 | (qc & w0 & model & l & Hq & _ & _ & _ & _ & _ & _ & H)].
  - left. exact E.
  - pose proof (check_usage_quota_preserves_users _ _ _ _ _ Hq) as Hu0.
    assert (Hw : users (with_ai_requests
                          (insert (fst l) (AIRequest.to_db (snd l))) w0)
                 = users w).
    { destruct w0; simpl in *. exact Hu0. }
    unfold with_local, try_except in H.
    match type of H with
    | context [try_body ?a1 ?a2 ?a3 ?a4 ?a5 ?a6 ?a7 ?a8 ?a9 ?a10 ?a11] =>
        destruct (try_body a1 a2 a3 a4 a5 a6 a7 a8 a9 a10 a11)
          as [[res | e] s1] eqn:E
    end.
    + inversion H; subst; clear H.
      apply try_body_users in E. simpl in E. rewrite Hw in E.
      destruct E as [E | (row & Hrow & E)]; [left; exact E |].
      rewrite Hu in Hrow. inversion Hrow; subst row. right. auto.
    + destruct (except_body now e s1) as [r2 s2] eqn:E2.
      inversion H; subst; clear H.
      pose proof (except_body_users now e _ _ _ E2) as Hx. simpl in Hx.
      apply try_body_users in E. simpl in E. rewrite Hw, <- Hx in E.
      destruct E as [E | (row & Hrow & E)]; [left; exact E |].
      rewrite Hu in Hrow. inversion Hrow; subst row. right. auto.
Qed.

Lemma view_one_more_call env now ms ru rq (w w' : World) (r : res Response) :
  users w !! fst ru = Some (snd ru) ->
  view env now ms ru rq w = (r, w') ->
  one_more_call ru w w'.
Proof.
  intros Hu H.
  assert (Hother :
    (forall d, rq <> POST_email_to_task d) ->
    (forall d, rq <> POST_generate_content d) ->
    one_more_call ru w w').
  { intros H1 H2. left. revert H.
    destruct rq; try (exfalso; eapply H1; reflexivity);
      try (exfalso; eapply H2; reflexivity);
      match goal with
      | |- view ?env ?now ?ms ?ru ?rq ?w = _ -> _ =>
          assert (P : preserves users (view env now ms ru rq)) by preserve_view;
          intros H; exact (P _ _ _ H)
      end. }
  destruct rq; try (apply Hother; discriminate); simpl in H.
  - unfold email_to_task in H.
    apply bind_inv in H as [(vd & w1 & Hv & H) | (e & Hv & _)].
    + destruct (EmailToTaskSerializer_cases d w) as [E | (msg & E)];
        rewrite E in Hv; inversion Hv; subst vd w1; clear Hv E.
      destruct (User.can_use_ai (snd ru)) eqn:Hcan; cbn [negb] in H; cbv iota in H;
        [| inversion H; left; reflexivity].
      apply view_try_service_inv in H as [(res & _ & E) | (e & _ & E)];
        apply process_email_to_task_head in E;
        eapply reaches_try_one_more_call; eassumption.
    + destruct (EmailToTaskSerializer_cases d w) as [E | (msg & E)];
        rewrite E in Hv; inversion Hv; left; reflexivity.
  - unfold generate_social_content in H.
    apply bind_inv in H as [(vd & w1 & Hv & H) | (e & Hv & _)].
    + destruct (SocialContentGenerationSerializer_cases d w) as [E | (msg & E)];
        rewrite E in Hv; inversion Hv; subst vd w1; clear Hv E.
      destruct (User.can_use_ai (snd ru)) eqn:Hcan; cbn [negb] in H; cbv iota in H;
        [| inversion H; left; reflexivity].
      apply view_try_service_inv in H as [(res & _ & E) | (e & _ & E)];
        apply generate_filipino_social_content_head in E;
        eapply reaches_try_one_more_call; eassumption.
    + destruct (SocialContentGenerationSerializer_cases d w) as [E | (msg & E)];
        rewrite E in Hv; inversion Hv; left; reflexivity.
Qed.

Lemma one_more_call_within_limit (ru : Z * User.t) (w w' : World) :
  one_more_call ru w w' -> within_limit w -> within_limit w'.
Proof.
  intros [E | [Hcan E]] Hw; unfold within_limit; rewrite E; [exact Hw |].
  apply map_Forall_insert_2; [| exact Hw].
  unfold User.can_use_ai in Hcan. apply Z.ltb_lt in Hcan.
  assert (Hlim : User.ai_usage_limit
                   (User.set_monthly_ai_calls
                      (User.monthly_ai_calls (snd ru) + 1) (snd ru))
                 = User.ai_usage_limit (snd ru))
    by (destruct (snd ru); reflexivity).
  rewrite Hlim. simpl. lia.
Qed.

Lemma handle_within_limit env now ms user rq (w : World) :
  within_limit w -> within_limit (snd (handle env now ms user rq w)).
Proof.
  intros Hw. destruct (users w !! user) as [u |] eqn:Hu.
  - rewrite (handle_authenticated _ _ _ _ u) by exact Hu.
    rewrite api_view_state.
    destruct (view env now ms (user, u) rq w) as [r w'] eqn:E. simpl.
    eapply one_more_call_within_limit; [| exact Hw].
    eapply (view_one_more_call env now ms (user, u)); [exact Hu | exact E].
  - unfold handle, api_view, bind, authenticate. rewrite Hu. simpl. exact Hw.
Qed.

#[global] Instance within_limit_dec (w : World) : Decision (within_limit w).
Proof. unfold within_limit. apply _. Defined.

(** X20. Served one after the other, the requests never take the monthly
    counter of an account above the limit of its subscription: the views
    refuse a user who has reached the limit before the service is called,
    and a served request adds one call to the counter it was admitted
    with.  If every counter is within its limit, it is so after any
    sequence of requests. *)
Theorem monthly_counter_stays_within_limit (env : Environment)
    (arrivals : list Arrival) (w : World) :
  within_limit w ->
  forall k u,
    users (serve env arrivals w) !! k = Some u ->
    User.monthly_ai_calls u <= User.ai_usage_limit u.
Proof.
  revert w. induction arrivals as [| a rest IH]; intros w Hw k u Hu; simpl in Hu.
  - exact (Hw k u Hu).
  - eapply IH; [| exact Hu]. apply handle_within_limit, Hw.
Qed.

Lemma monthly_counter_stays_within_limit_witness :
  exists u,
    users (serve Sample.env Served.later Served.after_one_email) !! 1 = Some u
    /\ User.monthly_ai_calls u <= User.ai_usage_limit u.
Proof.
  assert (Hw : within_limit Served.after_one_email).
  { apply (bool_decide_unpack _). vm_compute. exact I. }
  destruct (users (serve Sample.env Served.later Served.after_one_email) !! 1)
    as [u |] eqn:E; [| vm_compute in E; discriminate].
  exists u. split; [reflexivity |].
  exact (monthly_counter_stays_within_limit Sample.env Served.later
           Served.after_one_email Hw 1 u E).
Defined.
